(** * xdyna: the file guard [ProtectFile] and its metadata client [_DAMetaData]

    A shallow embedding of [xdyna/protectfile.py] and of the parts of
    [xdyna/da_meta.py] that go through it.  The file system, the table of
    open file objects, standard output and the module globals ([tempdir],
    [protected_open]) form one explicit [World]; every Python method is a
    function in a state-and-exception monad over it. *)

From stdpp Require Import gmap strings list fin_maps pretty.
From Stdlib Require Import Ascii String.

Set Warnings "-register-all".
Local Open Scope string_scope.

(** ** Paths

    A resolved [pathlib.Path], seen through the two attributes the code
    uses: [.parent] (as posix text) and [.name]. *)

Record Path := mkPath { parent : string; name : string }.

#[global] Instance Path_eq_dec : EqDecision Path.
Proof. solve_decision. Defined.

#[global] Instance Path_countable : Countable Path :=
  inj_countable' (λ p, (parent p, name p)) (λ dn, mkPath dn.1 dn.2)
                 (λ p, match p with mkPath _ _ => eq_refl end).

(** [pathlib.Path(p.parent, p.name + sfx)] *)
Definition sibling (p : Path) (sfx : string) : Path :=
  mkPath (parent p) (name p +:+ sfx).

Definition as_posix (p : Path) : string := parent p +:+ "/" +:+ name p.

(** ** Files, stat results and file objects *)

Definition Data := list ascii.

Record File := mkFile { f_data : Data; f_mtime : string }.

(** The part of [os.stat_result] that the model tracks.  Two results are
    compared with [!=] in [__exit__]. *)
Record Stat := mkStat { st_size : nat; st_mtime : string }.

#[global] Instance Stat_eq_dec : EqDecision Stat.
Proof. solve_decision. Defined.

Definition stat_of (f : File) : Stat :=
  {| st_size := List.length (f_data f); st_mtime := f_mtime f |}.

(** An [io] file object.  I/O is written through (no user-space buffer). *)
Record Handle := mkHandle {
  h_path : Path;
  h_readable : bool;
  h_writable : bool;
  h_append : bool;
  h_pos : nat;
  h_closed : bool
}.

(** ** The guard object

    The attributes assigned before the first statement of [__init__] that
    can raise are plain fields; the three assigned after it are optional,
    [None] standing for "no such attribute" ([hasattr] is false).
    [_backup] holds Python's [None] as [Some None]. *)

Record ProtectFile := mkProtectFile {
  _do_backup : bool;
  _keep_backup : bool;
  _backup_if_readonly : bool;
  _check_hash : bool;
  _file : Path;
  _lock : Path;
  _temp : Path;
  _flock : option nat;
  _exists : bool;
  _readonly : bool;
  _backup : option (option Path);
  _fstat : option Stat;
  _fd : option nat
}.

Definition set_do_backup (b : bool) (s : ProtectFile) : ProtectFile :=
  mkProtectFile b (_keep_backup s) (_backup_if_readonly s) (_check_hash s)
    (_file s) (_lock s) (_temp s) (_flock s) (_exists s) (_readonly s)
    (_backup s) (_fstat s) (_fd s).
Definition set_flock (fd : nat) (s : ProtectFile) : ProtectFile :=
  mkProtectFile (_do_backup s) (_keep_backup s) (_backup_if_readonly s)
    (_check_hash s) (_file s) (_lock s) (_temp s) (Some fd) (_exists s)
    (_readonly s) (_backup s) (_fstat s) (_fd s).
Definition set_exists (b : bool) (s : ProtectFile) : ProtectFile :=
  mkProtectFile (_do_backup s) (_keep_backup s) (_backup_if_readonly s)
    (_check_hash s) (_file s) (_lock s) (_temp s) (_flock s) b
    (_readonly s) (_backup s) (_fstat s) (_fd s).
Definition set_readonly (b : bool) (s : ProtectFile) : ProtectFile :=
  mkProtectFile (_do_backup s) (_keep_backup s) (_backup_if_readonly s)
    (_check_hash s) (_file s) (_lock s) (_temp s) (_flock s) (_exists s)
    b (_backup s) (_fstat s) (_fd s).
Definition set_backup (b : option Path) (s : ProtectFile) : ProtectFile :=
  mkProtectFile (_do_backup s) (_keep_backup s) (_backup_if_readonly s)
    (_check_hash s) (_file s) (_lock s) (_temp s) (_flock s) (_exists s)
    (_readonly s) (Some b) (_fstat s) (_fd s).
Definition set_fstat (st : Stat) (s : ProtectFile) : ProtectFile :=
  mkProtectFile (_do_backup s) (_keep_backup s) (_backup_if_readonly s)
    (_check_hash s) (_file s) (_lock s) (_temp s) (_flock s) (_exists s)
    (_readonly s) (_backup s) (Some st) (_fd s).
Definition set_fd (fd : nat) (s : ProtectFile) : ProtectFile :=
  mkProtectFile (_do_backup s) (_keep_backup s) (_backup_if_readonly s)
    (_check_hash s) (_file s) (_lock s) (_temp s) (_flock s) (_exists s)
    (_readonly s) (_backup s) (_fstat s) (Some fd).

(** ** The world *)

(** What another process does to the file system while this one sleeps. *)
Inductive Other :=
  | OtherIdle
  | OtherUnlink (p : Path)
  | OtherPut (p : Path) (f : File).

Record World := mkWorld {
  w_fs : gmap Path File;
  w_fds : list Handle;                      (* file objects, by creation order *)
  w_stdout : list string;                   (* lines written by [print] *)
  w_now : string;                           (* [datetime.now().isoformat()] *)
  w_tempdir : string;                       (* [tempdir.name] *)
  w_others : list Other;                    (* one entry per [time.sleep] *)
  protected_open : list (Path * ProtectFile) (* the module-level dict *)
}.

Definition with_fs (fs : gmap Path File) (w : World) : World :=
  mkWorld fs (w_fds w) (w_stdout w) (w_now w) (w_tempdir w) (w_others w)
          (protected_open w).
Definition with_fds (fds : list Handle) (w : World) : World :=
  mkWorld (w_fs w) fds (w_stdout w) (w_now w) (w_tempdir w) (w_others w)
          (protected_open w).
Definition with_stdout (out : list string) (w : World) : World :=
  mkWorld (w_fs w) (w_fds w) out (w_now w) (w_tempdir w) (w_others w)
          (protected_open w).
Definition with_others (os : list Other) (w : World) : World :=
  mkWorld (w_fs w) (w_fds w) (w_stdout w) (w_now w) (w_tempdir w) os
          (protected_open w).
Definition with_registry (r : list (Path * ProtectFile)) (w : World) : World :=
  mkWorld (w_fs w) (w_fds w) (w_stdout w) (w_now w) (w_tempdir w)
          (w_others w) r.

(** ** Exceptions and the monad *)

Inductive Exn :=
  | FileNotFoundError
  | FileExistsError
  | SameFileError
  | ValueError
  | AttributeError
  | KeyError
  | JSONDecodeError
  | UnsupportedOperation
  | MetadataChanged.     (* the bare [Exception] of [_check_not_changed] *)

(** [isinstance(e, OSError)]: what the lock loop catches. *)
Definition is_OSError (e : Exn) : bool :=
  match e with
  | FileNotFoundError | FileExistsError | SameFileError
  | UnsupportedOperation => true
  | _ => false
  end.

(** [Spin]: the lock loop was still polling when the fuel ran out. *)
Inductive Res (A : Type) :=
  | Val (a : A)
  | Exc (e : Exn)
  | Spin.
Arguments Val {A} a.
Arguments Exc {A} e.
Arguments Spin {A}.

Definition M (S A : Type) : Type := S → Res A * S.

Definition ret {S A} (a : A) : M S A := λ s, (Val a, s).
Definition raise {S A} (e : Exn) : M S A := λ s, (Exc e, s).
Definition bind {S A B} (m : M S A) (k : A → M S B) : M S B :=
  λ s, match m s with
       | (Val a, s') => k a s'
       | (Exc e, s') => (Exc e, s')
       | (Spin, s') => (Spin, s')
       end.
Definition gets {S A} (f : S → A) : M S A := λ s, (Val (f s), s).
Definition modify {S} (f : S → S) : M S unit := λ s, (Val tt, f s).

Notation "'let*' x := m 'in' k" := (bind m (λ x, k))
  (at level 10, x name, m at level 100, k at level 200, only parsing).
Notation "m ;; k" := (bind m (λ _, k))
  (at level 100, k at level 200, right associativity, only parsing).

Definition when {S} (b : bool) (m : M S unit) : M S unit :=
  if b then m else ret tt.

(** ** Strings as Python uses them in [__init__] *)

(** [c in s] for a one-character [c] *)
Fixpoint in_str (c : ascii) (s : string) : bool :=
  match s with
  | EmptyString => false
  | String d s' => if decide (c = d) then true else in_str c s'
  end.

(** [s.replace(old, new)] for a one-character [old] *)
Fixpoint replace (old : ascii) (new : string) (s : string) : string :=
  match s with
  | EmptyString => EmptyString
  | String d s' =>
      if decide (d = old) then new +:+ replace old new s'
      else String d (replace old new s')
  end.

Fixpoint distinct (l : list ascii) : bool :=
  match l with
  | [] => true
  | c :: l' => negb (bool_decide (c ∈ l')) && distinct l'
  end.

(** ** Mode strings of [io.open] (Python 3.11 and later)

    A mode is accepted when its characters are among [axrwb+t] without
    repetition, not both [t] and [b], and exactly one of [x r w a]. *)

Definition mode_valid (mode : string) : bool :=
  let cs := list_ascii_of_string mode in
  forallb (λ c, in_str c "axrwb+t") cs
  && distinct cs
  && negb (in_str "t" mode && in_str "b" mode)
  && (Nat.eqb (List.length (filter (λ c, in_str c "xrwa") cs)) 1).

(** ** File-system primitives *)

Definition is_file (p : Path) : M World bool :=
  gets (λ w, bool_decide (is_Some (w_fs w !! p))).

(** [p.stat()] *)
Definition stat (p : Path) : M World Stat :=
  λ w, match w_fs w !! p with
       | Some f => (Val (stat_of f), w)
       | None => (Exc FileNotFoundError, w)
       end.

(** [p.unlink()], which raises when [p] is missing *)
Definition unlink (p : Path) : M World unit :=
  λ w, match w_fs w !! p with
       | Some _ => (Val tt, with_fs (delete p (w_fs w)) w)
       | None => (Exc FileNotFoundError, w)
       end.

(** [src.rename(dst)] with POSIX semantics: an existing [dst] is replaced *)
Definition rename (src dst : Path) : M World unit :=
  λ w, match w_fs w !! src with
       | Some f => (Val tt, with_fs (<[dst := f]> (delete src (w_fs w))) w)
       | None => (Exc FileNotFoundError, w)
       end.

Definition print (line : string) : M World unit :=
  modify (λ w, with_stdout (w_stdout w ++ [line])%list w).

(** [time.sleep(wait)]: the next scheduled action of another process
    takes place. *)
Definition apply_other (o : Other) (fs : gmap Path File) : gmap Path File :=
  match o with
  | OtherIdle => fs
  | OtherUnlink p => delete p fs
  | OtherPut p f => <[p := f]> fs
  end.

Definition time_sleep (wait : nat) : M World unit :=
  modify (λ w, match w_others w with
               | [] => w
               | o :: os => with_others os (with_fs (apply_other o (w_fs w)) w)
               end).

(** [io.open(p, mode)]: returns the index of the new file object *)
Definition new_handle (p : Path) (mode : string) (pos : nat) : Handle :=
  {| h_path := p;
     h_readable := in_str "r" mode || in_str "+" mode;
     h_writable := negb (in_str "r" mode) || in_str "+" mode;
     h_append := in_str "a" mode;
     h_pos := pos;
     h_closed := false |}.

Definition alloc_handle (h : Handle) : M World nat :=
  λ w, (Val (List.length (w_fds w)), with_fds (w_fds w ++ [h])%list w).

Definition io_open (p : Path) (mode : string) : M World nat :=
  if negb (mode_valid mode) then raise ValueError else
  λ w,
    let found := w_fs w !! p in
    if in_str "r" mode then
      match found with
      | Some _ => alloc_handle (new_handle p mode 0) w
      | None => (Exc FileNotFoundError, w)
      end
    else if in_str "x" mode then
      match found with
      | Some _ => (Exc FileExistsError, w)
      | None =>
          alloc_handle (new_handle p mode 0)
            (with_fs (<[p := mkFile [] (w_now w)]> (w_fs w)) w)
      end
    else if in_str "w" mode then
      alloc_handle (new_handle p mode 0)
        (with_fs (<[p := mkFile [] (w_now w)]> (w_fs w)) w)
    else
      match found with
      | Some f => alloc_handle (new_handle p mode (List.length (f_data f))) w
      | None =>
          alloc_handle (new_handle p mode 0)
            (with_fs (<[p := mkFile [] (w_now w)]> (w_fs w)) w)
      end.

(** [f.closed]; an index that was never allocated has no such attribute *)
Definition fd_closed (fd : nat) (w : World) : option bool :=
  h_closed <$> (w_fds w !! fd).

Definition set_closed (h : Handle) : Handle :=
  mkHandle (h_path h) (h_readable h) (h_writable h) (h_append h) (h_pos h) true.
Definition set_pos (n : nat) (h : Handle) : Handle :=
  mkHandle (h_path h) (h_readable h) (h_writable h) (h_append h) n (h_closed h).

(** [f.close()]: closing twice is allowed *)
Definition fd_close (fd : nat) : M World unit :=
  modify (λ w, with_fds (alter set_closed fd (w_fds w)) w).

(** The file object [fd], provided it is open *)
Definition open_handle (fd : nat) : M World Handle :=
  λ w, match w_fds w !! fd with
       | Some h => if h_closed h then (Exc ValueError, w) else (Val h, w)
       | None => (Exc ValueError, w)
       end.

Definition file_of (h : Handle) : M World File :=
  λ w, match w_fs w !! h_path h with
       | Some f => (Val f, w)
       | None => (Exc FileNotFoundError, w)
       end.

Definition put_handle (fd : nat) (h : Handle) : M World unit :=
  modify (λ w, with_fds (<[fd := h]> (w_fds w)) w).

Definition put_data (p : Path) (d : Data) : M World unit :=
  modify (λ w, with_fs (<[p := mkFile d (w_now w)]> (w_fs w)) w).

(** [f.read()]: everything from the position to the end *)
Definition fd_read (fd : nat) : M World Data :=
  let* h := open_handle fd in
  if negb (h_readable h) then raise UnsupportedOperation else
  let* f := file_of h in
  put_handle fd (set_pos (max (h_pos h) (List.length (f_data f))) h) ;;
  ret (drop (h_pos h) (f_data f)).

(** Overwriting in place at [pos]; a gap past the end is zero-filled. *)
Definition write_at (pos : nat) (d old : Data) : Data :=
  (take pos old ++ replicate (pos - List.length old) "000"%char
    ++ d ++ drop (pos + List.length d) old)%list.

(** [f.write(d)] *)
Definition fd_write (fd : nat) (d : Data) : M World unit :=
  let* h := open_handle fd in
  if negb (h_writable h) then raise UnsupportedOperation else
  let* f := file_of h in
  let pos := if h_append h then List.length (f_data f) else h_pos h in
  put_data (h_path h) (write_at pos d (f_data f)) ;;
  put_handle fd (set_pos (pos + List.length d) h).

(** [f.truncate(n)]: the position does not move *)
Definition fd_truncate (fd : nat) (n : nat) : M World unit :=
  let* h := open_handle fd in
  if negb (h_writable h) then raise UnsupportedOperation else
  let* f := file_of h in
  put_data (h_path h)
    (take n (f_data f)
       ++ replicate (n - List.length (f_data f)) "000"%char)%list.

(** [f.seek(n)] *)
Definition fd_seek (fd : nat) (n : nat) : M World unit :=
  let* h := open_handle fd in
  put_handle fd (set_pos n h).

(** ** Python dicts: insertion-ordered association lists with unique keys *)

Section Dict.
Context {K V : Type} `{EqDecision K}.

Fixpoint dict_get (k : K) (d : list (K * V)) : option V :=
  match d with
  | [] => None
  | (k', v) :: d' => if decide (k = k') then Some v else dict_get k d'
  end.

(** [d[k] = v]: an existing key keeps its place *)
Fixpoint dict_set (k : K) (v : V) (d : list (K * V)) : list (K * V) :=
  match d with
  | [] => [(k, v)]
  | (k', v') :: d' =>
      if decide (k = k') then (k', v) :: d' else (k', v') :: dict_set k v d'
  end.

(** [d.pop(k, default)], keeping only the effect on [d] *)
Fixpoint dict_pop (k : K) (d : list (K * V)) : list (K * V) :=
  match d with
  | [] => []
  | (k', v') :: d' =>
      if decide (k = k') then d' else (k', v') :: dict_pop k d'
  end.

(** [dict(pairs)]: later pairs overwrite earlier ones *)
Definition dict_of_pairs (ps : list (K * V)) : list (K * V) :=
  fold_left (λ d kv, dict_set kv.1 kv.2 d) ps [].
End Dict.

(** * protectfile.py *)

Section Guard.

(** Library code taken as given: [copy_bytes d] is what reaches the
    destination when [shutil] copies the content [d] (the identity on a
    sound platform; the hash check of [mv_temp] exists for when it is
    not), and [blake2b] is the hex digest of [hashlib.blake2b]. *)
Variable copy_bytes : Data → Data.
Variable blake2b : Data → string.

(** [get_hash(filename)] *)
Definition get_hash (filename : Path) : M World string :=
  λ w, match w_fs w !! filename with
       | Some f => (Val (blake2b (f_data f)), w)
       | None => (Exc FileNotFoundError, w)
       end.

(** [shutil.copy2(src, dst)]: content and times *)
Definition copy2 (src dst : Path) : M World unit :=
  λ w, match w_fs w !! src with
       | Some f =>
           if decide (src = dst) then (Exc SameFileError, w)
           else (Val tt,
                 with_fs (<[dst := mkFile (copy_bytes (f_data f)) (f_mtime f)]>
                            (w_fs w)) w)
       | None => (Exc FileNotFoundError, w)
       end.

(** Keyword arguments of [ProtectFile(...)]; [None] is "not passed". *)
Record Args := mkArgs {
  a_file : Path;
  a_mode : option string;
  a_wait : option nat;              (* milliseconds *)
  a_backup_during_lock : option bool;
  a_backup : option bool;
  a_backup_if_readonly : option bool;
  a_check_hash : option bool
}.

(** [__init__], lines 142-158: options and paths.  No statement here
    raises. *)
Definition init_fields (arg : Args) (tempdir : string) : ProtectFile :=
  let do_backup := default true (a_backup_during_lock arg) in
  let keep_backup := default false (a_backup arg) in
  let do_backup := if keep_backup then true else do_backup in
  let file := a_file arg in
  {| _do_backup := do_backup;
     _keep_backup := keep_backup;
     _backup_if_readonly := default false (a_backup_if_readonly arg);
     _check_hash := default true (a_check_hash arg);
     _file := file;
     _lock := sibling file ".lock";
     _temp := mkPath tempdir (name file);
     _flock := None; _exists := false; _readonly := false;
     _backup := None; _fstat := None; _fd := None |}.

(** The lock loop, lines 161-180: one unit of fuel per attempt. *)
Fixpoint acquire (fuel : nat) (lock : Path) (wait : nat) : M World nat :=
  λ w,
    match fuel with
    | O => (Spin, w)
    | S fuel' =>
        match io_open lock "x" w with
        | (Exc e, w') =>
            if is_OSError e then
              acquire fuel' lock wait (time_sleep wait w').2
            else (Exc e, w')
        | r => r
        end
    end.

(** A world action, run next to a Python object of type [X] *)
Definition lift {X A} (m : M World A) : M (X * World) A :=
  λ sw, match m sw.2 with (r, w') => (r, (sw.1, w')) end.
Definition self : M (ProtectFile * World) ProtectFile := gets fst.
Definition setattr (f : ProtectFile → ProtectFile)
  : M (ProtectFile * World) unit :=
  modify (λ sw, (f sw.1, sw.2)).

(** [__init__] from line 160 on, running on the object under
    construction.  [mode] is [arg['mode']] as [io.open] will see it. *)
Definition init_body (fuel : nat) (arg : Args)
  : M (ProtectFile * World) unit :=
  let* s := self in
  let* flock := lift (acquire fuel (_lock s) (default 1000 (a_wait arg))) in
  setattr (set_flock flock) ;;
  let* ex := lift (is_file (_file s)) in
  setattr (set_exists ex) ;;
  let mode := default "r" (a_mode arg) in
  setattr (set_readonly false) ;;
  let* mode :=
    if in_str "r" mode then
      (if negb ex then raise FileNotFoundError else ret tt) ;;
      when (negb (in_str "+" mode)) (setattr (set_readonly true)) ;;
      ret mode
    else if in_str "x" mode then
      (if ex then raise FileExistsError else ret tt) ;;
      ret mode
    else if ex then
      ret (replace "a" "r+" (replace "w" "r+" (replace "+" EmptyString mode)))
    else
      ret (replace "a" "x" (replace "w" "x" mode)) in
  let* s := self in
  when (_readonly s && negb (_backup_if_readonly s))
       (setattr (set_do_backup false)) ;;
  let* s := self in
  (if _do_backup s && _exists s then
     let backup := sibling (_file s) ".backup" in
     setattr (set_backup (Some backup)) ;;
     lift (copy2 (_file s) backup)
   else setattr (set_backup None)) ;;
  (if _exists s then
     let* st := lift (stat (_file s)) in setattr (set_fstat st)
   else ret tt) ;;
  let* s := self in
  let* target :=
    if negb (_readonly s) then
      when (_exists s) (lift (copy2 (_file s) (_temp s))) ;;
      ret (_temp s)
    else ret (_file s) in
  let* fd := lift (io_open target mode) in
  setattr (set_fd fd) ;;
  let* s := self in
  lift (modify (λ w, with_registry (dict_set (_file s) s (protected_open w)) w)).

(** [ProtectFile(...)]: the outcome, the object as [__init__] left
    it, and the world. *)
Definition __init__ (fuel : nat) (arg : Args) (w : World)
  : Res unit * (ProtectFile * World) :=
  init_body fuel arg (init_fields arg (w_tempdir w), w).

Definition __enter__ (s : ProtectFile) : M World nat :=
  match _fd s with
  | Some fd => ret fd
  | None => raise AttributeError
  end.

(** [mv_temp(destination)] with a destination given, lines 252, 262-263 *)
Definition mv_temp_to (s : ProtectFile) (destination : Path) : M World unit :=
  when (negb (_readonly s))
    (copy2 (_temp s) destination ;;
     unlink (_temp s)).

Definition restore (s : ProtectFile) : M World unit :=
  when (_do_backup s)
    (match _backup s with
     | Some (Some backup) => rename backup (_file s)
     | _ => raise AttributeError
     end ;;
     print "Restored file to previous state.") ;;
  when (negb (_readonly s))
    (let* now := gets w_now in
     let alt_file := sibling (_file s) ("__" +:+ now +:+ ".result") in
     mv_temp_to s alt_file ;;
     print ("Saved calculation results in " +:+ name alt_file +:+ ".")).

Definition mv_temp (s : ProtectFile) (destination : option Path)
  : M World unit :=
  match destination with
  | Some d => mv_temp_to s d
  | None =>
      when (negb (_readonly s))
        (copy2 (_temp s) (_file s) ;;
         let* mismatch :=
           if _check_hash s then
             let* h1 := get_hash (_temp s) in
             let* h2 := get_hash (_file s) in
             ret (bool_decide (h1 ≠ h2))
           else ret false in
         when mismatch
           (print ("Warning: tried to copy temporary file "
                     +:+ as_posix (_temp s) +:+ " into "
                     +:+ as_posix (_file s)
                     +:+ ", but hashes do not match!") ;;
            restore s) ;;
         unlink (_temp s))
  end.

(** Closing a file object that is there and open, as [release] and
    [__exit__] guard it *)
Definition close_if_open (fd : nat) : M World unit :=
  let* c := gets (fd_closed fd) in
  match c with
  | Some false => fd_close fd
  | _ => ret tt
  end.

Definition release (s : ProtectFile) (pop : bool) : M World unit :=
  match _fd s with
  | Some fd => close_if_open fd
  | None => ret tt
  end ;;
  (let* t := is_file (_temp s) in when t (unlink (_temp s))) ;;
  match _backup s with
  | Some (Some backup) =>
      let* b := is_file backup in
      when (_do_backup s && b && negb (_keep_backup s)) (unlink backup)
  | _ => ret tt
  end ;;
  match _flock s with
  | Some fd => close_if_open fd
  | None => ret tt
  end ;;
  (let* l := is_file (_lock s) in when l (unlink (_lock s))) ;;
  when pop
    (modify (λ w, with_registry (dict_pop (_file s) (protected_open w)) w)).

Definition __del__ (s : ProtectFile) : M World unit := release s true.

Definition __exit__ (s : ProtectFile) : M World unit :=
  match _fd s with
  | Some fd =>
      let* c := gets (fd_closed fd) in
      when (negb (default true c)) (fd_close fd)
  | None => raise AttributeError
  end ;;
  let* changed :=
    if _exists s then
      let* st := stat (_file s) in ret (bool_decide (Some st ≠ _fstat s))
    else ret false in
  (if changed then
     print ("Error: File " +:+ as_posix (_file s)
              +:+ " changed during lock!") ;;
     restore s
   else mv_temp s None) ;;
  release s true.

(** [exit_handler]: [tempdir.cleanup()] removes the staging directory
    with everything in it. *)
Fixpoint release_all (l : list (Path * ProtectFile)) : M World unit :=
  match l with
  | [] => ret tt
  | (_, file) :: l' => release file false ;; release_all l'
  end.

Definition exit_handler : M World unit :=
  let* reg := gets protected_open in
  release_all reg ;;
  modify (λ w, with_fs
                 (filter (λ pf, parent pf.1 ≠ w_tempdir w) (w_fs w)) w).

(** [with ProtectFile(...) as pf: body(pf)], the body also acting on a
    Python object of type [X].  [__exit__] returns [None], so an
    exception of the body propagates after it. *)
Definition with_ProtectFile {X A} (fuel : nat) (arg : Args)
    (body : nat → M (X * World) A) : M (X * World) A :=
  λ xw,
    match __init__ fuel arg xw.2 with
    | (Val _, (s, w1)) =>
        match __enter__ s w1 with
        | (Val pf, w2) =>
            match body pf (xw.1, w2) with
            | (Val a, xw3) => (lift (__exit__ s) ;; ret a) xw3
            | (Exc e, xw3) => (lift (__exit__ s) ;; raise e) xw3
            | (Spin, xw3) => (Spin, xw3)
            end
        | (Exc e, w2) => (Exc e, (xw.1, w2))
        | (Spin, w2) => (Spin, (xw.1, w2))
        end
    | (Exc e, (_, w1)) => (Exc e, (xw.1, w1))
    | (Spin, (_, w1)) => (Spin, (xw.1, w1))
    end.

End Guard.

(** * da_meta.py *)

(** ** Python values and JSON documents

    Numbers are integers here; float-valued fields are outside the model.
    A JSON object keeps its members as the text has them, in order and
    with repetitions; a Python dict key is a string or an integer. *)

Inductive PyKey :=
  | KStr (s : string)
  | KInt (n : Z).

#[global] Instance PyKey_eq_dec : EqDecision PyKey.
Proof. solve_decision. Defined.

Inductive PyVal :=
  | PNone
  | PBool (b : bool)
  | PInt (n : Z)
  | PStr (s : string)
  | PPath (posix : string)
  | PList (l : list PyVal)
  | PDict (d : list (PyKey * PyVal)).

Inductive Json :=
  | JNull
  | JBool (b : bool)
  | JInt (n : Z)
  | JStr (s : string)
  | JArr (l : list Json)
  | JObj (members : list (string * Json)).

(** What [json.load] builds from a parsed document: [dict(pairs)] for
    each object, so that the last of several equal keys wins. *)
Fixpoint of_json (j : Json) : PyVal :=
  match j with
  | JNull => PNone
  | JBool b => PBool b
  | JInt n => PInt n
  | JStr s => PStr s
  | JArr l => PList (map of_json l)
  | JObj ms =>
      PDict (dict_of_pairs (map (λ '(k, v), (KStr k, of_json v)) ms))
  end.

(** [json.dump] turns an integer key into its decimal text and emits the
    items in dict order; it does not look for keys that become equal. *)
Definition key_text (k : PyKey) : string :=
  match k with
  | KStr s => s
  | KInt n => pretty n
  end.

Fixpoint to_json (v : PyVal) : option Json :=
  match v with
  | PNone => Some JNull
  | PBool b => Some (JBool b)
  | PInt n => Some (JInt n)
  | PStr s => Some (JStr s)
  | PPath _ => None
  | PList l => JArr <$> mapM to_json l
  | PDict d =>
      JObj <$> mapM (λ '(k, x), (λ j, (key_text k, j)) <$> to_json x) d
  end.

(** [a == b] *)
Fixpoint py_eq (a b : PyVal) {struct a} : bool :=
  match a, b with
  | PNone, PNone => true
  | PBool x, PBool y => bool_decide (x = y)
  | PBool x, PInt n | PInt n, PBool x =>
      bool_decide ((if x then 1 else 0)%Z = n)
  | PInt m, PInt n => bool_decide (m = n)
  | PStr s, PStr t => bool_decide (s = t)
  | PPath s, PPath t => bool_decide (s = t)
  | PList xs, PList ys =>
      (fix all2 (xs ys : list PyVal) : bool :=
         match xs, ys with
         | [], [] => true
         | x :: xs', y :: ys' => py_eq x y && all2 xs' ys'
         | _, _ => false
         end) xs ys
  | PDict xs, PDict ys =>
      Nat.eqb (List.length xs) (List.length ys)
      && forallb (λ '(k, x), match dict_get k ys with
                             | Some y => py_eq x y
                             | None => false
                             end) xs
  | _, _ => false
  end.

(** ** The metadata object *)

(** The instance: [_filename] and the instance dict for the data
    attributes ([_da_type], ..., [_submissions], [_six_path],
    [_line_file]). *)
Record DAMeta := mkDAMeta {
  _filename : Path;
  attrs : gmap string PyVal
}.

Definition _cols : list string :=
  ["name"; "path"; "da_type"; "da_dim"; "emitx"; "emity"; "turns"; "energy";
   "nseeds"; "pairs_shift"; "pairs_shift_var"; "s_start"; "meta_file";
   "line_file"; "six_path"; "surv_file"; "da_file"; "da_evol_file";
   "submissions"].
Definition _path_cols : list string :=
  ["path"; "meta_file"; "line_file"; "six_path"; "surv_file"; "da_file";
   "da_evol_file"].
Definition _optional_cols : list string := ["six_path"; "line_file"].
Definition _da_types : list string := ["radial"; "grid"; "monte_carlo"; "free"].

Definition meta_file (self : DAMeta) : Path :=
  sibling (_filename self) ".meta.json".
Definition surv_file (self : DAMeta) : Path :=
  sibling (_filename self) ".surv.parquet".
Definition da_file (self : DAMeta) : Path :=
  sibling (_filename self) ".da.parquet".
Definition da_evol_file (self : DAMeta) : Path :=
  sibling (_filename self) ".da_evol.parquet".

(** [getattr(self, key)] for the public names of [_cols]: the computed
    properties first, the stored ones through their getters. *)
Definition getattr (self : DAMeta) (key : string) : option PyVal :=
  if decide (key = "name") then Some (PStr (name (_filename self)))
  else if decide (key = "path") then Some (PPath (parent (_filename self)))
  else if decide (key = "meta_file") then
    Some (PPath (as_posix (meta_file self)))
  else if decide (key = "surv_file") then
    Some (PPath (as_posix (surv_file self)))
  else if decide (key = "da_file") then
    Some (PPath (as_posix (da_file self)))
  else if decide (key = "da_evol_file") then
    Some (PPath (as_posix (da_evol_file self)))
  else attrs self !! ("_" +:+ key).

Definition set_attr (key : string) (val : PyVal) (self : DAMeta) : DAMeta :=
  mkDAMeta (_filename self) (<[key := val]> (attrs self)).

Definition is_None (v : PyVal) : bool :=
  match v with PNone => true | _ => false end.

Definition not_in (x : string) (l : list string) : bool :=
  negb (bool_decide (x ∈ l)).

Section Meta.

Variable copy_bytes : Data → Data.
Variable blake2b : Data → string.

(** The text layer of the [json] module, taken as given: the printer
    used by [json.dump(..., indent=2, sort_keys=False)] and the reader
    used by [json.load], [None] being a [JSONDecodeError]. *)
Variable json_encode : Json → Data.
Variable json_decode : Data → option Json.

Abbreviation MM := (M (DAMeta * World)).

Definition the_self : MM DAMeta := gets fst.

Definition of_option {S A} (e : Exn) (o : option A) : M S A :=
  match o with
  | Some a => ret a
  | None => raise e
  end.

(** [json.load(pf)] *)
Definition json_load (pf : nat) : M World PyVal :=
  let* text := fd_read pf in
  let* doc := of_option JSONDecodeError (json_decode text) in
  ret (of_json doc).

(** [json.dump(obj, pf, indent=2, sort_keys=False)].  An object that
    cannot be serialised is a [TypeError] in Python, rendered here as
    [ValueError]; nothing is written in that case. *)
Definition json_dump (obj : PyVal) (pf : nat) : M World unit :=
  let* doc := of_option ValueError (to_json obj) in
  fd_write pf (json_encode doc).

(** [with ProtectFile(file, mode, wait=...) as pf: body(pf)]; [wait] is
    in milliseconds. *)
Definition guarded {A} (fuel : nat) (file : Path) (mode : string)
    (wait : option nat) (body : nat → MM A) : MM A :=
  with_ProtectFile copy_bytes blake2b fuel
    (mkArgs file (Some mode) wait None None None None) body.

(** [d[k]] on a Python value *)
Definition getitem (v : PyVal) (k : PyKey) : option PyVal :=
  match v with
  | PDict d => dict_get k d
  | _ => None
  end.

(** [d[k] = x] on a Python value that is a dict *)
Definition setitem (v : PyVal) (k : PyKey) (x : PyVal) : option PyVal :=
  match v with
  | PDict d => Some (PDict (dict_set k x d))
  | _ => None
  end.

(** [len(v.keys())] *)
Definition len_keys (v : PyVal) : option nat :=
  match v with
  | PDict d => Some (List.length d)
  | _ => None
  end.

(** [new_submission_id].  [meta['submissions']] is updated in place, so
    the dict dumped and stored is [meta] with that entry replaced. *)
Definition new_submission_id (fuel : nat) : MM Z :=
  let* self := the_self in
  guarded fuel (meta_file self) "r+" (Some 5) (λ pf,
    let* meta := lift (json_load pf) in
    let* subs := of_option KeyError (getitem meta (KStr "submissions")) in
    let* n := of_option AttributeError (len_keys subs) in
    let new_id := Z.of_nat n in
    let* subs := of_option ValueError (setitem subs (KInt new_id) PNone) in
    let* meta := of_option ValueError
                   (setitem meta (KStr "submissions") subs) in
    lift (fd_truncate pf 0) ;;
    lift (fd_seek pf 0) ;;
    lift (json_dump meta pf) ;;
    modify (λ mw, (set_attr "_submissions" meta mw.1, mw.2)) ;;
    ret new_id).

(** [update_submissions(submission_id, val)] *)
Definition update_submissions (fuel : nat) (submission_id : PyKey)
    (val : PyVal) : MM unit :=
  let* self := the_self in
  guarded fuel (meta_file self) "r+" (Some 5) (λ pf,
    let* meta := lift (json_load pf) in
    let* subs := of_option KeyError (getitem meta (KStr "submissions")) in
    let* subs := of_option AttributeError (setitem subs submission_id val) in
    let* meta := of_option ValueError
                   (setitem meta (KStr "submissions") subs) in
    lift (fd_truncate pf 0) ;;
    lift (fd_seek pf 0) ;;
    lift (json_dump meta pf) ;;
    modify (λ mw, (set_attr "_submissions" meta mw.1, mw.2))).

(** The optional columns whose value is [None] *)
Definition unset_optional (self : DAMeta) : list string :=
  filter (λ x, bool_decide (is_None <$> getattr self x = Some true))
         _optional_cols.

(** [{key: getattr(self, key) for key in sortkeys}] *)
Definition fields_of (self : DAMeta) (keys : list string)
  : option (list (PyKey * PyVal)) :=
  fold_left (λ acc key,
               match acc, getattr self key with
               | Some d, Some v => Some (dict_set (KStr key) v d)
               | _, _ => None
               end)
            keys (Some []).

(** [_paths_to_strings(meta, ignore)]: [as_posix()] on every path
    column that is not ignored *)
Definition _paths_to_strings (self : DAMeta) (meta : list (PyKey * PyVal))
    (ignore : list string) : option (list (PyKey * PyVal)) :=
  fold_left (λ acc key,
               match acc, getattr self key with
               | Some d, Some (PPath p) =>
                   Some (dict_set (KStr key) (PStr p) d)
               | _, _ => None
               end)
            (filter (λ key, not_in key ignore) _path_cols) (Some meta).

Definition _store (fuel : nat) : MM unit :=
  let* self := the_self in
  let ignore := unset_optional self in
  let sortkeys := filter (λ x, not_in x ignore) _cols in
  let* meta := of_option AttributeError (fields_of self sortkeys) in
  let* meta := of_option AttributeError
                 (_paths_to_strings self meta ignore) in
  let* present := lift (is_file (meta_file self)) in
  let mode := if present then "r+" else "x+" in
  guarded fuel (meta_file self) mode None (λ pf,
    when present (lift (fd_truncate pf 0) ;; lift (fd_seek pf 0)) ;;
    lift (json_dump (PDict meta) pf)).

(** [{key: meta[key] for key in sortkeys}] *)
Definition pick (meta : PyVal) (keys : list string)
  : option (list (PyKey * PyVal)) :=
  fold_left (λ acc key,
               match acc, getitem meta (KStr key) with
               | Some d, Some v => Some (dict_set (KStr key) v d)
               | _, _ => None
               end)
            keys (Some []).

Definition _check_not_changed (fuel : nat) (ignore : list string)
  : MM unit :=
  let* self := the_self in
  let ignore := (ignore ++ unset_optional self)%list in
  let sortkeys := filter (λ x, not_in x ignore) _cols in
  let* thisdict := of_option AttributeError
                     (fields_of self sortkeys) in
  let* thisdict := of_option AttributeError
                     (_paths_to_strings self thisdict ignore) in
  let* meta := guarded fuel (meta_file self) "r" None
                 (λ pf, lift (json_load pf)) in
  let* meta := of_option KeyError (pick meta sortkeys) in
  if negb (py_eq (PDict meta) (PDict thisdict)) then raise MetadataChanged
  else ret tt.

(** [_set_property(prop, val)] *)
Definition _set_property (fuel : nat) (prop : string) (val : PyVal)
  : MM unit :=
  let* self := the_self in
  let* cur := of_option AttributeError (attrs self !! ("_" +:+ prop)) in
  if negb (py_eq cur val) then
    modify (λ mw, (set_attr ("_" +:+ prop) val mw.1, mw.2)) ;;
    _check_not_changed fuel [prop] ;;
    _store fuel
  else ret tt.

(** Two of the setters. [isinstance(x, numbers.Number)] holds of
    integers and booleans, and [round] of an integer is that integer. *)
Definition is_Number (v : PyVal) : option Z :=
  match v with
  | PInt n => Some n
  | PBool b => Some (if b then 1 else 0)%Z
  | _ => None
  end.

Definition set_turns (fuel : nat) (turns : PyVal) : MM unit :=
  match is_Number turns with
  | Some n => _set_property fuel "turns" (PInt n)
  | None => raise ValueError
  end.

Definition set_da_type (fuel : nat) (da_type : string) : MM unit :=
  if not_in da_type _da_types then raise ValueError
  else _set_property fuel "da_type" (PStr da_type).

End Meta.

(** ** A printer and a reader for JSON text

    One concrete text layer, laid out as [json.dump(..., indent=2)] lays
    out its output, for running the model on actual file contents.
    Strings escape the quote and the backslash only. *)

Module JsonText.

Definition nl (ind : nat) : string :=
  String "010" (string_of_list_ascii (replicate ind " "%char)).

Fixpoint escape (s : string) : string :=
  match s with
  | EmptyString => EmptyString
  | String c s' =>
      if decide (c = "034"%char) then String "\" (String c (escape s'))
      else if decide (c = "\"%char) then String "\" (String c (escape s'))
      else String c (escape s')
  end.

Definition quote (s : string) : string :=
  String "034" (escape s +:+ String "034" EmptyString).

Fixpoint join (sep : string) (l : list string) : string :=
  match l with
  | [] => EmptyString
  | [x] => x
  | x :: l' => x +:+ sep +:+ join sep l'
  end.

Fixpoint text (ind : nat) (j : Json) : string :=
  match j with
  | JNull => "null"
  | JBool true => "true"
  | JBool false => "false"
  | JInt n => pretty n
  | JStr s => quote s
  | JArr [] => "[]"
  | JArr l =>
      "[" +:+ nl (ind + 2)
        +:+ join ("," +:+ nl (ind + 2)) (map (text (ind + 2)) l)
        +:+ nl ind +:+ "]"
  | JObj [] => "{}"
  | JObj ms =>
      "{" +:+ nl (ind + 2)
        +:+ join ("," +:+ nl (ind + 2))
              (map (λ '(k, v), quote k +:+ ": " +:+ text (ind + 2) v) ms)
        +:+ nl ind +:+ "}"
  end.

Definition encode (j : Json) : Data := list_ascii_of_string (text 0 j).

Definition is_ws (c : ascii) : bool := in_str c (String " " (String "010" (String "009" (String "013" EmptyString)))).

Fixpoint skip_ws (s : list ascii) : list ascii :=
  match s with
  | c :: s' => if is_ws c then skip_ws s' else s
  | [] => []
  end.

Definition digit (c : ascii) : option Z :=
  let n := nat_of_ascii c in
  if (48 <=? n)%nat && (n <=? 57)%nat then Some (Z.of_nat (n - 48)) else None.

Definition is_digit (c : ascii) : bool :=
  match digit c with Some _ => true | None => false end.

Fixpoint digits (acc : Z) (s : list ascii) : Z * list ascii :=
  match s with
  | c :: s' =>
      match digit c with
      | Some d => digits (acc * 10 + d) s'
      | None => (acc, s)
      end
  | [] => (acc, [])
  end.

(** the characters of a string literal, after the opening quote *)
Fixpoint chars (s : list ascii) : option (string * list ascii) :=
  match s with
  | [] => None
  | c :: s' =>
      if decide (c = "034"%char) then Some (EmptyString, s')
      else if decide (c = "\"%char) then
        match s' with
        | e :: s'' =>
            match chars s'' with
            | Some (r, rest) => Some (String e r, rest)
            | None => None
            end
        | [] => None
        end
      else
        match chars s' with
        | Some (r, rest) => Some (String c r, rest)
        | None => None
        end
  end.

Definition literal (word : string) (j : Json) (s : list ascii)
  : option (Json * list ascii) :=
  let w := list_ascii_of_string word in
  if decide (take (List.length w) s = w)
  then Some (j, drop (List.length w) s) else None.

Fixpoint value (fuel : nat) (s : list ascii) : option (Json * list ascii) :=
  match fuel with
  | O => None
  | S fuel' =>
      match skip_ws s with
      | [] => None
      | c :: s' =>
          if decide (c = "n"%char) then literal "null" JNull (c :: s')
          else if decide (c = "t"%char) then literal "true" (JBool true) (c :: s')
          else if decide (c = "f"%char) then literal "false" (JBool false) (c :: s')
          else if decide (c = "034"%char) then
            match chars s' with
            | Some (r, rest) => Some (JStr r, rest)
            | None => None
            end
          else if decide (c = "-"%char) then
            match s' with
            | d :: _ =>
                if is_digit d then
                  let '(n, rest) := digits 0 s' in Some (JInt (- n), rest)
                else None
            | [] => None
            end
          else if is_digit c then
            let '(n, rest) := digits 0 (c :: s') in Some (JInt n, rest)
          else if decide (c = "["%char) then
            match skip_ws s' with
            | d :: rest =>
                if decide (d = "]"%char) then Some (JArr [], rest)
                else match elements fuel' s' with
                     | Some (l, rest') => Some (JArr l, rest')
                     | None => None
                     end
            | [] => None
            end
          else if decide (c = "{"%char) then
            match skip_ws s' with
            | d :: rest =>
                if decide (d = "}"%char) then Some (JObj [], rest)
                else match members fuel' s' with
                     | Some (l, rest') => Some (JObj l, rest')
                     | None => None
                     end
            | [] => None
            end
          else None
      end
  end
with elements (fuel : nat) (s : list ascii)
  : option (list Json * list ascii) :=
  match fuel with
  | O => None
  | S fuel' =>
      match value fuel' s with
      | Some (v, rest) =>
          match skip_ws rest with
          | c :: rest' =>
              if decide (c = ","%char) then
                match elements fuel' rest' with
                | Some (l, rest'') => Some (v :: l, rest'')
                | None => None
                end
              else if decide (c = "]"%char) then Some ([v], rest')
              else None
          | [] => None
          end
      | None => None
      end
  end
with members (fuel : nat) (s : list ascii)
  : option (list (string * Json) * list ascii) :=
  match fuel with
  | O => None
  | S fuel' =>
      match skip_ws s with
      | q :: s' =>
          if decide (q = "034"%char) then
            match chars s' with
            | Some (k, rest) =>
                match skip_ws rest with
                | c :: rest' =>
                    if decide (c = ":"%char) then
                      match value fuel' rest' with
                      | Some (v, rest'') =>
                          match skip_ws rest'' with
                          | e :: rest3 =>
                              if decide (e = ","%char) then
                                match members fuel' rest3 with
                                | Some (l, rest4) => Some ((k, v) :: l, rest4)
                                | None => None
                                end
                              else if decide (e = "}"%char)
                              then Some ([(k, v)], rest3)
                              else None
                          | [] => None
                          end
                      | None => None
                      end
                    else None
                | [] => None
                end
            | None => None
            end
          else None
      | [] => None
      end
  end.

Definition decode (s : Data) : option Json :=
  match value (S (List.length s)) s with
  | Some (j, rest) =>
      match skip_ws rest with
      | [] => Some j
      | _ => None
      end
  | None => None
  end.

End JsonText.

(** * Specification-level definitions *)

(** ** [release] as a world transformer *)

Definition closed_in (o : option nat) (fds : list Handle) : list Handle :=
  match o with
  | Some fd => alter set_closed fd fds
  | None => fds
  end.

(** the backup that [release] deletes, if any *)
Definition doomed_backup (s : ProtectFile) : option Path :=
  match _backup s with
  | Some (Some backup) =>
      if _do_backup s && negb (_keep_backup s) then Some backup else None
  | _ => None
  end.

Definition without (o : option Path) (fs : gmap Path File)
  : gmap Path File :=
  match o with
  | Some p => delete p fs
  | None => fs
  end.

Definition released (s : ProtectFile) (pop : bool) (w : World) : World :=
  mkWorld
    (delete (_lock s) (without (doomed_backup s) (delete (_temp s) (w_fs w))))
    (closed_in (_flock s) (closed_in (_fd s) (w_fds w)))
    (w_stdout w) (w_now w) (w_tempdir w) (w_others w)
    (if pop then dict_pop (_file s) (protected_open w) else protected_open w).

(** ** Opening *)

(** The open-time requirement of a mode that [__init__] checks, and the
    error it raises when the target's presence contradicts it. *)
Definition violation (mode : string) (present : bool) : option Exn :=
  if in_str "r" mode then
    if present then None else Some FileNotFoundError
  else if in_str "x" mode && present then Some FileExistsError
  else None.

Definition present (p : Path) (w : World) : bool :=
  bool_decide (is_Some (w_fs w !! p)).

(** C2 as worded: a violated requirement makes the open fail with the
    matching error, the lock sentinel being left as it was. *)
Definition open_fails_without_lock (copy_bytes : Data → Data) (fuel : nat)
    (arg : Args) (w : World) : Prop :=
  ∀ e, violation (default "r" (a_mode arg)) (present (a_file arg) w) = Some e →
       let r := __init__ copy_bytes fuel arg w in
       r.1 = Exc e
       ∧ w_fs r.2.2 !! sibling (a_file arg) ".lock"
         = w_fs w !! sibling (a_file arg) ".lock".

(** ** Concrete worlds for the examples *)

Module Ex.

Definition F : Path := mkPath "/data" "study.meta.json".

Definition nothing : World :=
  mkWorld ∅ [] [] "2022-04-18T10:00:00" "/tmp/tmpabc" [] [].

(** a world whose only file is [F] *)
Definition holding (text : string) : World :=
  with_fs {[ F := mkFile (list_ascii_of_string text) "2022-04-17T09:00:00" ]}
          nothing.

Definition args (mode : string) : Args :=
  mkArgs F (Some mode) None None None None None.

(** a sound copy, and a digest that tells all contents apart *)
Definition sound (d : Data) : Data := d.
Definition digest (d : Data) : string := string_of_list_ascii d.

End Ex.

(** ** [__init__] in closed form *)

Section Closed.

Variable copy_bytes : Data → Data.

(** what [shutil.copy2] writes for a source file [f] *)
Definition copy_of (f : File) : File :=
  mkFile (copy_bytes (f_data f)) (f_mtime f).

Definition read_only (mode : string) : bool :=
  in_str "r" mode && negb (in_str "+" mode).

(** the mode that reaches [io.open] *)
Definition opened_mode (mode : string) (present : bool) : string :=
  if in_str "r" mode || in_str "x" mode then mode
  else if present then
    replace "a" "r+" (replace "w" "r+" (replace "+" EmptyString mode))
  else replace "a" "x" (replace "w" "x" mode).

(** The object and the world just before [io.open] is called, for an
    open that holds the lock (file object [fl], world [w1]) and whose
    requirement is met. *)
Definition pre_open (arg : Args) (fl : nat) (w1 : World)
  : ProtectFile * World :=
  let s0 := init_fields arg (w_tempdir w1) in
  let ro := read_only (default "r" (a_mode arg)) in
  let do_b := _do_backup s0 && negb (ro && negb (_backup_if_readonly s0)) in
  match w_fs w1 !! a_file arg with
  | Some f =>
      let b := sibling (a_file arg) ".backup" in
      let fs1 := if do_b then <[b := copy_of f]> (w_fs w1) else w_fs w1 in
      let fs2 := if ro then fs1 else <[_temp s0 := copy_of f]> fs1 in
      (mkProtectFile do_b (_keep_backup s0) (_backup_if_readonly s0)
         (_check_hash s0) (a_file arg) (_lock s0) (_temp s0) (Some fl)
         true ro (Some (if do_b then Some b else None))
         (Some (stat_of f)) None,
       with_fs fs2 w1)
  | None =>
      (mkProtectFile do_b (_keep_backup s0) (_backup_if_readonly s0)
         (_check_hash s0) (a_file arg) (_lock s0) (_temp s0) (Some fl)
         false ro (Some None) None None,
       w1)
  end.

(** The object and the world after the backup and the stat snapshot,
    before the staging copy. *)
Definition backed_up (arg : Args) (fl : nat) (w1 : World)
  : ProtectFile * World :=
  let s0 := init_fields arg (w_tempdir w1) in
  let ro := read_only (default "r" (a_mode arg)) in
  let do_b := _do_backup s0 && negb (ro && negb (_backup_if_readonly s0)) in
  match w_fs w1 !! a_file arg with
  | Some f =>
      let b := sibling (a_file arg) ".backup" in
      (mkProtectFile do_b (_keep_backup s0) (_backup_if_readonly s0)
         (_check_hash s0) (a_file arg) (_lock s0) (_temp s0) (Some fl)
         true ro (Some (if do_b then Some b else None))
         (Some (stat_of f)) None,
       if do_b then with_fs (<[b := copy_of f]> (w_fs w1)) w1 else w1)
  | None => pre_open arg fl w1
  end.

(** the staging copy, lines 216-218 *)
Definition stage (s : ProtectFile) : M World unit :=
  if negb (_readonly s) && _exists s
  then copy2 copy_bytes (_file s) (_temp s)
  else ret tt.

(** the path handed to [io.open] *)
Definition opened_path (s : ProtectFile) : Path :=
  if _readonly s then _file s else _temp s.

(** the end of [__init__]: store the file object and register *)
Definition registered (s : ProtectFile) (fd : nat) (w : World)
  : ProtectFile * World :=
  (set_fd fd s,
   with_registry (dict_set (_file s) (set_fd fd s) (protected_open w)) w).

End Closed.

(** ** Concrete metadata objects for the examples *)

Module ExMeta.

(** a study [/data/study]: the defaults of [__init__], and 100 turns *)
Definition study : DAMeta :=
  mkDAMeta (mkPath "/data" "study")
    (list_to_map
       [("_da_type", PNone); ("_da_dim", PNone); ("_emitx", PNone);
        ("_emity", PNone); ("_turns", PInt 100); ("_energy", PInt 0);
        ("_nseeds", PInt 0); ("_pairs_shift", PInt 0);
        ("_pairs_shift_var", PNone); ("_s_start", PInt 0);
        ("_submissions", PDict []); ("_six_path", PNone);
        ("_line_file", PNone)]).

End ExMeta.

(** ** What a caller does with the handle *)

Inductive FdOp :=
  | OpRead
  | OpWrite (d : Data)
  | OpTruncate (n : nat)
  | OpSeek (n : nat)
  | OpClose.

Definition run_op (pf : nat) (op : FdOp) : M World unit :=
  match op with
  | OpRead => fd_read pf ;; ret tt
  | OpWrite d => fd_write pf d
  | OpTruncate n => fd_truncate pf n
  | OpSeek n => fd_seek pf n
  | OpClose => fd_close pf
  end.

(** A sequence of calls on the handle; a call that raises leaves the
    world as it was and the next call is made all the same. *)
Fixpoint run_ops (pf : nat) (ops : list FdOp) (w : World) : World :=
  match ops with
  | [] => w
  | op :: ops' => run_ops pf ops' (run_op pf op w).2
  end.

(** ** Modes *)

(** all strings over [alpha] of length at most [n] *)
Fixpoint strings_upto (n : nat) (alpha : list ascii) : list string :=
  match n with
  | O => [EmptyString]
  | S n' =>
      EmptyString
        :: (c ← alpha; String c <$> strings_upto n' alpha)
  end.

Definition write_alpha : list ascii := list_ascii_of_string "wab+t".

(** what [__init__] makes of a writing mode on an existing target *)
Definition write_mode_ok (m : string) : bool :=
  let m' := opened_mode m true in
  negb (in_str "r" m) && negb (in_str "x" m)
  && mode_valid m' && in_str "r" m' && in_str "+" m'
  && negb (in_str "a" m') && negb (in_str "w" m') && negb (in_str "x" m').

(** ** Closing *)

Section Closing.

Variable copy_bytes : Data → Data.
Variable blake2b : Data → string.

(** What [__init__] establishes for a session that is not read-only on
    a target that was there: where its paths are, and that [_backup] is
    set exactly when [_do_backup] is. *)
Definition wf_write_session (s : ProtectFile) : Prop :=
  _readonly s = false
  ∧ _exists s = true
  ∧ is_Some (_fd s)
  ∧ _lock s = sibling (_file s) ".lock"
  ∧ name (_temp s) = name (_file s)
  ∧ parent (_temp s) ≠ parent (_file s)
  ∧ _backup s = Some (if _do_backup s
                      then Some (sibling (_file s) ".backup") else None).

(** the salvage file of [restore] *)
Definition salvage (s : ProtectFile) (w : World) : Path :=
  sibling (_file s) ("__" +:+ w_now w +:+ ".result").

(** the file system after the rename of [restore] *)
Definition restored (s : ProtectFile) (fs : gmap Path File)
  : gmap Path File :=
  if _do_backup s then
    match fs !! sibling (_file s) ".backup" with
    | Some fb => <[_file s := fb]> (delete (sibling (_file s) ".backup") fs)
    | None => fs
    end
  else fs.

(** the lines that a rollback prints *)
Definition rollback_report (s : ProtectFile) (w : World) : list string :=
  (if _do_backup s then ["Restored file to previous state."] else [])
    ++ ["Saved calculation results in " +:+ name (salvage s w) +:+ "."].

Definition changed_report (s : ProtectFile) : string :=
  "Error: File " +:+ as_posix (_file s) +:+ " changed during lock!".

Definition mismatch_report (s : ProtectFile) : string :=
  "Warning: tried to copy temporary file " +:+ as_posix (_temp s)
    +:+ " into " +:+ as_posix (_file s) +:+ ", but hashes do not match!".

(** C1 as worded, in its positive part: at the close of a session on a
    target that is still there, equal metadata means that the content
    of the staging file is copied over the target, and different
    metadata means that the staged content is saved in the salvage file
    (and the backup, if any, renamed onto the target). *)
Definition commits_or_rolls_back (s : ProtectFile) (w : World) : Prop :=
  ∀ ft, w_fs w !! _file s = Some ft →
    let w' := (__exit__ copy_bytes blake2b s w).2 in
    ∃ staged, w_fs w !! _temp s = Some staged
      ∧ if decide (Some (stat_of ft) = _fstat s)
        then w_fs w' !! _file s = Some (copy_of copy_bytes staged)
        else w_fs w' !! salvage s w = Some (copy_of copy_bytes staged).

End Closing.

(** ** Concrete sessions for the examples *)

Module ExClose.

(** a copy that damages one content and no other *)
Definition lossy (d : Data) : Data :=
  if decide (d = list_ascii_of_string "[1]")
  then list_ascii_of_string "["
  else d.

(** the object and the world of a session opened on [Ex.F] in world
    [w], after the caller has replaced the content by [text] *)
Definition rewritten (copy_bytes : Data → Data) (mode : string) (w : World)
    (text : string) : ProtectFile * World :=
  let r := __init__ copy_bytes 1 (Ex.args mode) w in
  (r.2.1,
   run_ops (default 0 (_fd r.2.1))
     [OpTruncate 0; OpSeek 0; OpWrite (list_ascii_of_string text)] r.2.2).

(** a read-only session, just opened *)
Definition reading : ProtectFile * World :=
  (__init__ Ex.sound 1 (Ex.args "r") (Ex.holding "{}")).2.

End ExClose.

(** ** Dumping and loading metadata *)

(** what [json.load] gives back from the [json.dump] of [v] *)
Fixpoint reload (v : PyVal) : PyVal :=
  match v with
  | PList l => PList (map reload l)
  | PDict d =>
      PDict (dict_of_pairs (map (λ '(k, x), (KStr (key_text k), reload x)) d))
  | _ => v
  end.

(** the values that [json.load] can return *)
Inductive loaded : PyVal → Prop :=
  | loaded_None : loaded PNone
  | loaded_Bool b : loaded (PBool b)
  | loaded_Int n : loaded (PInt n)
  | loaded_Str s : loaded (PStr s)
  | loaded_List l : Forall loaded l → loaded (PList l)
  | loaded_Dict d :
      Forall (λ kv, (∃ s, kv.1 = KStr s) ∧ loaded kv.2) d →
      NoDup d.*1 →
      loaded (PDict d).

(** one item of a dict, as it comes back *)
Definition coerce (kx : PyKey * PyVal) : PyKey * PyVal :=
  (KStr (key_text kx.1), reload kx.2).

Section Submissions.

Variable copy_bytes : Data → Data.
Variable blake2b : Data → string.
Variable json_encode : Json → Data.
Variable json_decode : Data → option Json.

(** the state of a session opened with mode [r+] on an existing target,
    with the default options *)
Definition opened_rplus (file : Path) (fl : nat) (w1 : World) (ft : File)
  : ProtectFile * World :=
  let temp := mkPath (w_tempdir w1) (name file) in
  let s := mkProtectFile true false false true file (sibling file ".lock")
             temp (Some fl) true false
             (Some (Some (sibling file ".backup"))) (Some (stat_of ft))
             (Some (List.length (w_fds w1))) in
  (s,
   with_registry (dict_set file s (protected_open w1))
     (with_fds (w_fds w1 ++ [mkHandle temp true true false 0 false])
        (with_fs (<[temp := copy_of copy_bytes ft]>
                    (<[sibling file ".backup" := copy_of copy_bytes ft]>
                       (w_fs w1))) w1))).

(** C7 as worded: when the submissions map of the metadata file has
    [n] entries, the call returns [n], and the file then holds that map
    with one entry more: the key [n] is mapped to null and every entry
    that was there is as it was. *)
Definition appends_one_entry (fuel : nat) (self : DAMeta) (w : World)
  : Prop :=
  ∀ ft doc top subs,
    w_fs w !! meta_file self = Some ft →
    json_decode (f_data ft) = Some doc →
    of_json doc = PDict top →
    dict_get (KStr "submissions") top = Some (PDict subs) →
    let n := Z.of_nat (List.length subs) in
    let r := new_submission_id copy_bytes blake2b json_encode json_decode
               fuel (self, w) in
    r.1 = Val n
    ∧ ∃ ft' doc' top' subs',
        w_fs r.2.2 !! meta_file self = Some ft'
        ∧ json_decode (f_data ft') = Some doc'
        ∧ of_json doc' = PDict top'
        ∧ dict_get (KStr "submissions") top' = Some (PDict subs')
        ∧ List.length subs' = S (List.length subs)
        ∧ dict_get (KStr (pretty n)) subs' = Some PNone
        ∧ ∀ k x, dict_get k subs = Some x → dict_get k subs' = Some x.

End Submissions.

(** ** Concrete metadata files for the examples *)

Module ExFile.

Definition doc_with (subs : list (string * Json)) : Json :=
  JObj [("name", JStr "study"); ("turns", JInt 100);
        ("submissions", JObj subs)].

(** a world whose only file is the metadata file of [ExMeta.study] *)
Definition on_disk (subs : list (string * Json)) : World :=
  with_fs {[ meta_file ExMeta.study
             := mkFile (JsonText.encode (doc_with subs))
                  "2022-04-17T09:00:00" ]}
          Ex.nothing.

End ExFile.

(** ** Reading the metadata file, and the constructor *)

Definition _auto_cols : list string :=
  ["name"; "path"; "meta_file"; "surv_file"; "da_file"; "da_evol_file"].

(** The defaults that [__init__] assigns before it looks at the disk. *)
Definition default_attrs : gmap string PyVal :=
  list_to_map
    [("_da_type", PNone); ("_da_dim", PNone); ("_emitx", PNone);
     ("_emity", PNone); ("_turns", PInt 0); ("_energy", PInt 0);
     ("_nseeds", PInt 0); ("_pairs_shift", PInt 0);
     ("_pairs_shift_var", PNone); ("_s_start", PInt 0);
     ("_submissions", PDict []); ("_six_path", PNone);
     ("_line_file", PNone)].

(** [s.split(c)] for a one-character separator: never empty *)
Fixpoint split (sep : ascii) (s : string) : list string :=
  match s with
  | EmptyString => [EmptyString]
  | String c s' =>
      if decide (c = sep) then EmptyString :: split sep s'
      else match split sep s' with
           | x :: l => String c x :: l
           | [] => [String c EmptyString]
           end
  end.

(** [sep.join(l)] *)
Fixpoint join (sep : string) (l : list string) : string :=
  match l with
  | [] => EmptyString
  | [x] => x
  | x :: l' => x +:+ sep +:+ join sep l'
  end.

(** [s.lstrip(c)] *)
Fixpoint lstrip (c : ascii) (s : string) : string :=
  match s with
  | EmptyString => EmptyString
  | String d s' => if decide (d = c) then lstrip c s' else s
  end.

(** [s.endswith(c)] *)
Fixpoint endswith (c : ascii) (s : string) : bool :=
  match s with
  | EmptyString => false
  | String d EmptyString => bool_decide (d = c)
  | String _ s' => endswith c s'
  end.

(** [PurePath.suffixes] on the file name (pathlib of Python 3.8 to 3.13) *)
Definition suffixes (name : string) : list string :=
  if endswith "." name then []
  else (λ x, "." +:+ x) <$> tail (split "." (lstrip "." name)).

(** [__init__], lines 134-137: a [.meta.json] at the end of the file name
    is taken off. *)
Definition stem_of (filename : Path) : Path :=
  let sfx := suffixes (name filename) in
  if decide (drop (List.length sfx - 2) sfx = [".meta"; ".json"]) then
    let parts := split "." (name filename) in
    mkPath (parent filename) (join "." (take (List.length parts - 2) parts))
  else filename.

Section MetaRead.

Variable copy_bytes : Data → Data.
Variable blake2b : Data → string.
Variable json_encode : Json → Data.
Variable json_decode : Data → option Json.

(** Library code taken as given: [posix_of s] is the posix text of
    [pathlib.Path(s)], the normal form of the path text [s]. *)
Variable posix_of : string → string.

(** [meta.get(key, None)]; a value that is not a dict has no [get] *)
Definition meta_get (meta : PyVal) (key : string) : option PyVal :=
  match meta with
  | PDict d => Some (default PNone (dict_get (KStr key) d))
  | _ => None
  end.

(** [Path(val)]: a [TypeError] unless [val] is a string or a path,
    rendered here as [ValueError] *)
Definition to_path (val : PyVal) : option PyVal :=
  match val with
  | PStr s => Some (PPath (posix_of s))
  | PPath p => Some (PPath p)
  | _ => None
  end.

(** the loop of [_read], lines 375-380: the attributes are assigned one
    by one, so that the ones before a failing column stay assigned *)
Fixpoint read_cols (meta : PyVal) (keys : list string)
  : M (DAMeta * World) unit :=
  match keys with
  | [] => ret tt
  | key :: keys' =>
      let* val := of_option AttributeError (meta_get meta key) in
      let* val :=
        if bool_decide (key ∈ _path_cols) && negb (is_None val)
        then of_option ValueError (to_path val)
        else ret val in
      modify (λ mw, (set_attr ("_" +:+ key) val mw.1, mw.2)) ;;
      read_cols meta keys'
  end.

Definition _read (fuel : nat) : M (DAMeta * World) unit :=
  let* self := the_self in
  guarded copy_bytes blake2b fuel (meta_file self) "r" None (λ pf,
    let* meta := lift (json_load json_decode pf) in
    read_cols meta (filter (λ x, not_in x _auto_cols) _cols)).

(** [__init__] from line 151 on, for [skip_file_generation=False].
    [exists()] is [is_file()] on the paths of this model, which holds
    files only. *)
Definition init_files (fuel : nat) : M (DAMeta * World) unit :=
  let* self := the_self in
  let* present := lift (is_file (meta_file self)) in
  if present then
    lift (print "Loading existing DA object.") ;;
    _read fuel ;;
    _store copy_bytes blake2b json_encode fuel
  else
    let* surv := lift (is_file (surv_file self)) in
    let* da := lift (is_file (da_file self)) in
    let* evol := lift (is_file (da_evol_file self)) in
    if surv || da || evol then raise ValueError
    else
      lift (print "Creating new DA object.") ;;
      _store copy_bytes blake2b json_encode fuel.

(** [_DAMetaData(filename=..., skip_file_generation=...)]: the outcome,
    the object as [__init__] left it, and the world *)
Definition _DAMetaData (fuel : nat) (filename : Path)
    (skip_file_generation : bool) (w : World)
  : Res unit * (DAMeta * World) :=
  let self := mkDAMeta (stem_of filename) default_attrs in
  if skip_file_generation then (Val tt, (self, w))
  else init_files fuel (self, w).

End MetaRead.

(** ** Modes on a target that is not there *)

(** what [__init__] makes of a mode without [r] on a missing target *)
Definition create_mode_ok (m : string) : bool :=
  let m' := opened_mode m false in
  mode_valid m' && in_str "x" m' && negb (in_str "r" m').

(** ** Two files of the same name *)

Module ExTwo.

Definition FA : Path := mkPath "/a" "study.meta.json".
Definition FB : Path := mkPath "/b" "study.meta.json".

Definition both : World :=
  with_fs {[ FA := mkFile (list_ascii_of_string "[1]") "2022-04-17T09:00:00";
             FB := mkFile (list_ascii_of_string "[2]") "2022-04-17T09:30:00" ]}
          Ex.nothing.

Definition args (file : Path) : Args :=
  mkArgs file (Some "r+") None None None None None.

End ExTwo.

(** ** Sessions of the metadata object *)

(** the world once the lock loop has taken a free lock at the first
    attempt *)
Definition locked (file : Path) (w : World) : World :=
  with_fds (w_fds w ++ [new_handle (sibling file ".lock") "x" 0])
    (with_fs (<[sibling file ".lock" := mkFile [] (w_now w)]> (w_fs w)) w).

(** the staging path of [file] *)
Definition staging (file : Path) (w : World) : Path :=
  mkPath (w_tempdir w) (name file).

(** What does not depend on the files: output, clock, staging directory,
    schedule of the other processes. *)
Definition same_globals (w w' : World) : Prop :=
  w_stdout w' = w_stdout w ∧ w_now w' = w_now w
  ∧ w_tempdir w' = w_tempdir w ∧ w_others w' = w_others w.

(** What every completed session on [file] leaves: no sentinel, no
    staging file, the session unregistered. *)
Definition session_over (file : Path) (w w' : World) : Prop :=
  same_globals w w'
  ∧ protected_open w' = dict_pop file (protected_open w)
  ∧ w_fs w' !! sibling file ".lock" = None
  ∧ w_fs w' !! staging file w = None.

(** the state of a session opened with mode [r] on an existing target,
    with the default options *)
Definition opened_r (file : Path) (fl : nat) (w1 : World) (ft : File)
  : ProtectFile * World :=
  let s := mkProtectFile false false false true file (sibling file ".lock")
             (staging file w1) (Some fl) true true (Some None)
             (Some (stat_of ft)) (Some (List.length (w_fds w1))) in
  (s,
   with_registry (dict_set file s (protected_open w1))
     (with_fds (w_fds w1 ++ [mkHandle file true false false 0 false])
        (with_fs (w_fs w1) w1))).

(** the state of a session opened with mode [x+] on a missing target,
    with the default options *)
Definition opened_xplus (file : Path) (fl : nat) (w1 : World)
  : ProtectFile * World :=
  let s := mkProtectFile true false false true file (sibling file ".lock")
             (staging file w1) (Some fl) false false (Some None)
             None (Some (List.length (w_fds w1))) in
  (s,
   with_registry (dict_set file s (protected_open w1))
     (with_fds (w_fds w1 ++ [mkHandle (staging file w1) true true false 0 false])
        (with_fs (<[staging file w1 := mkFile [] (w_now w1)]> (w_fs w1)) w1))).

(** ** The document of a metadata object *)

(** the columns that [_store] writes *)
Definition stored_keys (self : DAMeta) : list string :=
  filter (λ x, not_in x (unset_optional self)) _cols.

(** the value that [_store] writes for a column: the attribute, a path
    column as its posix text *)
Definition json_val (self : DAMeta) (key : string) : PyVal :=
  match getattr self key with
  | Some (PPath p) => if bool_decide (key ∈ _path_cols) then PStr p else PPath p
  | Some v => v
  | None => PNone
  end.

Definition doc_of (self : DAMeta) : list (PyKey * PyVal) :=
  (λ key, (KStr key, json_val self key)) <$> stored_keys self.

(** An object whose columns all have a value, the path columns a path
    (the optional ones possibly [None]). *)
Definition typed (self : DAMeta) : Prop :=
  (∀ key, key ∈ _cols → is_Some (getattr self key))
  ∧ (∀ key, key ∈ _optional_cols →
       getattr self key = Some PNone ∨ ∃ p, getattr self key = Some (PPath p)).

(** what [_read] assigns to a column from the loaded document *)
Definition read_val (posix_of : string → string) (d : list (PyKey * PyVal))
    (key : string) : option PyVal :=
  let val := default PNone (dict_get (KStr key) d) in
  if bool_decide (key ∈ _path_cols) && negb (is_None val) then
    match val with
    | PStr s => Some (PPath (posix_of s))
    | PPath p => Some (PPath p)
    | _ => None
    end
  else Some val.

(** ** File names *)

(** a string of dots only *)
Fixpoint all_dots (s : string) : bool :=
  match s with
  | EmptyString => true
  | String c s' => bool_decide (c = "."%char) && all_dots s'
  end.

(** ** What [_read] leaves in the object *)

(** the attributes after the loop of [_read] *)
Definition read_attrs (posix_of : string → string) (d : list (PyKey * PyVal))
    (keys : list string) (attrs : gmap string PyVal) : gmap string PyVal :=
  foldl (λ a k, <["_" +:+ k := default PNone (read_val posix_of d k)]> a)
        attrs keys.

(** An object that comes back from its own dump: the values of the
    columns that are not paths are values that [json.load] returns, and
    the paths are in normal form. *)
Definition json_stable (posix_of : string → string) (self : DAMeta) : Prop :=
  (∀ key v, key ∈ _cols → key ∉ _path_cols →
            getattr self key = Some v → loaded v)
  ∧ (∀ key p, key ∈ _optional_cols →
              getattr self key = Some (PPath p) → posix_of p = p).

(** ** The document of a new study *)

(** what the constructor stores for a study that has no files yet *)
Definition fresh_document (f : Path) : Json :=
  JObj [("name", JStr (name f)); ("path", JStr (parent f));
        ("da_type", JNull); ("da_dim", JNull); ("emitx", JNull);
        ("emity", JNull); ("turns", JInt 0); ("energy", JInt 0);
        ("nseeds", JInt 0); ("pairs_shift", JInt 0);
        ("pairs_shift_var", JNull); ("s_start", JInt 0);
        ("meta_file", JStr (as_posix (sibling f ".meta.json")));
        ("surv_file", JStr (as_posix (sibling f ".surv.parquet")));
        ("da_file", JStr (as_posix (sibling f ".da.parquet")));
        ("da_evol_file", JStr (as_posix (sibling f ".da_evol.parquet")));
        ("submissions", JObj [])].

(** ** A stored study *)

Module ExStored.

Definition doc : Json :=
  default JNull (to_json (PDict (doc_of ExMeta.study))).

(** a world whose only file is the metadata file of [ExMeta.study], as
    [_store] writes it *)
Definition on_disk : World :=
  with_fs {[ meta_file ExMeta.study
             := mkFile (JsonText.encode doc) "2022-04-17T09:00:00" ]}
          Ex.nothing.

(** path texts that are in normal form already *)
Definition posix (s : string) : string := s.

End ExStored.

(** * Properties *)

(** ** Paths of a session are pairwise distinct *)

Lemma append_empty_r (s : string) : s +:+ EmptyString = s.
Proof.
  induction s as [|c s IH]; [done|].
  change (String c (s +:+ EmptyString) = String c s). by rewrite IH.
Qed.

Lemma sibling_ne (p : Path) (sfx : string) : sfx ≠ EmptyString → sibling p sfx ≠ p.
Proof.
  intros Hs Heq. apply Hs. destruct p as [d n].
  injection Heq as Heq. rewrite <- (append_empty_r n) in Heq at 2.
  by apply (inj (String.app n)) in Heq.
Qed.

Lemma sibling_inj (p : Path) (a b : string) :
  sibling p a = sibling p b → a = b.
Proof.
  destruct p as [d n]. intros Heq. injection Heq as Heq.
  by apply (inj (String.app n)) in Heq.
Qed.

Lemma staging_ne_sibling (tmp : string) (p : Path) (sfx : string) :
  sfx ≠ EmptyString → mkPath tmp (name p) ≠ sibling p sfx.
Proof.
  intros Hs Heq. apply Hs. injection Heq as _ Heq.
  rewrite <- (append_empty_r (name p)) in Heq at 1.
  apply (inj (String.app (name p))) in Heq. done.
Qed.

Lemma staging_ne_target (tmp : string) (p : Path) :
  parent p ≠ tmp → mkPath tmp (name p) ≠ p.
Proof. intros Hp Heq. apply Hp. by rewrite <- Heq. Qed.

(** ** Running the monad *)

Lemma with_fs_same (w : World) : with_fs (w_fs w) w = w.
Proof. by destruct w. Qed.

Lemma with_fds_same (w : World) : with_fds (w_fds w) w = w.
Proof. by destruct w. Qed.

Lemma set_closed_closed (h : Handle) :
  h_closed h = true → set_closed h = h.
Proof. destruct h; simpl; intros ->; done. Qed.

Lemma alter_closed_noop (fd : nat) (fds : list Handle) :
  h_closed <$> fds !! fd ≠ Some false → alter set_closed fd fds = fds.
Proof.
  intros H. apply list_eq. intros i.
  destruct (decide (i = fd)) as [->|Hne].
  - rewrite list_lookup_alter_eq. destruct (fds !! fd) as [h|] eqn:E; [|done].
    simpl in *. rewrite set_closed_closed; [done|].
    destruct (h_closed h); [done | by destruct H].
  - by rewrite list_lookup_alter_ne.
Qed.

(** ** [release] as a world transformer *)

Section Release.

Lemma close_if_open_run (fd : nat) (w : World) :
  close_if_open fd w = (Val tt, with_fds (alter set_closed fd (w_fds w)) w).
Proof.
  unfold close_if_open, bind, gets, fd_closed, fd_close, modify, ret.
  destruct (h_closed <$> w_fds w !! fd) as [[|]|] eqn:E; try done.
  - rewrite alter_closed_noop; [by rewrite with_fds_same | by rewrite E].
  - rewrite alter_closed_noop; [by rewrite with_fds_same | by rewrite E].
Qed.

Lemma unlink_if_file_run (p : Path) (w : World) :
  (let* t := is_file p in when t (unlink p)) w
  = (Val tt, with_fs (delete p (w_fs w)) w).
Proof.
  unfold bind, is_file, gets, when, unlink, ret.
  destruct (w_fs w !! p) as [f|] eqn:E.
  - rewrite bool_decide_eq_true_2; [|by eexists]. by rewrite E.
  - rewrite bool_decide_eq_false_2; [|by intros [? ?]].
    by rewrite delete_id, with_fs_same.
Qed.

Lemma close_attr_run (o : option nat) (w : World) :
  (match o with
   | Some fd => close_if_open fd
   | None => ret tt
   end) w = (Val tt, with_fds (closed_in o (w_fds w)) w).
Proof.
  destruct o; simpl; [apply close_if_open_run|].
  unfold ret. by rewrite with_fds_same.
Qed.

Lemma unlink_backup_run (s : ProtectFile) (w : World) :
  (match _backup s with
   | Some (Some backup) =>
       let* b := is_file backup in
       when (_do_backup s && b && negb (_keep_backup s)) (unlink backup)
   | _ => ret tt
   end) w
  = (Val tt, with_fs (without (doomed_backup s) (w_fs w)) w).
Proof.
  unfold doomed_backup.
  destruct (_backup s) as [[b|]|]; simpl;
    try (unfold ret; by rewrite with_fs_same).
  unfold bind, is_file, gets, when, unlink, ret.
  destruct (w_fs w !! b) as [f|] eqn:E.
  - rewrite bool_decide_eq_true_2; [|by eexists].
    destruct (_do_backup s), (_keep_backup s); simpl;
      rewrite ?E, ?with_fs_same; done.
  - rewrite bool_decide_eq_false_2; [|by intros [? ?]].
    destruct (_do_backup s), (_keep_backup s); simpl;
      rewrite ?delete_id, ?with_fs_same; done.
Qed.

Lemma release_run (s : ProtectFile) (pop : bool) (w : World) :
  release s pop w = (Val tt, released s pop w).
Proof.
  unfold release, released.
  unfold bind at 1. rewrite close_attr_run.
  unfold bind at 1. rewrite unlink_if_file_run.
  unfold bind at 1. rewrite unlink_backup_run.
  unfold bind at 1. rewrite close_attr_run.
  unfold bind at 1. rewrite unlink_if_file_run.
  destruct pop; reflexivity.
Qed.

Lemma closed_in_twice (o : option nat) (fds : list Handle) :
  closed_in o (closed_in o fds) = closed_in o fds.
Proof.
  destruct o as [fd|]; simpl; [|done].
  apply alter_closed_noop. rewrite list_lookup_alter_eq.
  by destruct (fds !! fd).
Qed.

Lemma closed_in_stays (o o' : option nat) (fds : list Handle) :
  closed_in o (closed_in o' (closed_in o fds)) = closed_in o' (closed_in o fds).
Proof.
  destruct o as [fd|]; simpl; [|done].
  apply alter_closed_noop.
  destruct o' as [fd'|]; simpl.
  - destruct (decide (fd' = fd)) as [->|Hne].
    + rewrite !list_lookup_alter_eq. by destruct (fds !! fd).
    + rewrite list_lookup_alter_ne by done.
      rewrite list_lookup_alter_eq. by destruct (fds !! fd).
  - rewrite list_lookup_alter_eq. by destruct (fds !! fd).
Qed.

Lemma released_fs_twice (s : ProtectFile) (fs : gmap Path File) :
  let gone fs :=
    delete (_lock s) (without (doomed_backup s) (delete (_temp s) fs)) in
  gone (gone fs) = gone fs.
Proof.
  simpl. apply map_eq. intros p.
  destruct (doomed_backup s) as [b|]; simpl;
    rewrite ?lookup_delete; repeat case_decide; done.
Qed.

Lemma closed_in_stays_both (o o' : option nat) (fds : list Handle) :
  closed_in o (closed_in o' (closed_in o (closed_in o' fds)))
  = closed_in o (closed_in o' fds).
Proof.
  rewrite closed_in_stays.
  destruct o' as [fd'|]; simpl; [|done].
  apply alter_closed_noop.
  destruct o as [fd|]; simpl.
  - destruct (decide (fd = fd')) as [->|Hne].
    + rewrite !list_lookup_alter_eq. by destruct (fds !! fd').
    + rewrite list_lookup_alter_ne by done.
      rewrite list_lookup_alter_eq. by destruct (fds !! fd').
  - rewrite list_lookup_alter_eq. by destruct (fds !! fd').
Qed.

End Release.

(** C6: releasing a session twice, with any combination of [pop] (the
    close path uses [pop=True], the shutdown hook [pop=False]), never
    raises, and the second release changes neither the file system, nor
    the file objects, nor the output.  As [unlink] raises on a missing
    path, not raising also means that no already-absent file was asked to
    be deleted. *)
Theorem release_twice_is_noop (s : ProtectFile) (pop1 pop2 : bool) (w : World) :
  let r1 := release s pop1 w in
  let r2 := release s pop2 r1.2 in
  r1.1 = Val tt ∧ r2.1 = Val tt
  ∧ w_fs r2.2 = w_fs r1.2
  ∧ w_fds r2.2 = w_fds r1.2
  ∧ w_stdout r2.2 = w_stdout r1.2.
Proof.
  simpl. rewrite !release_run. simpl.
  repeat split.
  - apply (released_fs_twice s).
  - apply closed_in_stays_both.
Qed.

(** ** The lock loop *)

Lemma io_open_x (p : Path) (w : World) :
  io_open p "x" w
  = match w_fs w !! p with
    | Some _ => (Exc FileExistsError, w)
    | None =>
        (Val (List.length (w_fds w)),
         with_fds (w_fds w ++ [new_handle p "x" 0])
           (with_fs (<[p := mkFile [] (w_now w)]> (w_fs w)) w))
    end.
Proof. unfold io_open. simpl. by destruct (w_fs w !! p). Qed.

(** A free lock is taken at the first attempt. *)
Lemma acquire_free (fuel : nat) (lock : Path) (wait : nat) (w : World) :
  w_fs w !! lock = None →
  acquire (S fuel) lock wait w
  = (Val (List.length (w_fds w)),
     with_fds (w_fds w ++ [new_handle lock "x" 0])
       (with_fs (<[lock := mkFile [] (w_now w)]> (w_fs w)) w)).
Proof. intros H. simpl. rewrite io_open_x, H. done. Qed.

(** While the sentinel is there and nobody removes it, the loop polls. *)
Lemma acquire_spins (fuel : nat) (lock : Path) (wait : nat) (w : World) :
  is_Some (w_fs w !! lock) → w_others w = [] →
  acquire fuel lock wait w = (Spin, w).
Proof.
  intros [f Hf] Ho. induction fuel as [|fuel IH]; [done|].
  simpl. rewrite io_open_x, Hf. simpl.
  unfold time_sleep, modify. simpl. rewrite Ho. done.
Qed.

(** When the loop ends, it has just created the sentinel and holds an
    open file object on it; it never raises. *)
Lemma acquire_inv (fuel : nat) (lock : Path) (wait : nat) (w : World)
    (r : Res nat) (w1 : World) :
  acquire fuel lock wait w = (r, w1) →
  r = Spin
  ∨ ∃ w', w_fs w' !! lock = None
          ∧ w_tempdir w' = w_tempdir w
          ∧ r = Val (List.length (w_fds w'))
          ∧ w1 = with_fds (w_fds w' ++ [new_handle lock "x" 0])
                   (with_fs (<[lock := mkFile [] (w_now w')]> (w_fs w')) w').
Proof.
  revert w. induction fuel as [|fuel IH]; intros w H.
  - left. simpl in H. congruence.
  - simpl in H. rewrite io_open_x in H.
    destruct (w_fs w !! lock) as [f|] eqn:Hf.
    + simpl in H. apply IH in H. destruct H as [H|(w' & ? & Ht & ? & ?)]; [by left|].
      right. exists w'. split_and!; try done.
      rewrite Ht. unfold time_sleep, modify. simpl. by destruct (w_others w).
    + right. exists w. split_and!; try done; congruence.
Qed.

Lemma acquire_sentinel (fuel : nat) (lock : Path) (wait : nat) (w : World)
    (fl : nat) (w1 : World) :
  acquire fuel lock wait w = (Val fl, w1) →
  is_Some (w_fs w1 !! lock) ∧ w_tempdir w1 = w_tempdir w
  ∧ fd_closed fl w1 = Some false.
Proof.
  intros H. apply acquire_inv in H.
  destruct H as [H|(w' & Hn & Ht & Hr & ->)]; [done|].
  injection Hr as ->. simpl. split_and!; try done.
  - rewrite lookup_insert_eq. by eexists.
  - unfold fd_closed. simpl.
    rewrite lookup_app_r by done. by rewrite Nat.sub_diag.
Qed.

(** ** Opening with a violated requirement *)

Section Opening.

Variable copy_bytes : Data → Data.

(** The validation raise, lines 187-194: the object has its lock file
    object and the two flags, and the world is the one the lock loop
    left. *)
Lemma init_violation_run (fuel : nat) (arg : Args) (w w1 : World)
    (fl : nat) (e : Exn) :
  acquire fuel (sibling (a_file arg) ".lock") (default 1000 (a_wait arg)) w
    = (Val fl, w1) →
  violation (default "r" (a_mode arg)) (present (a_file arg) w1) = Some e →
  __init__ copy_bytes fuel arg w
  = (Exc e,
     (set_readonly false
        (set_exists (present (a_file arg) w1)
           (set_flock fl (init_fields arg (w_tempdir w)))),
      w1)).
Proof.
  intros Hacq Hv.
  unfold __init__, init_body.
  unfold bind, self, gets, lift, setattr, modify, ret, raise, when. simpl.
  rewrite Hacq. simpl. unfold is_file, gets. simpl.
  unfold violation, present in *.
  destruct (in_str "r" (default "r" (a_mode arg)));
    [|destruct (in_str "x" (default "r" (a_mode arg)))];
    destruct (bool_decide (is_Some (w_fs w1 !! a_file arg)));
    simpl in *; try done; by injection Hv as <-.
Qed.

(** C2, amended: once the lock loop has taken the lock, an open whose
    requirement is violated raises the matching error straight away and
    does nothing else: the world is the one the loop left, so the
    sentinel it created is on disk when the error is raised, and no
    backup, staging copy, file object or registry entry was made.
    [__del__] on the object then removes the sentinel without raising. *)
Theorem open_violation_fails_holding_lock (fuel : nat) (arg : Args)
    (w w1 : World) (fl : nat) (e : Exn) :
  acquire fuel (sibling (a_file arg) ".lock") (default 1000 (a_wait arg)) w
    = (Val fl, w1) →
  violation (default "r" (a_mode arg)) (present (a_file arg) w1) = Some e →
  ∃ s, __init__ copy_bytes fuel arg w = (Exc e, (s, w1))
       ∧ _lock s = sibling (a_file arg) ".lock"
       ∧ is_Some (w_fs w1 !! _lock s)
       ∧ (__del__ s w1).1 = Val tt
       ∧ w_fs (__del__ s w1).2 !! _lock s = None.
Proof.
  intros Hacq Hv. eexists. split_and!.
  - by apply init_violation_run.
  - done.
  - by apply acquire_sentinel in Hacq as (? & _).
  - unfold __del__. by rewrite release_run.
  - unfold __del__. rewrite release_run. simpl. apply lookup_delete_eq.
Qed.

(** While another holder keeps the sentinel, the open does not fail: it
    keeps polling, whatever the mode. *)
Lemma open_waits_for_lock (fuel : nat) (arg : Args) (w : World) :
  is_Some (w_fs w !! sibling (a_file arg) ".lock") → w_others w = [] →
  (__init__ copy_bytes fuel arg w).1 = Spin.
Proof.
  intros Hl Ho. unfold __init__, init_body.
  unfold bind at 1. unfold self, gets at 1.
  unfold bind at 1. unfold lift at 1. simpl.
  by rewrite acquire_spins.
Qed.

End Opening.

(** C2, counterexample: opening a missing file for reading fails with
    [FileNotFoundError], but the sentinel, absent before, is on disk
    after the failure. *)
Lemma open_fails_without_lock_refuted :
  ¬ open_fails_without_lock Ex.sound 1 (Ex.args "r") Ex.nothing.
Proof.
  intros H. specialize (H FileNotFoundError eq_refl).
  destruct H as [_ H]. vm_compute in H. discriminate.
Qed.

Lemma open_violation_fails_holding_lock_witness :
  ∃ s, __init__ Ex.sound 1 (Ex.args "x") (Ex.holding "{}")
       = (Exc FileExistsError,
          (s, (acquire 1 (sibling Ex.F ".lock") 1000 (Ex.holding "{}")).2))
       ∧ is_Some (w_fs (acquire 1 (sibling Ex.F ".lock") 1000
                          (Ex.holding "{}")).2 !! _lock s).
Proof.
  destruct (open_violation_fails_holding_lock Ex.sound 1 (Ex.args "x")
              (Ex.holding "{}")
              (acquire 1 (sibling Ex.F ".lock") 1000 (Ex.holding "{}")).2
              0 FileExistsError) as (s & H1 & H2 & H3 & _).
  - reflexivity.
  - reflexivity.
  - exists s. split; [exact H1 | exact H3].
Defined.


(** ** [__init__] step by step *)

#[local] Arguments copy2 : simpl never.
#[local] Arguments stat : simpl never.
#[local] Arguments io_open : simpl never.
#[local] Arguments acquire : simpl never.
#[local] Arguments unlink : simpl never.
#[local] Arguments rename : simpl never.
#[local] Arguments get_hash : simpl never.
#[local] Arguments release : simpl never.

Section InitFacts.

Variable copy_bytes : Data → Data.

Lemma copy2_ok (src dst : Path) (f : File) (w : World) :
  w_fs w !! src = Some f → src ≠ dst →
  copy2 copy_bytes src dst w
  = (Val tt, with_fs (<[dst := copy_of copy_bytes f]> (w_fs w)) w).
Proof.
  intros H Hne. unfold copy2. rewrite H. by destruct (decide (src = dst)).
Qed.

Lemma stat_ok (p : Path) (f : File) (w : World) :
  w_fs w !! p = Some f → stat p w = (Val (stat_of f), w).
Proof. intros H. unfold stat. by rewrite H. Qed.

Lemma acquire_tempdir (fuel : nat) (lock : Path) (wait : nat) (w : World)
    (fl : nat) (w1 : World) :
  acquire fuel lock wait w = (Val fl, w1) → w_tempdir w1 = w_tempdir w.
Proof. intros H. by apply acquire_sentinel in H as (_ & ? & _). Qed.

(** An open that holds the lock and whose requirement is met makes its
    backup and snapshot ([backed_up]), then its staging copy, then calls
    [io.open], and finishes according to what these return. *)
Lemma init_run_gen (fuel : nat) (arg : Args) (w w1 : World) (fl : nat) :
  let mode := default "r" (a_mode arg) in
  let ex := present (a_file arg) w1 in
  let s := (backed_up copy_bytes arg fl w1).1 in
  acquire fuel (sibling (a_file arg) ".lock") (default 1000 (a_wait arg)) w
    = (Val fl, w1) →
  violation mode ex = None →
  __init__ copy_bytes fuel arg w
  = match stage copy_bytes s (backed_up copy_bytes arg fl w1).2 with
    | (Val _, w2) =>
        match io_open (opened_path s) (opened_mode mode ex) w2 with
        | (Val fd, w3) => (Val tt, registered s fd w3)
        | (Exc e, w3) => (Exc e, (s, w3))
        | (Spin, w3) => (Spin, (s, w3))
        end
    | (Exc e, w2) => (Exc e, (s, w2))
    | (Spin, w2) => (Spin, (s, w2))
    end.
Proof.
  intros mode ex s Hacq Hv. subst mode ex s.
  pose proof (acquire_tempdir _ _ _ _ _ _ Hacq) as Ht.
  assert (Hb : a_file arg ≠ sibling (a_file arg) ".backup").
  { intros E. symmetry in E. by apply sibling_ne in E. }
  unfold __init__, init_body, backed_up, pre_open, stage, opened_path,
    opened_mode, registered, violation, read_only, present, init_fields in *.
  rewrite Ht.
  unfold bind at 1. unfold self at 1, gets at 1.
  unfold bind at 1. unfold lift at 1. simpl. rewrite Hacq.
  unfold bind, self, gets, lift, setattr, modify, ret, raise, when, is_file.
  simpl.
  destruct (w_fs w1 !! a_file arg) as [f|] eqn:Hf.
  - rewrite bool_decide_eq_true_2 in * by (by eexists).
    destruct (in_str "r" (default "r" (a_mode arg))) eqn:Er;
      [|destruct (in_str "x" (default "r" (a_mode arg))) eqn:Ex; [done|]];
      destruct (in_str "+" (default "r" (a_mode arg))) eqn:Ep;
      destruct (default true (a_backup_during_lock arg));
      destruct (default false (a_backup arg));
      destruct (default false (a_backup_if_readonly arg));
      simpl in *;
      rewrite ?(copy2_ok _ (sibling _ _) f) by done; simpl;
      rewrite ?(stat_ok _ f) by (simpl; by rewrite ?lookup_insert_ne); simpl;
      try (destruct (copy2 _ _ _ _) as [[?|?|] ?]; simpl; try reflexivity);
      try (destruct (io_open _ _ _) as [[?|?|] ?]; reflexivity).
  - rewrite bool_decide_eq_false_2 in * by (by intros [? ?]).
    destruct (in_str "r" (default "r" (a_mode arg))) eqn:Er; [done|].
    destruct (in_str "x" (default "r" (a_mode arg))) eqn:Ex;
      destruct (in_str "+" (default "r" (a_mode arg))) eqn:Ep;
      destruct (default true (a_backup_during_lock arg));
      destruct (default false (a_backup arg));
      destruct (default false (a_backup_if_readonly arg));
      simpl in *;
      try (destruct (io_open _ _ _) as [[?|?|] ?]; reflexivity).
Qed.

Lemma stage_ok (arg : Args) (fl : nat) (w1 : World) :
  (read_only (default "r" (a_mode arg)) = false →
   present (a_file arg) w1 = true → parent (a_file arg) ≠ w_tempdir w1) →
  stage copy_bytes (backed_up copy_bytes arg fl w1).1
    (backed_up copy_bytes arg fl w1).2
  = (Val tt, (pre_open copy_bytes arg fl w1).2)
  ∧ (backed_up copy_bytes arg fl w1).1 = (pre_open copy_bytes arg fl w1).1.
Proof.
  intros Htmp. unfold stage, backed_up, pre_open, present in *.
  destruct (w_fs w1 !! a_file arg) as [f|] eqn:Hf; simpl.
  - rewrite bool_decide_eq_true_2 in Htmp by (by eexists).
    assert (Hb : a_file arg ≠ sibling (a_file arg) ".backup").
    { intros E. symmetry in E. by apply sibling_ne in E. }
    destruct (read_only _); simpl.
    + split; [|done]. unfold ret.
      by destruct (_ && _); simpl; rewrite ?with_fs_same.
    + split; [|done].
      assert (Hne : a_file arg
                    ≠ mkPath (w_tempdir w1) (name (a_file arg))).
      { intros E. symmetry in E. apply staging_ne_target in E; auto. }
      destruct (_ && _); simpl.
      * rewrite (copy2_ok _ _ f); [done| |done].
        simpl. by rewrite lookup_insert_ne.
      * by rewrite (copy2_ok _ _ f).
  - rewrite andb_false_r. done.
Qed.

(** With the staging directory elsewhere than the target's directory,
    the open reaches [io.open] in the state [pre_open]. *)
Lemma init_run (fuel : nat) (arg : Args) (w w1 : World) (fl : nat) :
  let mode := default "r" (a_mode arg) in
  let ex := present (a_file arg) w1 in
  let pre := pre_open copy_bytes arg fl w1 in
  acquire fuel (sibling (a_file arg) ".lock") (default 1000 (a_wait arg)) w
    = (Val fl, w1) →
  violation mode ex = None →
  (read_only mode = false → ex = true → parent (a_file arg) ≠ w_tempdir w) →
  __init__ copy_bytes fuel arg w
  = match io_open (opened_path pre.1) (opened_mode mode ex) pre.2 with
    | (Val fd, w3) => (Val tt, registered pre.1 fd w3)
    | (Exc e, w3) => (Exc e, (pre.1, w3))
    | (Spin, w3) => (Spin, (pre.1, w3))
    end.
Proof.
  intros mode ex pre Hacq Hv Htmp. subst mode ex pre.
  rewrite (init_run_gen _ _ _ _ _ Hacq Hv).
  rewrite <- (acquire_tempdir _ _ _ _ _ _ Hacq) in Htmp.
  destruct (stage_ok arg fl w1 Htmp) as [-> ->]. done.
Qed.

Lemma copy2_frame (src dst : Path) (w : World) (q : Path) :
  q ≠ dst → w_fs (copy2 copy_bytes src dst w).2 !! q = w_fs w !! q.
Proof.
  intros Hq. unfold copy2.
  destruct (w_fs w !! src); [|done].
  destruct (decide (src = dst)); [done|]. simpl. by rewrite lookup_insert_ne.
Qed.

Lemma io_open_frame (p : Path) (mode : string) (w : World) (q : Path) :
  q ≠ p → w_fs (io_open p mode w).2 !! q = w_fs w !! q.
Proof.
  intros Hq. unfold io_open.
  destruct (mode_valid mode); simpl; [|done].
  unfold alloc_handle.
  repeat case_match; simpl; rewrite ?lookup_insert_ne; done.
Qed.

(** C9: with [backup=True], whatever [backup_during_lock] says, an open
    of an existing target that is not read-only and meets its mode's
    requirement has [_do_backup] set and has copied the target to
    [<file>.backup]; this holds of the object and the world that
    [__init__] leaves, whether the rest of it succeeds or raises. *)
Theorem retention_forces_backup (fuel : nat) (arg : Args) (w w1 : World)
    (fl : nat) (f : File) :
  let mode := default "r" (a_mode arg) in
  let backup := sibling (a_file arg) ".backup" in
  a_backup arg = Some true →
  acquire fuel (sibling (a_file arg) ".lock") (default 1000 (a_wait arg)) w
    = (Val fl, w1) →
  w_fs w1 !! a_file arg = Some f →
  read_only mode = false →
  violation mode true = None →
  let r := __init__ copy_bytes fuel arg w in
  _do_backup r.2.1 = true
  ∧ _keep_backup r.2.1 = true
  ∧ _backup r.2.1 = Some (Some backup)
  ∧ w_fs r.2.2 !! backup = Some (copy_of copy_bytes f).
Proof.
  intros mode backup Hb Hacq Hf Hro Hv r. subst mode backup r.
  assert (Hex : present (a_file arg) w1 = true).
  { unfold present. rewrite bool_decide_eq_true_2; [done|]. by eexists. }
  rewrite (init_run_gen _ _ _ _ _ Hacq) by (by rewrite Hex).
  assert (Hs : (backed_up copy_bytes arg fl w1)
               = (mkProtectFile true true
                    (default false (a_backup_if_readonly arg))
                    (default true (a_check_hash arg)) (a_file arg)
                    (sibling (a_file arg) ".lock")
                    (mkPath (w_tempdir w1) (name (a_file arg))) (Some fl)
                    true false (Some (Some (sibling (a_file arg) ".backup")))
                    (Some (stat_of f)) None,
                  with_fs (<[sibling (a_file arg) ".backup"
                             := copy_of copy_bytes f]> (w_fs w1)) w1)).
  { unfold backed_up, init_fields. rewrite Hf, Hro, Hb. done. }
  rewrite Hs. clear Hs.
  unfold stage, opened_path. simpl.
  set (w2 := with_fs _ w1).
  assert (Hw2 : w_fs w2 !! sibling (a_file arg) ".backup"
                = Some (copy_of copy_bytes f)).
  { subst w2. simpl. by rewrite lookup_insert_eq. }
  assert (Hne : sibling (a_file arg) ".backup"
                ≠ mkPath (w_tempdir w1) (name (a_file arg))).
  { intros E. symmetry in E. by apply staging_ne_sibling in E. }
  pose proof (copy2_frame (a_file arg)
                (mkPath (w_tempdir w1) (name (a_file arg))) w2 _ Hne) as Hc.
  destruct (copy2 _ _ _ _) as [[[]|e|] w3]; simpl in *;
    [|by rewrite Hc..].
  pose proof (io_open_frame (mkPath (w_tempdir w1) (name (a_file arg)))
                (opened_mode (default "r" (a_mode arg))
                   (present (a_file arg) w1)) w3 _ Hne) as Ho.
  destruct (io_open _ _ _) as [[fd|e|] w4]; simpl in *;
    by rewrite Ho, Hc.
Qed.

End InitFacts.

Lemma retention_forces_backup_witness :
  let arg := mkArgs Ex.F (Some "r+") None (Some false) (Some true) None None in
  let r := __init__ Ex.sound 1 arg (Ex.holding "{}") in
  _do_backup r.2.1 = true
  ∧ w_fs r.2.2 !! sibling Ex.F ".backup"
    = Some (mkFile (list_ascii_of_string "{}") "2022-04-17T09:00:00").
Proof.
  intros arg r.
  destruct (retention_forces_backup Ex.sound 1 arg (Ex.holding "{}")
              (acquire 1 (sibling Ex.F ".lock") 1000 (Ex.holding "{}")).2 0
              (mkFile (list_ascii_of_string "{}") "2022-04-17T09:00:00"))
    as (H1 & _ & _ & H4); try reflexivity.
  split; [exact H1 | exact H4].
Defined.


(** ** Property setters *)

Section Setters.

Variable copy_bytes : Data → Data.
Variable blake2b : Data → string.
Variable json_encode : Json → Data.
Variable json_decode : Data → option Json.

(** C10: when the new value compares equal ([==]) to the stored one,
    [_set_property] returns at once: the object and the whole world
    (file system, file objects, output, registry) are what they were,
    so nothing was assigned, read, written or locked. *)
Theorem set_property_same_value (fuel : nat) (prop : string)
    (val cur : PyVal) (self : DAMeta) (w : World) :
  attrs self !! ("_" +:+ prop) = Some cur →
  py_eq cur val = true →
  _set_property copy_bytes blake2b json_encode json_decode fuel prop val
    (self, w)
  = (Val tt, (self, w)).
Proof.
  intros Hcur Heq. unfold _set_property.
  unfold bind at 1. unfold the_self, gets at 1.
  unfold bind at 1. simpl. rewrite Hcur. simpl.
  by rewrite Heq.
Qed.

End Setters.

Lemma set_property_same_value_witness :
  _set_property Ex.sound Ex.digest JsonText.encode JsonText.decode 1
    "turns" (PInt 100) (ExMeta.study, Ex.nothing)
  = (Val tt, (ExMeta.study, Ex.nothing)).
Proof.
  apply (set_property_same_value Ex.sound Ex.digest JsonText.encode
           JsonText.decode 1 "turns" (PInt 100) (PInt 100));
    reflexivity.
Defined.

(** By contrast, a different value goes to the disk: here, with no
    metadata file there, the consistency check takes the lock and fails. *)
Example set_property_other_value_reads_disk :
  let r := _set_property Ex.sound Ex.digest JsonText.encode JsonText.decode 1
             "turns" (PInt 200) (ExMeta.study, Ex.nothing) in
  r.1 = Exc FileNotFoundError
  ∧ attrs r.2.1 !! "_turns" = Some (PInt 200)
  ∧ is_Some (w_fs r.2.2 !! mkPath "/data" "study.meta.json.lock").
Proof. vm_compute. split_and!; try done. by eexists. Qed.

(** ** The handle of a write session *)

(** Whatever is called on a file object changes no path but its own. *)
Lemma run_op_frame (pf : nat) (t : Path) (op : FdOp) (w : World) :
  (∀ h, w_fds w !! pf = Some h → h_path h = t) →
  (∀ h, w_fds (run_op pf op w).2 !! pf = Some h → h_path h = t)
  ∧ ∀ p, p ≠ t → w_fs (run_op pf op w).2 !! p = w_fs w !! p.
Proof.
  intros Hinv.
  destruct op; simpl;
    unfold fd_read, fd_write, fd_truncate, fd_seek, fd_close, bind,
      open_handle, file_of, put_data, put_handle, modify, ret, raise;
    simpl.
  all: destruct (w_fds w !! pf) as [h|] eqn:Hh; simpl; try done.
  all: try (specialize (Hinv h eq_refl)).
  all: repeat (case_match; simpl in *; simplify_eq); try done.
  all: split;
    [|intros p Hp; simpl; rewrite ?lookup_insert_ne; try done; try congruence].
  all: try (intros h';
            rewrite ?list_lookup_insert_eq, ?list_lookup_alter_eq, ?Hh
              by (by eapply lookup_lt_Some);
            simpl; intros; simplify_eq; try done).
  rewrite list_lookup_insert_eq in H by (by eapply lookup_lt_Some).
  by simplify_eq.
Qed.

Lemma run_ops_frame (pf : nat) (t : Path) (ops : list FdOp) (w : World) :
  (∀ h, w_fds w !! pf = Some h → h_path h = t) →
  ∀ p, p ≠ t → w_fs (run_ops pf ops w) !! p = w_fs w !! p.
Proof.
  revert w. induction ops as [|op ops IH]; intros w Hinv p Hp; [done|].
  simpl. destruct (run_op_frame pf t op w Hinv) as [Hinv' Hfr].
  rewrite IH by done. by apply Hfr.
Qed.

Lemma io_open_handle (p : Path) (mode : string) (w : World) (fd : nat)
    (w3 : World) :
  io_open p mode w = (Val fd, w3) →
  fd = List.length (w_fds w)
  ∧ (∃ pos, w_fds w3 = (w_fds w ++ [new_handle p mode pos])%list)
  ∧ protected_open w3 = protected_open w.
Proof.
  unfold io_open. destruct (mode_valid mode); simpl; [|done].
  unfold alloc_handle.
  repeat case_match; intros ?; simplify_eq; simpl; eauto.
Qed.

Section Handle.

Variable copy_bytes : Data → Data.

Lemma init_success_inv (fuel : nat) (arg : Args) (w : World)
    (s : ProtectFile) (w' : World) :
  __init__ copy_bytes fuel arg w = (Val tt, (s, w')) →
  ∃ fl w1,
    acquire fuel (sibling (a_file arg) ".lock") (default 1000 (a_wait arg)) w
      = (Val fl, w1)
    ∧ violation (default "r" (a_mode arg)) (present (a_file arg) w1) = None.
Proof.
  intros H.
  destruct (acquire fuel (sibling (a_file arg) ".lock")
              (default 1000 (a_wait arg)) w) as [[fl|e|] w1] eqn:Hacq.
  - exists fl, w1. split; [done|].
    destruct (violation _ _) as [e|] eqn:Hv; [|done].
    rewrite (init_violation_run copy_bytes _ _ _ _ _ _ Hacq Hv) in H.
    done.
  - apply acquire_inv in Hacq. destruct Hacq as [|(? & ? & ? & ? & ?)]; done.
  - unfold __init__, init_body in H.
    unfold bind at 1 in H. unfold self at 1, gets at 1 in H.
    unfold bind at 1 in H. unfold lift at 1 in H. simpl in H.
    rewrite Hacq in H. done.
Qed.

Lemma pre_open_target (arg : Args) (fl : nat) (w1 : World) :
  parent (a_file arg) ≠ w_tempdir w1 →
  w_fs (pre_open copy_bytes arg fl w1).2 !! a_file arg
  = w_fs w1 !! a_file arg.
Proof.
  intros Htmp. unfold pre_open.
  assert (Hb : sibling (a_file arg) ".backup" ≠ a_file arg)
    by (by apply sibling_ne).
  assert (Ht : mkPath (w_tempdir w1) (name (a_file arg)) ≠ a_file arg)
    by (by apply staging_ne_target).
  destruct (w_fs w1 !! a_file arg) as [f|] eqn:Hf; [|done]. simpl.
  repeat case_match; rewrite ?lookup_insert_ne; done.
Qed.

Lemma pre_open_fields (arg : Args) (fl : nat) (w1 : World) :
  let s := (pre_open copy_bytes arg fl w1).1 in
  _file s = a_file arg
  ∧ _temp s = mkPath (w_tempdir w1) (name (a_file arg))
  ∧ _lock s = sibling (a_file arg) ".lock"
  ∧ _readonly s = read_only (default "r" (a_mode arg))
  ∧ _exists s = present (a_file arg) w1
  ∧ _fd s = None
  ∧ _flock s = Some fl.
Proof.
  unfold pre_open, present.
  destruct (w_fs w1 !! a_file arg) as [f|]; simpl; split_and!; try done.
Qed.

End Handle.

(** ** Writing modes on an existing target *)

Lemma in_str_elem (c : ascii) (m : string) :
  in_str c m = true ↔ c ∈ list_ascii_of_string m.
Proof.
  induction m as [|d m IH]; simpl.
  - split; [done|]. by intros ?%elem_of_nil.
  - rewrite elem_of_cons. destruct (decide (c = d)) as [->|Hne].
    + split; [by left | done].
    + rewrite IH. split; [by right | by intros [?|?]].
Qed.

Lemma distinct_NoDup (l : list ascii) : distinct l = true → NoDup l.
Proof.
  induction l as [|c l IH]; simpl; [constructor|].
  intros [H1 H2]%andb_true_iff. constructor; [|auto].
  apply negb_true_iff, bool_decide_eq_false in H1. done.
Qed.

Lemma strings_upto_complete (n : nat) (alpha : list ascii) (m : string) :
  (∀ c, c ∈ list_ascii_of_string m → c ∈ alpha) →
  (String.length m ≤ n)%nat →
  m ∈ strings_upto n alpha.
Proof.
  revert m. induction n as [|n IH]; intros [|c m] Hc Hl; simpl in *;
    try lia; try (by left).
  right. apply list_elem_of_bind. exists c. split.
  - apply list_elem_of_fmap. exists m. split; [done|].
    apply IH; [|lia]. intros d Hd. apply Hc. by right.
  - apply Hc. by left.
Qed.

Lemma length_chars (m : string) : List.length (list_ascii_of_string m) = String.length m.
Proof. induction m; simpl; auto. Qed.

Lemma valid_write_mode_chars (m : string) :
  mode_valid m = true →
  in_str "w" m || in_str "a" m = true →
  m ∈ strings_upto 5 write_alpha.
Proof.
  intros Hv Hw. unfold mode_valid in Hv.
  apply andb_true_iff in Hv as [Hv H1].
  apply andb_true_iff in Hv as [Hv _].
  apply andb_true_iff in Hv as [Hall Hd].
  apply Nat.eqb_eq in H1. apply distinct_NoDup in Hd.
  rewrite forallb_forall in Hall.
  assert (Hone : ∀ c d, in_str c "xrwa" = true → in_str d "xrwa" = true →
                        c ∈ list_ascii_of_string m → d ∈ list_ascii_of_string m → c = d).
  { intros c d Hc Hd' Hcm Hdm.
    assert (Hc' : c ∈ filter (λ c, in_str c "xrwa") (list_ascii_of_string m))
      by (apply list_elem_of_filter; split; [by rewrite Hc|done]).
    assert (Hd'' : d ∈ filter (λ c, in_str c "xrwa") (list_ascii_of_string m))
      by (apply list_elem_of_filter; split; [by rewrite Hd'|done]).
    destruct (filter _ _) as [|z [|? ?]]; simpl in H1; try lia.
    apply list_elem_of_singleton in Hc', Hd''. congruence. }
  assert (Hin : ∀ c, c ∈ list_ascii_of_string m → c ∈ write_alpha).
  { intros c Hc. pose proof (Hall c) as Ha.
    rewrite <- list_elem_of_In in Ha. specialize (Ha Hc).
    apply orb_true_iff in Hw.
    assert (c ≠ "x"%char ∧ c ≠ "r"%char) as [Hx Hr].
    { split; intros ->; destruct Hw as [Hw|Hw]; apply in_str_elem in Hw;
        match goal with
        | Hc : ?c ∈ _, Hw : ?d ∈ _ |- _ =>
            assert (E := Hone c d eq_refl eq_refl Hc Hw); done
        end. }
    apply in_str_elem in Ha. unfold write_alpha. simpl in *.
    repeat (apply elem_of_cons in Ha as [->|Ha]); try done;
      try (by apply elem_of_nil in Ha);
      rewrite !elem_of_cons; auto 10. }
  apply strings_upto_complete; [done|].
  rewrite <- length_chars.
  apply NoDup_submseteq in Hin; [|done].
  apply submseteq_length in Hin. done.
Qed.

Lemma write_modes_checked :
  forallb (λ m, negb (mode_valid m && (in_str "w" m || in_str "a" m))
                || write_mode_ok m)
          (strings_upto 5 write_alpha) = true.
Proof. vm_compute. reflexivity. Qed.

Lemma valid_write_mode (m : string) :
  mode_valid m = true →
  in_str "w" m || in_str "a" m = true →
  in_str "r" m = false ∧ in_str "x" m = false
  ∧ mode_valid (opened_mode m true) = true
  ∧ in_str "r" (opened_mode m true) = true
  ∧ in_str "+" (opened_mode m true) = true
  ∧ in_str "a" (opened_mode m true) = false.
Proof.
  intros Hv Hw.
  pose proof (valid_write_mode_chars m Hv Hw) as Hin.
  pose proof write_modes_checked as Hall.
  rewrite forallb_forall in Hall. apply list_elem_of_In, Hall in Hin.
  rewrite Hv, Hw in Hin. simpl in Hin. unfold write_mode_ok in Hin.
  rewrite !andb_true_iff, !negb_true_iff in Hin.
  destruct Hin as (((((((? & ?) & ?) & ?) & ?) & ?) & ?) & ?). done.
Qed.

Lemma io_open_r (p : Path) (m : string) (w : World) (f : File) :
  mode_valid m = true → in_str "r" m = true → w_fs w !! p = Some f →
  io_open p m w
  = (Val (List.length (w_fds w)),
     with_fds (w_fds w ++ [new_handle p m 0]) w).
Proof.
  intros Hv Hr Hf. unfold io_open. rewrite Hv. simpl. by rewrite Hr, Hf.
Qed.

Lemma write_at_start (d old : Data) :
  write_at 0 d old = (d ++ drop (List.length d) old)%list.
Proof. unfold write_at. by rewrite take_0. Qed.

Lemma fd_write_ok (pf : nat) (d : Data) (w : World) (h : Handle) (f : File) :
  w_fds w !! pf = Some h → h_closed h = false → h_writable h = true →
  h_append h = false → w_fs w !! h_path h = Some f →
  fd_write pf d w
  = (Val tt,
     with_fds (<[pf := set_pos (h_pos h + List.length d) h]> (w_fds w))
       (with_fs (<[h_path h := mkFile (write_at (h_pos h) d (f_data f))
                                 (w_now w)]> (w_fs w)) w)).
Proof.
  intros Hh Hc Hw Ha Hf.
  unfold fd_write, bind, open_handle, file_of, put_data, put_handle, modify.
  rewrite Hh, Hc, Hw. simpl. by rewrite Hf, Ha.
Qed.

Lemma fd_truncate_ok (pf n : nat) (w : World) (h : Handle) (f : File) :
  w_fds w !! pf = Some h → h_closed h = false → h_writable h = true →
  w_fs w !! h_path h = Some f →
  fd_truncate pf n w
  = (Val tt,
     with_fs (<[h_path h
                := mkFile (take n (f_data f)
                             ++ replicate (n - List.length (f_data f))
                                  "000"%char)%list
                     (w_now w)]> (w_fs w)) w).
Proof.
  intros Hh Hc Hw Hf.
  unfold fd_truncate, bind, open_handle, file_of, put_data, modify.
  rewrite Hh, Hc, Hw. simpl. by rewrite Hf.
Qed.

Section WriteModes.
Variable copy_bytes : Data → Data.

(** C8: for a mode that [io.open] accepts and that contains [w] or
    [a], opening an existing target (staging directory elsewhere, lock
    taken) succeeds; the handle is a file object on the staging path,
    readable and writable, not appending, at offset 0; the target is
    untouched and the staging file holds the copy of its whole content;
    a write of [d] through the handle overwrites in place, the content
    past [d] surviving, whereas [truncate(0)] first leaves [d] alone. *)
Theorem write_mode_keeps_content (fuel : nat) (arg : Args) (w w1 : World)
    (fl : nat) (mode : string) (f : File) :
  a_mode arg = Some mode →
  mode_valid mode = true →
  in_str "w" mode || in_str "a" mode = true →
  parent (a_file arg) ≠ w_tempdir w →
  acquire fuel (sibling (a_file arg) ".lock") (default 1000 (a_wait arg)) w
    = (Val fl, w1) →
  w_fs w1 !! a_file arg = Some f →
  ∃ s w' pf,
    __init__ copy_bytes fuel arg w = (Val tt, (s, w'))
    ∧ __enter__ s w' = (Val pf, w')
    ∧ w_fds w' !! pf = Some (mkHandle (_temp s) true true false 0 false)
    ∧ w_fs w' !! a_file arg = Some f
    ∧ w_fs w' !! _temp s = Some (copy_of copy_bytes f)
    ∧ (∀ d, let r := fd_write pf d w' in
            r.1 = Val tt
            ∧ f_data <$> w_fs r.2 !! _temp s
              = Some (d ++ drop (List.length d) (copy_bytes (f_data f)))%list)
    ∧ (∀ d, let r := (fd_truncate pf 0 ;; fd_write pf d) w' in
            r.1 = Val tt ∧ f_data <$> w_fs r.2 !! _temp s = Some d).
Proof.
  intros Hm Hv Hw Htmp Hacq Hf.
  destruct (valid_write_mode mode Hv Hw) as (Hr & Hx & Hv' & Hr' & Hp' & Ha').
  pose proof (acquire_tempdir _ _ _ _ _ _ Hacq) as Ht.
  assert (Hex : present (a_file arg) w1 = true).
  { unfold present. rewrite bool_decide_eq_true_2; [done|]. by eexists. }
  assert (Hro : read_only mode = false).
  { unfold read_only. by rewrite Hr. }
  assert (Hvi : violation mode true = None).
  { unfold violation. by rewrite Hr, Hx. }
  rewrite (init_run copy_bytes _ _ _ _ _ Hacq); rewrite ?Hm, ?Hex; simpl;
    [|done..].
  assert (Hpre : pre_open copy_bytes arg fl w1
          = (mkProtectFile (_do_backup (init_fields arg (w_tempdir w1)))
               (_keep_backup (init_fields arg (w_tempdir w1)))
               (_backup_if_readonly (init_fields arg (w_tempdir w1)))
               (_check_hash (init_fields arg (w_tempdir w1)))
               (a_file arg) (sibling (a_file arg) ".lock")
               (mkPath (w_tempdir w1) (name (a_file arg))) (Some fl) true
               false
               (Some (if _do_backup (init_fields arg (w_tempdir w1))
                      then Some (sibling (a_file arg) ".backup") else None))
               (Some (stat_of f)) None,
             with_fs (<[mkPath (w_tempdir w1) (name (a_file arg))
                        := copy_of copy_bytes f]>
                        (if _do_backup (init_fields arg (w_tempdir w1))
                         then <[sibling (a_file arg) ".backup"
                                := copy_of copy_bytes f]> (w_fs w1)
                         else w_fs w1)) w1)).
  { unfold pre_open. rewrite Hf, Hm. simpl. rewrite Hro. simpl.
    by rewrite andb_true_r. }
  rewrite Hpre. unfold opened_path. simpl.
  erewrite io_open_r; [|done|done|simpl; apply lookup_insert_eq].
  simpl.
  eexists _, _, _. split; [reflexivity|]. simpl.
  assert (Hne : mkPath (w_tempdir w1) (name (a_file arg)) ≠ a_file arg).
  { apply staging_ne_target. by rewrite Ht. }
  assert (Hb : sibling (a_file arg) ".backup" ≠ a_file arg)
    by (by apply sibling_ne).
  set (h := mkHandle (mkPath (w_tempdir w1) (name (a_file arg)))
              true true false 0 false).
  assert (Hnew : new_handle (mkPath (w_tempdir w1) (name (a_file arg)))
                   (opened_mode mode true) 0 = h).
  { unfold new_handle. by rewrite Hr', Hp', Ha'. }
  rewrite Hnew.
  assert (Hh : (w_fds w1 ++ [h])%list !! List.length (w_fds w1) = Some h).
  { rewrite lookup_app_r by done. by rewrite Nat.sub_diag. }
  split_and!.
  - done.
  - done.
  - rewrite lookup_insert_ne by done.
    destruct (if default false (a_backup arg) then true else _);
      rewrite ?lookup_insert_ne; done.
  - by rewrite lookup_insert_eq.
  - intros d.
    erewrite fd_write_ok; [|exact Hh|done..|simpl; apply lookup_insert_eq].
    simpl. rewrite lookup_insert_eq. simpl. by rewrite write_at_start.
  - intros d. unfold bind.
    erewrite fd_truncate_ok; [|exact Hh|done..|simpl; apply lookup_insert_eq].
    erewrite fd_write_ok; [|exact Hh|done..|simpl; apply lookup_insert_eq].
    simpl. rewrite lookup_insert_eq. simpl. rewrite write_at_start.
    by rewrite drop_nil, app_nil_r.
Qed.
End WriteModes.

Lemma write_mode_keeps_content_witness :
  ∃ s w' pf,
    __init__ Ex.sound 1 (Ex.args "w") (Ex.holding "0123456789")
    = (Val tt, (s, w'))
    ∧ f_data <$> w_fs (fd_write pf (list_ascii_of_string "abc") w').2 !! _temp s
      = Some (list_ascii_of_string "abc3456789").
Proof.
  destruct (write_mode_keeps_content Ex.sound 1 (Ex.args "w")
              (Ex.holding "0123456789")
              (acquire 1 (sibling Ex.F ".lock") 1000
                 (Ex.holding "0123456789")).2
              0 "w" (mkFile (list_ascii_of_string "0123456789")
                       "2022-04-17T09:00:00"))
    as (s & w' & pf & Hi & _ & _ & _ & _ & Hw & _).
  - reflexivity.
  - vm_compute. reflexivity.
  - vm_compute. reflexivity.
  - vm_compute. discriminate.
  - vm_compute. reflexivity.
  - vm_compute. reflexivity.
  - exists s, w', pf. split; [exact Hi|].
    exact (proj2 (Hw (list_ascii_of_string "abc"))).
Defined.

(** ** Closing *)

Lemma salvage_suffix (now : string) :
  "__" +:+ now +:+ ".result" ≠ EmptyString
  ∧ "__" +:+ now +:+ ".result" ≠ ".backup"
  ∧ "__" +:+ now +:+ ".result" ≠ ".lock".
Proof. split_and!; intros H; discriminate H. Qed.

Section Closing.
Variable copy_bytes : Data → Data.
Variable blake2b : Data → string.

Lemma session_paths_distinct (s : ProtectFile) (w : World) :
  wf_write_session s →
  let file := _file s in
  let bk := sibling (_file s) ".backup" in
  let alt := salvage s w in
  _temp s ≠ file ∧ _temp s ≠ bk ∧ _temp s ≠ alt ∧ _temp s ≠ _lock s
  ∧ bk ≠ file ∧ _lock s ≠ file ∧ alt ≠ file
  ∧ alt ≠ bk ∧ alt ≠ _lock s ∧ bk ≠ _lock s.
Proof.
  intros (_ & _ & _ & Hl & Hn & Hp & _). simpl. rewrite Hl.
  destruct (salvage_suffix (w_now w)) as (S1 & S2 & S3).
  unfold salvage.
  split_and!; try (intros E; apply Hp; by rewrite E);
    try (by apply sibling_ne);
    try (intros E%sibling_inj; done).
Qed.

Lemma exit_close_run (fd : nat) (w : World) :
  (let* c := gets (fd_closed fd) in
   when (negb (default true c)) (fd_close fd)) w
  = (Val tt, with_fds (closed_in (Some fd) (w_fds w)) w).
Proof.
  unfold bind, gets, when, fd_close, modify, ret, fd_closed. simpl.
  destruct (h_closed <$> w_fds w !! fd) as [[|]|] eqn:E; simpl; try done.
  - rewrite alter_closed_noop; [by rewrite with_fds_same | by rewrite E].
  - rewrite alter_closed_noop; [by rewrite with_fds_same | by rewrite E].
Qed.

Lemma unlink_ok (p : Path) (f : File) (w : World) :
  w_fs w !! p = Some f → unlink p w = (Val tt, with_fs (delete p (w_fs w)) w).
Proof. intros H. unfold unlink. by rewrite H. Qed.

Lemma rename_ok (src dst : Path) (f : File) (w : World) :
  w_fs w !! src = Some f →
  rename src dst w = (Val tt, with_fs (<[dst := f]> (delete src (w_fs w))) w).
Proof. intros H. unfold rename. by rewrite H. Qed.

Lemma get_hash_ok (p : Path) (f : File) (w : World) :
  w_fs w !! p = Some f → get_hash blake2b p w = (Val (blake2b (f_data f)), w).
Proof. intros H. unfold get_hash. by rewrite H. Qed.

(** [restore] on a write session whose staging file and backup (if
    taken) are in place *)
Lemma restore_run (s : ProtectFile) (w : World) (staged : File) :
  wf_write_session s →
  w_fs w !! _temp s = Some staged →
  (_do_backup s = true → is_Some (w_fs w !! sibling (_file s) ".backup")) →
  restore copy_bytes s w
  = (Val tt,
     with_stdout (w_stdout w ++ rollback_report s w)
       (with_fs (delete (_temp s)
                   (<[salvage s w := copy_of copy_bytes staged]>
                      (restored s (w_fs w)))) w)).
Proof.
  intros Hwf Ht Hb.
  destruct (session_paths_distinct s w Hwf)
    as (T1 & T2 & T3 & T4 & B1 & L1 & A1 & A2 & A3 & B2).
  destruct Hwf as (Hro & Hex & Hfd & Hl & Hn & Hp & Hbk).
  unfold restore, restored, rollback_report, mv_temp_to, salvage in *.
  rewrite Hro, Hbk. simpl.
  destruct (_do_backup s) eqn:Hdo; simpl.
  - destruct (Hb eq_refl) as [fb Hfb]. rewrite Hfb.
    unfold bind, when, print, modify, gets, ret. simpl.
    rewrite (rename_ok _ _ fb) by done. simpl.
    rewrite (copy2_ok _ _ _ staged); [|simpl|done].
    2:{ rewrite lookup_insert_ne by done. by rewrite lookup_delete_ne. }
    simpl. rewrite (unlink_ok _ (staged)); [|simpl].
    2:{ rewrite lookup_insert_ne by done. rewrite lookup_insert_ne by done.
        by rewrite lookup_delete_ne. }
    simpl. by rewrite <- app_assoc.
  - unfold bind, when, print, modify, gets, ret. simpl.
    rewrite (copy2_ok _ _ _ staged); [|done|done].
    simpl. rewrite (unlink_ok _ (staged)); [|simpl].
    2:{ by rewrite lookup_insert_ne. }
    simpl. done.
Qed.

Lemma released_after_close (s : ProtectFile) (pop : bool) (w : World) :
  released s pop (with_fds (closed_in (_fd s) (w_fds w)) w)
  = released s pop w.
Proof. unfold released. simpl. by rewrite closed_in_twice. Qed.

(** the commit: metadata unchanged, copy verified or not checked *)
Lemma exit_commit_run (s : ProtectFile) (w : World) (ft staged : File) :
  wf_write_session s →
  w_fs w !! _file s = Some ft →
  w_fs w !! _temp s = Some staged →
  Some (stat_of ft) = _fstat s →
  (_check_hash s = true →
   blake2b (copy_bytes (f_data staged)) = blake2b (f_data staged)) →
  __exit__ copy_bytes blake2b s w
  = (Val tt,
     released s true
       (with_fs (delete (_temp s)
                   (<[_file s := copy_of copy_bytes staged]> (w_fs w))) w)).
Proof.
  intros Hwf Hft Hst Hsame Hhash.
  destruct (session_paths_distinct s w Hwf)
    as (T1 & T2 & T3 & T4 & B1 & L1 & A1 & A2 & A3 & B2).
  destruct Hwf as (Hro & Hex & [fd Hfd] & Hl & Hn & Hp & Hbk).
  unfold __exit__, mv_temp. rewrite Hfd, Hex, Hro. simpl.
  unfold bind at 1. rewrite exit_close_run.
  unfold bind at 1. unfold bind at 1.
  rewrite (stat_ok _ ft) by done. unfold ret at 1.
  rewrite bool_decide_eq_false_2 by (intros E; by apply E).
  unfold bind at 1. unfold bind at 1.
  rewrite (copy2_ok _ _ _ staged) by done.
  unfold bind at 1.
  assert (Hnm : (if _check_hash s
                 then
                   let* h1 := get_hash blake2b (_temp s) in
                   let* h2 := get_hash blake2b (_file s) in
                   ret (bool_decide (h1 ≠ h2))
                 else ret false)
                  (with_fs (<[_file s := copy_of copy_bytes staged]>
                              (w_fs (with_fds (closed_in (Some fd) (w_fds w)) w)))
                     (with_fds (closed_in (Some fd) (w_fds w)) w))
                = (Val false,
                   with_fs (<[_file s := copy_of copy_bytes staged]>
                              (w_fs (with_fds (closed_in (Some fd) (w_fds w)) w)))
                     (with_fds (closed_in (Some fd) (w_fds w)) w))).
  { destruct (_check_hash s); [|done].
    unfold bind.
    rewrite (get_hash_ok _ staged) by (simpl; by rewrite lookup_insert_ne).
    rewrite (get_hash_ok _ (copy_of copy_bytes staged))
      by (simpl; by rewrite lookup_insert_eq).
    unfold ret. simpl. rewrite bool_decide_eq_false_2; [done|].
    intros E. apply E. symmetry. by apply Hhash. }
  rewrite Hnm. clear Hnm. simpl.
  unfold bind at 1. unfold ret at 1.
  rewrite (unlink_ok _ staged) by (simpl; by rewrite lookup_insert_ne).
  rewrite release_run. simpl.
  f_equal. unfold released. simpl. rewrite Hfd.
  change (alter set_closed fd (w_fds w)) with (closed_in (Some fd) (w_fds w)).
  by rewrite closed_in_twice.
Qed.

(** the rollback of [__exit__]: metadata changed *)
Lemma exit_rollback_run (s : ProtectFile) (w : World) (ft staged : File) :
  wf_write_session s →
  w_fs w !! _file s = Some ft →
  w_fs w !! _temp s = Some staged →
  Some (stat_of ft) ≠ _fstat s →
  (_do_backup s = true → is_Some (w_fs w !! sibling (_file s) ".backup")) →
  __exit__ copy_bytes blake2b s w
  = (Val tt,
     released s true
       (with_stdout (w_stdout w ++ changed_report s :: rollback_report s w)
          (with_fs (delete (_temp s)
                      (<[salvage s w := copy_of copy_bytes staged]>
                         (restored s (w_fs w)))) w))).
Proof.
  intros Hwf Hft Hst Hdiff Hb.
  pose proof Hwf as (Hro & Hex & [fd Hfd] & Hl & Hn & Hp & Hbk).
  unfold __exit__. rewrite Hfd, Hex. simpl.
  unfold bind at 1. rewrite exit_close_run.
  unfold bind at 1. unfold bind at 1.
  rewrite (stat_ok _ ft) by done. unfold ret at 1.
  rewrite bool_decide_eq_true_2 by done.
  unfold bind at 1. unfold bind at 1. unfold print at 1, modify at 1.
  rewrite (restore_run s _ staged) by done.
  rewrite release_run. simpl.
  f_equal. unfold released, changed_report, rollback_report, salvage. simpl.
  rewrite Hfd.
  change (alter set_closed fd (w_fds w)) with (closed_in (Some fd) (w_fds w)).
  rewrite closed_in_twice. by rewrite <- app_assoc.
Qed.

(** the commit copy arrives damaged: rollback, and then the second
    [unlink] of the staging file *)
Lemma exit_mismatch_run (s : ProtectFile) (w : World) (ft staged : File) :
  wf_write_session s →
  w_fs w !! _file s = Some ft →
  w_fs w !! _temp s = Some staged →
  Some (stat_of ft) = _fstat s →
  (_do_backup s = true → is_Some (w_fs w !! sibling (_file s) ".backup")) →
  _check_hash s = true →
  blake2b (copy_bytes (f_data staged)) ≠ blake2b (f_data staged) →
  __exit__ copy_bytes blake2b s w
  = (Exc FileNotFoundError,
     with_stdout (w_stdout w ++ mismatch_report s :: rollback_report s w)
       (with_fs (delete (_temp s)
                   (<[salvage s w := copy_of copy_bytes staged]>
                      (restored s
                         (<[_file s := copy_of copy_bytes staged]> (w_fs w)))))
          (with_fds (closed_in (_fd s) (w_fds w)) w))).
Proof.
  intros Hwf Hft Hst Hsame Hb Hch Hhash.
  destruct (session_paths_distinct s w Hwf)
    as (T1 & T2 & T3 & T4 & B1 & L1 & A1 & A2 & A3 & B2).
  pose proof Hwf as (Hro & Hex & [fd Hfd] & Hl & Hn & Hp & Hbk).
  unfold __exit__, mv_temp. rewrite Hfd, Hex, Hro, Hch. simpl.
  unfold bind at 1. rewrite exit_close_run.
  unfold bind at 1. unfold bind at 1.
  rewrite (stat_ok _ ft) by done. unfold ret at 1.
  rewrite bool_decide_eq_false_2 by (intros E; by apply E).
  unfold bind at 1. unfold bind at 1.
  rewrite (copy2_ok _ _ _ staged) by done.
  unfold bind at 1. unfold bind at 1.
  rewrite (get_hash_ok _ staged) by (simpl; by rewrite lookup_insert_ne).
  unfold bind at 1.
  rewrite (get_hash_ok _ (copy_of copy_bytes staged))
    by (simpl; by rewrite lookup_insert_eq).
  unfold ret at 1. simpl.
  rewrite bool_decide_eq_true_2 by (intros E; by apply Hhash).
  simpl.
  unfold bind at 1. unfold bind at 1. unfold print at 1, modify at 1.
  rewrite (restore_run s _ staged); [|done| |].
  2:{ simpl. by rewrite lookup_insert_ne. }
  2:{ simpl. intros Hd. rewrite lookup_insert_ne by done. by apply Hb. }
  unfold unlink. simpl. rewrite lookup_delete_eq.
  f_equal. unfold mismatch_report, rollback_report, salvage. simpl.
  by rewrite <- app_assoc.
Qed.

(** the same on a target that was not there: [_backup] is [None] while
    [_do_backup] is still set, and [restore] fails on it *)
Lemma exit_mismatch_new_run (s : ProtectFile) (w : World) (staged : File)
    (fd : nat) :
  _readonly s = false → _exists s = false → _fd s = Some fd →
  _do_backup s = true → _backup s = Some None →
  _temp s ≠ _file s →
  w_fs w !! _temp s = Some staged →
  _check_hash s = true →
  blake2b (copy_bytes (f_data staged)) ≠ blake2b (f_data staged) →
  __exit__ copy_bytes blake2b s w
  = (Exc AttributeError,
     with_stdout (w_stdout w ++ [mismatch_report s])
       (with_fs (<[_file s := copy_of copy_bytes staged]> (w_fs w))
          (with_fds (closed_in (_fd s) (w_fds w)) w))).
Proof.
  intros Hro Hex Hfd Hdo Hbk Hne Hst Hch Hhash.
  unfold __exit__, mv_temp, restore. rewrite Hfd, Hex, Hro, Hch, Hdo, Hbk.
  simpl.
  unfold bind at 1. rewrite exit_close_run.
  unfold bind at 1. unfold ret at 1.
  unfold bind at 1. unfold bind at 1.
  rewrite (copy2_ok _ _ _ staged) by done.
  unfold bind at 1. unfold bind at 1.
  rewrite (get_hash_ok _ staged) by (simpl; by rewrite lookup_insert_ne).
  unfold bind at 1.
  rewrite (get_hash_ok _ (copy_of copy_bytes staged))
    by (simpl; by rewrite lookup_insert_eq).
  unfold ret at 1. simpl.
  rewrite bool_decide_eq_true_2 by (intros E; by apply Hhash).
  simpl. reflexivity.
Qed.

Lemma doomed_backup_wf (s : ProtectFile) :
  wf_write_session s →
  doomed_backup s
  = if _do_backup s && negb (_keep_backup s)
    then Some (sibling (_file s) ".backup") else None.
Proof.
  intros (_ & _ & _ & _ & _ & _ & Hbk). unfold doomed_backup. rewrite Hbk.
  by destruct (_do_backup s).
Qed.

(** [release] leaves every path alone except the staging file, the
    sentinel and the backup. *)
Lemma released_lookup (s : ProtectFile) (pop : bool) (w : World) (p : Path) :
  wf_write_session s →
  p ≠ _temp s → p ≠ _lock s → p ≠ sibling (_file s) ".backup" →
  w_fs (released s pop w) !! p = w_fs w !! p.
Proof.
  intros Hwf H1 H2 H3. unfold released. simpl.
  rewrite lookup_delete_ne by done. rewrite (doomed_backup_wf s Hwf).
  destruct (_ && _); simpl; rewrite ?lookup_delete_ne; done.
Qed.

Lemma released_gone (s : ProtectFile) (pop : bool) (w : World) :
  wf_write_session s →
  w_fs (released s pop w) !! _temp s = None
  ∧ w_fs (released s pop w) !! _lock s = None.
Proof.
  intros Hwf.
  destruct (session_paths_distinct s w Hwf)
    as (T1 & T2 & T3 & T4 & B1 & L1 & A1 & A2 & A3 & B2).
  unfold released. simpl. rewrite (doomed_backup_wf s Hwf).
  split; [|apply lookup_delete_eq].
  rewrite lookup_delete_ne by done.
  destruct (_ && _); simpl; rewrite ?lookup_delete_ne by done;
    apply lookup_delete_eq.
Qed.

(** C1, amended: at the close of a session that is not read-only, on a
    target that was there at the open and still is, with the staging
    file and (if one was taken) the backup in place, and provided that
    the copy passes the hash check when the check is on: [__exit__]
    returns normally, the staging file and the sentinel are gone, and
    - if the metadata equal the snapshot, the target holds the copy of
      the staging file, the salvage path is as before and nothing is
      printed (commit, no rollback);
    - otherwise the target holds what the backup held (or, without a
      backup, what it held at the close), the salvage file holds the
      copy of the staging file, and the failure is printed (rollback,
      no commit). *)
Theorem close_of_write_session (s : ProtectFile) (w : World)
    (ft staged : File) :
  wf_write_session s →
  w_fs w !! _file s = Some ft →
  w_fs w !! _temp s = Some staged →
  (_do_backup s = true → is_Some (w_fs w !! sibling (_file s) ".backup")) →
  (_check_hash s = true →
   blake2b (copy_bytes (f_data staged)) = blake2b (f_data staged)) →
  let r := __exit__ copy_bytes blake2b s w in
  r.1 = Val tt
  ∧ w_fs r.2 !! _temp s = None
  ∧ w_fs r.2 !! _lock s = None
  ∧ if decide (Some (stat_of ft) = _fstat s) then
      w_fs r.2 !! _file s = Some (copy_of copy_bytes staged)
      ∧ w_fs r.2 !! salvage s w = w_fs w !! salvage s w
      ∧ w_stdout r.2 = w_stdout w
    else
      w_fs r.2 !! _file s
      = (if _do_backup s then w_fs w !! sibling (_file s) ".backup"
         else Some ft)
      ∧ w_fs r.2 !! salvage s w = Some (copy_of copy_bytes staged)
      ∧ w_stdout r.2
        = (w_stdout w ++ changed_report s :: rollback_report s w)%list.
Proof.
  intros Hwf Hft Hst Hb Hhash r. subst r.
  destruct (session_paths_distinct s w Hwf)
    as (T1 & T2 & T3 & T4 & B1 & L1 & A1 & A2 & A3 & B2).
  destruct (decide (Some (stat_of ft) = _fstat s)) as [Hsame|Hdiff].
  - rewrite (exit_commit_run s w ft staged) by done. cbn [fst snd].
    destruct (released_gone s true
                (with_fs (delete (_temp s)
                            (<[_file s := copy_of copy_bytes staged]> (w_fs w)))
                   w) Hwf) as [G1 G2].
    split_and!; try done.
    + rewrite released_lookup by done. simpl.
      rewrite lookup_delete_ne by done. apply lookup_insert_eq.
    + rewrite released_lookup by done. simpl.
      rewrite lookup_delete_ne by done. by rewrite lookup_insert_ne.
  - rewrite (exit_rollback_run s w ft staged) by done. cbn [fst snd].
    match goal with
    | |- context [released s true ?W] =>
        destruct (released_gone s true W Hwf) as [G1 G2]
    end.
    split_and!; try done.
    + rewrite released_lookup by done. simpl.
      rewrite lookup_delete_ne by done.
      rewrite lookup_insert_ne by done.
      unfold restored. destruct (_do_backup s) eqn:Hdo; [|done].
      destruct (Hb eq_refl) as [fb Hfb]. rewrite Hfb.
      by rewrite lookup_insert_eq.
    + rewrite released_lookup by done. simpl.
      rewrite lookup_delete_ne by done. by rewrite lookup_insert_eq.
Qed.

(** C3: when the digests differ after the commit copy, the rollback is
    made and reported, and then [__exit__] raises [FileNotFoundError]
    (the second [unlink] of the staging file, line 263): [release] is
    not reached, the sentinel is where it was and the session is still
    registered. *)
Theorem hash_mismatch_escapes_close (s : ProtectFile) (w : World)
    (ft staged : File) :
  wf_write_session s →
  w_fs w !! _file s = Some ft →
  w_fs w !! _temp s = Some staged →
  Some (stat_of ft) = _fstat s →
  (_do_backup s = true → is_Some (w_fs w !! sibling (_file s) ".backup")) →
  _check_hash s = true →
  blake2b (copy_bytes (f_data staged)) ≠ blake2b (f_data staged) →
  let r := __exit__ copy_bytes blake2b s w in
  r.1 = Exc FileNotFoundError
  ∧ w_stdout r.2
    = (w_stdout w ++ mismatch_report s :: rollback_report s w)%list
  ∧ w_fs r.2 !! salvage s w = Some (copy_of copy_bytes staged)
  ∧ w_fs r.2 !! _lock s = w_fs w !! _lock s
  ∧ protected_open r.2 = protected_open w
  ∧ (∀ fl, _flock s = Some fl → fd_closed fl r.2 = fd_closed fl w
           ∨ _fd s = Some fl).
Proof.
  intros Hwf Hft Hst Hsame Hb Hch Hhash r. subst r.
  destruct (session_paths_distinct s w Hwf)
    as (T1 & T2 & T3 & T4 & B1 & L1 & A1 & A2 & A3 & B2).
  rewrite (exit_mismatch_run s w ft staged) by done. simpl.
  split_and!; try done.
  - rewrite lookup_delete_ne by done. by rewrite lookup_insert_eq.
  - rewrite lookup_delete_ne by done. rewrite lookup_insert_ne by done.
    unfold restored. destruct (_do_backup s) eqn:Hdo.
    + rewrite lookup_insert_ne by (intros E; by apply B1).
      destruct (w_fs w !! sibling (_file s) ".backup") eqn:Hbk' .
      * rewrite lookup_insert_ne by done.
        rewrite lookup_delete_ne by done. by rewrite lookup_insert_ne.
      * by rewrite lookup_insert_ne.
    + by rewrite lookup_insert_ne.
  - intros fl Hfl. unfold fd_closed. simpl.
    destruct (_fd s) as [fd|] eqn:Hfd; simpl; [|by left].
    destruct (decide (fd = fl)) as [->|Hne]; [by right|left].
    by rewrite list_lookup_alter_ne.
Qed.

(** C5: on a target that was not there at the open, [_backup] is [None]
    while [_do_backup] keeps its default; when the digests differ after
    the commit copy, [restore] raises [AttributeError] at the rename,
    before the salvage copy: the salvage path is as before, the staged
    content is still only in the staging file, and releasing the
    session afterwards deletes it. *)
Theorem rollback_on_new_target_loses_staged (s : ProtectFile) (w : World)
    (staged : File) (fd : nat) :
  _readonly s = false → _exists s = false → _fd s = Some fd →
  _do_backup s = true → _backup s = Some None →
  _temp s ≠ _file s →
  w_fs w !! _temp s = Some staged →
  _check_hash s = true →
  blake2b (copy_bytes (f_data staged)) ≠ blake2b (f_data staged) →
  let r := __exit__ copy_bytes blake2b s w in
  r.1 = Exc AttributeError
  ∧ w_fs r.2 !! salvage s w = w_fs w !! salvage s w
  ∧ w_fs r.2 !! _temp s = Some staged
  ∧ ∀ pop, w_fs (release s pop r.2).2 !! _temp s = None.
Proof.
  intros Hro Hex Hfd Hdo Hbk Hne Hst Hch Hhash r. subst r.
  rewrite (exit_mismatch_new_run s w staged fd) by done. simpl.
  destruct (salvage_suffix (w_now w)) as (S1 & _ & _).
  split_and!; try done.
  - rewrite lookup_insert_ne; [done|].
    intros E. symmetry in E. by apply sibling_ne in E.
  - by rewrite lookup_insert_ne.
  - intros pop. rewrite release_run. unfold released, doomed_backup. simpl.
    rewrite Hbk. simpl.
    destruct (decide (_temp s = _lock s)) as [->|Hl];
      [apply lookup_delete_eq|].
    rewrite lookup_delete_ne by done. apply lookup_delete_eq.
Qed.

End Closing.

(** C1, counterexample: a read-only session on an existing target whose
    metadata did not change has no staging file, so its close copies no
    staging copy over the target. *)
Lemma commits_or_rolls_back_refuted :
  ¬ commits_or_rolls_back Ex.sound Ex.digest
      ExClose.reading.1 ExClose.reading.2.
Proof.
  intros H.
  destruct (H (mkFile (list_ascii_of_string "{}") "2022-04-17T09:00:00"))
    as (staged & Hst & _).
  - vm_compute. reflexivity.
  - vm_compute in Hst. discriminate.
Qed.

(** What that close does: it returns normally and leaves the files that
    were there before the session, and no other. *)
Example read_only_close_copies_nothing :
  let r := __exit__ Ex.sound Ex.digest ExClose.reading.1 ExClose.reading.2 in
  r.1 = Val tt
  ∧ map_to_list (w_fs r.2) = map_to_list (w_fs (Ex.holding "{}")).
Proof. split; vm_compute; reflexivity. Qed.

Lemma close_of_write_session_witness :
  let sw := ExClose.rewritten Ex.sound "r+" (Ex.holding "{}") "[1]" in
  let r := __exit__ Ex.sound Ex.digest sw.1 sw.2 in
  r.1 = Val tt
  ∧ f_data <$> w_fs r.2 !! Ex.F = Some (list_ascii_of_string "[1]").
Proof.
  intros sw r.
  destruct (close_of_write_session Ex.sound Ex.digest sw.1 sw.2
              (mkFile (list_ascii_of_string "{}") "2022-04-17T09:00:00")
              (mkFile (list_ascii_of_string "[1]") "2022-04-18T10:00:00"))
    as (H1 & _ & _ & H4).
  - vm_compute. split_and!; try done. by eexists.
  - vm_compute. reflexivity.
  - vm_compute. reflexivity.
  - intros _. vm_compute. by eexists.
  - intros _. reflexivity.
  - split; [exact H1|].
    destruct (decide _) as [_|Hne] in H4.
    + destruct H4 as (H4 & _). change (_file sw.1) with Ex.F in H4.
      subst r. rewrite H4. reflexivity.
    + exfalso. apply Hne. vm_compute. reflexivity.
Defined.

Lemma hash_mismatch_escapes_close_witness :
  let sw := ExClose.rewritten ExClose.lossy "r+" (Ex.holding "{}") "[1]" in
  let r := __exit__ ExClose.lossy Ex.digest sw.1 sw.2 in
  r.1 = Exc FileNotFoundError
  ∧ is_Some (w_fs r.2 !! sibling Ex.F ".lock").
Proof.
  intros sw r.
  destruct (hash_mismatch_escapes_close ExClose.lossy Ex.digest sw.1 sw.2
              (mkFile (list_ascii_of_string "{}") "2022-04-17T09:00:00")
              (mkFile (list_ascii_of_string "[1]") "2022-04-18T10:00:00"))
    as (H1 & _ & _ & H4 & _).
  - vm_compute. split_and!; try done. by eexists.
  - vm_compute. reflexivity.
  - vm_compute. reflexivity.
  - vm_compute. reflexivity.
  - intros _. vm_compute. by eexists.
  - reflexivity.
  - vm_compute. discriminate.
  - split; [exact H1|].
    change (_lock sw.1) with (sibling Ex.F ".lock") in H4.
    subst r. rewrite H4. vm_compute. by eexists.
Defined.

Lemma rollback_on_new_target_loses_staged_witness :
  let sw := ExClose.rewritten ExClose.lossy "x" Ex.nothing "[1]" in
  let r := __exit__ ExClose.lossy Ex.digest sw.1 sw.2 in
  r.1 = Exc AttributeError
  ∧ w_fs r.2 !! salvage sw.1 sw.2 = None
  ∧ w_fs (release sw.1 true r.2).2 !! _temp sw.1 = None.
Proof.
  intros sw r.
  destruct (rollback_on_new_target_loses_staged ExClose.lossy Ex.digest
              sw.1 sw.2
              (mkFile (list_ascii_of_string "[1]") "2022-04-18T10:00:00") 1)
    as (H1 & H2 & _ & H4); try (vm_compute; reflexivity).
  - vm_compute. discriminate.
  - vm_compute. discriminate.
  - split_and!; [exact H1 | | exact (H4 true)].
    subst r. rewrite H2. vm_compute. reflexivity.
Defined.

(** ** Dumping and loading *)

Lemma PyVal_nested_ind (P : PyVal → Prop) :
  P PNone → (∀ b, P (PBool b)) → (∀ n, P (PInt n)) → (∀ s, P (PStr s)) →
  (∀ p, P (PPath p)) →
  (∀ l, Forall P l → P (PList l)) →
  (∀ d, Forall (λ kv, P kv.2) d → P (PDict d)) →
  ∀ v, P v.
Proof.
  intros HN HB HI HS HP HL HD.
  fix IH 1. intros [|b|n|s|p|l|d].
  - exact HN.
  - apply HB.
  - apply HI.
  - apply HS.
  - apply HP.
  - apply HL. induction l as [|x l IHl]; constructor; [apply IH | exact IHl].
  - apply HD. induction d as [|[k x] d IHd]; constructor;
      [apply IH | exact IHd].
Qed.

Lemma Json_nested_ind (P : Json → Prop) :
  P JNull → (∀ b, P (JBool b)) → (∀ n, P (JInt n)) → (∀ s, P (JStr s)) →
  (∀ l, Forall P l → P (JArr l)) →
  (∀ ms, Forall (λ kv, P kv.2) ms → P (JObj ms)) →
  ∀ j, P j.
Proof.
  intros HN HB HI HS HL HD.
  fix IH 1. intros [|b|n|s|l|d].
  - exact HN.
  - apply HB.
  - apply HI.
  - apply HS.
  - apply HL. induction l as [|x l IHl]; constructor; [apply IH | exact IHl].
  - apply HD. induction d as [|[k x] d IHd]; constructor;
      [apply IH | exact IHd].
Qed.

Section DictFacts.
Context {K V : Type} `{EqDecision K}.
Implicit Types (d : list (K * V)).

Lemma dict_get_None d k : dict_get k d = None ↔ k ∉ d.*1.
Proof.
  induction d as [|[k' v'] d IH]; simpl.
  - split; [intros _; apply not_elem_of_nil | done].
  - destruct (decide (k = k')) as [->|Hne].
    + split; [done|]. intros H. exfalso. apply H. by left.
    + rewrite IH, not_elem_of_cons. split; [done | by intros [_ ?]].
Qed.

Lemma dict_set_fresh d k v :
  dict_get k d = None → dict_set k v d = (d ++ [(k, v)])%list.
Proof.
  induction d as [|[k' v'] d IH]; simpl; [done|].
  destruct (decide (k = k')); [done|]. intros H. by rewrite IH.
Qed.

Lemma dict_set_keys d k v :
  is_Some (dict_get k d) → (dict_set k v d).*1 = d.*1.
Proof.
  induction d as [|[k' v'] d IH]; simpl; [by intros [? ?]|].
  destruct (decide (k = k')); simpl; [done|]. intros H. f_equal. by apply IH.
Qed.

Lemma fold_dict_set_app (ps : list (K * V)) d :
  NoDup (d.*1 ++ ps.*1) →
  fold_left (λ acc kv, dict_set kv.1 kv.2 acc) ps d = (d ++ ps)%list.
Proof.
  revert d. induction ps as [|[k v] ps IH]; intros d Hnd; simpl.
  - by rewrite app_nil_r.
  - rewrite dict_set_fresh.
    + rewrite IH; [by rewrite <- app_assoc|].
      rewrite fmap_app. simpl. by rewrite <- app_assoc.
    + apply dict_get_None. simpl in Hnd.
      apply NoDup_app in Hnd as (_ & Hnd & _).
      intros Hin. apply (Hnd k Hin). by left.
Qed.

(** a list with distinct keys is the dict it denotes *)
Lemma dict_of_pairs_NoDup (ps : list (K * V)) :
  NoDup ps.*1 → dict_of_pairs ps = ps.
Proof. intros H. unfold dict_of_pairs. by rewrite fold_dict_set_app. Qed.
End DictFacts.

Section DictFacts2.
Context {K V : Type} `{EqDecision K}.
Implicit Types (d : list (K * V)).

Lemma dict_set_keys_fresh d k v :
  dict_get k d = None → (dict_set k v d).*1 = (d.*1 ++ [k])%list.
Proof. intros H. rewrite dict_set_fresh by done. by rewrite fmap_app. Qed.

Lemma dict_set_NoDup d k v : NoDup d.*1 → NoDup (dict_set k v d).*1.
Proof.
  intros Hnd. destruct (dict_get k d) as [x|] eqn:E.
  - rewrite dict_set_keys; [done | by eexists].
  - rewrite dict_set_keys_fresh by done.
    apply NoDup_app. split_and!; [done| |apply NoDup_singleton].
    intros y Hy ->%list_elem_of_singleton. by apply dict_get_None in E.
Qed.

Lemma dict_set_Forall (P : K * V → Prop) d k v :
  Forall P d → (∀ k', k = k' → P (k', v)) → Forall P (dict_set k v d).
Proof.
  intros Hd Hkv. induction Hd as [|[k' v'] d HP Hd IH]; simpl.
  - constructor; [by apply Hkv | constructor].
  - destruct (decide (k = k')); constructor; auto.
Qed.

Lemma dict_of_pairs_NoDup_keys (ps : list (K * V)) :
  NoDup (dict_of_pairs ps).*1.
Proof.
  unfold dict_of_pairs.
  assert (G : ∀ d, NoDup d.*1 →
              NoDup (fold_left (λ acc kv, dict_set kv.1 kv.2 acc) ps d).*1).
  { induction ps as [|[k v] ps IH]; intros d Hd; simpl; [done|].
    apply IH. by apply dict_set_NoDup. }
  apply G. constructor.
Qed.

Lemma dict_of_pairs_Forall (P : K * V → Prop) (ps : list (K * V)) :
  Forall P ps → Forall P (dict_of_pairs ps).
Proof.
  unfold dict_of_pairs.
  assert (G : ∀ d, Forall P d → Forall P ps →
              Forall P (fold_left (λ acc kv, dict_set kv.1 kv.2 acc) ps d)).
  { induction ps as [|[k v] ps IH]; intros d Hd Hps; simpl; [done|].
    inversion Hps; subst. apply IH; [|done].
    apply dict_set_Forall; [done|]. by intros k' <-. }
  intros H. apply G; [constructor | done].
Qed.

Lemma dict_get_Forall (P : K * V → Prop) d k v :
  Forall P d → dict_get k d = Some v → P (k, v).
Proof.
  intros Hd. induction Hd as [|[k' v'] d HP Hd IH]; simpl; [done|].
  destruct (decide (k = k')) as [->|]; [by intros [= <-] | done].
Qed.
End DictFacts2.

Lemma of_json_loaded (j : Json) : loaded (of_json j).
Proof.
  induction j as [|b|n|s|l IH|ms IH] using Json_nested_ind; simpl;
    try constructor.
  - induction IH; constructor; auto.
  - apply dict_of_pairs_Forall.
    induction IH as [|[k v] ms Hv _ IH']; constructor; [|done].
    simpl. split; [by eexists | done].
  - apply dict_of_pairs_NoDup_keys.
Qed.

Lemma reload_dict (d : list (PyKey * PyVal)) :
  reload (PDict d) = PDict (dict_of_pairs (map coerce d)).
Proof.
  simpl. do 2 f_equal. apply map_ext. by intros [k x].
Qed.

Lemma to_json_reload (v : PyVal) (j : Json) :
  to_json v = Some j → of_json j = reload v.
Proof.
  revert j.
  induction v as [|b|n|s|p|l IH|d IH] using PyVal_nested_ind; intros j Hj;
    simpl in Hj; try (injection Hj as <-; done); try done.
  - destruct (mapM to_json l) as [js|] eqn:E; [|done].
    injection Hj as <-. simpl. f_equal.
    apply mapM_Some in E. revert IH.
    induction E as [|x y l js Hxy _ IH']; intros IH; [done|].
    inversion IH; subst. simpl. f_equal; auto.
  - destruct (mapM _ d) as [ms|] eqn:E; [|done].
    injection Hj as <-. rewrite reload_dict. simpl. do 2 f_equal.
    apply mapM_Some in E. revert IH.
    induction E as [|[k x] [k' y] d ms Hxy _ IH']; intros IH; [done|].
    inversion IH; subst. simpl in *.
    destruct (to_json x) as [jx|] eqn:Ex; [|done]. injection Hxy as <- <-.
    unfold coerce at 1. simpl. f_equal; [|auto]. f_equal. auto.
Qed.

Lemma loaded_coerce (d : list (PyKey * PyVal)) :
  Forall (λ kv, (∃ s, kv.1 = KStr s) ∧ reload kv.2 = kv.2) d →
  map coerce d = d.
Proof.
  induction 1 as [|[k x] d [[s Hs] Hx] _ IH]; [done|].
  simpl in *. subst k. unfold coerce at 1. simpl. by rewrite Hx, IH.
Qed.

Lemma loaded_reload (v : PyVal) : loaded v → reload v = v.
Proof.
  induction v as [|b|n|s|p|l IH|d IH] using PyVal_nested_ind; intros Hl;
    try done.
  - inversion Hl as [| | | |l' Hl'|]; subst. simpl. f_equal.
    induction IH as [|x l Hx _ IH']; [done|].
    inversion Hl'; subst. simpl. f_equal; auto.
    apply IH'; [by constructor | done].
  - inversion Hl as [| | | | |d' Hd' Hnd]; subst. rewrite reload_dict.
    rewrite loaded_coerce.
    + by rewrite dict_of_pairs_NoDup.
    + clear Hl Hnd. induction IH as [|[k x] d Hx _ IH']; [constructor|].
      inversion Hd' as [|? ? [Hk Hlx] Hd'']; subst. constructor; [|auto].
      split; [done | by apply Hx].
Qed.

Lemma loaded_to_json (v : PyVal) : loaded v → is_Some (to_json v).
Proof.
  induction v as [|b|n|s|p|l IH|d IH] using PyVal_nested_ind; intros Hl;
    try (by eexists); try (by inversion Hl).
  - inversion Hl as [| | | |l' Hl'|]; subst. simpl.
    apply fmap_is_Some, mapM_is_Some.
    induction IH as [|x l Hx _ IH']; [constructor|].
    inversion Hl'; subst. constructor; [by apply Hx|].
    apply IH'; [by constructor | done].
  - inversion Hl as [| | | | |d' Hd' Hnd]; subst. simpl.
    apply fmap_is_Some, mapM_is_Some. clear Hl Hnd.
    induction IH as [|[k x] d Hx _ IH']; [constructor|].
    inversion Hd' as [|? ? [Hk Hlx] Hd'']; subst. constructor; [|auto].
    simpl. apply fmap_is_Some. by apply Hx.
Qed.

Lemma to_json_dict_is_Some (d : list (PyKey * PyVal)) :
  Forall (λ kv, is_Some (to_json kv.2)) d → is_Some (to_json (PDict d)).
Proof.
  intros H. simpl. apply fmap_is_Some, mapM_is_Some.
  eapply Forall_impl; [exact H|]. intros [k x] Hx. simpl.
  by apply fmap_is_Some.
Qed.

Lemma loaded_entries_coerce (d : list (PyKey * PyVal)) :
  Forall (λ kv, (∃ s, kv.1 = KStr s) ∧ loaded kv.2) d → map coerce d = d.
Proof.
  intros H. apply loaded_coerce. eapply Forall_impl; [exact H|].
  intros [k x] [Hk Hx]. split; [done | by apply loaded_reload].
Qed.

Lemma coerce_dict_set_loaded (top : list (PyKey * PyVal)) (s : string)
    (v : PyVal) :
  Forall (λ kv, (∃ s, kv.1 = KStr s) ∧ loaded kv.2) top →
  map coerce (dict_set (KStr s) v top) = dict_set (KStr s) (reload v) top.
Proof.
  intros Htop. induction Htop as [|[k x] top [[s' Hs] Hx] Htop IH]; simpl in *.
  - done.
  - subst k. destruct (decide (KStr s = KStr s')) as [E|E]; simpl.
    + unfold coerce at 1. simpl. f_equal. by apply loaded_entries_coerce.
    + unfold coerce at 1. simpl. rewrite (loaded_reload x) by done.
      f_equal. apply IH.
Qed.

Lemma new_id_dump (top subs : list (PyKey * PyVal)) :
  loaded (PDict top) →
  dict_get (KStr "submissions") top = Some (PDict subs) →
  let n := Z.of_nat (List.length subs) in
  dict_get (KStr (pretty n)) subs = None →
  ∃ doc2,
    to_json (PDict (dict_set (KStr "submissions")
                      (PDict (dict_set (KInt n) PNone subs)) top)) = Some doc2
    ∧ of_json doc2
      = PDict (dict_set (KStr "submissions")
                 (PDict (subs ++ [(KStr (pretty n), PNone)])) top).
Proof.
  intros Hl Hsub n Hfresh.
  inversion Hl as [| | | | |d' Htop Hnd]; subst.
  pose proof (dict_get_Forall _ _ _ _ Htop Hsub) as [_ Hlsubs]. simpl in Hlsubs.
  inversion Hlsubs as [| | | | |d' Hsubs Hnds]; subst.
  assert (Hint : dict_get (KInt n) subs = None).
  { apply dict_get_None. intros Hin.
    apply list_elem_of_fmap in Hin as ([k x] & Hk & Hin). simpl in Hk. subst k.
    rewrite Forall_forall in Hsubs. destruct (Hsubs _ Hin) as [[s Hs] _].
    done. }
  rewrite (dict_set_fresh subs) by done.
  set (top2 := dict_set _ _ top).
  assert (Hsome : is_Some (to_json (PDict top2))).
  { apply to_json_dict_is_Some. subst top2.
    apply (dict_set_Forall (λ kv, is_Some (to_json kv.2))).
    - eapply Forall_impl; [exact Htop|]. intros [k x] [_ Hx].
      by apply loaded_to_json.
    - intros k' _. apply to_json_dict_is_Some.
      apply Forall_app. split.
      + eapply Forall_impl; [exact Hsubs|]. intros [k x] [_ Hx].
        by apply loaded_to_json.
      + constructor; [by eexists | constructor]. }
  destruct Hsome as [doc2 Hdoc2]. exists doc2. split; [done|].
  rewrite (to_json_reload _ _ Hdoc2). subst top2. rewrite reload_dict.
  f_equal.
  rewrite (coerce_dict_set_loaded top) by done.
  rewrite dict_of_pairs_NoDup.
  2:{ rewrite dict_set_keys; [done | by eexists]. }
  f_equal. rewrite reload_dict. f_equal.
  rewrite map_app. simpl. unfold coerce at 2. simpl.
  rewrite loaded_entries_coerce by done.
  apply dict_of_pairs_NoDup. rewrite fmap_app. simpl.
  apply NoDup_app. split_and!; [done| |apply NoDup_singleton].
  intros y Hy ->%list_elem_of_singleton. by apply dict_get_None in Hfresh.
Qed.

(** ** [new_submission_id] *)

#[local] Arguments fd_read : simpl never.
#[local] Arguments fd_write : simpl never.
#[local] Arguments fd_truncate : simpl never.
#[local] Arguments fd_seek : simpl never.
#[local] Arguments __exit__ : simpl never.
#[local] Arguments __init__ : simpl never.

Lemma fd_read_ok (pf : nat) (w : World) (h : Handle) (f : File) :
  w_fds w !! pf = Some h → h_closed h = false → h_readable h = true →
  w_fs w !! h_path h = Some f →
  fd_read pf w
  = (Val (drop (h_pos h) (f_data f)),
     with_fds (<[pf := set_pos (max (h_pos h) (List.length (f_data f))) h]>
                 (w_fds w)) w).
Proof.
  intros Hh Hc Hr Hf.
  unfold fd_read, bind, open_handle, file_of, put_handle, modify, ret.
  rewrite Hh, Hc, Hr. simpl. by rewrite Hf.
Qed.

Lemma fd_seek_ok (pf n : nat) (w : World) (h : Handle) :
  w_fds w !! pf = Some h → h_closed h = false →
  fd_seek pf n w = (Val tt, with_fds (<[pf := set_pos n h]> (w_fds w)) w).
Proof.
  intros Hh Hc. unfold fd_seek, bind, open_handle, put_handle, modify.
  by rewrite Hh, Hc.
Qed.

Lemma lift_run {X A} (m : M World A) (x : X) (w : World) :
  lift m (x, w) = ((m w).1, (x, (m w).2)).
Proof. unfold lift. simpl. by destruct (m w). Qed.

Section NewId.
Variable copy_bytes : Data → Data.
Variable blake2b : Data → string.
Variable json_encode : Json → Data.
Variable json_decode : Data → option Json.

Lemma init_rplus (fuel : nat) (file : Path) (wait : option nat)
    (w w1 : World) (fl : nat) (ft : File) :
  parent file ≠ w_tempdir w →
  acquire fuel (sibling file ".lock") (default 1000 wait) w = (Val fl, w1) →
  w_fs w1 !! file = Some ft →
  __init__ copy_bytes fuel (mkArgs file (Some "r+") wait None None None None) w
  = (Val tt, opened_rplus copy_bytes file fl w1 ft).
Proof.
  intros Htmp Hacq Hft.
  assert (Hex : present file w1 = true).
  { unfold present. rewrite bool_decide_eq_true_2; [done|]. by eexists. }
  rewrite (init_run copy_bytes fuel _ w w1 fl); simpl; rewrite ?Hex;
    [|done..].
  unfold pre_open. simpl. rewrite Hft. simpl.
  change (opened_mode "r+" true) with "r+".
  unfold opened_path. simpl.
  erewrite io_open_r; [|done|done|simpl; apply lookup_insert_eq].
  reflexivity.
Qed.

Lemma opened_rplus_wf (file : Path) (fl : nat) (w1 : World) (ft : File) :
  parent file ≠ w_tempdir w1 →
  wf_write_session (opened_rplus copy_bytes file fl w1 ft).1.
Proof.
  intros Htmp. unfold wf_write_session. simpl. split_and!; done.
Qed.

(** A read-write session on an existing target whose body returns
    normally, leaving the target, the staging file and the backup in
    place, commits: what the staging file holds is copied over the
    target, and the session is released. *)
Lemma guarded_rplus_run {A} (fuel : nat) (file : Path) (wait : option nat)
    (body : nat → M (DAMeta * World) A) (self self' : DAMeta)
    (w w1 wd : World) (fl : nat) (ft staged : File) (a : A) :
  let s := (opened_rplus copy_bytes file fl w1 ft).1 in
  (∀ d, copy_bytes d = d) →
  parent file ≠ w_tempdir w →
  acquire fuel (sibling file ".lock") (default 1000 wait) w = (Val fl, w1) →
  w_fs w1 !! file = Some ft →
  body (List.length (w_fds w1)) (self, (opened_rplus copy_bytes file fl w1 ft).2)
    = (Val a, (self', wd)) →
  w_fs wd !! file = Some ft →
  w_fs wd !! _temp s = Some staged →
  is_Some (w_fs wd !! sibling file ".backup") →
  guarded copy_bytes blake2b fuel file "r+" wait body (self, w)
  = (Val a,
     (self',
      released s true
        (with_fs (delete (_temp s) (<[file := staged]> (w_fs wd))) wd))).
Proof.
  intros s Hsound Htmp Hacq Hft Hbody Hfd Hst Hbk.
  pose proof (acquire_tempdir _ _ _ _ _ _ Hacq) as Ht.
  assert (Hwf : wf_write_session s).
  { apply opened_rplus_wf. by rewrite Ht. }
  unfold guarded, with_ProtectFile. cbn [fst snd].
  rewrite (init_rplus fuel file wait w w1 fl ft) by done.
  change (opened_rplus copy_bytes file fl w1 ft)
    with (s, (opened_rplus copy_bytes file fl w1 ft).2). cbn iota.
  change (__enter__ s (opened_rplus copy_bytes file fl w1 ft).2)
    with (@Val nat (List.length (w_fds w1)), (opened_rplus copy_bytes file fl w1 ft).2).
  cbn iota. rewrite Hbody. cbn iota.
  unfold bind at 1. rewrite lift_run.
  rewrite (exit_commit_run copy_bytes blake2b s wd ft staged); try done.
  - cbn [fst snd]. unfold ret, copy_of. rewrite Hsound.
    by destruct staged.
  - intros _. by rewrite Hsound.
Qed.

Lemma json_load_ok (pf : nat) (w w' : World) (text : Data) (doc : Json) :
  fd_read pf w = (Val text, w') → json_decode text = Some doc →
  json_load json_decode pf w = (Val (of_json doc), w').
Proof.
  intros Hr Hd. unfold json_load, bind. rewrite Hr. simpl. by rewrite Hd.
Qed.

Lemma json_dump_ok (obj : PyVal) (pf : nat) (w : World) (doc : Json) :
  to_json obj = Some doc →
  json_dump json_encode obj pf w = fd_write pf (json_encode doc) w.
Proof. intros H. unfold json_dump, bind. rewrite H. done. Qed.

(** C7, amended: on a metadata file whose submissions map has [n]
    entries, none of them under the key that is the decimal text of
    [n], with the lock taken, a sound copy, and a reader that reads
    back what the printer prints for the new document: the call
    returns [n]; the file then holds a document that loads as the old
    metadata with the submissions map extended by the one entry
    [n ↦ null] at its end, everything else as it was; the sentinel is
    gone; and [_submissions] holds the whole dict that was dumped. *)
Theorem new_submission_id_appends (fuel : nat) (self : DAMeta)
    (w w1 : World) (fl : nat) (ft : File) (doc : Json)
    (top subs : list (PyKey * PyVal)) :
  let file := meta_file self in
  let n := Z.of_nat (List.length subs) in
  let meta' := PDict (dict_set (KStr "submissions")
                        (PDict (dict_set (KInt n) PNone subs)) top) in
  (∀ d, copy_bytes d = d) →
  parent file ≠ w_tempdir w →
  acquire fuel (sibling file ".lock") 5 w = (Val fl, w1) →
  w_fs w1 !! file = Some ft →
  json_decode (f_data ft) = Some doc →
  of_json doc = PDict top →
  dict_get (KStr "submissions") top = Some (PDict subs) →
  dict_get (KStr (pretty n)) subs = None →
  (∀ d, to_json meta' = Some d → json_decode (json_encode d) = Some d) →
  let r := new_submission_id copy_bytes blake2b json_encode json_decode
             fuel (self, w) in
  r.1 = Val n
  ∧ (∃ text' doc',
       f_data <$> w_fs r.2.2 !! file = Some text'
       ∧ json_decode text' = Some doc'
       ∧ of_json doc'
         = PDict (dict_set (KStr "submissions")
                    (PDict (subs ++ [(KStr (pretty n), PNone)])) top))
  ∧ w_fs r.2.2 !! sibling file ".lock" = None
  ∧ attrs r.2.1 !! "_submissions" = Some meta'.
Proof.
  intros file n meta' Hsound Htmp Hacq Hft Hdec Hdoc Hsubs Hfresh Hrt r.
  pose proof (acquire_tempdir _ _ _ _ _ _ Hacq) as Ht.
  assert (Hl : loaded (PDict top)) by (rewrite <- Hdoc; apply of_json_loaded).
  destruct (new_id_dump top subs Hl Hsubs Hfresh) as (doc2 & Hdump & Hload).
  fold n in Hdump, Hload. fold meta' in Hdump.
  specialize (Hrt doc2 Hdump).
  assert (Hwf : wf_write_session (opened_rplus copy_bytes file fl w1 ft).1).
  { apply opened_rplus_wf. by rewrite Ht. }
  destruct (session_paths_distinct _ w1 Hwf)
    as (T1 & T2 & T3 & T4 & B1 & L1 & A1 & A2 & A3 & B2).
  pose (temp := mkPath (w_tempdir w1) (name file)).
  change (_temp (opened_rplus copy_bytes file fl w1 ft).1) with temp in *.
  change (_file (opened_rplus copy_bytes file fl w1 ft).1) with file in *.
  change (_lock (opened_rplus copy_bytes file fl w1 ft).1)
    with (sibling file ".lock") in *.
  set (pf := List.length (w_fds w1)).
  set (h0 := mkHandle temp true true false 0 false).
  assert (Hrun : ∃ wd,
    new_submission_id copy_bytes blake2b json_encode json_decode fuel
      (self, w)
    = (Val n,
       (set_attr "_submissions" meta' self,
        released (opened_rplus copy_bytes file fl w1 ft).1 true
          (with_fs (delete temp
                      (<[file := mkFile (json_encode doc2) (w_now w1)]>
                         (w_fs wd))) wd)))).
  { unfold new_submission_id.
    unfold bind at 1. unfold the_self at 1, gets at 1. fold file.
    eexists.
    erewrite (guarded_rplus_run fuel file (Some 5) _ self _ w w1 _ fl ft
                (mkFile (json_encode doc2) (w_now w1)) n);
      [reflexivity|done|done|done|done| | | |].
    - cbn beta. fold pf.
      unfold bind at 1. rewrite lift_run.
      erewrite json_load_ok; [| |exact Hdec].
      2:{ erewrite (fd_read_ok pf _ h0 (copy_of copy_bytes ft));
            [ |simpl; rewrite lookup_app_r by done;
               by rewrite Nat.sub_diag |done|done|simpl;
               apply lookup_insert_eq].
          simpl. rewrite Hsound. reflexivity. }
      cbn [fst snd]. rewrite Hdoc.
      unfold bind at 1. simpl getitem. rewrite Hsubs. cbn [of_option ret].
      unfold bind at 1. cbn [len_keys of_option ret].
      unfold bind at 1. cbn [setitem of_option ret].
      unfold bind at 1. cbn [setitem of_option ret].
      fold n. fold meta'.
      unfold bind at 1. rewrite lift_run.
      erewrite (fd_truncate_ok pf 0 _ _ (copy_of copy_bytes ft));
        [ |simpl; apply list_lookup_insert_eq; rewrite length_app; simpl; lia
          |done|done|simpl; apply lookup_insert_eq].
      cbn [fst snd].
      unfold bind at 1. rewrite lift_run.
      erewrite (fd_seek_ok pf 0);
        [ |simpl; apply list_lookup_insert_eq; rewrite length_app; simpl; lia
          |done].
      cbn [fst snd].
      unfold bind at 1. rewrite lift_run.
      rewrite (json_dump_ok _ _ _ doc2) by done.
      erewrite (fd_write_ok pf);
        [ |simpl; apply list_lookup_insert_eq; rewrite length_insert, length_app; simpl; lia
          |done|done|done|simpl; apply lookup_insert_eq].
      cbn [fst snd].
      unfold bind at 1. unfold modify at 1. cbn [fst snd]. unfold ret.
      reflexivity.
    - simpl. rewrite lookup_insert_ne by done.
      rewrite lookup_insert_ne by done.
      rewrite lookup_insert_ne by done.
      by rewrite lookup_insert_ne.
    - simpl. rewrite lookup_insert_eq, write_at_start.
      by rewrite drop_nil, app_nil_r.
    - simpl. rewrite lookup_insert_ne by done.
      rewrite lookup_insert_ne by done.
      rewrite lookup_insert_ne by done.
      rewrite lookup_insert_eq. by eexists. }
  destruct Hrun as [wd Hrun]. subst r. rewrite Hrun. cbn [fst snd].
  split_and!.
  - done.
  - exists (json_encode doc2), doc2. split_and!; [|done|done].
    rewrite released_lookup by done. simpl.
    rewrite lookup_delete_ne by done. by rewrite lookup_insert_eq.
  - by destruct (released_gone (opened_rplus copy_bytes file fl w1 ft).1 true
               (with_fs (delete temp
                           (<[file := mkFile (json_encode doc2) (w_now w1)]>
                              (w_fs wd))) wd) Hwf) as [_ ?].
  - simpl. apply lookup_insert_eq.
Qed.
End NewId.

(** C7, counterexample: the file holds one submission under the key "1"
    (as [update_submissions(1, "x")] leaves it on an empty map).  The
    call returns 1 and dumps the keys "1" and 1, which are the same key
    in the file: the map read back has one entry, not two, and the entry
    that was there has lost its value. *)
Lemma appends_one_entry_refuted :
  ¬ appends_one_entry Ex.sound Ex.digest JsonText.encode JsonText.decode 1
      ExMeta.study (ExFile.on_disk [("1", JStr "x")]).
Proof.
  intros H.
  destruct (H (mkFile (JsonText.encode (ExFile.doc_with [("1", JStr "x")]))
                 "2022-04-17T09:00:00")
              (ExFile.doc_with [("1", JStr "x")])
              [(KStr "name", PStr "study"); (KStr "turns", PInt 100);
               (KStr "submissions", PDict [(KStr "1", PStr "x")])]
              [(KStr "1", PStr "x")])
    as (_ & ft' & doc' & top' & subs' & H1 & H2 & H3 & H4 & H5 & _);
    try (vm_compute; reflexivity).
  vm_compute in H1. injection H1 as <-.
  vm_compute in H2. injection H2 as <-.
  vm_compute in H3. injection H3 as <-.
  vm_compute in H4. injection H4 as <-.
  discriminate H5.
Qed.

(** What the file holds after that call. *)
Example new_id_on_taken_key :
  let r := new_submission_id Ex.sound Ex.digest JsonText.encode
             JsonText.decode 1
             (ExMeta.study, ExFile.on_disk [("1", JStr "x")]) in
  r.1 = Val 1%Z
  ∧ (f_data <$> w_fs r.2.2 !! meta_file ExMeta.study)
    = Some (JsonText.encode
              (ExFile.doc_with [("1", JStr "x"); ("1", JNull)])).
Proof. split; vm_compute; reflexivity. Qed.

Lemma new_submission_id_appends_witness :
  let r := new_submission_id Ex.sound Ex.digest JsonText.encode
             JsonText.decode 1
             (ExMeta.study, ExFile.on_disk [("0", JNull)]) in
  r.1 = Val 1%Z
  ∧ ∃ text' doc',
      f_data <$> w_fs r.2.2 !! meta_file ExMeta.study = Some text'
      ∧ JsonText.decode text' = Some doc'
      ∧ of_json doc'
        = PDict [(KStr "name", PStr "study"); (KStr "turns", PInt 100);
                 (KStr "submissions",
                  PDict [(KStr "0", PNone); (KStr "1", PNone)])].
Proof.
  intros r.
  destruct (new_submission_id_appends Ex.sound Ex.digest JsonText.encode
              JsonText.decode 1 ExMeta.study
              (ExFile.on_disk [("0", JNull)])
              (acquire 1 (sibling (meta_file ExMeta.study) ".lock") 5
                 (ExFile.on_disk [("0", JNull)])).2
              0
              (mkFile (JsonText.encode (ExFile.doc_with [("0", JNull)]))
                 "2022-04-17T09:00:00")
              (ExFile.doc_with [("0", JNull)])
              [(KStr "name", PStr "study"); (KStr "turns", PInt 100);
               (KStr "submissions", PDict [(KStr "0", PNone)])]
              [(KStr "0", PNone)])
    as (H1 & H2 & _).
  - reflexivity.
  - vm_compute. discriminate.
  - vm_compute. reflexivity.
  - vm_compute. reflexivity.
  - vm_compute. reflexivity.
  - vm_compute. reflexivity.
  - vm_compute. reflexivity.
  - vm_compute. reflexivity.
  - intros d Hd. vm_compute in Hd. injection Hd as <-.
    vm_compute. reflexivity.
  - split; [exact H1 | exact H2].
Defined.

(** ** What [release] does *)

Lemma released_only_deletes (s : ProtectFile) (pop : bool) (w : World)
    (p : Path) (f : File) :
  w_fs (released s pop w) !! p = Some f → w_fs w !! p = Some f.
Proof.
  unfold released, without. simpl. intros H.
  apply lookup_delete_Some in H as [_ H].
  destruct (doomed_backup s).
  - apply lookup_delete_Some in H as [_ H].
    by apply lookup_delete_Some in H as [_ H].
  - by apply lookup_delete_Some in H as [_ H].
Qed.

Lemma released_lock_gone (s : ProtectFile) (pop : bool) (w : World) :
  w_fs (released s pop w) !! _lock s = None.
Proof. unfold released. simpl. by rewrite lookup_delete_eq. Qed.

Lemma released_temp_gone (s : ProtectFile) (pop : bool) (w : World) :
  w_fs (released s pop w) !! _temp s = None.
Proof.
  unfold released, without. simpl.
  apply lookup_delete_None. right.
  destruct (doomed_backup s).
  - apply lookup_delete_None. right. by rewrite lookup_delete_eq.
  - by rewrite lookup_delete_eq.
Qed.

Lemma closed_in_never_opens (o : option nat) (fds : list Handle) (fd : nat) :
  h_closed <$> fds !! fd ≠ Some false →
  h_closed <$> closed_in o fds !! fd ≠ Some false.
Proof.
  destruct o as [i|]; [|done]. simpl. intros H.
  destruct (decide (i = fd)) as [->|Hne].
  - rewrite list_lookup_alter_eq. by destruct (fds !! fd).
  - by rewrite list_lookup_alter_ne.
Qed.

Lemma closed_in_closes (fd : nat) (fds : list Handle) :
  h_closed <$> closed_in (Some fd) fds !! fd ≠ Some false.
Proof. simpl. rewrite list_lookup_alter_eq. by destruct (fds !! fd). Qed.

Lemma released_closes (s : ProtectFile) (pop : bool) (w : World) (fd : nat) :
  _fd s = Some fd ∨ _flock s = Some fd →
  fd_closed fd (released s pop w) ≠ Some false.
Proof.
  unfold fd_closed, released. simpl. intros [->| ->].
  - apply closed_in_never_opens, closed_in_closes.
  - apply closed_in_closes.
Qed.

Lemma released_never_opens (s : ProtectFile) (pop : bool) (w : World)
    (fd : nat) :
  fd_closed fd w ≠ Some false → fd_closed fd (released s pop w) ≠ Some false.
Proof.
  unfold fd_closed, released. simpl. intros H.
  by do 2 apply closed_in_never_opens.
Qed.

(** X1: [release] never raises on an object whose paths and options
    are set, whether or not its file objects, backup and snapshot are.
    After it the sentinel and the staging file are gone, the backup is gone
    when one was taken and is not to be kept, the file objects of the
    session are closed; every other path is as it was. *)
Theorem release_spares_other_files (s : ProtectFile) (pop : bool) (w : World) :
  let r := release s pop w in
  r.1 = Val tt
  ∧ w_fs r.2 !! _lock s = None
  ∧ w_fs r.2 !! _temp s = None
  ∧ (∀ b, _backup s = Some (Some b) → _do_backup s = true →
          _keep_backup s = false → w_fs r.2 !! b = None)
  ∧ (∀ p, p ≠ _lock s → p ≠ _temp s →
          ¬ (_backup s = Some (Some p) ∧ _do_backup s = true
             ∧ _keep_backup s = false) →
          w_fs r.2 !! p = w_fs w !! p)
  ∧ (∀ fd, _fd s = Some fd ∨ _flock s = Some fd →
           fd_closed fd r.2 ≠ Some false)
  ∧ w_stdout r.2 = w_stdout w
  ∧ protected_open r.2
    = (if pop then dict_pop (_file s) (protected_open w)
       else protected_open w).
Proof.
  intros r. subst r. rewrite release_run. cbn [fst snd].
  split_and!; try done.
  - apply released_lock_gone.
  - apply released_temp_gone.
  - intros b Hb Hd Hk. unfold released, without, doomed_backup. simpl.
    rewrite Hb, Hd, Hk. simpl.
    apply lookup_delete_None. right. by rewrite lookup_delete_eq.
  - intros p Hl Ht Hb. unfold released, without, doomed_backup. simpl.
    rewrite lookup_delete_ne by done.
    destruct (_backup s) as [[b|]|] eqn:Eb;
      [destruct (_do_backup s) eqn:Ed, (_keep_backup s) eqn:Ek; simpl|..];
      rewrite ?lookup_delete_ne; try done.
    intros ->. by apply Hb.
  - intros fd H. by apply released_closes.
Qed.

(** ** The shutdown hook *)

Lemma release_all_run (l : list (Path * ProtectFile)) (w : World) :
  ∃ w', release_all l w = (Val tt, w')
        ∧ (∀ p f, w_fs w' !! p = Some f → w_fs w !! p = Some f)
        ∧ (∀ k s, (k, s) ∈ l → w_fs w' !! _lock s = None)
        ∧ (∀ k s fd, (k, s) ∈ l → _fd s = Some fd ∨ _flock s = Some fd →
                     fd_closed fd w' ≠ Some false)
        ∧ (∀ fd, fd_closed fd w ≠ Some false → fd_closed fd w' ≠ Some false)
        ∧ protected_open w' = protected_open w
        ∧ w_tempdir w' = w_tempdir w
        ∧ w_stdout w' = w_stdout w.
Proof.
  revert w. induction l as [|[k s] l IH]; intros w.
  - exists w. split; [done|]. split_and!; try done.
    + intros ?? H. by apply elem_of_nil in H.
    + intros ??? H. by apply elem_of_nil in H.
  - destruct (IH (released s false w))
      as (w' & Hrun & Hsub & Hlock & Hfd & Hmono & Hreg & Htmp & Hout).
    exists w'. split.
    { simpl. unfold bind. rewrite release_run. exact Hrun. }
    split_and!.
    + intros p f H. eapply released_only_deletes, Hsub, H.
    + intros k' s' H. apply elem_of_cons in H as [[= -> ->]|H].
      * destruct (w_fs w' !! _lock s) as [f|] eqn:E; [|done].
        apply Hsub in E. by rewrite released_lock_gone in E.
      * by eapply Hlock.
    + intros k' s' fd H Hs. apply elem_of_cons in H as [[= -> ->]|H].
      * by apply Hmono, released_closes.
      * by eapply Hfd.
    + intros fd H. by apply Hmono, released_never_opens.
    + by rewrite Hreg.
    + by rewrite Htmp.
    + by rewrite Hout.
Qed.

(** X2: the shutdown hook never raises.  After it no registered session
    has its sentinel on disk or a file object open, the staging directory
    is empty, and no file has been created or modified: what is left is
    left as it was. *)
Theorem exit_handler_cleans_up (w : World) :
  let r := exit_handler w in
  r.1 = Val tt
  ∧ (∀ k s, (k, s) ∈ protected_open w → w_fs r.2 !! _lock s = None)
  ∧ (∀ p, parent p = w_tempdir w → w_fs r.2 !! p = None)
  ∧ (∀ k s fd, (k, s) ∈ protected_open w →
               _fd s = Some fd ∨ _flock s = Some fd →
               fd_closed fd r.2 ≠ Some false)
  ∧ (∀ p f, w_fs r.2 !! p = Some f → w_fs w !! p = Some f)
  ∧ protected_open r.2 = protected_open w
  ∧ w_stdout r.2 = w_stdout w.
Proof.
  intros r. subst r.
  destruct (release_all_run (protected_open w) w)
    as (w' & Hrun & Hsub & Hlock & Hfd & _ & Hreg & Htmp & Hout).
  unfold exit_handler, bind, gets, modify. rewrite Hrun. cbn [fst snd].
  split_and!; try done.
  - intros k s H. simpl. apply map_lookup_filter_None. left. by eapply Hlock.
  - intros p Hp. simpl. apply map_lookup_filter_None. right.
    intros f _. simpl. rewrite Htmp. by intros ?.
  - intros p f H. simpl in H. apply map_lookup_filter_Some in H as [H _].
    by apply Hsub.
Qed.

(** ** The lock *)

Lemma acquire_step (fuel : nat) (lock : Path) (wait : nat) (w : World) :
  acquire (S fuel) lock wait w
  = match w_fs w !! lock with
    | Some _ => acquire fuel lock wait (time_sleep wait w).2
    | None =>
        (Val (List.length (w_fds w)),
         with_fds (w_fds w ++ [new_handle lock "x" 0])
           (with_fs (<[lock := mkFile [] (w_now w)]> (w_fs w)) w))
    end.
Proof.
  change (acquire (S fuel) lock wait w)
    with (match io_open lock "x" w with
          | (Exc e, w') =>
              if is_OSError e
              then acquire fuel lock wait (time_sleep wait w').2
              else (Exc e, w')
          | r => r
          end).
  rewrite io_open_x. by destruct (w_fs w !! lock).
Qed.

Lemma acquire_blocked (fuel : nat) (lock : Path) (wait : nat) (w : World) :
  is_Some (w_fs w !! lock) →
  (∀ o, o ∈ w_others w → o ≠ OtherUnlink lock) →
  (acquire fuel lock wait w).1 = Spin.
Proof.
  revert w. induction fuel as [|fuel IH]; intros w [f Hf] Ho; [done|].
  rewrite acquire_step, Hf.
  apply IH.
  - unfold time_sleep, modify. simpl.
    destruct (w_others w) as [|o os] eqn:E; simpl; [by eexists|].
    destruct o as [|p|p f']; simpl.
    + by eexists.
    + rewrite lookup_delete_ne; [by eexists|].
      intros ->. eapply Ho; [|done]. apply elem_of_cons. by left.
    + apply lookup_insert_is_Some'. right. by eexists.
  - unfold time_sleep, modify. simpl.
    destruct (w_others w) as [|o os] eqn:E; simpl.
    + rewrite E. intros o H. by apply elem_of_nil in H.
    + intros o' H. apply Ho. apply elem_of_cons. by right.
Qed.


Lemma copy2_keeps (copy_bytes : Data → Data) (src dst : Path) (w : World)
    (q : Path) :
  is_Some (w_fs w !! q) → is_Some (w_fs (copy2 copy_bytes src dst w).2 !! q).
Proof.
  unfold copy2. intros H. repeat case_match; simpl; try done.
  apply lookup_insert_is_Some'. by right.
Qed.

Lemma io_open_keeps (p : Path) (mode : string) (w : World) (q : Path) :
  is_Some (w_fs w !! q) → is_Some (w_fs (io_open p mode w).2 !! q).
Proof.
  unfold io_open, alloc_handle, raise. intros H.
  repeat case_match; simpl; try done;
    apply lookup_insert_is_Some'; by right.
Qed.

Lemma backed_up_fields (copy_bytes : Data → Data) (arg : Args) (fl : nat)
    (w1 : World) :
  let s := (backed_up copy_bytes arg fl w1).1 in
  _file s = a_file arg ∧ _lock s = sibling (a_file arg) ".lock".
Proof.
  unfold backed_up, pre_open.
  destruct (w_fs w1 !! a_file arg); simpl; done.
Qed.

Lemma backed_up_keeps (copy_bytes : Data → Data) (arg : Args) (fl : nat)
    (w1 : World) (q : Path) :
  is_Some (w_fs w1 !! q) →
  is_Some (w_fs (backed_up copy_bytes arg fl w1).2 !! q).
Proof.
  unfold backed_up, pre_open. intros H.
  destruct (w_fs w1 !! a_file arg); simpl; [|done].
  case_match; simpl; [|done]. apply lookup_insert_is_Some'. by right.
Qed.

(** After a successful open the sentinel is on disk. *)
Lemma init_success_lock (copy_bytes : Data → Data) (fuel : nat) (arg : Args)
    (w : World) (s : ProtectFile) (w' : World) :
  __init__ copy_bytes fuel arg w = (Val tt, (s, w')) →
  _file s = a_file arg
  ∧ _lock s = sibling (a_file arg) ".lock"
  ∧ is_Some (w_fs w' !! sibling (a_file arg) ".lock").
Proof.
  intros Hinit.
  destruct (init_success_inv _ _ _ _ _ _ Hinit) as (fl & w1 & Hacq & Hv).
  rewrite (init_run_gen copy_bytes _ _ _ _ _ Hacq Hv) in Hinit.
  destruct (acquire_sentinel _ _ _ _ _ _ Hacq) as (Hl & _ & _).
  apply (backed_up_keeps copy_bytes arg fl) in Hl.
  destruct (backed_up_fields copy_bytes arg fl w1) as [Hf Hlk].
  assert (Hst : is_Some
            (w_fs (stage copy_bytes (backed_up copy_bytes arg fl w1).1
                     (backed_up copy_bytes arg fl w1).2).2
             !! sibling (a_file arg) ".lock")).
  { unfold stage. destruct (negb _ && _); [by apply copy2_keeps|done]. }
  destruct (stage _ _ _) as [[[]|e|] w2]; [|done..].
  simpl in Hst.
  apply (io_open_keeps (opened_path (backed_up copy_bytes arg fl w1).1)
           (opened_mode (default "r" (a_mode arg)) (present (a_file arg) w1)))
    in Hst.
  destruct (io_open _ _ _) as [[fd|e|] w3]; [|done..].
  injection Hinit as <- <-. simpl. done.
Qed.

(** X3: while a session on a file is open, its sentinel is on disk, and as
    long as no other process removes the sentinel every further open of
    that file, whatever its mode and options, keeps polling: it neither
    returns nor raises, however many attempts it is given. *)
Theorem open_session_blocks_other_opens (copy_bytes : Data → Data)
    (fuel : nat) (arg : Args) (w : World) (s : ProtectFile) (w' : World)
    (fuel' : nat) (arg' : Args) :
  __init__ copy_bytes fuel arg w = (Val tt, (s, w')) →
  a_file arg' = a_file arg →
  (∀ o, o ∈ w_others w' → o ≠ OtherUnlink (_lock s)) →
  is_Some (w_fs w' !! _lock s)
  ∧ (__init__ copy_bytes fuel' arg' w').1 = Spin.
Proof.
  intros Hinit Hf Ho.
  destruct (init_success_lock _ _ _ _ _ _ Hinit) as (_ & Hlk & Hl).
  rewrite Hlk in *. split; [done|].
  pose proof (acquire_blocked fuel' (sibling (a_file arg) ".lock")
                (default 1000 (a_wait arg')) w' Hl Ho) as Hb.
  unfold __init__, init_body.
  unfold bind at 1. unfold self at 1, gets at 1.
  unfold bind at 1. unfold lift at 1. simpl. rewrite Hf.
  destruct (acquire _ _ _ _) as [[?|?|] ?]; simpl in *; done.
Qed.

Lemma open_session_blocks_other_opens_witness :
  let r := __init__ Ex.sound 1 (Ex.args "r+") (Ex.holding "{}") in
  is_Some (w_fs r.2.2 !! _lock r.2.1)
  ∧ (__init__ Ex.sound 5 (Ex.args "r") r.2.2).1 = Spin.
Proof.
  apply (open_session_blocks_other_opens Ex.sound 1 (Ex.args "r+")
           (Ex.holding "{}") _ _ 5 (Ex.args "r")).
  - vm_compute. reflexivity.
  - reflexivity.
  - intros o H. vm_compute in H. by apply elem_of_nil in H.
Defined.

(** X4: the lock loop makes one attempt per sleep.  When the sentinel is
    held and another process removes it during the [k+1]-th sleep, the
    first [k+1] attempts fail and attempt [k+2] takes the lock: it
    creates the sentinel anew and returns an open file object on it. *)
Theorem lock_taken_once_released (k n : nat) (lock : Path) (wait : nat)
    (w : World) (rest : list Other) :
  is_Some (w_fs w !! lock) →
  w_others w = (replicate k OtherIdle ++ OtherUnlink lock :: rest)%list →
  (∀ fuel, (fuel ≤ S k)%nat → (acquire fuel lock wait w).1 = Spin)
  ∧ acquire (S (S k) + n) lock wait w
    = (Val (List.length (w_fds w)),
       with_fds (w_fds w ++ [new_handle lock "x" 0])
         (with_others rest
            (with_fs (<[lock := mkFile [] (w_now w)]> (w_fs w)) w))).
Proof.
  revert w. induction k as [|k IH]; intros w [f Hf] Ho.
  - split.
    + intros [|[|fuel]] Hle; [done| |lia].
      rewrite acquire_step, Hf. done.
    + simpl in Ho. change (2 + n)%nat with (S (S n)).
      rewrite acquire_step, Hf.
      unfold time_sleep, modify. simpl. rewrite Ho. simpl.
      rewrite acquire_step. simpl. rewrite lookup_delete_eq. simpl.
      by rewrite insert_delete_eq.
  - simpl in Ho.
    destruct (IH (time_sleep wait w).2) as [IH1 IH2].
    { unfold time_sleep, modify. simpl. rewrite Ho. simpl. by eexists. }
    { unfold time_sleep, modify. simpl. rewrite Ho. done. }
    split.
    + intros [|fuel] Hle; [done|].
      rewrite acquire_step, Hf. apply IH1. lia.
    + change (S (S (S k)) + n)%nat with (S (S (S k) + n)).
      rewrite acquire_step, Hf, IH2.
      unfold time_sleep, modify. simpl. rewrite Ho. done.
Qed.

Lemma lock_taken_once_released_witness :
  let lock := sibling Ex.F ".lock" in
  let w := with_others [OtherIdle; OtherUnlink lock]
             (with_fs {[ lock := mkFile [] "t" ]} Ex.nothing) in
  (acquire 2 lock 1000 w).1 = Spin
  ∧ (acquire 3 lock 1000 w).1 = Val 0%nat.
Proof.
  intros lock w.
  destruct (lock_taken_once_released 1 0 lock 1000 w []) as [H1 H2].
  - vm_compute. by eexists.
  - reflexivity.
  - split; [apply H1; lia|]. simpl in H2. by rewrite H2.
Defined.


(** ** Modes, once more *)

Lemma in_str_app (c : ascii) (a b : string) :
  in_str c (a +:+ b) = in_str c a || in_str c b.
Proof.
  induction a as [|d a IH]; [done|].
  change (String d a +:+ b) with (String d (a +:+ b)). simpl.
  rewrite IH. by destruct (decide (c = d)).
Qed.

Lemma in_str_replace (c old : ascii) (new s : string) :
  in_str c (replace old new s)
  = (if decide (c = old) then false else in_str c s)
    || (in_str old s && in_str c new).
Proof.
  induction s as [|d s IH]; simpl.
  - by destruct (decide (c = old)).
  - destruct (decide (d = old)) as [->|Hd].
    + rewrite in_str_app, IH.
      rewrite (decide_True (P := old = old)) by done.
      destruct (decide (c = old)) as [->|Hc]; simpl.
      * by destruct (in_str old new), (in_str old s).
      * by destruct (in_str c new), (in_str c s), (in_str old s).
    + simpl. rewrite IH.
      rewrite (decide_False (P := old = d)) by done.
      destruct (decide (c = d)) as [->|Hc]; simpl.
      * by rewrite (decide_False (P := d = old)) by done.
      * done.
Qed.

Lemma mode_valid_kind (m : string) :
  mode_valid m = true →
  in_str "x" m || in_str "r" m || in_str "w" m || in_str "a" m = true.
Proof.
  unfold mode_valid. intros H.
  apply andb_prop in H as [_ H]. apply Nat.eqb_eq in H.
  destruct (filter (λ c, in_str c "xrwa") (list_ascii_of_string m))
    as [|c l] eqn:E; [done|].
  assert (Hc : c ∈ filter (λ c, in_str c "xrwa") (list_ascii_of_string m)).
  { rewrite E. apply elem_of_cons. by left. }
  apply list_elem_of_filter in Hc as [Hk Hin].
  apply in_str_elem in Hin. apply Is_true_true in Hk. simpl in Hk.
  repeat (destruct (decide _) as [->|?] in Hk;
          [rewrite Hin; by rewrite ?orb_true_r|]).
  done.
Qed.

(** On an existing target the mode that reaches [io.open], if [io.open]
    accepts it, opens for reading. *)
Lemma opened_mode_existing_r (mode : string) :
  violation mode true = None →
  mode_valid (opened_mode mode true) = true →
  in_str "r" (opened_mode mode true) = true.
Proof.
  unfold violation, opened_mode. intros Hv Hok.
  destruct (in_str "r" mode) eqn:Er; [done|].
  destruct (in_str "x" mode) eqn:Ex; [done|]. simpl in *.
  apply mode_valid_kind in Hok. revert Hok.
  rewrite !in_str_replace. simpl. rewrite Er, Ex. simpl.
  by destruct (in_str "w" mode), (in_str "a" mode), (in_str "+" mode).
Qed.

Lemma io_open_valid (p : Path) (mode : string) (w : World) (fd : nat)
    (w3 : World) :
  io_open p mode w = (Val fd, w3) → mode_valid mode = true.
Proof. unfold io_open. by destruct (mode_valid mode). Qed.

Lemma dict_pop_set {K V : Type} `{EqDecision K} (k : K) (v : V)
    (d : list (K * V)) :
  dict_pop k (dict_set k v d) = dict_pop k d.
Proof.
  induction d as [|[k' v'] d IH]; simpl.
  - by rewrite decide_True.
  - destruct (decide (k = k')) as [->|Hne]; simpl.
    + by rewrite decide_True.
    + rewrite decide_False by done. by rewrite IH.
Qed.

(** ** Sessions from open to close *)

Section Sessions.

Variable copy_bytes : Data → Data.
Variable blake2b : Data → string.

(** [__init__] in closed form for a session that is not read-only, on a
    target that is there *)
Lemma init_write_existing_run (fuel : nat) (arg : Args) (w w1 : World)
    (fl : nat) (f : File) :
  let mode := default "r" (a_mode arg) in
  let pre := pre_open copy_bytes arg fl w1 in
  let s := set_fd (List.length (w_fds w1)) pre.1 in
  parent (a_file arg) ≠ w_tempdir w →
  acquire fuel (sibling (a_file arg) ".lock") (default 1000 (a_wait arg)) w
    = (Val fl, w1) →
  w_fs w1 !! a_file arg = Some f →
  read_only mode = false →
  violation mode true = None →
  mode_valid (opened_mode mode true) = true →
  __init__ copy_bytes fuel arg w
  = (Val tt,
     (s, with_registry (dict_set (a_file arg) s (protected_open w1))
           (with_fds (w_fds w1
                        ++ [new_handle (_temp pre.1) (opened_mode mode true) 0])
              pre.2))).
Proof.
  intros mode pre s Htmp Hacq Hf Hro Hv Hok. subst mode pre s.
  assert (Hex : present (a_file arg) w1 = true).
  { unfold present. rewrite bool_decide_eq_true_2; [done|]. by eexists. }
  rewrite (init_run copy_bytes fuel _ w w1 fl); rewrite ?Hex; [|done..].
  destruct (pre_open_fields copy_bytes arg fl w1)
    as (Hfile & Htemp & _ & Hro' & _ & _ & _).
  unfold opened_path. rewrite Hro', Hro.
  assert (Hst : w_fs (pre_open copy_bytes arg fl w1).2
                  !! _temp (pre_open copy_bytes arg fl w1).1
                = Some (copy_of copy_bytes f)).
  { unfold pre_open. rewrite Hf, Hro. simpl. by rewrite lookup_insert_eq. }
  erewrite io_open_r; [|done|by apply opened_mode_existing_r|exact Hst].
  assert (Hfds : w_fds (pre_open copy_bytes arg fl w1).2 = w_fds w1).
  { unfold pre_open. by rewrite Hf. }
  assert (Hreg : protected_open (pre_open copy_bytes arg fl w1).2
                 = protected_open w1).
  { unfold pre_open. by rewrite Hf. }
  unfold registered.
  cbn [with_registry with_fds protected_open w_fds fst snd].
  rewrite Hfile, Hfds, Hreg. reflexivity.
Qed.

(** A successful open of that kind, seen from its result *)
Lemma init_write_existing_inv (fuel : nat) (arg : Args) (w w1 : World)
    (fl : nat) (f : File) (s : ProtectFile) (w' : World) :
  let mode := default "r" (a_mode arg) in
  let pre := pre_open copy_bytes arg fl w1 in
  parent (a_file arg) ≠ w_tempdir w →
  acquire fuel (sibling (a_file arg) ".lock") (default 1000 (a_wait arg)) w
    = (Val fl, w1) →
  w_fs w1 !! a_file arg = Some f →
  __init__ copy_bytes fuel arg w = (Val tt, (s, w')) →
  _readonly s = false →
  s = set_fd (List.length (w_fds w1)) pre.1
  ∧ w' = with_registry (dict_set (a_file arg) s (protected_open w1))
           (with_fds (w_fds w1
                        ++ [new_handle (_temp pre.1) (opened_mode mode true) 0])
              pre.2)
  ∧ read_only mode = false.
Proof.
  intros mode pre Htmp Hacq Hf Hinit Hro. subst mode pre.
  assert (Hex : present (a_file arg) w1 = true).
  { unfold present. rewrite bool_decide_eq_true_2; [done|]. by eexists. }
  destruct (init_success_inv _ _ _ _ _ _ Hinit) as (fl' & w1' & Hacq' & Hv).
  rewrite Hacq in Hacq'. injection Hacq' as <- <-. rewrite Hex in Hv.
  destruct (pre_open_fields copy_bytes arg fl w1)
    as (Hfile & Htemp & _ & Hro' & _ & _ & _).
  pose proof Hinit as Hinit'.
  rewrite (init_run copy_bytes fuel _ w w1 fl) in Hinit';
    rewrite ?Hex in *; [|done..].
  destruct (io_open _ _ _) as [[fd|e|] w3] eqn:Hopen; [|done..].
  apply io_open_valid in Hopen.
  injection Hinit' as <- _. simpl in Hro. rewrite Hro' in Hro.
  rewrite (init_write_existing_run fuel arg w w1 fl f) in Hinit by done.
  injection Hinit as <- <-. done.
Qed.

Lemma pre_open_write_wf (arg : Args) (fl : nat) (w1 : World) (f : File)
    (fd : nat) :
  parent (a_file arg) ≠ w_tempdir w1 →
  w_fs w1 !! a_file arg = Some f →
  read_only (default "r" (a_mode arg)) = false →
  let s := set_fd fd (pre_open copy_bytes arg fl w1).1 in
  wf_write_session s
  ∧ _file s = a_file arg
  ∧ _fstat s = Some (stat_of f)
  ∧ _temp s = mkPath (w_tempdir w1) (name (a_file arg))
  ∧ (_keep_backup s = true → _do_backup s = true).
Proof.
  intros Htmp Hf Hro. unfold pre_open, wf_write_session.
  rewrite Hf, Hro. simpl. split_and!; try done.
  by intros ->.
Qed.

(** what the file system of [pre_open] holds *)
Lemma pre_open_write_fs (arg : Args) (fl : nat) (w1 : World) (f : File) :
  parent (a_file arg) ≠ w_tempdir w1 →
  w_fs w1 !! a_file arg = Some f →
  read_only (default "r" (a_mode arg)) = false →
  let pre := pre_open copy_bytes arg fl w1 in
  let bk := sibling (a_file arg) ".backup" in
  w_fs pre.2 !! a_file arg = Some f
  ∧ w_fs pre.2 !! _temp pre.1 = Some (copy_of copy_bytes f)
  ∧ (_do_backup pre.1 = true → w_fs pre.2 !! bk = Some (copy_of copy_bytes f))
  ∧ (_do_backup pre.1 = false → w_fs pre.2 !! bk = w_fs w1 !! bk)
  ∧ (∀ p, p ≠ _temp pre.1 → p ≠ bk → w_fs pre.2 !! p = w_fs w1 !! p)
  ∧ w_fds pre.2 = w_fds w1 ∧ w_stdout pre.2 = w_stdout w1
  ∧ w_now pre.2 = w_now w1 ∧ w_tempdir pre.2 = w_tempdir w1
  ∧ w_others pre.2 = w_others w1
  ∧ protected_open pre.2 = protected_open w1.
Proof.
  intros Htmp Hf Hro.
  assert (Hb : sibling (a_file arg) ".backup" ≠ a_file arg)
    by (by apply sibling_ne).
  assert (Ht : mkPath (w_tempdir w1) (name (a_file arg)) ≠ a_file arg)
    by (by apply staging_ne_target).
  assert (Htb : mkPath (w_tempdir w1) (name (a_file arg))
                ≠ sibling (a_file arg) ".backup")
    by (by apply staging_ne_sibling).
  unfold pre_open. rewrite Hf, Hro. simpl.
  destruct (_ && _) eqn:E; simpl; split_and!; try done; intros;
    repeat (rewrite lookup_insert_ne by done);
    rewrite ?lookup_insert_eq; done.
Qed.

End Sessions.


(** ** The handle of a write session, and where its writes go *)

(** On a target that is not there the mode that reaches [io.open], if
    [io.open] accepts it, creates the file. *)
Lemma opened_mode_missing_x (mode : string) :
  in_str "r" mode = false →
  mode_valid (opened_mode mode false) = true →
  in_str "x" (opened_mode mode false) = true
  ∧ in_str "r" (opened_mode mode false) = false.
Proof.
  unfold opened_mode. intros Er Hok. rewrite Er in *. simpl in *.
  destruct (in_str "x" mode) eqn:Ex; [done|].
  apply mode_valid_kind in Hok. revert Hok.
  rewrite !in_str_replace. simpl. rewrite Er, Ex. simpl.
  by destruct (in_str "w" mode), (in_str "a" mode).
Qed.

(** The file object of a session that is not read-only can be written. *)
Lemma opened_mode_writable (mode : string) (ex : bool) (p : Path) (pos : nat) :
  read_only mode = false →
  violation mode ex = None →
  mode_valid (opened_mode mode ex) = true →
  h_writable (new_handle p (opened_mode mode ex) pos) = true.
Proof.
  unfold read_only, violation, opened_mode.
  intros Hro Hv Hok. cbn [new_handle h_writable].
  destruct (in_str "r" mode) eqn:Er.
  - cbn [orb andb] in *. apply negb_false_iff in Hro.
    by rewrite Er, Hro.
  - cbn [orb andb] in *.
    destruct (in_str "x" mode) eqn:Ex.
    + by rewrite Er.
    + destruct ex.
      * apply mode_valid_kind in Hok. revert Hok.
        rewrite !in_str_replace. simpl. rewrite Er, Ex. simpl.
        by destruct (in_str "w" mode), (in_str "a" mode), (in_str "+" mode).
      * rewrite !in_str_replace. simpl. rewrite Er.
        by destruct (in_str "w" mode), (in_str "a" mode), (in_str "+" mode).
Qed.

(** what [io.open] leaves at the path it opens *)
Lemma io_open_x_fresh (p : Path) (m : string) (w : World) (fd : nat)
    (w3 : World) :
  in_str "r" m = false → in_str "x" m = true →
  io_open p m w = (Val fd, w3) →
  w_fs w3 !! p = Some (mkFile [] (w_now w)).
Proof.
  intros Hr Hx. unfold io_open.
  destruct (mode_valid m); simpl; [|done]. rewrite Hr, Hx.
  destruct (w_fs w !! p); [done|].
  unfold alloc_handle. intros [= <- <-]. simpl. apply lookup_insert_eq.
Qed.

Lemma io_open_r_same (p : Path) (m : string) (w : World) (fd : nat)
    (w3 : World) :
  in_str "r" m = true →
  io_open p m w = (Val fd, w3) → w_fs w3 = w_fs w.
Proof.
  intros Hr. unfold io_open.
  destruct (mode_valid m); simpl; [|done]. rewrite Hr.
  destruct (w_fs w !! p); [|done].
  unfold alloc_handle. by intros [= <- <-].
Qed.

(** [f.write(d)] on an open file object that can be written *)
Lemma fd_write_run (pf : nat) (d : Data) (w : World) (h : Handle) (f : File) :
  w_fds w !! pf = Some h → h_closed h = false → h_writable h = true →
  w_fs w !! h_path h = Some f →
  let pos := if h_append h then List.length (f_data f) else h_pos h in
  fd_write pf d w
  = (Val tt,
     with_fds (<[pf := set_pos (pos + List.length d) h]> (w_fds w))
       (with_fs (<[h_path h := mkFile (write_at pos d (f_data f)) (w_now w)]>
                   (w_fs w)) w)).
Proof.
  intros Hh Hc Hw Hf.
  unfold fd_write, bind, open_handle, file_of, put_data, put_handle, modify.
  rewrite Hh, Hc, Hw. simpl. by rewrite Hf.
Qed.

(** [f.truncate(n)] on an open file object that can be written *)
Lemma fd_truncate_run (pf n : nat) (w : World) (h : Handle) (f : File) :
  w_fds w !! pf = Some h → h_closed h = false → h_writable h = true →
  w_fs w !! h_path h = Some f →
  fd_truncate pf n w
  = (Val tt,
     with_fs (<[h_path h
                := mkFile (take n (f_data f)
                             ++ replicate (n - List.length (f_data f))
                                  "000"%char)%list
                     (w_now w)]> (w_fs w)) w).
Proof.
  intros Hh Hc Hw Hf.
  unfold fd_truncate, bind, open_handle, file_of, put_data, modify.
  rewrite Hh, Hc, Hw. simpl. by rewrite Hf.
Qed.

(** [f.read()] on an open file object that can be read *)
Lemma fd_read_run (pf : nat) (w : World) (h : Handle) (f : File) :
  w_fds w !! pf = Some h → h_closed h = false → h_readable h = true →
  w_fs w !! h_path h = Some f →
  (fd_read pf w).1 = Val (drop (h_pos h) (f_data f)).
Proof.
  intros Hh Hc Hr Hf.
  unfold fd_read, bind, open_handle, file_of, put_handle, modify, ret.
  rewrite Hh, Hc, Hr. simpl. by rewrite Hf.
Qed.

(** No call on a file object changes the path it is on, nor whether it
    can be written, nor removes its file. *)
Lemma run_op_handle (pf : nat) (t : Path) (op : FdOp) (w : World) :
  (∃ h f, w_fds w !! pf = Some h ∧ h_path h = t ∧ h_writable h = true
          ∧ w_fs w !! t = Some f) →
  ∃ h f, w_fds (run_op pf op w).2 !! pf = Some h ∧ h_path h = t
         ∧ h_writable h = true ∧ w_fs (run_op pf op w).2 !! t = Some f.
Proof.
  intros (h & f & Hh & Hp & Hw & Hf).
  pose proof (lookup_lt_Some _ _ _ Hh) as Hlt.
  destruct op; simpl;
    unfold fd_read, fd_write, fd_truncate, fd_seek, fd_close, bind,
      open_handle, file_of, put_data, put_handle, modify, ret, raise;
    simpl; rewrite ?Hh; simpl.
  - destruct (h_closed h), (h_readable h); simpl; rewrite ?Hp, ?Hf; simpl;
      rewrite ?list_lookup_insert_eq by done; eauto 10.
  - destruct (h_closed h); simpl; rewrite ?Hw; simpl; rewrite ?Hp, ?Hf; simpl;
      rewrite ?list_lookup_insert_eq, ?lookup_insert_eq by done; eauto 10.
  - destruct (h_closed h); simpl; rewrite ?Hw; simpl; rewrite ?Hp, ?Hf; simpl;
      rewrite ?lookup_insert_eq; eauto 10.
  - destruct (h_closed h); simpl;
      rewrite ?list_lookup_insert_eq by done; eauto 10.
  - rewrite list_lookup_alter_eq, Hh. simpl. eauto 10.
Qed.

Lemma run_ops_handle (pf : nat) (t : Path) (ops : list FdOp) (w : World) :
  (∃ h f, w_fds w !! pf = Some h ∧ h_path h = t ∧ h_writable h = true
          ∧ w_fs w !! t = Some f) →
  ∃ h f, w_fds (run_ops pf ops w) !! pf = Some h ∧ h_path h = t
         ∧ h_writable h = true ∧ w_fs (run_ops pf ops w) !! t = Some f.
Proof.
  revert w. induction ops as [|op ops IH]; intros w H; [done|].
  simpl. by apply IH, run_op_handle.
Qed.

Section StagingHandle.

Variable copy_bytes : Data → Data.

(** C4: in a session that is not read-only, with the staging directory
    elsewhere than the target's directory, the handle that [__enter__]
    returns is a file object on the staging path, which is not the
    target path; the staging file then holds the copy of the target
    as it was when the lock was taken (an empty file when the target
    was not there), and [__init__] itself left the target as it was.
    Whatever the caller then calls on the handle (read, write,
    truncate, seek, close, in any number and order) changes no path
    of the file system other than the staging path; and at any point
    the handle is still a file object on the staging file.  As long
    as it is open, a [read] on it (in a mode that reads) returns the
    content of the staging file from the position of the handle on;
    a [write] returns normally and the staging file then holds its
    previous content overwritten with the data at the position of
    the handle (at its end in append mode); a [truncate] returns
    normally and the staging file then holds its previous content
    cut, or filled up with zero bytes, to the given size; and after
    either every other path is as the open left it. *)
Theorem write_session_works_on_staging (fuel : nat) (arg : Args)
    (w : World) (s : ProtectFile) (w' : World) :
  parent (a_file arg) ≠ w_tempdir w →
  __init__ copy_bytes fuel arg w = (Val tt, (s, w')) →
  _readonly s = false →
  ∃ fl w1 pf,
    acquire fuel (sibling (a_file arg) ".lock") (default 1000 (a_wait arg)) w
      = (Val fl, w1)
    ∧ __enter__ s w' = (Val pf, w')
    ∧ h_path <$> w_fds w' !! pf = Some (_temp s)
    ∧ _file s = a_file arg
    ∧ _temp s ≠ _file s
    ∧ w_fs w' !! _file s = w_fs w1 !! _file s
    ∧ w_fs w' !! _temp s
      = Some (match w_fs w1 !! _file s with
              | Some f => copy_of copy_bytes f
              | None => mkFile [] (w_now w1)
              end)
    ∧ (∀ ops p, p ≠ _temp s →
                w_fs (run_ops pf ops w') !! p = w_fs w' !! p)
    ∧ (∀ ops,
         let w2 := run_ops pf ops w' in
         ∃ h f,
           w_fds w2 !! pf = Some h
           ∧ h_path h = _temp s
           ∧ w_fs w2 !! _temp s = Some f
           ∧ (h_closed h = false →
              (h_readable h = true →
               (fd_read pf w2).1 = Val (drop (h_pos h) (f_data f)))
              ∧ (∀ d,
                   let pos := if h_append h then List.length (f_data f)
                              else h_pos h in
                   let r := fd_write pf d w2 in
                   r.1 = Val tt
                   ∧ w_fs r.2 !! _temp s
                     = Some (mkFile (write_at pos d (f_data f)) (w_now w2))
                   ∧ ∀ p, p ≠ _temp s → w_fs r.2 !! p = w_fs w' !! p)
              ∧ (∀ n,
                   let r := fd_truncate pf n w2 in
                   r.1 = Val tt
                   ∧ w_fs r.2 !! _temp s
                     = Some (mkFile
                               (take n (f_data f)
                                  ++ replicate (n - List.length (f_data f))
                                       "000"%char)%list
                               (w_now w2))
                   ∧ ∀ p, p ≠ _temp s → w_fs r.2 !! p = w_fs w' !! p))).
Proof.
  intros Htmp Hinit Hro.
  destruct (init_success_inv _ _ _ _ _ _ Hinit) as (fl & w1 & Hacq & Hv).
  pose proof (acquire_tempdir _ _ _ _ _ _ Hacq) as Ht.
  rewrite (init_run copy_bytes _ _ _ _ _ Hacq Hv) in Hinit by done.
  destruct (pre_open_fields copy_bytes arg fl w1)
    as (Hfile & Htemp & _ & Hro' & _ & _ & _).
  destruct (io_open _ _ _) as [[fd|e|] w3] eqn:Hopen; [|done..].
  injection Hinit as <- <-. simpl in Hro.
  assert (Hrm : read_only (default "r" (a_mode arg)) = false)
    by (by rewrite <- Hro').
  unfold opened_path in Hopen. rewrite Hro in Hopen.
  pose proof (io_open_valid _ _ _ _ _ Hopen) as Hok.
  destruct (io_open_handle _ _ _ _ _ Hopen) as (-> & [pos Hfds] & _).
  set (pre := pre_open copy_bytes arg fl w1) in *.
  set (m := opened_mode (default "r" (a_mode arg)) (present (a_file arg) w1))
    in *.
  set (pf := List.length (w_fds pre.2)).
  assert (Hh : w_fds w3 !! pf = Some (new_handle (_temp pre.1) m pos)).
  { rewrite Hfds, lookup_app_r by done. unfold pf. by rewrite Nat.sub_diag. }
  assert (Hne : _temp pre.1 ≠ a_file arg).
  { rewrite Htemp. apply staging_ne_target. by rewrite Ht. }
  assert (Htgt : w_fs w3 !! a_file arg = w_fs w1 !! a_file arg).
  { rewrite <- (pre_open_target copy_bytes arg fl w1) by (by rewrite Ht).
    pose proof (io_open_frame (_temp pre.1) m pre.2 (a_file arg)) as Hfr.
    rewrite Hopen in Hfr. apply Hfr. done. }
  assert (Hst : w_fs w3 !! _temp pre.1
                = Some (match w_fs w1 !! a_file arg with
                        | Some f => copy_of copy_bytes f
                        | None => mkFile [] (w_now w1)
                        end)).
  { unfold m, present in *.
    destruct (w_fs w1 !! a_file arg) as [f|] eqn:Hf.
    - rewrite bool_decide_eq_true_2 in * by (by eexists).
      rewrite (io_open_r_same _ _ _ _ _
                 (opened_mode_existing_r _ Hv Hok) Hopen).
      unfold pre, pre_open. rewrite Hf, Hrm. simpl.
      apply lookup_insert_eq.
    - rewrite bool_decide_eq_false_2 in * by (by intros [? ?]).
      assert (Er : in_str "r" (default "r" (a_mode arg)) = false).
      { unfold violation in Hv.
        by destruct (in_str "r" (default "r" (a_mode arg))). }
      destruct (opened_mode_missing_x _ Er Hok) as [Hx Hr].
      rewrite (io_open_x_fresh _ _ _ _ _ Hr Hx Hopen).
      unfold pre, pre_open. by rewrite Hf. }
  set (wr := (registered pre.1 pf w3).2).
  assert (Hinv : ∃ h f, w_fds wr !! pf = Some h ∧ h_path h = _temp pre.1
                        ∧ h_writable h = true
                        ∧ w_fs wr !! _temp pre.1 = Some f).
  { eexists _, _. split; [exact Hh|]. split; [done|].
    split; [by apply opened_mode_writable|exact Hst]. }
  assert (Hframe : ∀ ops p, p ≠ _temp pre.1 →
                     w_fs (run_ops pf ops wr) !! p = w_fs wr !! p).
  { intros ops p Hp.
    rewrite (run_ops_frame _ (_temp pre.1)); [done| |done].
    intros h Hh'. change (w_fds wr) with (w_fds w3) in Hh'.
    rewrite Hh in Hh'. by injection Hh' as <-. }
  exists fl, w1, pf. fold pf. cbn [fst snd].
  change (registered pre.1 pf w3).2 with wr.
  change (_temp (set_fd pf pre.1)) with (_temp pre.1).
  change (_file (set_fd pf pre.1)) with (_file pre.1).
  split; [done|]. split; [done|].
  split; [change (h_path <$> w_fds w3 !! pf = Some (_temp pre.1));
          by rewrite Hh|].
  split; [done|]. split; [by rewrite Hfile|].
  split; [rewrite Hfile; exact Htgt|].
  split; [rewrite Hfile; exact Hst|].
  split; [exact Hframe|].
  intros ops.
  destruct (run_ops_handle pf (_temp pre.1) ops wr Hinv)
    as (h & f & Hh2 & Hp2 & Hw2 & Hf2).
  exists h, f. split; [done|]. split; [done|]. split; [done|].
  intros Hc.
  assert (Hf2' : w_fs (run_ops pf ops wr) !! h_path h = Some f)
    by (by rewrite Hp2).
  change (with_registry
            (dict_set (_file pre.1) (set_fd pf pre.1) (protected_open w3))
            w3) with wr.
  split; [|split].
  - intros Hrd. by apply (fd_read_run pf _ h f).
  - intros d.
    pose proof (fd_write_run pf d _ h f Hh2 Hc Hw2 Hf2') as Hr.
    cbv zeta in Hr. rewrite Hr.
    cbn [fst snd w_fs with_fs with_fds]. rewrite Hp2. split; [done|].
    split; [by rewrite lookup_insert_eq|].
    intros p Hp. rewrite lookup_insert_ne by done. by apply Hframe.
  - intros n.
    rewrite (fd_truncate_run pf n _ h f Hh2 Hc Hw2 Hf2').
    cbn [fst snd w_fs with_fs]. rewrite Hp2. split; [done|].
    split; [by rewrite lookup_insert_eq|].
    intros p Hp. rewrite lookup_insert_ne by done. by apply Hframe.
Qed.

End StagingHandle.

Lemma write_session_works_on_staging_witness :
  let r := __init__ Ex.sound 1 (Ex.args "r+") (Ex.holding "{}") in
  let ops := [OpRead; OpTruncate 0; OpSeek 0] in
  let w2 := run_ops 1 (ops ++ [OpWrite (list_ascii_of_string "[]"); OpClose])
              r.2.2 in
  w_fs w2 !! Ex.F = w_fs r.2.2 !! Ex.F
  ∧ f_data <$> w_fs (fd_write 1 (list_ascii_of_string "[]")
                       (run_ops 1 ops r.2.2)).2 !! _temp r.2.1
    = Some (list_ascii_of_string "[]").
Proof.
  intros r ops w2.
  destruct (write_session_works_on_staging Ex.sound 1 (Ex.args "r+")
              (Ex.holding "{}") r.2.1 r.2.2)
    as (fl & w1 & pf & _ & He & _ & _ & _ & _ & _ & Hops & Hwr).
  - vm_compute. discriminate.
  - vm_compute. reflexivity.
  - vm_compute. reflexivity.
  - assert (pf = 1) as -> by (vm_compute in He; congruence).
    split.
    + apply Hops. vm_compute. discriminate.
    + destruct (Hwr ops) as (h & f & Hh & _ & Hf & Hw).
      vm_compute in Hh. injection Hh as <-.
      vm_compute in Hf. injection Hf as <-.
      destruct (Hw eq_refl) as (_ & Hwrite & _).
      destruct (Hwrite (list_ascii_of_string "[]")) as (_ & Hst & _).
      rewrite Hst. vm_compute. reflexivity.
Defined.



(** ** What the caller's handle operations leave alone *)

Lemma run_op_keeps (pf : nat) (op : FdOp) (w : World) (q : Path) :
  is_Some (w_fs w !! q) → is_Some (w_fs (run_op pf op w).2 !! q).
Proof.
  intros H.
  destruct op; simpl;
    unfold fd_read, fd_write, fd_truncate, fd_seek, fd_close, bind,
      open_handle, file_of, put_data, put_handle, modify, ret, raise;
    simpl.
  all: repeat (case_match; simpl in *; simplify_eq); try done.
  all: apply lookup_insert_is_Some'; by right.
Qed.

Lemma run_ops_keeps (pf : nat) (ops : list FdOp) (w : World) (q : Path) :
  is_Some (w_fs w !! q) → is_Some (w_fs (run_ops pf ops w) !! q).
Proof.
  revert w. induction ops as [|op ops IH]; intros w H; [done|].
  simpl. by apply IH, run_op_keeps.
Qed.

Lemma run_op_globals (pf : nat) (op : FdOp) (w : World) :
  let w' := (run_op pf op w).2 in
  w_stdout w' = w_stdout w ∧ w_now w' = w_now w
  ∧ w_tempdir w' = w_tempdir w ∧ w_others w' = w_others w
  ∧ protected_open w' = protected_open w.
Proof.
  destruct op; simpl;
    unfold fd_read, fd_write, fd_truncate, fd_seek, fd_close, bind,
      open_handle, file_of, put_data, put_handle, modify, ret, raise;
    simpl.
  all: repeat (case_match; simpl in *; simplify_eq); done.
Qed.

Lemma run_ops_globals (pf : nat) (ops : list FdOp) (w : World) :
  let w' := run_ops pf ops w in
  w_stdout w' = w_stdout w ∧ w_now w' = w_now w
  ∧ w_tempdir w' = w_tempdir w ∧ w_others w' = w_others w
  ∧ protected_open w' = protected_open w.
Proof.
  revert w. induction ops as [|op ops IH]; intros w; [done|].
  simpl. destruct (IH (run_op pf op w).2) as (-> & -> & -> & -> & ->).
  apply run_op_globals.
Qed.

Lemma released_lookup_gen (s : ProtectFile) (pop : bool) (w : World)
    (p : Path) :
  p ≠ _temp s → p ≠ _lock s →
  w_fs (released s pop w) !! p = without (doomed_backup s) (w_fs w) !! p.
Proof.
  intros Ht Hl. unfold released, without. simpl.
  rewrite lookup_delete_ne by done.
  destruct (doomed_backup s) as [b|].
  - destruct (decide (b = p)) as [->|Hb].
    + by rewrite !lookup_delete_eq.
    + by rewrite !lookup_delete_ne.
  - by rewrite lookup_delete_ne.
Qed.

Section Lifecycle.

Variable copy_bytes : Data → Data.
Variable blake2b : Data → string.

(** The close of a session that is not read-only, on a target that was
    there at the open, after any calls on the handle. *)
Lemma write_session_close_run (fuel : nat) (arg : Args) (w w1 : World)
    (fl : nat) (f : File) (s : ProtectFile) (w' : World)
    (ops : list FdOp) :
  let w2 := run_ops (List.length (w_fds w1)) ops w' in
  (∀ d, blake2b (copy_bytes d) = blake2b d) →
  parent (a_file arg) ≠ w_tempdir w →
  acquire fuel (sibling (a_file arg) ".lock") (default 1000 (a_wait arg)) w
    = (Val fl, w1) →
  w_fs w1 !! a_file arg = Some f →
  __init__ copy_bytes fuel arg w = (Val tt, (s, w')) →
  _readonly s = false →
  wf_write_session s
  ∧ _file s = a_file arg
  ∧ (_keep_backup s = true → _do_backup s = true)
  ∧ _fd s = Some (List.length (w_fds w1))
  ∧ w_fs w' !! _temp s = Some (copy_of copy_bytes f)
  ∧ (∀ p, p ≠ _temp s → w_fs w2 !! p = w_fs w' !! p)
  ∧ w_fs w' !! a_file arg = Some f
  ∧ (_do_backup s = true
     → w_fs w' !! sibling (a_file arg) ".backup"
       = Some (copy_of copy_bytes f))
  ∧ (∀ p, p ≠ _temp s → p ≠ sibling (a_file arg) ".backup"
          → w_fs w' !! p = w_fs w1 !! p)
  ∧ (_do_backup s = false
     → w_fs w' !! sibling (a_file arg) ".backup"
       = w_fs w1 !! sibling (a_file arg) ".backup")
  ∧ w_stdout w2 = w_stdout w1
  ∧ protected_open w2 = dict_set (a_file arg) s (protected_open w1)
  ∧ ∃ staged,
      w_fs w2 !! _temp s = Some staged
      ∧ __exit__ copy_bytes blake2b s w2
        = (Val tt,
           released s true
             (with_fs (delete (_temp s)
                         (<[_file s := copy_of copy_bytes staged]>
                            (w_fs w2))) w2)).
Proof.
  intros w2 Hsound Htmp Hacq Hf Hinit Hro.
  pose proof (acquire_tempdir _ _ _ _ _ _ Hacq) as Ht.
  destruct (init_write_existing_inv copy_bytes fuel arg w w1 fl f s w'
              Htmp Hacq Hf Hinit Hro) as (Hs & Hw' & Hro').
  assert (Htmp1 : parent (a_file arg) ≠ w_tempdir w1) by (by rewrite Ht).
  destruct (pre_open_write_wf copy_bytes arg fl w1 f
              (List.length (w_fds w1)) Htmp1 Hf Hro')
    as (Hwf & Hfile & Hfstat & Htemp & Hkeep).
  rewrite <- Hs in Hwf, Hfile, Hfstat, Htemp, Hkeep.
  destruct (pre_open_write_fs copy_bytes arg fl w1 f Htmp1 Hf Hro')
    as (P1 & P2 & P3 & P4 & P5 & P6 & P7 & P8 & P9 & P10 & P11).
  assert (Etemp : _temp (pre_open copy_bytes arg fl w1).1 = _temp s)
    by (by rewrite Hs).
  assert (Edo : _do_backup (pre_open copy_bytes arg fl w1).1 = _do_backup s)
    by (by rewrite Hs).
  rewrite Etemp in P2, P5. rewrite Edo in P3, P4.
  assert (Hfs : w_fs w' = w_fs (pre_open copy_bytes arg fl w1).2)
    by (by rewrite Hw').
  assert (Hframe : ∀ p, p ≠ _temp s → w_fs w2 !! p = w_fs w' !! p).
  { intros p Hp. unfold w2. apply (run_ops_frame _ (_temp s)); [|done].
    intros h. rewrite Hw'. simpl. rewrite lookup_app_r by done.
    rewrite Nat.sub_diag. simpl. intros [= <-]. simpl. by rewrite Etemp. }
  destruct (session_paths_distinct s w2 Hwf)
    as (T1 & T2 & T3 & T4 & B1 & L1 & A1 & A2 & A3 & B2).
  rewrite Hfile in *.
  destruct (run_ops_globals (List.length (w_fds w1)) ops w')
    as (G1 & G2 & G3 & G4 & G5). fold w2 in G1, G2, G3, G4, G5.
  assert (Hst : is_Some (w_fs w2 !! _temp s)).
  { unfold w2. apply run_ops_keeps. rewrite Hfs, P2. by eexists. }
  destruct Hst as [staged Hst].
  split_and!; try done.
  - by rewrite Hs.
  - by rewrite Hfs.
  - by rewrite Hfs.
  - intros Hd. rewrite Hfs. by apply P3.
  - intros p Hp Hb. rewrite Hfs. by apply P5.
  - intros Hd. rewrite Hfs. by apply P4.
  - rewrite G1, Hw'. simpl. done.
  - rewrite G5, Hw'. simpl. done.
  - exists staged. split; [done|]. rewrite <- Hfile.
    apply (exit_commit_run copy_bytes blake2b s w2 f staged);
      first [done | intros _; apply Hsound
            | rewrite ?Hfile, Hframe by done; by rewrite Hfs].
Qed.

(** X5: a session that is not read-only and takes the backup during
    the lock (the default, and what [backup=True] forces), on a
    target that was there and was not touched from outside, commits
    whatever its staging file holds at the close: after any calls on
    the handle, [__exit__] returns normally, the target then holds
    the copy of the staging file, the staging file and the sentinel
    are gone, the session is no longer registered, nothing has been
    printed, and no path other than the target and the backup differs
    from what it was when the lock was taken.  The backup is the read
    of the target that comes before the metadata snapshot; with
    [backup_during_lock=False] the copy to the staging file reads the
    target after the snapshot and moves its access time, which the
    snapshot of this development (size and modification time) does
    not hold, so that case is left out. *)
Theorem write_session_commits_staging (fuel : nat) (arg : Args)
    (w w1 : World) (fl : nat) (f : File) (s : ProtectFile) (w' : World)
    (ops : list FdOp) :
  (∀ d, blake2b (copy_bytes d) = blake2b d) →
  parent (a_file arg) ≠ w_tempdir w →
  acquire fuel (sibling (a_file arg) ".lock") (default 1000 (a_wait arg)) w
    = (Val fl, w1) →
  w_fs w1 !! a_file arg = Some f →
  __init__ copy_bytes fuel arg w = (Val tt, (s, w')) →
  _readonly s = false →
  _do_backup s = true →
  ∃ pf staged,
    __enter__ s w' = (Val pf, w')
    ∧ w_fs (run_ops pf ops w') !! _temp s = Some staged
    ∧ let r := __exit__ copy_bytes blake2b s (run_ops pf ops w') in
      r.1 = Val tt
      ∧ w_fs r.2 !! a_file arg = Some (copy_of copy_bytes staged)
      ∧ w_fs r.2 !! _temp s = None
      ∧ w_fs r.2 !! sibling (a_file arg) ".lock" = None
      ∧ (∀ p, p ≠ a_file arg → p ≠ _temp s →
              p ≠ sibling (a_file arg) ".lock" →
              p ≠ sibling (a_file arg) ".backup" →
              w_fs r.2 !! p = w_fs w1 !! p)
      ∧ w_stdout r.2 = w_stdout w1
      ∧ protected_open r.2 = dict_pop (a_file arg) (protected_open w1).
Proof.
  intros Hsound Htmp Hacq Hf Hinit Hro Hdo.
  destruct (write_session_close_run fuel arg w w1 fl f s w' ops
              Hsound Htmp Hacq Hf Hinit Hro)
    as (Hwf & Hfile & Hkeep & Hfd & Hst0 & Hframe & Htgt & Hbk & Hoth & Hnb
        & Hout & Hreg & staged & Hst & Hexit).
  destruct (session_paths_distinct s w' Hwf)
    as (T1 & T2 & T3 & T4 & B1 & L1 & A1 & A2 & A3 & B2).
  pose proof Hwf as (_ & _ & _ & Hl & _).
  rewrite Hfile in *.
  exists (List.length (w_fds w1)), staged.
  split; [unfold __enter__; by rewrite Hfd|].
  split; [done|].
  rewrite Hexit. cbn [fst snd].
  split_and!; try done.
  - rewrite released_lookup by (rewrite ?Hfile; done).
    simpl. rewrite lookup_delete_ne by done.
    by rewrite lookup_insert_eq.
  - apply released_temp_gone.
  - rewrite <- Hl. apply released_lock_gone.
  - intros p P1 P2 P3 P4.
    rewrite released_lookup by (rewrite ?Hfile, ?Hl; done).
    simpl. rewrite lookup_delete_ne by done.
    rewrite lookup_insert_ne by done.
    rewrite Hframe by done. by apply Hoth.
  - unfold released. simpl. rewrite Hreg, Hfile. apply dict_pop_set.
Qed.

(** X6: what becomes of the backup.  After the commit of such a
    session, [<file>.backup] holds the copy of the target made at the
    open when [backup=True] was passed; it is gone when a backup was
    taken without that option (whatever was at that path before); and
    it is what it was when no backup was taken. *)
Theorem backup_after_commit (fuel : nat) (arg : Args)
    (w w1 : World) (fl : nat) (f : File) (s : ProtectFile) (w' : World)
    (ops : list FdOp) :
  (∀ d, blake2b (copy_bytes d) = blake2b d) →
  parent (a_file arg) ≠ w_tempdir w →
  acquire fuel (sibling (a_file arg) ".lock") (default 1000 (a_wait arg)) w
    = (Val fl, w1) →
  w_fs w1 !! a_file arg = Some f →
  __init__ copy_bytes fuel arg w = (Val tt, (s, w')) →
  _readonly s = false →
  let bk := sibling (a_file arg) ".backup" in
  let r := __exit__ copy_bytes blake2b s
             (run_ops (List.length (w_fds w1)) ops w') in
  _keep_backup s = default false (a_backup arg)
  ∧ w_fs r.2 !! bk
    = if _keep_backup s then Some (copy_of copy_bytes f)
      else if _do_backup s then None
      else w_fs w1 !! bk.
Proof.
  intros Hsound Htmp Hacq Hf Hinit Hro bk r. subst bk r.
  destruct (write_session_close_run fuel arg w w1 fl f s w' ops
              Hsound Htmp Hacq Hf Hinit Hro)
    as (Hwf & Hfile & Hkeep & Hfd & Hst0 & Hframe & Htgt & Hbk & Hoth & Hnb
        & Hout & Hreg & staged & Hst & Hexit).
  destruct (session_paths_distinct s w' Hwf)
    as (T1 & T2 & T3 & T4 & B1 & L1 & A1 & A2 & A3 & B2).
  pose proof (doomed_backup_wf s Hwf) as Hdoom.
  rewrite Hfile in *.
  split.
  { pose proof (acquire_tempdir _ _ _ _ _ _ Hacq) as Ht.
    destruct (init_write_existing_inv copy_bytes fuel arg w w1 fl f s w'
                Htmp Hacq Hf Hinit Hro) as (-> & _ & Hro').
    unfold pre_open. by rewrite Hf. }
  rewrite Hexit. cbn [fst snd].
  rewrite released_lookup_gen by done. rewrite Hdoom.
  destruct (_keep_backup s) eqn:Ek.
  - rewrite Hkeep by done. simpl.
    rewrite lookup_delete_ne, lookup_insert_ne by done.
    rewrite Hframe by done. apply Hbk. by apply Hkeep.
  - destruct (_do_backup s) eqn:Ed; simpl.
    + by rewrite lookup_delete_eq.
    + rewrite lookup_delete_ne, lookup_insert_ne by done.
      rewrite Hframe by done. by apply Hnb.
Qed.

End Lifecycle.


Lemma write_session_commits_staging_witness :
  let r0 := __init__ Ex.sound 1 (Ex.args "r+") (Ex.holding "{}") in
  let ops := [OpTruncate 0; OpSeek 0; OpWrite (list_ascii_of_string "[1]")] in
  let r := __exit__ Ex.sound Ex.digest r0.2.1 (run_ops 1 ops r0.2.2) in
  r.1 = Val tt
  ∧ f_data <$> w_fs r.2 !! Ex.F = Some (list_ascii_of_string "[1]")
  ∧ w_fs r.2 !! sibling Ex.F ".lock" = None.
Proof.
  intros r0 ops r.
  destruct (write_session_commits_staging Ex.sound Ex.digest 1 (Ex.args "r+")
              (Ex.holding "{}")
              (acquire 1 (sibling Ex.F ".lock") 1000 (Ex.holding "{}")).2 0
              (mkFile (list_ascii_of_string "{}") "2022-04-17T09:00:00")
              r0.2.1 r0.2.2 ops)
    as (pf & staged & Henter & Hst & Hval & Htgt & _ & Hlock & _).
  - intros d. reflexivity.
  - vm_compute. discriminate.
  - vm_compute. reflexivity.
  - vm_compute. reflexivity.
  - vm_compute. reflexivity.
  - vm_compute. reflexivity.
  - vm_compute. reflexivity.
  - vm_compute in Henter. injection Henter as <-.
    vm_compute in Hst. injection Hst as <-.
    split_and!; [exact Hval| |exact Hlock].
    change (a_file (Ex.args "r+")) with Ex.F in Htgt.
    unfold r. rewrite Htgt. vm_compute. reflexivity.
Defined.

Lemma backup_after_commit_witness :
  let arg := mkArgs Ex.F (Some "r+") None None (Some true) None None in
  let r0 := __init__ Ex.sound 1 arg (Ex.holding "{}") in
  let ops := [OpTruncate 0; OpSeek 0; OpWrite (list_ascii_of_string "[1]")] in
  let r := __exit__ Ex.sound Ex.digest r0.2.1 (run_ops 1 ops r0.2.2) in
  f_data <$> w_fs r.2 !! sibling Ex.F ".backup"
  = Some (list_ascii_of_string "{}").
Proof.
  intros arg r0 ops r.
  destruct (backup_after_commit Ex.sound Ex.digest 1 arg
              (Ex.holding "{}")
              (acquire 1 (sibling Ex.F ".lock") 1000 (Ex.holding "{}")).2 0
              (mkFile (list_ascii_of_string "{}") "2022-04-17T09:00:00")
              r0.2.1 r0.2.2 ops)
    as (Hk & Hbk).
  - intros d. reflexivity.
  - vm_compute. discriminate.
  - vm_compute. reflexivity.
  - vm_compute. reflexivity.
  - vm_compute. reflexivity.
  - vm_compute. reflexivity.
  - change (List.length
              (w_fds (acquire 1 (sibling Ex.F ".lock") 1000
                        (Ex.holding "{}")).2)) with 1%nat in Hbk.
    change (a_file arg) with Ex.F in Hbk.
    unfold r. rewrite Hbk.
    replace (_keep_backup r0.2.1) with true by (vm_compute; reflexivity).
    reflexivity.
Defined.


(** ** An exception in the body of the [with] statement *)

Section BodyRaises.

Variable copy_bytes : Data → Data.
Variable blake2b : Data → string.

(** X7: [__exit__] does not look at the exception it is passed.  When
    the body of [with ProtectFile(...)] raises after some calls on the
    handle, a session that takes the backup during the lock (the
    default) commits all the same: the target then holds the copy of
    the staging file as those calls left it, the sentinel is removed,
    and the exception of the body propagates.  As for the commit of
    a body that returns, [backup_during_lock=False] is left out: the
    target is then first read after the metadata snapshot, and the
    access time this moves is not part of the snapshot here. *)
Theorem body_exception_still_commits {X : Type} (fuel : nat) (arg : Args)
    (w w1 : World) (fl : nat) (f : File) (s : ProtectFile) (w' : World)
    (ops : list FdOp) (e : Exn) (x : X) :
  (∀ d, blake2b (copy_bytes d) = blake2b d) →
  parent (a_file arg) ≠ w_tempdir w →
  acquire fuel (sibling (a_file arg) ".lock") (default 1000 (a_wait arg)) w
    = (Val fl, w1) →
  w_fs w1 !! a_file arg = Some f →
  __init__ copy_bytes fuel arg w = (Val tt, (s, w')) →
  _readonly s = false →
  _do_backup s = true →
  let body (pf : nat) : M (X * World) unit :=
    lift (λ w, (Exc e, run_ops pf ops w)) in
  ∃ staged,
    w_fs (run_ops (List.length (w_fds w1)) ops w') !! _temp s = Some staged
    ∧ let r := with_ProtectFile copy_bytes blake2b fuel arg body (x, w) in
      r.1 = Exc e
      ∧ r.2.1 = x
      ∧ w_fs r.2.2 !! a_file arg = Some (copy_of copy_bytes staged)
      ∧ w_fs r.2.2 !! sibling (a_file arg) ".lock" = None.
Proof.
  intros Hsound Htmp Hacq Hf Hinit Hro Hdo body.
  destruct (write_session_close_run copy_bytes blake2b fuel arg w w1 fl f
              s w' ops Hsound Htmp Hacq Hf Hinit Hro)
    as (Hwf & Hfile & Hkeep & Hfd & Hst0 & Hframe & Htgt & Hbk & Hoth & Hnb
        & Hout & Hreg & staged & Hst & Hexit).
  destruct (session_paths_distinct s w' Hwf)
    as (T1 & T2 & T3 & T4 & B1 & L1 & A1 & A2 & A3 & B2).
  pose proof Hwf as (_ & _ & _ & Hl & _).
  exists staged. split; [done|].
  assert (Hrun : with_ProtectFile copy_bytes blake2b fuel arg body (x, w)
                 = (Exc e,
                    (x, released s true
                          (with_fs
                             (delete (_temp s)
                                (<[_file s := copy_of copy_bytes staged]>
                                   (w_fs (run_ops (List.length (w_fds w1))
                                            ops w'))))
                             (run_ops (List.length (w_fds w1)) ops w'))))).
  { unfold with_ProtectFile. cbn [fst snd]. rewrite Hinit.
    unfold __enter__. rewrite Hfd. unfold ret at 1.
    unfold body. rewrite lift_run. cbn [fst snd].
    unfold bind at 1. rewrite lift_run, Hexit. reflexivity. }
  rewrite Hrun. cbn [fst snd].
  split_and!; try done.
  - rewrite released_lookup by (rewrite <- ?Hfile; done).
    simpl. rewrite lookup_delete_ne by (by rewrite <- Hfile).
    by rewrite Hfile, lookup_insert_eq.
  - rewrite Hfile in Hl. rewrite <- Hl. apply released_lock_gone.
Qed.

End BodyRaises.

Lemma body_exception_still_commits_witness :
  let body (pf : nat) : M (unit * World) unit :=
    lift (λ w, (Exc KeyError,
                run_ops pf [OpTruncate 0; OpSeek 0;
                            OpWrite (list_ascii_of_string "[")] w)) in
  let r := with_ProtectFile Ex.sound Ex.digest 1 (Ex.args "r+") body
             (tt, Ex.holding "{}") in
  r.1 = Exc KeyError
  ∧ f_data <$> w_fs r.2.2 !! Ex.F = Some (list_ascii_of_string "[").
Proof.
  intros body r.
  pose (r0 := __init__ Ex.sound 1 (Ex.args "r+") (Ex.holding "{}")).
  destruct (body_exception_still_commits Ex.sound Ex.digest 1 (Ex.args "r+")
              (Ex.holding "{}")
              (acquire 1 (sibling Ex.F ".lock") 1000 (Ex.holding "{}")).2 0
              (mkFile (list_ascii_of_string "{}") "2022-04-17T09:00:00")
              r0.2.1 r0.2.2
              [OpTruncate 0; OpSeek 0; OpWrite (list_ascii_of_string "[")]
              KeyError tt)
    as (staged & Hst & Hexc & _ & Htgt & _).
  - intros d. reflexivity.
  - vm_compute. discriminate.
  - vm_compute. reflexivity.
  - vm_compute. reflexivity.
  - vm_compute. reflexivity.
  - vm_compute. reflexivity.
  - vm_compute. reflexivity.
  - vm_compute in Hst. injection Hst as <-.
    split; [exact Hexc|].
    change (a_file (Ex.args "r+")) with Ex.F in Htgt.
    unfold r, body. rewrite Htgt. reflexivity.
Defined.

(** ** Read-only sessions *)

Lemma run_op_readonly (pf : nat) (op : FdOp) (w : World) :
  (∀ h, w_fds w !! pf = Some h → h_writable h = false) →
  (∀ h, w_fds (run_op pf op w).2 !! pf = Some h → h_writable h = false)
  ∧ w_fs (run_op pf op w).2 = w_fs w.
Proof.
  intros Hinv.
  assert (Hw : ∀ h, w_fds w !! pf = Some h → h_writable h = false) by done.
  destruct op; simpl;
    unfold fd_read, fd_write, fd_truncate, fd_seek, fd_close, bind,
      open_handle, file_of, put_data, put_handle, modify, ret, raise;
    simpl.
  all: destruct (w_fds w !! pf) as [h|] eqn:Hh; simpl;
    [specialize (Hw h eq_refl); destruct (h_closed h) eqn:Hc; simpl|];
    rewrite ?Hw; simpl.
  all: try (destruct (h_readable h); simpl).
  all: try (destruct (w_fs w !! h_path h); simpl).
  all: split; [|done]; intros h0;
    rewrite ?list_lookup_insert_eq, ?list_lookup_alter_eq
      by (by eapply lookup_lt_Some);
    rewrite ?Hh; simpl; intros ?; simplify_eq; done.
Qed.

Lemma run_ops_readonly (pf : nat) (ops : list FdOp) (w : World) :
  (∀ h, w_fds w !! pf = Some h → h_writable h = false) →
  w_fs (run_ops pf ops w) = w_fs w.
Proof.
  revert w. induction ops as [|op ops IH]; intros w Hinv; [done|].
  simpl. destruct (run_op_readonly pf op w Hinv) as [Hinv' Hfs].
  by rewrite IH.
Qed.


Section ReadOnly.

Variable copy_bytes : Data → Data.
Variable blake2b : Data → string.

Lemma exit_readonly_run (s : ProtectFile) (w : World) (ft : File)
    (fd : nat) :
  _readonly s = true → _exists s = true → _fd s = Some fd →
  w_fs w !! _file s = Some ft → _fstat s = Some (stat_of ft) →
  __exit__ copy_bytes blake2b s w = (Val tt, released s true w).
Proof.
  intros Hro Hex Hfd Hft Hst.
  unfold __exit__, mv_temp. rewrite Hfd, Hex, Hro. simpl.
  unfold bind at 1. rewrite exit_close_run.
  unfold bind at 1. unfold bind at 1.
  rewrite (stat_ok _ ft) by done. unfold ret at 1.
  rewrite bool_decide_eq_false_2 by (intros E; apply E; by rewrite Hst).
  unfold bind at 1. unfold when, ret at 1.
  rewrite release_run. f_equal.
  rewrite <- Hfd. apply released_after_close.
Qed.

Lemma init_read_existing_run (fuel : nat) (arg : Args) (w w1 : World)
    (fl : nat) (f : File) :
  let mode := default "r" (a_mode arg) in
  let pre := pre_open copy_bytes arg fl w1 in
  let s := set_fd (List.length (w_fds w1)) pre.1 in
  acquire fuel (sibling (a_file arg) ".lock") (default 1000 (a_wait arg)) w
    = (Val fl, w1) →
  w_fs w1 !! a_file arg = Some f →
  read_only mode = true →
  mode_valid mode = true →
  __init__ copy_bytes fuel arg w
  = (Val tt,
     (s, with_registry (dict_set (a_file arg) s (protected_open w1))
           (with_fds (w_fds w1 ++ [new_handle (a_file arg) mode 0]) pre.2))).
Proof.
  intros mode pre s Hacq Hf Hro Hok. subst mode pre s.
  assert (Hex : present (a_file arg) w1 = true).
  { unfold present. rewrite bool_decide_eq_true_2; [done|]. by eexists. }
  assert (Hr : in_str "r" (default "r" (a_mode arg)) = true).
  { unfold read_only in Hro. by apply andb_prop in Hro as [? _]. }
  rewrite (init_run copy_bytes fuel _ w w1 fl); rewrite ?Hex;
    [|done|by unfold violation; rewrite Hr|by rewrite Hro].
  destruct (pre_open_fields copy_bytes arg fl w1)
    as (Hfile & Htemp & _ & Hro' & _ & _ & _).
  unfold opened_path, opened_mode. rewrite Hro', Hro, Hr, Hfile. simpl.
  assert (Hb : sibling (a_file arg) ".backup" ≠ a_file arg)
    by (by apply sibling_ne).
  assert (Hst : w_fs (pre_open copy_bytes arg fl w1).2 !! a_file arg
                = Some f).
  { unfold pre_open. rewrite Hf, Hro. simpl.
    destruct (_ && _); simpl; by rewrite ?lookup_insert_ne. }
  erewrite io_open_r; [|done|done|exact Hst].
  assert (Hfds : w_fds (pre_open copy_bytes arg fl w1).2 = w_fds w1).
  { unfold pre_open. by rewrite Hf. }
  assert (Hreg : protected_open (pre_open copy_bytes arg fl w1).2
                 = protected_open w1).
  { unfold pre_open. by rewrite Hf. }
  unfold registered.
  cbn [with_registry with_fds protected_open w_fds fst snd].
  rewrite Hfile, Hfds, Hreg. reflexivity.
Qed.

(** X8: a read-only session reads the target itself and changes no
    file.  Opened with a mode that has [r] and no [+] on a target
    that is there, without [backup_if_readonly], the session hands
    out a file object on the target path; no call on it changes the
    file system; and [__exit__] returns normally with the target as
    it was, the sentinel gone, and every path as it was when the lock
    was taken, apart from the sentinel and from the staging path of
    that file name (deleted by [release] if it is there).  Nothing is
    said of what the close prints: a read through the handle moves
    the access time of the target, which the snapshot of this
    development (size and modification time) does not hold, and the
    comparison at the close then reports a change.  With no backup
    and no staging file, the two outcomes of that comparison leave
    the same files. *)
Theorem read_only_session_changes_nothing (fuel : nat) (arg : Args)
    (w w1 : World) (fl : nat) (f : File) (ops : list FdOp) :
  let mode := default "r" (a_mode arg) in
  mode_valid mode = true →
  read_only mode = true →
  default false (a_backup_if_readonly arg) = false →
  parent (a_file arg) ≠ w_tempdir w →
  acquire fuel (sibling (a_file arg) ".lock") (default 1000 (a_wait arg)) w
    = (Val fl, w1) →
  w_fs w1 !! a_file arg = Some f →
  ∃ s w' pf,
    __init__ copy_bytes fuel arg w = (Val tt, (s, w'))
    ∧ __enter__ s w' = (Val pf, w')
    ∧ h_path <$> w_fds w' !! pf = Some (a_file arg)
    ∧ w_fs (run_ops pf ops w') = w_fs w'
    ∧ let r := __exit__ copy_bytes blake2b s (run_ops pf ops w') in
      r.1 = Val tt
      ∧ w_fs r.2 !! a_file arg = Some f
      ∧ w_fs r.2 !! sibling (a_file arg) ".lock" = None
      ∧ (∀ p, p ≠ sibling (a_file arg) ".lock" → p ≠ _temp s →
              w_fs r.2 !! p = w_fs w1 !! p).
Proof.
  intros mode Hok Hro Hnb Htmp Hacq Hf. subst mode.
  pose proof (acquire_tempdir _ _ _ _ _ _ Hacq) as Ht.
  set (pre := pre_open copy_bytes arg fl w1).
  set (s := set_fd (List.length (w_fds w1)) pre.1).
  set (w' := with_registry (dict_set (a_file arg) s (protected_open w1))
               (with_fds (w_fds w1 ++ [new_handle (a_file arg)
                                         (default "r" (a_mode arg)) 0])
                  pre.2)).
  destruct (pre_open_fields copy_bytes arg fl w1)
    as (Hfile & Htemp & Hlock & Hro' & Hex & _ & _).
  fold pre in Hfile, Htemp, Hlock, Hro', Hex.
  assert (Hfds : w_fds pre.2 = w_fds w1).
  { unfold pre, pre_open. by rewrite Hf. }
  assert (Hout : w_stdout pre.2 = w_stdout w1).
  { unfold pre, pre_open. by rewrite Hf. }
  assert (Hfstat : _fstat pre.1 = Some (stat_of f)).
  { unfold pre, pre_open. by rewrite Hf. }
  assert (Hb : sibling (a_file arg) ".backup" ≠ a_file arg)
    by (by apply sibling_ne).
  assert (Hl : sibling (a_file arg) ".lock" ≠ a_file arg)
    by (by apply sibling_ne).
  assert (Htf : mkPath (w_tempdir w1) (name (a_file arg)) ≠ a_file arg).
  { apply staging_ne_target. by rewrite Ht. }
  assert (Hpre : ∀ p, without (doomed_backup s) (w_fs pre.2) !! p
                      = w_fs w1 !! p).
  { intros p. unfold s, pre, pre_open, doomed_backup, without, init_fields.
    rewrite Hf, Hro. simpl.
    destruct (a_backup_if_readonly arg) as [[|]|]; simpl;
      rewrite ?andb_false_r; simpl; done. }
  assert (Hh : w_fds w' !! List.length (w_fds w1)
               = Some (new_handle (a_file arg) (default "r" (a_mode arg)) 0)).
  { unfold w'. simpl. rewrite lookup_app_r by done.
    by rewrite Nat.sub_diag. }
  assert (Hops : w_fs (run_ops (List.length (w_fds w1)) ops w') = w_fs w').
  { apply run_ops_readonly. intros h. rewrite Hh. intros [= <-]. simpl.
    unfold read_only in Hro. apply andb_prop in Hro as [-> Hp].
    apply negb_true_iff in Hp. by rewrite Hp. }
  destruct (run_ops_globals (List.length (w_fds w1)) ops w')
    as (G1 & _).
  exists s, w', (List.length (w_fds w1)).
  split; [by apply (init_read_existing_run fuel arg w w1 fl f)|].
  split; [done|].
  split; [by rewrite Hh|].
  split; [done|].
  rewrite (exit_readonly_run s _ f (List.length (w_fds w1)));
    [|by unfold s; simpl; rewrite Hro'
     |unfold s; simpl; rewrite Hex; unfold present;
      rewrite bool_decide_eq_true_2; [done|by eexists]
     |done
     |rewrite Hops; unfold s, w'; simpl; rewrite Hfile;
      unfold pre, pre_open; rewrite Hf, Hro; simpl;
      destruct (_ && _); simpl; by rewrite ?lookup_insert_ne
     |done].
  cbn [fst snd].
  assert (Hall : ∀ p, p ≠ sibling (a_file arg) ".lock" → p ≠ _temp s →
              w_fs (released s true (run_ops (List.length (w_fds w1)) ops w'))
                !! p = w_fs w1 !! p).
  { intros p P1 P2.
    rewrite released_lookup_gen; [|done|by unfold s; simpl; rewrite Hlock].
    rewrite Hops. unfold w'. simpl. apply Hpre. }
  split_and!; try done.
  - rewrite Hall; try done. unfold s. simpl. by rewrite Htemp.
  - replace (sibling (a_file arg) ".lock") with (_lock s)
      by (by unfold s; simpl; rewrite Hlock).
    apply released_lock_gone.
Qed.

End ReadOnly.

Lemma read_only_session_changes_nothing_witness :
  let r0 := __init__ Ex.sound 1 (Ex.args "r") (Ex.holding "{}") in
  let ops := [OpRead; OpWrite (list_ascii_of_string "[1]"); OpClose] in
  let r := __exit__ Ex.sound Ex.digest r0.2.1 (run_ops 1 ops r0.2.2) in
  r.1 = Val tt
  ∧ f_data <$> w_fs r.2 !! Ex.F = Some (list_ascii_of_string "{}")
  ∧ w_fs r.2 !! sibling Ex.F ".lock" = None.
Proof.
  intros r0 ops r.
  destruct (read_only_session_changes_nothing Ex.sound Ex.digest 1
              (Ex.args "r") (Ex.holding "{}")
              (acquire 1 (sibling Ex.F ".lock") 1000 (Ex.holding "{}")).2 0
              (mkFile (list_ascii_of_string "{}") "2022-04-17T09:00:00") ops)
    as (s & w' & pf & Hinit & Henter & _ & _ & Hval & Htgt & Hlock & _).
  - vm_compute. reflexivity.
  - vm_compute. reflexivity.
  - vm_compute. reflexivity.
  - vm_compute. discriminate.
  - vm_compute. reflexivity.
  - vm_compute. reflexivity.
  - assert (E : (s, w') = r0.2).
    { unfold r0. by rewrite Hinit. }
    assert (Es : s = r0.2.1) by (by rewrite <- E).
    assert (Ew : w' = r0.2.2) by (by rewrite <- E).
    subst s w'.
    vm_compute in Henter. injection Henter as <-.
    change (a_file (Ex.args "r")) with Ex.F in Htgt, Hlock.
    unfold r. split; [exact Hval|]. split; [|exact Hlock].
    rewrite Htgt. reflexivity.
Defined.


(** ** Sessions on a target that is not there yet *)

Lemma create_modes_checked :
  forallb (λ m, negb (mode_valid m && (in_str "w" m || in_str "a" m))
                || create_mode_ok m)
          (strings_upto 5 write_alpha) = true.
Proof. vm_compute. reflexivity. Qed.

Lemma valid_create_mode (m : string) :
  mode_valid m = true → in_str "r" m = false →
  mode_valid (opened_mode m false) = true
  ∧ in_str "x" (opened_mode m false) = true
  ∧ in_str "r" (opened_mode m false) = false.
Proof.
  intros Hok Hr.
  destruct (in_str "x" m) eqn:Hx.
  - unfold opened_mode. rewrite Hr, Hx. simpl. done.
  - pose proof (mode_valid_kind m Hok) as Hk. rewrite Hx, Hr in Hk.
    simpl in Hk.
    pose proof (valid_write_mode_chars m Hok Hk) as Hin.
    pose proof create_modes_checked as Hall.
    rewrite forallb_forall in Hall.
    apply list_elem_of_In, Hall in Hin. rewrite Hok, Hk in Hin. simpl in Hin.
    unfold create_mode_ok in Hin.
    apply andb_prop in Hin as [Hin H3]. apply andb_prop in Hin as [H1 H2].
    apply negb_true_iff in H3. done.
Qed.

Lemma io_open_create (p : Path) (m : string) (w : World) :
  mode_valid m = true → in_str "r" m = false → in_str "x" m = true →
  w_fs w !! p = None →
  io_open p m w
  = (Val (List.length (w_fds w)),
     with_fds (w_fds w ++ [new_handle p m 0])
       (with_fs (<[p := mkFile [] (w_now w)]> (w_fs w)) w)).
Proof.
  intros Hok Hr Hx Hp. unfold io_open. rewrite Hok. simpl.
  rewrite Hr, Hx, Hp. done.
Qed.

Section Create.

Variable copy_bytes : Data → Data.
Variable blake2b : Data → string.

(** the commit of a session whose target was not there at the open *)
Lemma exit_commit_new_run (s : ProtectFile) (w : World) (staged : File)
    (fd : nat) :
  _readonly s = false → _exists s = false → _fd s = Some fd →
  _temp s ≠ _file s →
  w_fs w !! _temp s = Some staged →
  (_check_hash s = true →
   blake2b (copy_bytes (f_data staged)) = blake2b (f_data staged)) →
  __exit__ copy_bytes blake2b s w
  = (Val tt,
     released s true
       (with_fs (delete (_temp s)
                   (<[_file s := copy_of copy_bytes staged]> (w_fs w))) w)).
Proof.
  intros Hro Hex Hfd Hne Hst Hhash.
  unfold __exit__, mv_temp. rewrite Hfd, Hex, Hro. simpl.
  unfold bind at 1. rewrite exit_close_run.
  unfold bind at 1. unfold ret at 1.
  unfold bind at 1. unfold bind at 1.
  rewrite (copy2_ok _ _ _ staged) by done.
  unfold bind at 1.
  assert (Hnm : (if _check_hash s
                 then
                   let* h1 := get_hash blake2b (_temp s) in
                   let* h2 := get_hash blake2b (_file s) in
                   ret (bool_decide (h1 ≠ h2))
                 else ret false)
                  (with_fs (<[_file s := copy_of copy_bytes staged]>
                              (w_fs (with_fds (closed_in (Some fd) (w_fds w)) w)))
                     (with_fds (closed_in (Some fd) (w_fds w)) w))
                = (Val false,
                   with_fs (<[_file s := copy_of copy_bytes staged]>
                              (w_fs (with_fds (closed_in (Some fd) (w_fds w)) w)))
                     (with_fds (closed_in (Some fd) (w_fds w)) w))).
  { destruct (_check_hash s); [|done].
    unfold bind.
    rewrite (get_hash_ok _ _ staged)
      by (simpl; by rewrite lookup_insert_ne by (by apply not_eq_sym)).
    rewrite (get_hash_ok _ _ (copy_of copy_bytes staged))
      by (simpl; by rewrite lookup_insert_eq).
    unfold ret. simpl. rewrite bool_decide_eq_false_2; [done|].
    intros E. apply E. symmetry. by apply Hhash. }
  rewrite Hnm. clear Hnm. simpl.
  unfold bind at 1. unfold ret at 1.
  rewrite (unlink_ok _ staged)
    by (simpl; by rewrite lookup_insert_ne by (by apply not_eq_sym)).
  rewrite release_run. simpl.
  f_equal. unfold released. simpl. rewrite Hfd.
  change (alter set_closed fd (w_fds w)) with (closed_in (Some fd) (w_fds w)).
  by rewrite closed_in_twice.
Qed.

(** [__init__] in closed form on a target that is not there *)
Lemma init_create_run (fuel : nat) (arg : Args) (w w1 : World) (fl : nat) :
  let mode := default "r" (a_mode arg) in
  let pre := pre_open copy_bytes arg fl w1 in
  let s := set_fd (List.length (w_fds w1)) pre.1 in
  acquire fuel (sibling (a_file arg) ".lock") (default 1000 (a_wait arg)) w
    = (Val fl, w1) →
  mode_valid mode = true → in_str "r" mode = false →
  w_fs w1 !! a_file arg = None →
  w_fs w1 !! mkPath (w_tempdir w1) (name (a_file arg)) = None →
  __init__ copy_bytes fuel arg w
  = (Val tt,
     (s, with_registry (dict_set (a_file arg) s (protected_open w1))
           (with_fds (w_fds w1
                        ++ [new_handle (_temp s) (opened_mode mode false) 0])
              (with_fs (<[_temp s := mkFile [] (w_now w1)]> (w_fs w1))
                 w1)))).
Proof.
  intros mode pre s Hacq Hok Hr Hf Hst. subst mode pre s.
  assert (Hex : present (a_file arg) w1 = false).
  { unfold present. rewrite bool_decide_eq_false_2; [done|].
    rewrite Hf. by intros [? ?]. }
  assert (Hro : read_only (default "r" (a_mode arg)) = false).
  { unfold read_only. by rewrite Hr. }
  destruct (valid_create_mode _ Hok Hr) as (V1 & V2 & V3).
  rewrite (init_run copy_bytes fuel _ w w1 fl); rewrite ?Hex;
    [|done|by unfold violation; rewrite Hr, andb_false_r|done].
  unfold opened_path, pre_open. rewrite Hf, Hro. simpl.
  rewrite io_open_create by done.
  reflexivity.
Qed.

(** X9: a session on a target that is not there (a mode with [x], or
    with [w] or [a], which [__init__] turns into [x]) works on a fresh,
    empty staging file.  The target stays absent whatever is called on
    the handle; [__exit__] then creates it with the copy of the staging
    file, removes the staging file and the sentinel, takes no backup,
    and leaves every other path as it was when the lock was taken. *)
Theorem new_target_session_creates (fuel : nat) (arg : Args)
    (w w1 : World) (fl : nat) (ops : list FdOp) :
  let mode := default "r" (a_mode arg) in
  let temp := mkPath (w_tempdir w) (name (a_file arg)) in
  (∀ d, blake2b (copy_bytes d) = blake2b d) →
  parent (a_file arg) ≠ w_tempdir w →
  acquire fuel (sibling (a_file arg) ".lock") (default 1000 (a_wait arg)) w
    = (Val fl, w1) →
  mode_valid mode = true → in_str "r" mode = false →
  w_fs w1 !! a_file arg = None →
  w_fs w1 !! temp = None →
  ∃ s w' pf staged,
    __init__ copy_bytes fuel arg w = (Val tt, (s, w'))
    ∧ __enter__ s w' = (Val pf, w')
    ∧ _temp s = temp
    ∧ w_fs w' !! temp = Some (mkFile [] (w_now w1))
    ∧ (∀ ops', w_fs (run_ops pf ops' w') !! a_file arg = None)
    ∧ w_fs (run_ops pf ops w') !! temp = Some staged
    ∧ let r := __exit__ copy_bytes blake2b s (run_ops pf ops w') in
      r.1 = Val tt
      ∧ w_fs r.2 !! a_file arg = Some (copy_of copy_bytes staged)
      ∧ w_fs r.2 !! temp = None
      ∧ w_fs r.2 !! sibling (a_file arg) ".lock" = None
      ∧ (∀ p, p ≠ a_file arg → p ≠ temp →
              p ≠ sibling (a_file arg) ".lock" →
              w_fs r.2 !! p = w_fs w1 !! p)
      ∧ w_stdout r.2 = w_stdout w1.
Proof.
  intros mode temp Hsound Htmp Hacq Hok Hr Hf Hst. subst mode temp.
  pose proof (acquire_tempdir _ _ _ _ _ _ Hacq) as Ht.
  rewrite <- Ht in *.
  set (temp := mkPath (w_tempdir w1) (name (a_file arg))) in *.
  set (pre := pre_open copy_bytes arg fl w1).
  set (s := set_fd (List.length (w_fds w1)) pre.1).
  destruct (pre_open_fields copy_bytes arg fl w1)
    as (Hfile & Htemp & Hlock & Hro' & Hex & _ & _).
  fold pre in Hfile, Htemp, Hlock, Hro', Hex.
  assert (Hts : _temp s = temp) by (by unfold s; simpl; rewrite Htemp).
  assert (Hfs : _file s = a_file arg) by (by unfold s; simpl).
  assert (Hls : _lock s = sibling (a_file arg) ".lock")
    by (by unfold s; simpl).
  assert (Hbs : _backup s = Some None).
  { unfold s, pre, pre_open. by rewrite Hf. }
  assert (Hes : _exists s = false).
  { unfold s, pre, pre_open. by rewrite Hf. }
  assert (Hrs : _readonly s = false).
  { unfold s. simpl. rewrite Hro'. unfold read_only. by rewrite Hr. }
  assert (Htf : temp ≠ a_file arg) by (by apply staging_ne_target).
  assert (Htl : temp ≠ sibling (a_file arg) ".lock")
    by (by apply staging_ne_sibling).
  assert (Hlf : sibling (a_file arg) ".lock" ≠ a_file arg)
    by (by apply sibling_ne).
  set (w' := with_registry (dict_set (a_file arg) s (protected_open w1))
               (with_fds (w_fds w1
                            ++ [new_handle (_temp s)
                                  (opened_mode (default "r" (a_mode arg))
                                     false) 0])
                  (with_fs (<[_temp s := mkFile [] (w_now w1)]> (w_fs w1))
                     w1))).
  assert (Hinit : __init__ copy_bytes fuel arg w = (Val tt, (s, w'))).
  { by apply init_create_run. }
  assert (Hh : ∀ h, w_fds w' !! List.length (w_fds w1) = Some h
                    → h_path h = temp).
  { intros h. unfold w'. cbn [w_fs w_fds w_stdout protected_open with_registry with_fds with_fs]. rewrite lookup_app_r by done.
    rewrite Nat.sub_diag. intros [= <-]. done. }
  assert (Hframe : ∀ ops' p, p ≠ temp →
            w_fs (run_ops (List.length (w_fds w1)) ops' w') !! p
            = w_fs w1 !! p).
  { intros ops' p Hp. rewrite (run_ops_frame _ temp) by done.
    unfold w'. cbn [w_fs w_fds w_stdout protected_open with_registry with_fds with_fs]. rewrite Hts. by rewrite lookup_insert_ne. }
  assert (Hstaged : is_Some (w_fs (run_ops (List.length (w_fds w1)) ops w')
                               !! temp)).
  { apply run_ops_keeps. unfold w'. cbn [w_fs w_fds w_stdout protected_open with_registry with_fds with_fs].
    rewrite Hts, lookup_insert_eq. by eexists. }
  destruct Hstaged as [staged Hstaged].
  destruct (run_ops_globals (List.length (w_fds w1)) ops w') as (G1 & _).
  exists s, w', (List.length (w_fds w1)), staged.
  split; [done|]. split; [done|]. split; [done|].
  split. { unfold w'. cbn [w_fs w_fds w_stdout protected_open with_registry with_fds with_fs]. by rewrite Hts, lookup_insert_eq. }
  split. { intros ops'. rewrite Hframe by done. done. }
  split; [done|].
  rewrite (exit_commit_new_run s _ staged (List.length (w_fds w1)));
    [|done|done|done|by rewrite Hts, Hfs|by rewrite Hts
     |intros _; apply Hsound].
  cbn [fst snd].
  assert (Hdoom : doomed_backup s = None).
  { unfold doomed_backup. by rewrite Hbs. }
  split_and!; try done.
  - rewrite released_lookup_gen by (rewrite ?Hts, ?Hls; done).
    rewrite Hdoom. cbn [without w_fs with_fs]. rewrite Hts, Hfs.
    rewrite lookup_delete_ne by done. by rewrite lookup_insert_eq.
  - rewrite <- Hts. apply released_temp_gone.
  - rewrite <- Hls. apply released_lock_gone.
  - intros p P1 P2 P3.
    rewrite released_lookup_gen by (rewrite ?Hts, ?Hls; done).
    rewrite Hdoom. cbn [without w_fs with_fs]. rewrite Hts, Hfs.
    rewrite lookup_delete_ne, lookup_insert_ne by done.
    by apply Hframe.
Qed.

End Create.

Lemma new_target_session_creates_witness :
  let r0 := __init__ Ex.sound 1 (Ex.args "w") Ex.nothing in
  let ops := [OpWrite (list_ascii_of_string "[1]")] in
  let r := __exit__ Ex.sound Ex.digest r0.2.1 (run_ops 1 ops r0.2.2) in
  r.1 = Val tt
  ∧ f_data <$> w_fs r.2 !! Ex.F = Some (list_ascii_of_string "[1]")
  ∧ w_fs r.2 !! sibling Ex.F ".lock" = None.
Proof.
  intros r0 ops r.
  destruct (new_target_session_creates Ex.sound Ex.digest 1
              (Ex.args "w") Ex.nothing
              (acquire 1 (sibling Ex.F ".lock") 1000 Ex.nothing).2 0 ops)
    as (s & w' & pf & staged & Hinit & Henter & _ & _ & _ & Hst
        & Hval & Htgt & _ & Hlock & _).
  - intros d. reflexivity.
  - vm_compute. discriminate.
  - vm_compute. reflexivity.
  - vm_compute. reflexivity.
  - vm_compute. reflexivity.
  - vm_compute. reflexivity.
  - vm_compute. reflexivity.
  - assert (E : (s, w') = r0.2).
    { unfold r0. by rewrite Hinit. }
    assert (Es : s = r0.2.1) by (by rewrite <- E).
    assert (Ew : w' = r0.2.2) by (by rewrite <- E).
    subst s w'.
    vm_compute in Henter. injection Henter as <-.
    vm_compute in Hst. injection Hst as <-.
    change (a_file (Ex.args "w")) with Ex.F in Htgt, Hlock.
    unfold r. split; [exact Hval|]. split; [|exact Hlock].
    rewrite Htgt. reflexivity.
Defined.


(** ** Two sessions on files of the same name *)

Section SameName.

Variable copy_bytes : Data → Data.
Variable blake2b : Data → string.

Lemma init_write_existing_more (fuel : nat) (arg : Args) (w w1 : World)
    (fl : nat) (f : File) (s : ProtectFile) (w' : World) :
  parent (a_file arg) ≠ w_tempdir w →
  acquire fuel (sibling (a_file arg) ".lock") (default 1000 (a_wait arg)) w
    = (Val fl, w1) →
  w_fs w1 !! a_file arg = Some f →
  __init__ copy_bytes fuel arg w = (Val tt, (s, w')) →
  _readonly s = false →
  _temp s = mkPath (w_tempdir w) (name (a_file arg))
  ∧ _fstat s = Some (stat_of f)
  ∧ w_tempdir w' = w_tempdir w.
Proof.
  intros Htmp Hacq Hf Hinit Hro.
  pose proof (acquire_tempdir _ _ _ _ _ _ Hacq) as Ht.
  destruct (init_write_existing_inv copy_bytes fuel arg w w1 fl f s w'
              Htmp Hacq Hf Hinit Hro) as (Hs & Hw' & Hro').
  assert (Htmp1 : parent (a_file arg) ≠ w_tempdir w1) by (by rewrite Ht).
  destruct (pre_open_write_wf copy_bytes arg fl w1 f
              (List.length (w_fds w1)) Htmp1 Hf Hro')
    as (_ & _ & Hfstat & Htemp & _).
  rewrite <- Hs in Hfstat, Htemp.
  destruct (pre_open_write_fs copy_bytes arg fl w1 f Htmp1 Hf Hro')
    as (_ & _ & _ & _ & _ & _ & _ & _ & P9 & _).
  split_and!; [by rewrite Htemp, Ht|done|].
  rewrite Hw'. simpl. by rewrite P9.
Qed.

(** the close of a write session whose staging file is gone *)
Lemma exit_staging_missing (s : ProtectFile) (w : World) (ft : File) :
  wf_write_session s →
  w_fs w !! _file s = Some ft →
  Some (stat_of ft) = _fstat s →
  w_fs w !! _temp s = None →
  __exit__ copy_bytes blake2b s w
  = (Exc FileNotFoundError, with_fds (closed_in (_fd s) (w_fds w)) w).
Proof.
  intros (Hro & Hex & [fd Hfd] & _) Hft Hsame Hst.
  unfold __exit__, mv_temp. rewrite Hfd, Hex, Hro. simpl.
  unfold bind at 1. rewrite exit_close_run.
  unfold bind at 1. unfold bind at 1.
  rewrite (stat_ok _ ft) by done. unfold ret at 1.
  rewrite bool_decide_eq_false_2 by (intros E; by apply E).
  unfold bind at 1. unfold bind at 1.
  unfold copy2. simpl. rewrite Hst. done.
Qed.

(** X10: the staging path is made of the staging directory and the file
    name alone, so two sessions of one process on files of the same
    name in different directories work on the same staging file.  When
    a second such session is opened while the first is open, both
    taking the backup during the lock (the default), the staging file
    holds the copy of the second target; the commit of the first
    session then writes the content of the second target over the
    first target, and the close of the second session raises
    [FileNotFoundError], leaving its sentinel on disk.  Sessions
    opened with [backup_during_lock=False] are left out: their
    target is first read after the metadata snapshot, and the access
    time this moves is not part of the snapshot here. *)
Theorem same_name_sessions_share_staging (fuelA fuelB : nat)
    (argA argB : Args) (w wA1 : World) (flA : nat) (fA fB : File)
    (sA sB : ProtectFile) (wA wB : World) :
  let fileA := a_file argA in
  let fileB := a_file argB in
  (∀ d, blake2b (copy_bytes d) = blake2b d) →
  name fileA = name fileB →
  parent fileA ≠ parent fileB →
  parent fileA ≠ w_tempdir w →
  parent fileB ≠ w_tempdir w →
  acquire fuelA (sibling fileA ".lock") (default 1000 (a_wait argA)) w
    = (Val flA, wA1) →
  w_fs wA1 !! fileA = Some fA →
  __init__ copy_bytes fuelA argA w = (Val tt, (sA, wA)) →
  _readonly sA = false →
  _do_backup sA = true →
  w_fs wA !! sibling fileB ".lock" = None →
  w_fs wA !! fileB = Some fB →
  __init__ copy_bytes (S fuelB) argB wA = (Val tt, (sB, wB)) →
  _readonly sB = false →
  _do_backup sB = true →
  _temp sB = _temp sA
  ∧ w_fs wB !! _temp sA = Some (copy_of copy_bytes fB)
  ∧ let r := __exit__ copy_bytes blake2b sA wB in
    r.1 = Val tt
    ∧ w_fs r.2 !! fileA
      = Some (copy_of copy_bytes (copy_of copy_bytes fB))
    ∧ let r' := __exit__ copy_bytes blake2b sB r.2 in
      r'.1 = Exc FileNotFoundError
      ∧ is_Some (w_fs r'.2 !! sibling fileB ".lock").
Proof.
  intros fileA fileB Hsound Hname Hpar HtmpA HtmpB HacqA HfA HinitA HroA
    HdoA HlockB HfB HinitB HroB HdoB. subst fileA fileB.
  (* the first session *)
  destruct (write_session_close_run copy_bytes blake2b fuelA argA w wA1 flA
              fA sA wA [] Hsound HtmpA HacqA HfA HinitA HroA)
    as (HwfA & HfileA & _ & HfdA & _ & _ & HtgtA & HbkA & _ & _
        & _ & _ & _).
  destruct (init_write_existing_more fuelA argA w wA1 flA fA sA wA
              HtmpA HacqA HfA HinitA HroA) as (HtempA & HfstatA & HtdA).
  (* the lock of the second session *)
  pose proof (acquire_free fuelB (sibling (a_file argB) ".lock")
                (default 1000 (a_wait argB)) wA HlockB) as HacqB.
  set (wB1 := with_fds (w_fds wA ++ [new_handle (sibling (a_file argB) ".lock")
                                       "x" 0])
                (with_fs (<[sibling (a_file argB) ".lock"
                            := mkFile [] (w_now wA)]> (w_fs wA)) wA))
    in HacqB.
  assert (HlB : sibling (a_file argB) ".lock" ≠ a_file argB)
    by (by apply sibling_ne).
  assert (HfB1 : w_fs wB1 !! a_file argB = Some fB).
  { unfold wB1. simpl. by rewrite lookup_insert_ne. }
  assert (HtmpB' : parent (a_file argB) ≠ w_tempdir wA) by (by rewrite HtdA).
  destruct (write_session_close_run copy_bytes blake2b (S fuelB) argB wA wB1
              (List.length (w_fds wA)) fB sB wB [] Hsound HtmpB' HacqB HfB1
              HinitB HroB)
    as (HwfB & HfileB & _ & HfdB & HstB & _ & HtgtB & _ & HothB & _
        & _ & _ & _).
  destruct (init_write_existing_more (S fuelB) argB wA wB1
              (List.length (w_fds wA)) fB sB wB
              HtmpB' HacqB HfB1 HinitB HroB) as (HtempB & HfstatB & _).
  assert (Etemp : _temp sB = _temp sA).
  { by rewrite HtempA, HtempB, HtdA, Hname. }
  destruct (session_paths_distinct sA wB HwfA)
    as (T1 & T2 & T3 & T4 & B1 & L1 & A1 & A2 & A3 & B2).
  pose proof HwfA as (_ & _ & _ & HlA & _).
  pose proof HwfB as (_ & _ & _ & HlkB & _).
  assert (Ppar : ∀ (p q : Path), parent p = parent (a_file argA) →
                   parent q = parent (a_file argB) → p ≠ q).
  { intros p q Hp Hq E. apply Hpar. by rewrite <- Hp, <- Hq, E. }
  assert (Ptmp : ∀ p, parent p = parent (a_file argA)
                      ∨ parent p = parent (a_file argB) → p ≠ _temp sA).
  { intros p [Hp|Hp] E; rewrite E, HtempA in Hp; simpl in Hp;
      [by apply HtmpA|by apply HtmpB]. }
  (* the target of the first session is untouched by the second open *)
  assert (HtgtA' : w_fs wB !! a_file argA = Some fA).
  { rewrite HothB.
    - unfold wB1. simpl. rewrite lookup_insert_ne; [done|].
      apply not_eq_sym, Ppar; done.
    - rewrite Etemp. apply Ptmp. by left.
    - apply Ppar; done. }
  split; [done|].
  split; [by rewrite <- Etemp|].
  rewrite (exit_commit_run copy_bytes blake2b sA wB fA
             (copy_of copy_bytes fB));
    [|done|by rewrite HfileA|by rewrite <- Etemp|by rewrite HfstatA
     |intros _; apply Hsound].
  cbn [fst snd]. split; [done|].
  split.
  { rewrite released_lookup;
      [|done|rewrite <- HfileA; by apply not_eq_sym..].
    simpl. rewrite lookup_delete_ne by (by rewrite <- HfileA).
    by rewrite HfileA, lookup_insert_eq. }
  set (w3 := released sA true _).
  assert (Hlk3 : ∀ p, parent p = parent (a_file argB) →
                      w_fs w3 !! p = w_fs wB !! p).
  { intros p Hp. unfold w3.
    rewrite released_lookup;
      [|done|apply Ptmp; by right
       |rewrite HlA; apply not_eq_sym, Ppar;
        first [done | simpl; by rewrite ?HfileA]
       |apply not_eq_sym, Ppar;
        first [done | simpl; by rewrite ?HfileA]].
    simpl. rewrite lookup_delete_ne by (apply not_eq_sym, Ptmp; by right).
    rewrite lookup_insert_ne; [done|].
    apply Ppar; first [done | by rewrite ?HfileA]. }
  rewrite (exit_staging_missing sB w3 fB);
    [|done|by rewrite HfileB, Hlk3|by rewrite HfstatB
     |rewrite Etemp; apply released_temp_gone].
  cbn [fst snd]. split; [done|].
  simpl. rewrite Hlk3 by done.
  rewrite HothB.
  - unfold wB1. simpl. rewrite lookup_insert_eq. by eexists.
  - rewrite Etemp. apply Ptmp. by right.
  - intros E%sibling_inj. done.
Qed.

End SameName.


Lemma same_name_sessions_share_staging_witness :
  let a := __init__ Ex.sound 1 (ExTwo.args ExTwo.FA) ExTwo.both in
  let b := __init__ Ex.sound 1 (ExTwo.args ExTwo.FB) a.2.2 in
  let r := __exit__ Ex.sound Ex.digest a.2.1 b.2.2 in
  f_data <$> w_fs r.2 !! ExTwo.FA = Some (list_ascii_of_string "[2]")
  ∧ (__exit__ Ex.sound Ex.digest b.2.1 r.2).1 = Exc FileNotFoundError.
Proof.
  intros a b r.
  destruct (same_name_sessions_share_staging Ex.sound Ex.digest 1 0
              (ExTwo.args ExTwo.FA) (ExTwo.args ExTwo.FB) ExTwo.both
              (acquire 1 (sibling ExTwo.FA ".lock") 1000 ExTwo.both).2 0
              (mkFile (list_ascii_of_string "[1]") "2022-04-17T09:00:00")
              (mkFile (list_ascii_of_string "[2]") "2022-04-17T09:30:00")
              a.2.1 b.2.1 a.2.2 b.2.2)
    as (_ & _ & _ & Htgt & Hexc & _).
  - intros d. reflexivity.
  - reflexivity.
  - vm_compute. discriminate.
  - vm_compute. discriminate.
  - vm_compute. discriminate.
  - vm_compute. reflexivity.
  - vm_compute. reflexivity.
  - vm_compute. reflexivity.
  - vm_compute. reflexivity.
  - vm_compute. reflexivity.
  - vm_compute. reflexivity.
  - vm_compute. reflexivity.
  - vm_compute. reflexivity.
  - vm_compute. reflexivity.
  - vm_compute. reflexivity.
  - change (a_file (ExTwo.args ExTwo.FA)) with ExTwo.FA in Htgt.
    split; [|exact Hexc].
    unfold r. rewrite Htgt. reflexivity.
Defined.


(** ** Sessions of the metadata object, from open to close *)

Lemma acquire_free_locked (fuel : nat) (file : Path) (wait : nat) (w : World) :
  w_fs w !! sibling file ".lock" = None →
  acquire (S fuel) (sibling file ".lock") wait w
  = (Val (List.length (w_fds w)), locked file w).
Proof. intros H. by rewrite acquire_step, H. Qed.

Lemma same_globals_refl (w : World) : same_globals w w.
Proof. by unfold same_globals. Qed.

Lemma same_globals_trans (w1 w2 w3 : World) :
  same_globals w1 w2 → same_globals w2 w3 → same_globals w1 w3.
Proof.
  intros (A1 & A2 & A3 & A4) (B1 & B2 & B3 & B4).
  unfold same_globals. by rewrite B1, B2, B3, B4.
Qed.

Section MetaSessions.

Variable copy_bytes : Data → Data.
Variable blake2b : Data → string.

Hypothesis sound : ∀ d, copy_bytes d = d.

Lemma copy_of_sound (f : File) : copy_of copy_bytes f = f.
Proof. unfold copy_of. rewrite sound. by destruct f. Qed.

(** a read-write session on a target that is there *)
Lemma rplus_session_over {A} (fuel : nat) (file : Path) (wait : option nat)
    (body : nat → M (DAMeta * World) A) (self self' : DAMeta) (r : Res A)
    (w wd : World) (ft staged : File) :
  let w1 := locked file w in
  let W0 := (opened_rplus copy_bytes file (List.length (w_fds w)) w1 ft).2 in
  parent file ≠ w_tempdir w →
  w_fs w !! sibling file ".lock" = None →
  w_fs w !! file = Some ft →
  body (List.length (w_fds w1)) (self, W0) = (r, (self', wd)) →
  r ≠ Spin →
  w_fs wd !! staging file w = Some staged →
  (∀ p, p ≠ staging file w → w_fs wd !! p = w_fs W0 !! p) →
  same_globals W0 wd →
  protected_open wd = protected_open W0 →
  ∃ W,
    guarded copy_bytes blake2b (S fuel) file "r+" wait body (self, w)
    = (r, (self', W))
    ∧ session_over file w W
    ∧ w_fs W !! file = Some staged
    ∧ w_fs W !! sibling file ".backup" = None
    ∧ ∀ p, p ≠ file → p ≠ sibling file ".backup" →
           p ≠ sibling file ".lock" → p ≠ staging file w →
           w_fs W !! p = w_fs w !! p.
Proof.
  intros w1 W0 Htmp Hlock Hft Hbody Hr Hst Hframe (G1 & G2 & G3 & G4) Hreg.
  set (s := (opened_rplus copy_bytes file (List.length (w_fds w)) w1 ft).1).
  assert (Hwf : wf_write_session s) by (by apply opened_rplus_wf).
  destruct (session_paths_distinct _ w1 Hwf)
    as (T1 & T2 & T3 & T4 & B1 & L1 & A1 & A2 & A3 & B2).
  change (_temp s) with (staging file w) in *.
  change (_file s) with file in *.
  change (_lock s) with (sibling file ".lock") in *.
  assert (Hacq : acquire (S fuel) (sibling file ".lock") (default 1000 wait) w
                 = (Val (List.length (w_fds w)), w1))
    by (by apply acquire_free_locked).
  assert (Hft1 : w_fs w1 !! file = Some ft).
  { unfold w1, locked. simpl. by rewrite lookup_insert_ne. }
  set (W := released s true
              (with_fs (delete (staging file w)
                          (<[file := copy_of copy_bytes staged]> (w_fs wd)))
                 wd)).
  assert (Hexit : __exit__ copy_bytes blake2b s wd = (Val tt, W)).
  { apply (exit_commit_run copy_bytes blake2b s wd ft staged); try done.
    - change (_file s) with file. rewrite Hframe by done.
      unfold W0. simpl. by rewrite !lookup_insert_ne.
    - intros _. by rewrite sound. }
  exists W. split.
  { unfold guarded, with_ProtectFile. cbn [fst snd].
    rewrite (init_rplus copy_bytes (S fuel) file wait w w1
               (List.length (w_fds w)) ft) by done.
    change (opened_rplus copy_bytes file (List.length (w_fds w)) w1 ft)
      with (s, W0). cbn iota.
    change (__enter__ s W0) with (@Val nat (List.length (w_fds w1)), W0).
    cbn iota. rewrite Hbody.
    destruct r as [a|e|]; [| |done]; cbn iota;
      unfold bind at 1; rewrite lift_run, Hexit; reflexivity. }
  split.
  { unfold session_over, same_globals. split_and!.
    - unfold W, released. simpl. by rewrite G1.
    - unfold W, released. simpl. by rewrite G2.
    - unfold W, released. simpl. by rewrite G3.
    - unfold W, released. simpl. by rewrite G4.
    - unfold W, released. simpl. rewrite Hreg. unfold W0. simpl.
      apply dict_pop_set.
    - apply (released_lock_gone s).
    - apply (released_temp_gone s). }
  split.
  { unfold W. rewrite released_lookup by done. simpl.
    rewrite lookup_delete_ne by done.
    by rewrite lookup_insert_eq, copy_of_sound. }
  split.
  { unfold W. rewrite released_lookup_gen by done.
    rewrite (doomed_backup_wf s Hwf). simpl. by rewrite lookup_delete_eq. }
  intros p P1 P2 P3 P4.
  unfold W. rewrite released_lookup by done. simpl.
  rewrite lookup_delete_ne, lookup_insert_ne by done.
  rewrite Hframe by done. unfold W0, w1, locked. simpl.
  by rewrite !lookup_insert_ne.
Qed.

(** a read-only session *)
Lemma init_r (fuel : nat) (file : Path) (wait : option nat)
    (w w1 : World) (fl : nat) (ft : File) :
  acquire fuel (sibling file ".lock") (default 1000 wait) w = (Val fl, w1) →
  w_fs w1 !! file = Some ft →
  __init__ copy_bytes fuel (mkArgs file (Some "r") wait None None None None) w
  = (Val tt, opened_r file fl w1 ft).
Proof.
  intros Hacq Hft.
  assert (Hex : present file w1 = true).
  { unfold present. rewrite bool_decide_eq_true_2; [done|]. by eexists. }
  rewrite (init_run copy_bytes fuel _ w w1 fl); simpl; rewrite ?Hex;
    [|done..].
  unfold pre_open. simpl. rewrite Hft. simpl.
  change (opened_mode "r" true) with "r".
  unfold opened_path. simpl.
  erewrite io_open_r; [|done|done|simpl; exact Hft].
  reflexivity.
Qed.

Lemma r_session_over {A} (fuel : nat) (file : Path) (wait : option nat)
    (body : nat → M (DAMeta * World) A) (self self' : DAMeta) (r : Res A)
    (w wd : World) (ft : File) :
  let w1 := locked file w in
  let W0 := (opened_r file (List.length (w_fds w)) w1 ft).2 in
  w_fs w !! sibling file ".lock" = None →
  w_fs w !! file = Some ft →
  body (List.length (w_fds w1)) (self, W0) = (r, (self', wd)) →
  r ≠ Spin →
  w_fs wd = w_fs W0 →
  same_globals W0 wd →
  protected_open wd = protected_open W0 →
  ∃ W,
    guarded copy_bytes blake2b (S fuel) file "r" wait body (self, w)
    = (r, (self', W))
    ∧ session_over file w W
    ∧ ∀ p, p ≠ sibling file ".lock" → p ≠ staging file w →
           w_fs W !! p = w_fs w !! p.
Proof.
  intros w1 W0 Hlock Hft Hbody Hr Hfs (G1 & G2 & G3 & G4) Hreg.
  set (s := (opened_r file (List.length (w_fds w)) w1 ft).1).
  assert (Hacq : acquire (S fuel) (sibling file ".lock") (default 1000 wait) w
                 = (Val (List.length (w_fds w)), w1))
    by (by apply acquire_free_locked).
  assert (Hl : sibling file ".lock" ≠ file) by (by apply sibling_ne).
  assert (Hft1 : w_fs w1 !! file = Some ft).
  { unfold w1, locked. simpl. by rewrite lookup_insert_ne. }
  set (W := released s true wd).
  assert (Hexit : __exit__ copy_bytes blake2b s wd = (Val tt, W)).
  { apply (exit_readonly_run copy_bytes blake2b s wd ft
             (List.length (w_fds w1))); try done.
    rewrite Hfs. unfold W0. simpl. done. }
  exists W. split.
  { unfold guarded, with_ProtectFile. cbn [fst snd].
    rewrite (init_r (S fuel) file wait w w1 (List.length (w_fds w)) ft)
      by done.
    change (opened_r file (List.length (w_fds w)) w1 ft) with (s, W0).
    cbn iota.
    change (__enter__ s W0) with (@Val nat (List.length (w_fds w1)), W0).
    cbn iota. rewrite Hbody.
    destruct r as [a|e|]; [| |done]; cbn iota;
      unfold bind at 1; rewrite lift_run, Hexit; reflexivity. }
  split.
  { unfold session_over, same_globals. split_and!.
    - unfold W, released. simpl. by rewrite G1.
    - unfold W, released. simpl. by rewrite G2.
    - unfold W, released. simpl. by rewrite G3.
    - unfold W, released. simpl. by rewrite G4.
    - unfold W, released. simpl. rewrite Hreg. unfold W0. simpl.
      apply dict_pop_set.
    - apply (released_lock_gone s).
    - apply (released_temp_gone s). }
  intros p P1 P2.
  unfold W. rewrite released_lookup_gen by done.
  change (doomed_backup s) with (@None Path). simpl.
  rewrite Hfs. unfold W0, w1, locked. simpl.
  by rewrite lookup_insert_ne.
Qed.

(** a session that creates its target *)
Lemma init_xplus (fuel : nat) (file : Path) (wait : option nat)
    (w w1 : World) (fl : nat) :
  acquire fuel (sibling file ".lock") (default 1000 wait) w = (Val fl, w1) →
  w_fs w1 !! file = None →
  w_fs w1 !! staging file w1 = None →
  __init__ copy_bytes fuel (mkArgs file (Some "x+") wait None None None None) w
  = (Val tt, opened_xplus file fl w1).
Proof.
  intros Hacq Hft Hst.
  rewrite (init_create_run copy_bytes fuel _ w w1 fl); try done.
  unfold pre_open. simpl. rewrite Hft. reflexivity.
Qed.

Lemma xplus_session_over {A} (fuel : nat) (file : Path) (wait : option nat)
    (body : nat → M (DAMeta * World) A) (self self' : DAMeta) (r : Res A)
    (w wd : World) (staged : File) :
  let w1 := locked file w in
  let W0 := (opened_xplus file (List.length (w_fds w)) w1).2 in
  parent file ≠ w_tempdir w →
  w_fs w !! sibling file ".lock" = None →
  w_fs w !! file = None →
  w_fs w !! staging file w = None →
  body (List.length (w_fds w1)) (self, W0) = (r, (self', wd)) →
  r ≠ Spin →
  w_fs wd !! staging file w = Some staged →
  (∀ p, p ≠ staging file w → w_fs wd !! p = w_fs W0 !! p) →
  same_globals W0 wd →
  protected_open wd = protected_open W0 →
  ∃ W,
    guarded copy_bytes blake2b (S fuel) file "x+" wait body (self, w)
    = (r, (self', W))
    ∧ session_over file w W
    ∧ w_fs W !! file = Some staged
    ∧ ∀ p, p ≠ file → p ≠ sibling file ".lock" → p ≠ staging file w →
           w_fs W !! p = w_fs w !! p.
Proof.
  intros w1 W0 Htmp Hlock Hft Hnst Hbody Hr Hst Hframe (G1 & G2 & G3 & G4)
    Hreg.
  set (s := (opened_xplus file (List.length (w_fds w)) w1).1).
  assert (Hacq : acquire (S fuel) (sibling file ".lock") (default 1000 wait) w
                 = (Val (List.length (w_fds w)), w1))
    by (by apply acquire_free_locked).
  assert (Hl : sibling file ".lock" ≠ file) by (by apply sibling_ne).
  assert (Htf : staging file w ≠ file) by (by apply staging_ne_target).
  assert (Htl : staging file w ≠ sibling file ".lock")
    by (by apply staging_ne_sibling).
  assert (Hft1 : w_fs w1 !! file = None).
  { unfold w1, locked. simpl. by rewrite lookup_insert_ne. }
  assert (Hst1 : w_fs w1 !! staging file w1 = None).
  { unfold w1, locked. simpl. rewrite lookup_insert_ne; [done|].
    by apply not_eq_sym. }
  set (W := released s true
              (with_fs (delete (staging file w)
                          (<[file := copy_of copy_bytes staged]> (w_fs wd)))
                 wd)).
  assert (Hexit : __exit__ copy_bytes blake2b s wd = (Val tt, W)).
  { apply (exit_commit_new_run copy_bytes blake2b s wd staged
             (List.length (w_fds w1))); try done.
    intros _. by rewrite sound. }
  exists W. split.
  { unfold guarded, with_ProtectFile. cbn [fst snd].
    rewrite (init_xplus (S fuel) file wait w w1 (List.length (w_fds w)))
      by done.
    change (opened_xplus file (List.length (w_fds w)) w1) with (s, W0).
    cbn iota.
    change (__enter__ s W0) with (@Val nat (List.length (w_fds w1)), W0).
    cbn iota. rewrite Hbody.
    destruct r as [a|e|]; [| |done]; cbn iota;
      unfold bind at 1; rewrite lift_run, Hexit; reflexivity. }
  split.
  { unfold session_over, same_globals. split_and!.
    - unfold W, released. simpl. by rewrite G1.
    - unfold W, released. simpl. by rewrite G2.
    - unfold W, released. simpl. by rewrite G3.
    - unfold W, released. simpl. by rewrite G4.
    - unfold W, released. simpl. rewrite Hreg. unfold W0. simpl.
      apply dict_pop_set.
    - apply (released_lock_gone s).
    - apply (released_temp_gone s). }
  split.
  { unfold W. rewrite released_lookup_gen by (by apply not_eq_sym).
    change (doomed_backup s) with (@None Path). simpl.
    rewrite lookup_delete_ne by done.
    by rewrite lookup_insert_eq, copy_of_sound. }
  intros p P1 P2 P3.
  unfold W. rewrite released_lookup_gen by done.
  change (doomed_backup s) with (@None Path). simpl.
  rewrite lookup_delete_ne, lookup_insert_ne by done.
  rewrite Hframe by done. unfold W0, w1, locked. simpl.
  by rewrite !lookup_insert_ne.
Qed.

End MetaSessions.


(** ** Reading and rewriting through the handle *)

Lemma lifted_load {X} (json_decode : Data → option Json) (pf : nat) (x : X)
    (w : World) (h : Handle) (f : File) (doc : Json) :
  w_fds w !! pf = Some h → h_closed h = false → h_readable h = true →
  h_pos h = 0%nat → w_fs w !! h_path h = Some f →
  json_decode (f_data f) = Some doc →
  lift (json_load json_decode pf) (x, w)
  = (Val (of_json doc),
     (x, with_fds (<[pf := set_pos (List.length (f_data f)) h]> (w_fds w)) w)).
Proof.
  intros Hh Hc Hr Hp Hf Hdec. rewrite lift_run.
  erewrite json_load_ok; [reflexivity| |exact Hdec].
  rewrite (fd_read_ok pf w h f) by done. rewrite Hp. simpl.
  by rewrite drop_0.
Qed.

Lemma rewrite_run (json_encode : Json → Data) (pf : nat) (obj : PyVal)
    (doc : Json) (w : World) (h : Handle) (f : File) :
  w_fds w !! pf = Some h → h_closed h = false → h_writable h = true →
  h_append h = false → w_fs w !! h_path h = Some f →
  to_json obj = Some doc →
  (fd_truncate pf 0 ;; fd_seek pf 0 ;; json_dump json_encode obj pf) w
  = (Val tt,
     with_fds (<[pf := set_pos (List.length (json_encode doc)) h]> (w_fds w))
       (with_fs (<[h_path h := mkFile (json_encode doc) (w_now w)]> (w_fs w))
          w)).
Proof.
  intros Hh Hc Hw Ha Hf Hdoc.
  pose proof (lookup_lt_Some _ _ _ Hh) as Hlt.
  unfold bind at 1. rewrite (fd_truncate_ok pf 0 w h f) by done.
  unfold bind at 1.
  rewrite (fd_seek_ok pf 0 _ h) by done.
  rewrite (json_dump_ok json_encode obj pf _ doc) by done.
  rewrite (fd_write_ok pf _ _ (set_pos 0 h) (mkFile [] (w_now w)));
    [|simpl; by apply list_lookup_insert_eq|done|done|done
     |simpl; apply lookup_insert_eq].
  simpl. rewrite write_at_start, drop_nil, app_nil_r.
  rewrite list_insert_insert_eq, insert_insert_eq. reflexivity.
Qed.

Lemma lifted_rewrite {X A} (json_encode : Json → Data) (pf : nat)
    (obj : PyVal) (doc : Json) (k : M (X * World) A) (x : X) (w : World)
    (h : Handle) (f : File) :
  w_fds w !! pf = Some h → h_closed h = false → h_writable h = true →
  h_append h = false → w_fs w !! h_path h = Some f →
  to_json obj = Some doc →
  (lift (fd_truncate pf 0) ;; lift (fd_seek pf 0) ;;
   lift (json_dump json_encode obj pf) ;; k) (x, w)
  = k (x,
       with_fds (<[pf := set_pos (List.length (json_encode doc)) h]> (w_fds w))
         (with_fs (<[h_path h := mkFile (json_encode doc) (w_now w)]> (w_fs w))
            w)).
Proof.
  intros Hh Hc Hw Ha Hf Hdoc.
  pose proof (rewrite_run json_encode pf obj doc w h f Hh Hc Hw Ha Hf Hdoc)
    as Hrun.
  unfold bind in Hrun |- *. rewrite (lift_run (fd_truncate pf 0) x w).
  destruct (fd_truncate pf 0 w) as [[[]|e|] w1]; [|done..]. cbn [fst snd].
  rewrite (lift_run (fd_seek pf 0) x w1).
  destruct (fd_seek pf 0 w1) as [[[]|e|] w2]; [|done..]. cbn [fst snd].
  rewrite (lift_run (json_dump json_encode obj pf) x w2), Hrun. reflexivity.
Qed.


(** ** [_store] *)

Section Store.

Variable copy_bytes : Data → Data.
Variable blake2b : Data → string.
Variable json_encode : Json → Data.

Hypothesis sound : ∀ d, copy_bytes d = d.

Lemma store_body_present {X} (pf : nat) (obj : PyVal) (doc : Json) (x : X)
    (w : World) (h : Handle) (f : File) :
  w_fds w !! pf = Some h → h_closed h = false → h_writable h = true →
  h_append h = false → w_fs w !! h_path h = Some f →
  to_json obj = Some doc →
  (when true (lift (fd_truncate pf 0) ;; lift (fd_seek pf 0)) ;;
   lift (json_dump json_encode obj pf)) (x, w)
  = (Val tt,
     (x,
      with_fds (<[pf := set_pos (List.length (json_encode doc)) h]> (w_fds w))
        (with_fs (<[h_path h := mkFile (json_encode doc) (w_now w)]> (w_fs w))
           w))).
Proof.
  intros Hh Hc Hw Ha Hf Hdoc.
  pose proof (rewrite_run json_encode pf obj doc w h f Hh Hc Hw Ha Hf Hdoc)
    as Hrun.
  unfold when, bind in Hrun |- *. rewrite (lift_run (fd_truncate pf 0) x w).
  destruct (fd_truncate pf 0 w) as [[[]|e|] w1]; [|done..]. cbn [fst snd].
  rewrite (lift_run (fd_seek pf 0) x w1).
  destruct (fd_seek pf 0 w1) as [[[]|e|] w2]; [|done..]. cbn [fst snd].
  rewrite (lift_run (json_dump json_encode obj pf) x w2), Hrun. reflexivity.
Qed.

Lemma store_body_absent {X} (pf : nat) (obj : PyVal) (doc : Json) (x : X)
    (w : World) (h : Handle) (mt : string) :
  w_fds w !! pf = Some h → h_closed h = false → h_writable h = true →
  h_append h = false → h_pos h = 0%nat →
  w_fs w !! h_path h = Some (mkFile [] mt) →
  to_json obj = Some doc →
  (when false (lift (fd_truncate pf 0) ;; lift (fd_seek pf 0)) ;;
   lift (json_dump json_encode obj pf)) (x, w)
  = (Val tt,
     (x,
      with_fds (<[pf := set_pos (List.length (json_encode doc)) h]> (w_fds w))
        (with_fs (<[h_path h := mkFile (json_encode doc) (w_now w)]> (w_fs w))
           w))).
Proof.
  intros Hh Hc Hw Ha Hp Hf Hdoc.
  unfold when, bind, ret.
  rewrite (lift_run (json_dump json_encode obj pf) x w).
  rewrite (json_dump_ok json_encode obj pf _ doc) by done.
  rewrite (fd_write_ok pf _ _ h (mkFile [] mt)) by done.
  rewrite Hp. simpl. rewrite write_at_start, drop_nil, app_nil_r.
  reflexivity.
Qed.

(** [_store] in terms of what it leaves *)
Lemma store_run (fuel : nat) (self : DAMeta) (w : World)
    (m0 meta : list (PyKey * PyVal)) (doc : Json) :
  let file := meta_file self in
  parent file ≠ w_tempdir w →
  w_fs w !! sibling file ".lock" = None →
  (w_fs w !! file = None → w_fs w !! staging file w = None) →
  fields_of self (stored_keys self) = Some m0 →
  _paths_to_strings self m0 (unset_optional self) = Some meta →
  to_json (PDict meta) = Some doc →
  ∃ W,
    _store copy_bytes blake2b json_encode (S fuel) (self, w)
    = (Val tt, (self, W))
    ∧ session_over file w W
    ∧ w_fs W !! file = Some (mkFile (json_encode doc) (w_now w))
    ∧ w_fs W !! sibling file ".backup"
      = match w_fs w !! file with
        | Some _ => None
        | None => w_fs w !! sibling file ".backup"
        end
    ∧ ∀ p, p ≠ file → p ≠ sibling file ".backup" →
           p ≠ sibling file ".lock" → p ≠ staging file w →
           w_fs W !! p = w_fs w !! p.
Proof.
  intros file Htmp Hlock Hst Hm0 Hmeta Hdoc.
  assert (Htf : staging file w ≠ file) by (by apply staging_ne_target).
  assert (Htl : staging file w ≠ sibling file ".lock")
    by (by apply staging_ne_sibling).
  assert (Htb : staging file w ≠ sibling file ".backup")
    by (by apply staging_ne_sibling).
  unfold _store.
  unfold bind at 1. unfold the_self at 1, gets at 1.
  cbn beta iota zeta delta [fst snd].
  fold (stored_keys self). rewrite Hm0. cbn [of_option].
  unfold bind at 1. unfold ret at 1. rewrite Hmeta. cbn [of_option].
  unfold bind at 1. unfold ret at 1.
  unfold bind at 1. rewrite lift_run. unfold is_file, gets. cbn [fst snd].
  fold file.
  destruct (w_fs w !! file) as [ft|] eqn:Hft.
  - rewrite bool_decide_eq_true_2 by (by eexists).
    set (w1 := locked file w).
    set (W0 := (opened_rplus copy_bytes file (List.length (w_fds w)) w1 ft).2).
    set (h0 := mkHandle (staging file w) true true false 0 false).
    set (wd := with_fds (<[List.length (w_fds w1)
                           := set_pos (List.length (json_encode doc)) h0]>
                           (w_fds W0))
                 (with_fs (<[staging file w
                             := mkFile (json_encode doc) (w_now w)]>
                             (w_fs W0)) W0)).
    destruct (rplus_session_over copy_bytes blake2b sound fuel file None
                (λ pf, when true (lift (fd_truncate pf 0) ;;
                                  lift (fd_seek pf 0)) ;;
                       lift (json_dump json_encode (PDict meta) pf))
                self self (Val tt) w wd ft
                (mkFile (json_encode doc) (w_now w)) Htmp Hlock Hft)
      as (W & Hrun & Hover & Hfile & Hbk & Hoth).
    + cbn beta.
      apply (store_body_present (List.length (w_fds (locked file w)))
               (PDict meta) doc self W0 h0 (copy_of copy_bytes ft));
        try done.
      * unfold W0. simpl. rewrite lookup_app_r by done.
        by rewrite Nat.sub_diag.
      * unfold W0. simpl. apply lookup_insert_eq.
    + done.
    + simpl. apply lookup_insert_eq.
    + intros p Hp. simpl. by rewrite lookup_insert_ne.
    + by unfold same_globals.
    + done.
    + exists W. split_and!; try done.
  - rewrite bool_decide_eq_false_2 by (by intros [? ?]).
    specialize (Hst eq_refl).
    set (w1 := locked file w).
    set (W0 := (opened_xplus file (List.length (w_fds w)) w1).2).
    set (h0 := mkHandle (staging file w) true true false 0 false).
    set (wd := with_fds (<[List.length (w_fds w1)
                           := set_pos (List.length (json_encode doc)) h0]>
                           (w_fds W0))
                 (with_fs (<[staging file w
                             := mkFile (json_encode doc) (w_now w)]>
                             (w_fs W0)) W0)).
    destruct (xplus_session_over copy_bytes blake2b sound fuel file None
                (λ pf, when false (lift (fd_truncate pf 0) ;;
                                   lift (fd_seek pf 0)) ;;
                       lift (json_dump json_encode (PDict meta) pf))
                self self (Val tt) w wd
                (mkFile (json_encode doc) (w_now w)) Htmp Hlock Hft Hst)
      as (W & Hrun & Hover & Hfile & Hoth).
    + cbn beta.
      apply (store_body_absent (List.length (w_fds (locked file w)))
               (PDict meta) doc self W0 h0 (w_now w)); try done.
      * unfold W0. simpl. rewrite lookup_app_r by done.
        by rewrite Nat.sub_diag.
      * unfold W0. simpl. apply lookup_insert_eq.
    + done.
    + simpl. apply lookup_insert_eq.
    + intros p Hp. simpl. by rewrite lookup_insert_ne.
    + by unfold same_globals.
    + done.
    + exists W. split_and!; try done.
      apply Hoth;
        first [done | by apply sibling_ne | by apply not_eq_sym
              | intros E%sibling_inj; done].
      intros p P1 P2 P3 P4. by apply Hoth.
Qed.

End Store.


(** ** The document that [_store] dumps *)

Lemma KStr_inj_elem (k : string) (keys : list string) :
  KStr k ∈ KStr <$> keys ↔ k ∈ keys.
Proof.
  rewrite list_elem_of_fmap. split.
  - intros (k' & [= ->] & H). done.
  - intros H. by exists k.
Qed.

Lemma dict_get_cons {K V : Type} `{EqDecision K} (k k' : K) (v : V)
    (d : list (K * V)) :
  dict_get k ((k', v) :: d) = if decide (k = k') then Some v else dict_get k d.
Proof. reflexivity. Qed.

Lemma dict_set_cons {K V : Type} `{EqDecision K} (k k' : K) (v v' : V)
    (d : list (K * V)) :
  dict_set k v ((k', v') :: d)
  = if decide (k = k') then (k', v) :: d else (k', v') :: dict_set k v d.
Proof. reflexivity. Qed.

Lemma dict_get_map_keys (g : string → PyVal) (keys : list string)
    (k : string) :
  dict_get (KStr k) ((λ k', (KStr k', g k')) <$> keys)
  = if bool_decide (k ∈ keys) then Some (g k) else None.
Proof.
  induction keys as [|k' keys IH]; [done|].
  rewrite fmap_cons, dict_get_cons.
  destruct (decide (KStr k = KStr k')) as [[= ->]|Hne].
  - rewrite bool_decide_eq_true_2; [done|]. apply elem_of_cons. by left.
  - rewrite IH. apply (f_equal (λ b : bool, if b then _ else _)).
    apply bool_decide_ext. rewrite elem_of_cons.
    split; [by right|]. intros [->|H]; done.
Qed.

Lemma dict_set_map_keys (g : string → PyVal) (keys : list string)
    (k : string) (v : PyVal) :
  k ∈ keys → NoDup keys →
  dict_set (KStr k) v ((λ k', (KStr k', g k')) <$> keys)
  = (λ k', (KStr k', if decide (k' = k) then v else g k')) <$> keys.
Proof.
  induction keys as [|k' keys IH]; intros Hin Hnd.
  - by apply elem_of_nil in Hin.
  - apply NoDup_cons in Hnd as [Hk' Hnd].
    rewrite !fmap_cons, dict_set_cons.
    destruct (decide (KStr k = KStr k')) as [[= ->]|Hne].
    + rewrite decide_True by done. f_equal.
      apply list_fmap_ext. intros i x Hx.
      rewrite decide_False; [done|]. intros ->.
      apply Hk'. by eapply list_elem_of_lookup_2.
    + rewrite decide_False by (by intros ->). f_equal.
      apply IH; [|done]. apply elem_of_cons in Hin as [->|H]; done.
Qed.

Lemma fields_of_acc (self : DAMeta) (keys : list string)
    (acc : list (PyKey * PyVal)) :
  NoDup keys →
  (∀ k, k ∈ keys → is_Some (getattr self k)) →
  (∀ k, k ∈ keys → dict_get (KStr k) acc = None) →
  fold_left (λ acc key,
               match acc, getattr self key with
               | Some d, Some v => Some (dict_set (KStr key) v d)
               | _, _ => None
               end)
            keys (Some acc)
  = Some (acc ++ ((λ k, (KStr k, default PNone (getattr self k))) <$> keys))%list.
Proof.
  revert acc. induction keys as [|k keys IH]; intros acc Hnd Hall Hfresh.
  - simpl. by rewrite app_nil_r.
  - apply NoDup_cons in Hnd as [Hk Hnd]. simpl.
    destruct (Hall k) as [v Hv]; [apply elem_of_cons; by left|].
    rewrite Hv. simpl.
    rewrite dict_set_fresh by (apply Hfresh, elem_of_cons; by left).
    rewrite IH; [by rewrite <- app_assoc|done| |].
    + intros k' Hk'. apply Hall, elem_of_cons. by right.
    + intros k' Hk'. apply dict_get_None.
      rewrite fmap_app. simpl. intros Hin.
      apply elem_of_app in Hin as [Hin|Hin].
      * apply dict_get_None in Hin; [done|].
        apply Hfresh, elem_of_cons. by right.
      * apply list_elem_of_singleton in Hin as [= ->]. done.
Qed.

Lemma fields_of_run (self : DAMeta) (keys : list string) :
  NoDup keys →
  (∀ k, k ∈ keys → is_Some (getattr self k)) →
  fields_of self keys
  = Some ((λ k, (KStr k, default PNone (getattr self k))) <$> keys).
Proof.
  intros Hnd Hall. unfold fields_of.
  rewrite (fields_of_acc self keys []); try done.
Qed.

Lemma paths_to_strings_acc (self : DAMeta) (keys pkeys : list string)
    (g : string → PyVal) :
  NoDup keys →
  (∀ k, k ∈ pkeys → k ∈ keys) →
  (∀ k, k ∈ pkeys → ∃ p, getattr self k = Some (PPath p)) →
  fold_left (λ acc key,
               match acc, getattr self key with
               | Some d, Some (PPath p) =>
                   Some (dict_set (KStr key) (PStr p) d)
               | _, _ => None
               end)
            pkeys (Some ((λ k, (KStr k, g k)) <$> keys))
  = Some ((λ k, (KStr k,
                 if bool_decide (k ∈ pkeys)
                 then match getattr self k with
                      | Some (PPath p) => PStr p
                      | _ => PNone
                      end
                 else g k)) <$> keys).
Proof.
  intros Hnd. revert g.
  induction pkeys as [|k pkeys IH]; intros g Hsub Hpath.
  - simpl. f_equal.
  - simpl. destruct (Hpath k) as [p Hp]; [apply elem_of_cons; by left|].
    rewrite Hp.
    rewrite dict_set_map_keys; [|apply Hsub, elem_of_cons; by left|done].
    rewrite IH.
    + f_equal. apply list_fmap_ext. intros i k' Hk'. f_equal.
      destruct (decide (k' = k)) as [->|Hne].
      * rewrite (bool_decide_eq_true_2 (k ∈ k :: pkeys))
          by (apply elem_of_cons; by left).
        rewrite Hp. by destruct (bool_decide (k ∈ pkeys)).
      * apply (f_equal (λ b : bool, if b then _ else _)).
        apply bool_decide_ext. rewrite elem_of_cons.
        split; [by right|]. intros [->|H]; done.
    + intros k' Hk'. apply Hsub, elem_of_cons. by right.
    + intros k' Hk'. apply Hpath, elem_of_cons. by right.
Qed.

Lemma cols_NoDup : NoDup _cols.
Proof. apply (bool_decide_unpack (NoDup _cols)). vm_compute. exact I. Qed.

Lemma path_cols_in_cols (k : string) : k ∈ _path_cols → k ∈ _cols.
Proof.
  revert k. apply Forall_forall.
  apply (bool_decide_unpack (Forall (λ k, k ∈ _cols) _path_cols)).
  vm_compute. exact I.
Qed.

Lemma stored_keys_NoDup (self : DAMeta) : NoDup (stored_keys self).
Proof. apply NoDup_filter, cols_NoDup. Qed.

Lemma stored_keys_elem (self : DAMeta) (k : string) :
  k ∈ stored_keys self ↔ k ∈ _cols ∧ k ∉ unset_optional self.
Proof.
  unfold stored_keys. rewrite list_elem_of_filter. unfold not_in.
  rewrite negb_True, bool_decide_spec. tauto.
Qed.

Lemma unset_optional_elem (self : DAMeta) (k : string) :
  k ∈ unset_optional self ↔ k ∈ _optional_cols ∧ getattr self k = Some PNone.
Proof.
  unfold unset_optional. rewrite list_elem_of_filter, bool_decide_spec.
  split; intros [H1 H2]; split; try done.
  - destruct (getattr self k) as [[]|]; simpl in *; by simplify_eq.
  - by rewrite H2.
Qed.

(** the path columns of a typed object that are not ignored hold paths *)
Lemma typed_path_cols (self : DAMeta) (k : string) :
  typed self → k ∈ _path_cols → k ∉ unset_optional self →
  ∃ p, getattr self k = Some (PPath p).
Proof.
  intros [_ Hopt] Hk Hset.
  unfold _path_cols in Hk.
  repeat (apply elem_of_cons in Hk as [->|Hk]);
    try (by eexists; reflexivity).
  - assert (Hin : "line_file" ∈ _optional_cols).
    { apply elem_of_cons. right. apply elem_of_cons. by left. }
    destruct (Hopt "line_file" Hin) as [Hn|Hp]; [|done].
    exfalso. apply Hset. by apply unset_optional_elem.
  - assert (Hin : "six_path" ∈ _optional_cols).
    { apply elem_of_cons. by left. }
    destruct (Hopt "six_path" Hin) as [Hn|Hp]; [|done].
    exfalso. apply Hset. by apply unset_optional_elem.
  - by apply elem_of_nil in Hk.
Qed.

(** For a typed object, [_store] dumps [doc_of]. *)
Lemma store_doc_typed (self : DAMeta) :
  typed self →
  ∃ m0, fields_of self (stored_keys self) = Some m0
        ∧ _paths_to_strings self m0 (unset_optional self)
          = Some (doc_of self).
Proof.
  intros Ht. pose proof Ht as [Hall Hopt].
  eexists. split.
  { apply fields_of_run; [apply stored_keys_NoDup|].
    intros k Hk. apply Hall. by apply stored_keys_elem in Hk as [? _]. }
  unfold _paths_to_strings.
  rewrite paths_to_strings_acc.
  - f_equal. unfold doc_of. apply list_fmap_ext. intros i k Hk. f_equal.
    apply list_elem_of_lookup_2 in Hk.
    apply stored_keys_elem in Hk as [Hc Hs].
    unfold json_val.
    destruct (bool_decide (k ∈ filter (λ key, not_in key (unset_optional self))
                                 _path_cols)) eqn:E.
    + apply bool_decide_eq_true in E.
      apply list_elem_of_filter in E as [_ Hp].
      destruct (typed_path_cols self k Ht Hp Hs) as [p ->].
      by rewrite bool_decide_eq_true_2.
    + apply bool_decide_eq_false in E.
      destruct (getattr self k) as [v|] eqn:Ev; [|done]. simpl.
      destruct v; try done.
      rewrite bool_decide_eq_false_2; [done|].
      intros Hp. apply E. apply list_elem_of_filter. split; [|done].
      unfold not_in. by rewrite negb_True, bool_decide_spec.
  - apply stored_keys_NoDup.
  - intros k Hk. apply list_elem_of_filter in Hk as [Hn Hp].
    apply stored_keys_elem. split; [by apply path_cols_in_cols|].
    unfold not_in in Hn. by rewrite negb_True, bool_decide_spec in Hn.
  - intros k Hk. apply list_elem_of_filter in Hk as [Hn Hp].
    apply (typed_path_cols self k Ht Hp).
    unfold not_in in Hn. by rewrite negb_True, bool_decide_spec in Hn.
Qed.


Section StoreTheorem.

Variable copy_bytes : Data → Data.
Variable blake2b : Data → string.
Variable json_encode : Json → Data.

(** X11: [_store] leaves the metadata file holding exactly the dump of
    the object's document: the columns of [_cols] in that order, the
    optional ones left out when they are [None], the paths as posix
    text.  An existing file is rewritten from its first byte (nothing
    of the old content is left), a missing one is created; the
    sentinel and the staging file are gone afterwards, the object is
    unchanged, nothing is printed, and apart from the backup path no
    other file is touched.  The lock is taken at the first attempt:
    the sentinel is not there and the lock loop returns (which, on a
    file system, also needs the directory of the file to be there;
    this development has no directories). *)
Theorem store_writes_document (fuel : nat) (self : DAMeta) (w : World)
    (doc : Json) (fl : nat) (w1 : World) :
  let file := meta_file self in
  (∀ d, copy_bytes d = d) →
  typed self →
  to_json (PDict (doc_of self)) = Some doc →
  parent file ≠ w_tempdir w →
  w_fs w !! sibling file ".lock" = None →
  acquire (S fuel) (sibling file ".lock") 1000 w = (Val fl, w1) →
  (w_fs w !! file = None → w_fs w !! staging file w = None) →
  let r := _store copy_bytes blake2b json_encode (S fuel) (self, w) in
  r.1 = Val tt
  ∧ r.2.1 = self
  ∧ w_fs r.2.2 !! file = Some (mkFile (json_encode doc) (w_now w))
  ∧ w_fs r.2.2 !! sibling file ".lock" = None
  ∧ w_fs r.2.2 !! staging file w = None
  ∧ (∀ p, p ≠ file → p ≠ sibling file ".backup" →
          p ≠ sibling file ".lock" → p ≠ staging file w →
          w_fs r.2.2 !! p = w_fs w !! p)
  ∧ w_stdout r.2.2 = w_stdout w.
Proof.
  intros file Hsound Ht Hdoc Htmp Hlock Hacq Hst r. subst r.
  destruct (store_doc_typed self Ht) as (m0 & Hm0 & Hmeta).
  destruct (store_run copy_bytes blake2b json_encode Hsound fuel self w
              m0 (doc_of self) doc Htmp Hlock Hst Hm0 Hmeta Hdoc)
    as (W & -> & ((G1 & _) & _ & Hl & Hs) & Hfile & _ & Hoth).
  cbn [fst snd]. split_and!; done.
Qed.

End StoreTheorem.

Lemma study_typed : typed ExMeta.study.
Proof.
  split.
  - apply Forall_forall.
    apply (bool_decide_unpack
             (Forall (λ key, is_Some (getattr ExMeta.study key)) _cols)).
    vm_compute. exact I.
  - intros key Hk. unfold _optional_cols in Hk.
    repeat (apply elem_of_cons in Hk as [->|Hk]);
      [left; vm_compute; reflexivity..|by apply elem_of_nil in Hk].
Qed.

Lemma store_writes_document_witness :
  let r := _store Ex.sound Ex.digest JsonText.encode 1
             (ExMeta.study, Ex.nothing) in
  r.1 = Val tt
  ∧ ∃ doc, to_json (PDict (doc_of ExMeta.study)) = Some doc
           ∧ f_data <$> w_fs r.2.2 !! meta_file ExMeta.study
             = Some (JsonText.encode doc).
Proof.
  intros r.
  destruct (to_json (PDict (doc_of ExMeta.study))) as [doc|] eqn:Hdoc;
    [|vm_compute in Hdoc; discriminate Hdoc].
  destruct (store_writes_document Ex.sound Ex.digest JsonText.encode 0
              ExMeta.study Ex.nothing doc 0
              (locked (meta_file ExMeta.study) Ex.nothing))
    as (Hval & _ & Hfile & _).
  - intros d. reflexivity.
  - exact study_typed.
  - exact Hdoc.
  - vm_compute. discriminate.
  - vm_compute. reflexivity.
  - vm_compute. reflexivity.
  - intros _. vm_compute. reflexivity.
  - split; [exact Hval|]. exists doc. split; [reflexivity|].
    unfold r. rewrite Hfile. reflexivity.
Defined.


(** ** [_read] *)

Lemma meta_attr_inj (a b : string) : "_" +:+ a = "_" +:+ b → a = b.
Proof. intros H. by injection H. Qed.

Lemma read_attrs_lookup (posix_of : string → string)
    (d : list (PyKey * PyVal)) (keys : list string)
    (attrs : gmap string PyVal) (k : string) :
  read_attrs posix_of d keys attrs !! ("_" +:+ k)
  = if bool_decide (k ∈ keys)
    then Some (default PNone (read_val posix_of d k))
    else attrs !! ("_" +:+ k).
Proof.
  unfold read_attrs. revert attrs.
  induction keys as [|k' keys IH]; intros attrs; simpl; [done|].
  rewrite IH.
  destruct (decide (k = k')) as [->|Hne].
  - rewrite (bool_decide_eq_true_2 (k' ∈ k' :: keys))
      by (apply elem_of_cons; by left).
    destruct (bool_decide (k' ∈ keys)); [done|].
    by rewrite lookup_insert_eq.
  - rewrite lookup_insert_ne by (by intros E%meta_attr_inj).
    apply (f_equal (λ b : bool, if b then _ else _)).
    apply bool_decide_ext. rewrite elem_of_cons.
    split; [by right|]. intros [->|H]; done.
Qed.

Lemma read_cols_run (posix_of : string → string) (d : list (PyKey * PyVal))
    (keys : list string) (self : DAMeta) (w : World) :
  (∀ k, k ∈ keys → is_Some (read_val posix_of d k)) →
  read_cols posix_of (PDict d) keys (self, w)
  = (Val tt,
     (mkDAMeta (_filename self) (read_attrs posix_of d keys (attrs self)), w)).
Proof.
  revert self. induction keys as [|k keys IH]; intros self Hall.
  - simpl. unfold ret. by destruct self.
  - destruct (Hall k) as [v Hv]; [apply elem_of_cons; by left|].
    cbn [read_cols]. unfold bind at 1. cbn [meta_get of_option ret].
    unfold bind at 1.
    unfold read_val in Hv.
    assert (Hstep :
      (if bool_decide (k ∈ _path_cols)
          && negb (is_None (default PNone (dict_get (KStr k) d)))
       then of_option ValueError
              (to_path posix_of (default PNone (dict_get (KStr k) d)))
       else ret (default PNone (dict_get (KStr k) d))) (self, w)
      = (Val v, (self, w))).
    { destruct (bool_decide (k ∈ _path_cols)
                && negb (is_None (default PNone (dict_get (KStr k) d)))).
      - unfold to_path.
        destruct (default PNone (dict_get (KStr k) d)); simplify_eq; done.
      - by simplify_eq. }
    rewrite Hstep. unfold bind at 1. unfold modify at 1. cbn [fst snd].
    rewrite IH by (intros k' Hk'; apply Hall, elem_of_cons; by right).
    unfold read_attrs, set_attr. simpl. unfold read_val. rewrite Hv. done.
Qed.

Section Read.

Variable copy_bytes : Data → Data.
Variable blake2b : Data → string.
Variable json_decode : Data → option Json.
Variable posix_of : string → string.

Lemma read_run (fuel : nat) (self : DAMeta) (w : World) (ft : File)
    (doc : Json) (d : list (PyKey * PyVal)) :
  let file := meta_file self in
  let keys := filter (λ x, not_in x _auto_cols) _cols in
  w_fs w !! sibling file ".lock" = None →
  w_fs w !! file = Some ft →
  json_decode (f_data ft) = Some doc →
  of_json doc = PDict d →
  (∀ k, k ∈ keys → is_Some (read_val posix_of d k)) →
  ∃ W,
    _read copy_bytes blake2b json_decode posix_of (S fuel) (self, w)
    = (Val tt,
       (mkDAMeta (_filename self) (read_attrs posix_of d keys (attrs self)),
        W))
    ∧ session_over file w W
    ∧ ∀ p, p ≠ sibling file ".lock" → p ≠ staging file w →
           w_fs W !! p = w_fs w !! p.
Proof.
  intros file keys Hlock Hft Hdec Hdoc Hall.
  unfold _read. unfold bind at 1. unfold the_self at 1, gets at 1.
  cbn beta iota zeta delta [fst snd]. fold file. fold keys.
  set (w1 := locked file w).
  set (W0 := (opened_r file (List.length (w_fds w)) w1 ft).2).
  set (h0 := mkHandle file true false false 0 false).
  set (wd := with_fds (<[List.length (w_fds w1)
                         := set_pos (List.length (f_data ft)) h0]>
                         (w_fds W0)) W0).
  apply (r_session_over copy_bytes blake2b fuel file None _ self _ (Val tt)
           w wd ft Hlock Hft); try done.
  cbn beta. unfold bind at 1.
  rewrite (lifted_load json_decode _ self W0 h0 ft doc); try done.
  - rewrite Hdoc. by apply read_cols_run.
  - unfold W0. simpl. rewrite lookup_app_r by done.
    by rewrite Nat.sub_diag.
  - unfold W0. simpl. unfold w1, locked. simpl.
    rewrite lookup_insert_ne; [done|]. by apply sibling_ne.
Qed.

(** X12: [_read] assigns, from the file, every column that is not
    computed: the value under the column's key, [None] when the key
    is missing, a path column that has a value as a [Path].  Every
    path other than the sentinel and the staging path of that file
    name is left as it was (the file itself among them when it lies
    outside the staging directory), the sentinel is gone afterwards,
    and no other attribute of the object changes.  Nothing is said of
    what the call prints: [json.load] reads the file through the
    handle of a read-only session, which moves its access time, and
    the close of the session then reports a change; the snapshot of
    this development holds size and modification time only. *)
Theorem read_assigns_columns (fuel : nat) (self : DAMeta) (w : World)
    (ft : File) (doc : Json) (d : list (PyKey * PyVal)) :
  let file := meta_file self in
  let keys := filter (λ x, not_in x _auto_cols) _cols in
  w_fs w !! sibling file ".lock" = None →
  w_fs w !! file = Some ft →
  json_decode (f_data ft) = Some doc →
  of_json doc = PDict d →
  (∀ k, k ∈ keys → is_Some (read_val posix_of d k)) →
  let r := _read copy_bytes blake2b json_decode posix_of (S fuel) (self, w) in
  r.1 = Val tt
  ∧ _filename r.2.1 = _filename self
  ∧ (∀ k, k ∈ keys → attrs r.2.1 !! ("_" +:+ k) = read_val posix_of d k)
  ∧ (∀ a, (∀ k, k ∈ keys → a ≠ "_" +:+ k) →
          attrs r.2.1 !! a = attrs self !! a)
  ∧ (∀ p, p ≠ sibling file ".lock" → p ≠ staging file w →
          w_fs r.2.2 !! p = w_fs w !! p)
  ∧ w_fs r.2.2 !! sibling file ".lock" = None.
Proof.
  intros file keys Hlock Hft Hdec Hdoc Hall r. subst r.
  destruct (read_run fuel self w ft doc d Hlock Hft Hdec Hdoc Hall)
    as (W & -> & ((G1 & _) & _ & Hl & Hs) & Hoth).
  cbn [fst snd _filename attrs]. split_and!; try done.
  - intros k Hk. fold keys. rewrite read_attrs_lookup.
    rewrite bool_decide_eq_true_2 by done.
    destruct (Hall k Hk) as [v ->]. done.
  - intros a Ha. fold keys. unfold read_attrs.
    clear Hall. induction keys as [|k keys' IH] using rev_ind; [done|].
    rewrite foldl_snoc.
    rewrite lookup_insert_ne.
    + apply IH. intros k' Hk'. apply Ha, elem_of_app. by left.
    + apply not_eq_sym, Ha, elem_of_app. right. by apply list_elem_of_singleton.
Qed.

End Read.


(** ** The file name handed to the constructor *)

Lemma split_nonempty (sep : ascii) (s : string) : split sep s ≠ [].
Proof.
  destruct s as [|c s]; simpl; [done|].
  destruct (decide (c = sep)); [done|]. by destruct (split sep s).
Qed.

Lemma append_String (c : ascii) (a b : string) :
  String c a +:+ b = String c (a +:+ b).
Proof. reflexivity. Qed.

Lemma append_empty_l (s : string) : EmptyString +:+ s = s.
Proof. reflexivity. Qed.

Lemma append_assoc (a b c : string) : (a +:+ b) +:+ c = a +:+ (b +:+ c).
Proof.
  induction a as [|x a IH]; [done|].
  rewrite !append_String. by rewrite IH.
Qed.

Lemma split_app (sep : ascii) (a b : string) :
  split sep (a +:+ String sep b) = (split sep a ++ split sep b)%list.
Proof.
  induction a as [|c a IH].
  - rewrite append_empty_l. simpl. by rewrite decide_True.
  - rewrite append_String. simpl. rewrite IH.
    destruct (decide (c = sep)); [done|].
    pose proof (split_nonempty sep a).
    by destruct (split sep a).
Qed.

Lemma join_split (sep : ascii) (s : string) :
  join (String sep EmptyString) (split sep s) = s.
Proof.
  induction s as [|c s IH]; [done|]. simpl.
  pose proof (split_nonempty sep s) as Hne.
  destruct (decide (c = sep)) as [->|Hc].
  - destruct (split sep s) as [|x l] eqn:E; [done|].
    change (join (String sep EmptyString) (EmptyString :: x :: l))
      with (EmptyString +:+ String sep EmptyString
            +:+ join (String sep EmptyString) (x :: l)).
    by rewrite IH.
  - destruct (split sep s) as [|x l] eqn:E; [done|].
    destruct l as [|y l].
    + simpl in *. by rewrite IH.
    + change (join (String sep EmptyString) (String c x :: y :: l))
        with (String c x +:+ String sep EmptyString
              +:+ join (String sep EmptyString) (y :: l)).
      change (join (String sep EmptyString) (x :: y :: l))
        with (x +:+ String sep EmptyString
              +:+ join (String sep EmptyString) (y :: l)) in IH.
      by rewrite append_String, IH.
Qed.

Lemma endswith_app (c : ascii) (a b : string) :
  b ≠ EmptyString → endswith c (a +:+ b) = endswith c b.
Proof.
  intros Hb. induction a as [|d a IH]; [done|].
  rewrite append_String.
  change (endswith c (String d (a +:+ b)))
    with (match a +:+ b with
          | EmptyString => bool_decide (d = c)
          | _ => endswith c (a +:+ b)
          end).
  destruct (a +:+ b) eqn:E; [|done].
  destruct a; [|done]. by rewrite append_empty_l in E.
Qed.

Lemma lstrip_app (s t : string) :
  all_dots s = false → lstrip "." (s +:+ t) = lstrip "." s +:+ t.
Proof.
  induction s as [|c s IH]; [done|]. intros H.
  rewrite append_String. simpl in *.
  destruct (decide (c = "."%char)) as [->|Hc].
  - rewrite bool_decide_eq_true_2 in H by done. by apply IH.
  - done.
Qed.

Lemma lstrip_all_dots (s t : string) :
  all_dots s = true → lstrip "." (s +:+ t) = lstrip "." t.
Proof.
  induction s as [|c s IH]; [done|]. intros H.
  rewrite append_String. simpl in *.
  apply andb_prop in H as [Hc H]. apply bool_decide_eq_true in Hc as ->.
  rewrite decide_True by done. by apply IH.
Qed.

Lemma drop_tail_two {A} (l : list A) (x y : A) :
  drop (List.length (l ++ [x; y]) - 2) (l ++ [x; y]) = [x; y].
Proof.
  rewrite length_app. simpl.
  replace (List.length l + 2 - 2)%nat with (List.length l) by lia.
  by rewrite drop_app_length.
Qed.

Lemma take_init_two {A} (l : list A) (x y : A) :
  take (List.length (l ++ [x; y]) - 2) (l ++ [x; y]) = l.
Proof.
  rewrite length_app. simpl.
  replace (List.length l + 2 - 2)%nat with (List.length l) by lia.
  by rewrite take_app_length.
Qed.

(** X13: a file name that ends in [.meta.json] is taken for the metadata
    file of the study named by what precedes that ending, unless what
    precedes it is empty or made of dots only, in which case the whole
    name is kept as the name of the study.  In the first case the object
    built from the name has that very file as its [meta_file]. *)
Theorem meta_file_name_stem (dir stem : string) :
  stem_of (mkPath dir (stem +:+ ".meta.json"))
  = (if all_dots stem then mkPath dir (stem +:+ ".meta.json")
     else mkPath dir stem)
  ∧ (all_dots stem = false →
     sibling (stem_of (mkPath dir (stem +:+ ".meta.json"))) ".meta.json"
     = mkPath dir (stem +:+ ".meta.json")).
Proof.
  assert (Hs : stem_of (mkPath dir (stem +:+ ".meta.json"))
               = if all_dots stem then mkPath dir (stem +:+ ".meta.json")
                 else mkPath dir stem).
  { unfold stem_of, suffixes. simpl.
    rewrite endswith_app by done.
    change (endswith "." ".meta.json") with false. cbn iota.
    destruct (all_dots stem) eqn:Hstem.
    - rewrite lstrip_all_dots by done.
      change (lstrip "." ".meta.json") with "meta.json".
      change (split "." "meta.json") with ["meta"; "json"].
      cbn [tail fmap list_fmap List.length drop Nat.sub].
      rewrite decide_False; [done|]. discriminate.
    - rewrite lstrip_app by done.
      change ".meta.json" with (String "." ("meta" +:+ String "." "json")).
      rewrite !split_app.
      change (split "." "json") with ["json"].
      change (split "." "meta") with ["meta"].
      pose proof (split_nonempty "." (lstrip "." stem)) as Hne.
      destruct (split "." (lstrip "." stem)) as [|x0 l0] eqn:EX; [done|].
      cbn [app tail]. rewrite !fmap_app.
      change ((λ x : string, "." +:+ x) <$> ["meta"; "json"])
        with [".meta"; ".json"].
      rewrite drop_tail_two.
      rewrite decide_True by done.
      rewrite take_init_two. by rewrite join_split. }
  split; [done|]. intros Hd. rewrite Hs, Hd. done.
Qed.


(** ** The constructor *)

Lemma cols_cases (P : string → Prop) :
  Forall P _cols → ∀ k, k ∈ _cols → P k.
Proof. intros H k Hk. by eapply Forall_forall in H. Qed.

(** a column that is not computed is read from the instance dict *)
Lemma getattr_stored (self : DAMeta) (k : string) :
  k ∈ filter (λ x, not_in x _auto_cols) _cols →
  getattr self k = attrs self !! ("_" +:+ k).
Proof.
  intros Hk.
  change (filter (λ x, not_in x _auto_cols) _cols)
    with ["da_type"; "da_dim"; "emitx"; "emity"; "turns"; "energy"; "nseeds";
          "pairs_shift"; "pairs_shift_var"; "s_start"; "line_file";
          "six_path"; "submissions"] in Hk.
  repeat (apply elem_of_cons in Hk as [->|Hk]); try reflexivity.
  by apply elem_of_nil in Hk.
Qed.

(** a computed column depends on the file name only *)
Lemma getattr_auto (a b : DAMeta) (k : string) :
  _filename a = _filename b → k ∈ _auto_cols → getattr a k = getattr b k.
Proof.
  intros Hf Hk. unfold _auto_cols in Hk.
  repeat (apply elem_of_cons in Hk as [->|Hk]);
    try (unfold getattr, meta_file, surv_file, da_file, da_evol_file;
         simpl; by rewrite Hf).
  by apply elem_of_nil in Hk.
Qed.

Lemma cols_auto_or_stored (k : string) :
  k ∈ _cols →
  k ∈ _auto_cols ∨ k ∈ filter (λ x, not_in x _auto_cols) _cols.
Proof.
  intros Hk. destruct (decide (k ∈ _auto_cols)) as [H|H]; [by left|].
  right. apply list_elem_of_filter. split; [|done].
  unfold not_in. by rewrite negb_True, bool_decide_spec.
Qed.

Lemma optional_in_cols (k : string) : k ∈ _optional_cols → k ∈ _cols.
Proof.
  revert k. apply Forall_forall.
  apply (bool_decide_unpack (Forall (λ k, k ∈ _cols) _optional_cols)).
  vm_compute. exact I.
Qed.

Lemma optional_in_path_cols (k : string) : k ∈ _optional_cols → k ∈ _path_cols.
Proof.
  revert k. apply Forall_forall.
  apply (bool_decide_unpack (Forall (λ k, k ∈ _path_cols) _optional_cols)).
  vm_compute. exact I.
Qed.

Lemma path_col_auto_or_optional (k : string) :
  k ∈ _path_cols → k ∈ _auto_cols ∨ k ∈ _optional_cols.
Proof.
  revert k. apply Forall_forall.
  apply (bool_decide_unpack
           (Forall (λ k, k ∈ _auto_cols ∨ k ∈ _optional_cols) _path_cols)).
  vm_compute. exact I.
Qed.

Lemma auto_not_optional (k : string) :
  k ∈ _auto_cols → k ∉ _optional_cols.
Proof.
  revert k. apply Forall_forall.
  apply (bool_decide_unpack
           (Forall (λ k, k ∉ _optional_cols) _auto_cols)).
  vm_compute. exact I.
Qed.

Lemma filter_ext_in {A} (P Q : A → Prop) `{!∀ x, Decision (P x)}
    `{!∀ x, Decision (Q x)} (l : list A) :
  (∀ x, x ∈ l → P x ↔ Q x) → filter P l = filter Q l.
Proof.
  induction l as [|x l IH]; intros Hall; [done|].
  rewrite !filter_cons.
  assert (Hx : P x ↔ Q x) by (apply Hall, elem_of_cons; by left).
  rewrite IH by (intros y Hy; apply Hall, elem_of_cons; by right).
  destruct (decide (P x)), (decide (Q x)); tauto.
Qed.

(** objects that agree on every column have the same document *)
Lemma doc_of_ext (a b : DAMeta) :
  (∀ k, k ∈ _cols → getattr a k = getattr b k) →
  doc_of a = doc_of b ∧ (typed b → typed a).
Proof.
  intros Hext.
  assert (Hu : unset_optional a = unset_optional b).
  { unfold unset_optional. apply filter_ext_in. intros k Hk.
    by rewrite Hext by (by apply optional_in_cols). }
  assert (Hk : stored_keys a = stored_keys b).
  { unfold stored_keys. by rewrite Hu. }
  split.
  - unfold doc_of. rewrite Hk. apply list_fmap_ext. intros i k Hi.
    apply list_elem_of_lookup_2, stored_keys_elem in Hi as [Hc _].
    unfold json_val. by rewrite Hext.
  - intros [H1 H2]. split.
    + intros k Hc. rewrite Hext by done. by apply H1.
    + intros k Ho. rewrite Hext by (by apply optional_in_cols). by apply H2.
Qed.

Section Document.

Variable posix_of : string → string.

(** the document of a stable object is one that [json.load] returns *)
Lemma doc_of_loaded (self : DAMeta) :
  typed self → json_stable posix_of self → loaded (PDict (doc_of self)).
Proof.
  intros Ht [Hst _]. constructor.
  - unfold doc_of. apply Forall_fmap, Forall_forall. intros k Hk. simpl.
    split; [by eexists|].
    apply stored_keys_elem in Hk as [Hc Hs].
    unfold json_val.
    destruct (decide (k ∈ _path_cols)) as [Hp|Hp].
    + destruct (typed_path_cols self k Ht Hp Hs) as [p ->].
      rewrite bool_decide_eq_true_2 by done. constructor.
    + destruct Ht as [Hall _]. destruct (Hall k Hc) as [v Hv].
      rewrite Hv. pose proof (Hst k v Hc Hp Hv) as Hl.
      destruct v; try done. inversion Hl.
  - unfold doc_of. rewrite <- list_fmap_compose.
    assert (HI : Inj (=) (=) (λ k : string, KStr k))
      by (by intros ?? [=]).
    apply (NoDup_fmap_2 (λ k : string, KStr k)), stored_keys_NoDup.
Qed.

(** what [_read] finds in the document of a stable object *)
Lemma read_val_doc_of (self : DAMeta) (k : string) :
  typed self → json_stable posix_of self →
  k ∈ filter (λ x, not_in x _auto_cols) _cols →
  read_val posix_of (doc_of self) k = getattr self k.
Proof.
  intros Ht [Hst Hnorm] Hk.
  pose proof Hk as Hk'. apply list_elem_of_filter in Hk' as [Hna Hc].
  unfold not_in in Hna. rewrite negb_True, bool_decide_spec in Hna.
  unfold read_val, doc_of. rewrite dict_get_map_keys.
  destruct (bool_decide (k ∈ stored_keys self)) eqn:E.
  - apply bool_decide_eq_true in E.
    apply stored_keys_elem in E as [_ Hs]. simpl.
    unfold json_val.
    destruct (decide (k ∈ _path_cols)) as [Hp|Hp].
    + destruct (typed_path_cols self k Ht Hp Hs) as [p Hv]. rewrite Hv.
      rewrite !bool_decide_eq_true_2 by done. simpl.
      destruct (path_col_auto_or_optional k Hp) as [?|Ho]; [done|].
      by rewrite (Hnorm k p Ho Hv).
    + rewrite bool_decide_eq_false_2 by done. simpl.
      destruct Ht as [Hall _]. destruct (Hall k Hc) as [v Hv].
      rewrite Hv. by destruct v.
  - apply bool_decide_eq_false in E. simpl.
    rewrite andb_false_r.
    assert (Hu : k ∈ unset_optional self).
    { destruct (decide (k ∈ unset_optional self)) as [?|Hn]; [done|].
      exfalso. apply E. by apply stored_keys_elem. }
    apply unset_optional_elem in Hu as [_ ->]. done.
Qed.

End Document.

Lemma default_typed (filename : Path) :
  typed (mkDAMeta filename default_attrs).
Proof.
  split.
  - apply cols_cases. unfold _cols.
    repeat (apply Forall_cons; split; [by eexists; reflexivity|]).
    apply Forall_nil. done.
  - intros key Hk. unfold _optional_cols in Hk.
    repeat (apply elem_of_cons in Hk as [->|Hk]);
      [left; reflexivity..|by apply elem_of_nil in Hk].
Qed.


(** ** The constructor on the files of a study *)

Section Constructor.

Variable copy_bytes : Data → Data.
Variable blake2b : Data → string.
Variable json_encode : Json → Data.
Variable json_decode : Data → option Json.
Variable posix_of : string → string.

(** the columns of the object that [_read] builds from the document of
    [old] *)
Lemma reloaded_columns (old : DAMeta) (a : gmap string PyVal) (k : string) :
  typed old → json_stable posix_of old → k ∈ _cols →
  getattr (mkDAMeta (_filename old)
             (read_attrs posix_of (doc_of old)
                (filter (λ x, not_in x _auto_cols) _cols) a)) k
  = getattr old k.
Proof.
  intros Ht Hs Hk. destruct (cols_auto_or_stored k Hk) as [Ha|Hst].
  - by apply getattr_auto.
  - rewrite !getattr_stored by done. cbn [attrs].
    rewrite read_attrs_lookup, bool_decide_eq_true_2 by done.
    rewrite (read_val_doc_of posix_of old k Ht Hs Hst).
    rewrite getattr_stored by done.
    destruct Ht as [Hall _]. destruct (Hall k Hk) as [v Hv].
    rewrite getattr_stored in Hv by done. by rewrite Hv.
Qed.

Lemma constructor_load_run (fuel : nat) (filename : Path) (old : DAMeta)
    (w : World) (ft : File) (doc : Json) :
  let file := meta_file old in
  let w0 := with_stdout (w_stdout w ++ ["Loading existing DA object."]) w in
  let new := mkDAMeta (_filename old)
               (read_attrs posix_of (doc_of old)
                  (filter (λ x, not_in x _auto_cols) _cols) default_attrs) in
  (∀ d, copy_bytes d = d) →
  stem_of filename = _filename old →
  typed old → json_stable posix_of old →
  to_json (PDict (doc_of old)) = Some doc →
  json_decode (json_encode doc) = Some doc →
  w_fs w !! file = Some ft →
  f_data ft = json_encode doc →
  parent file ≠ w_tempdir w →
  w_fs w !! sibling file ".lock" = None →
  ∃ W,
    _DAMetaData copy_bytes blake2b json_encode json_decode posix_of
      (S fuel) filename false w
    = (Val tt, (new, W))
    ∧ same_globals w0 W
    ∧ w_fs W !! file = Some (mkFile (json_encode doc) (w_now w))
    ∧ w_fs W !! sibling file ".lock" = None
    ∧ ∀ p, p ≠ file → p ≠ sibling file ".backup" →
           p ≠ sibling file ".lock" → p ≠ staging file w →
           w_fs W !! p = w_fs w !! p.
Proof.
  intros file w0 new Hsound Hstem Ht Hs Hdoc Hdec Hft Hdata Htmp Hlock.
  unfold _DAMetaData. cbn iota. unfold init_files.
  unfold bind at 1. unfold the_self at 1, gets at 1.
  cbn beta iota zeta delta [fst snd].
  set (self0 := mkDAMeta (stem_of filename) default_attrs).
  assert (Hmf : meta_file self0 = file).
  { unfold meta_file, self0. cbn [_filename]. by rewrite Hstem. }
  rewrite Hmf. unfold bind at 1. rewrite lift_run.
  unfold is_file at 1, gets at 1. cbn [fst snd]. rewrite Hft.
  rewrite bool_decide_eq_true_2 by (by eexists).
  unfold bind at 1. rewrite lift_run. unfold print at 1, modify at 1.
  cbn [fst snd]. fold w0.
  assert (Hre : of_json doc = PDict (doc_of old)).
  { rewrite (to_json_reload _ _ Hdoc).
    by apply loaded_reload, (doc_of_loaded posix_of). }
  destruct (read_run copy_bytes blake2b json_decode posix_of fuel self0 w0
              ft doc (doc_of old)) as (W1 & Hr & Hso & Hoth).
  { by rewrite Hmf. }
  { by rewrite Hmf. }
  { by rewrite Hdata. }
  { done. }
  { intros k Hk. rewrite (read_val_doc_of posix_of old k Ht Hs Hk).
    destruct Ht as [Hall _]. apply Hall.
    by apply list_elem_of_filter in Hk as [_ Hk]. }
  rewrite Hmf in Hso, Hoth.
  unfold bind at 1.
  change ((print "Loading existing DA object." (is_file file w).2).2)
    with w0.
  rewrite Hr.
  assert (Hnew : mkDAMeta (_filename self0)
                   (read_attrs posix_of (doc_of old)
                      (filter (λ x, not_in x _auto_cols) _cols)
                      (attrs self0)) = new).
  { unfold new, self0. cbn [_filename attrs]. by rewrite Hstem. }
  rewrite Hnew.
  destruct (doc_of_ext new old) as [Hd Hty].
  { intros k Hk. by apply reloaded_columns. }
  specialize (Hty Ht).
  destruct (store_doc_typed new Hty) as (m0 & Hm0 & Hmeta).
  destruct Hso as (HG & Hreg & Hl1 & Hs1).
  pose proof HG as (G1 & G2 & G3 & G4).
  assert (Hmn : meta_file new = file) by done.
  destruct (store_run copy_bytes blake2b json_encode Hsound fuel new W1
              m0 (doc_of new) doc)
    as (W2 & Hst & (HG2 & _ & Hl2 & Hs2) & Hfile & _ & Hoth2).
  { rewrite Hmn, G3. done. }
  { by rewrite Hmn. }
  { rewrite Hmn. intros Hn. rewrite Hoth in Hn.
    - change (w_fs w0) with (w_fs w) in Hn. by rewrite Hft in Hn.
    - apply not_eq_sym, sibling_ne. done.
    - apply not_eq_sym. by apply staging_ne_target. }
  { done. }
  { done. }
  { by rewrite Hd. }
  rewrite Hmn in Hfile, Hl2, Hoth2.
  exists W2. rewrite Hst. split_and!.
  - done.
  - by apply (same_globals_trans _ W1).
  - by rewrite Hfile, G2.
  - done.
  - intros p P1 P2 P3 P4. rewrite Hoth2; [by apply Hoth|exact P1|exact P2|exact P3|].
    unfold staging. rewrite G3. exact P4.
Qed.

(** X14: what [_store] writes, the constructor reads back.  On a
    metadata file that holds the stored document of an object, the
    constructor first announces the load, builds an object with the
    same value in every column, and stores it again: the file holds
    the same document, the sentinel is gone, and no other file
    changes (a backup left at the [.backup] path apart).  The values
    of the columns are those of [PyVal]: [None], booleans, integers,
    text, paths, lists and maps of these, each stored one equal to
    itself under [==]; floating-point values, among them the NaN
    that differs from itself, are not represented.  Of the output,
    only that it starts with the announcement is stated: the close
    of the read-only session of [_read] reports a change once
    [json.load] has moved the access time of the file, which the
    snapshot of this development (size and modification time) does
    not hold. *)
Theorem constructor_reloads_stored (fuel : nat) (filename : Path)
    (old : DAMeta) (w : World) (ft : File) (doc : Json) :
  let file := meta_file old in
  (∀ d, copy_bytes d = d) →
  stem_of filename = _filename old →
  typed old → json_stable posix_of old →
  (∀ k, k ∈ stored_keys old →
        py_eq (json_val old k) (json_val old k) = true) →
  to_json (PDict (doc_of old)) = Some doc →
  json_decode (json_encode doc) = Some doc →
  w_fs w !! file = Some ft →
  f_data ft = json_encode doc →
  parent file ≠ w_tempdir w →
  w_fs w !! sibling file ".lock" = None →
  let r := _DAMetaData copy_bytes blake2b json_encode json_decode posix_of
             (S fuel) filename false w in
  r.1 = Val tt
  ∧ _filename r.2.1 = _filename old
  ∧ (∀ k, k ∈ _cols → getattr r.2.1 k = getattr old k)
  ∧ f_data <$> w_fs r.2.2 !! file = Some (json_encode doc)
  ∧ w_fs r.2.2 !! sibling file ".lock" = None
  ∧ (∀ p, p ≠ file → p ≠ sibling file ".backup" →
          p ≠ sibling file ".lock" → p ≠ staging file w →
          w_fs r.2.2 !! p = w_fs w !! p)
  ∧ (w_stdout w ++ ["Loading existing DA object."])%list
    `prefix_of` w_stdout r.2.2.
Proof.
  intros file Hsound Hstem Ht Hs Heq Hdoc Hdec Hft Hdata Htmp Hlock r.
  subst r.
  destruct (constructor_load_run fuel filename old w ft doc Hsound Hstem Ht
              Hs Hdoc Hdec Hft Hdata Htmp Hlock)
    as (W & -> & (G1 & _) & Hfile & Hl & Hoth).
  cbn [fst snd _filename].
  split; [done|]. split; [done|].
  split; [intros k Hk; by apply reloaded_columns|].
  split; [unfold file; by rewrite Hfile|].
  split; [done|]. split; [done|].
  exists []. rewrite app_nil_r. by rewrite G1.
Qed.

End Constructor.


Lemma study_stable : json_stable ExStored.posix ExMeta.study.
Proof.
  split.
  - intros key v Hc Hp Hv. unfold _cols in Hc.
    repeat (apply elem_of_cons in Hc as [->|Hc]);
      try (vm_compute in Hv; injection Hv as <-; repeat constructor);
      try (exfalso; apply Hp; apply (bool_decide_unpack _); vm_compute;
           exact I).
    by apply elem_of_nil in Hc.
  - done.
Qed.

Lemma constructor_reloads_stored_witness :
  let r := _DAMetaData Ex.sound Ex.digest JsonText.encode JsonText.decode
             ExStored.posix 1 Ex.F false ExStored.on_disk in
  r.1 = Val tt
  ∧ getattr r.2.1 "turns" = Some (PInt 100)
  ∧ f_data <$> w_fs r.2.2 !! Ex.F = Some (JsonText.encode ExStored.doc).
Proof.
  intros r.
  destruct (constructor_reloads_stored Ex.sound Ex.digest JsonText.encode
              JsonText.decode ExStored.posix 0 Ex.F ExMeta.study
              ExStored.on_disk
              (mkFile (JsonText.encode ExStored.doc) "2022-04-17T09:00:00")
              ExStored.doc)
    as (Hval & _ & Hcols & Hfile & _).
  - intros d. reflexivity.
  - vm_compute. reflexivity.
  - exact study_typed.
  - exact study_stable.
  - apply Forall_forall.
    apply (bool_decide_unpack
             (Forall (λ k, py_eq (json_val ExMeta.study k)
                             (json_val ExMeta.study k) = true)
                (stored_keys ExMeta.study))).
    vm_compute. exact I.
  - vm_compute. reflexivity.
  - vm_compute. reflexivity.
  - vm_compute. reflexivity.
  - reflexivity.
  - vm_compute. discriminate.
  - vm_compute. reflexivity.
  - split; [exact Hval|]. split; [|exact Hfile].
    unfold r. rewrite Hcols; [reflexivity|].
    apply (bool_decide_unpack _). vm_compute. exact I.
Defined.

Lemma lifted_is_file {X} (p : Path) (x : X) (w : World) :
  lift (is_file p) (x, w) = (Val (bool_decide (is_Some (w_fs w !! p))), (x, w)).
Proof. reflexivity. Qed.

Lemma lifted_print {X} (line : string) (x : X) (w : World) :
  lift (print line) (x, w)
  = (Val tt, (x, with_stdout (w_stdout w ++ [line]) w)).
Proof. reflexivity. Qed.

Section NewStudy.

Variable copy_bytes : Data → Data.
Variable blake2b : Data → string.
Variable json_encode : Json → Data.
Variable json_decode : Data → option Json.
Variable posix_of : string → string.

Lemma fresh_document_dump (f : Path) :
  to_json (PDict (doc_of (mkDAMeta f default_attrs)))
  = Some (fresh_document f).
Proof. reflexivity. Qed.

Lemma constructor_new_run (fuel : nat) (filename : Path) (w : World) :
  let self := mkDAMeta (stem_of filename) default_attrs in
  let file := meta_file self in
  let w0 := with_stdout (w_stdout w ++ ["Creating new DA object."]) w in
  w_fs w !! file = None →
  w_fs w !! surv_file self = None →
  w_fs w !! da_file self = None →
  w_fs w !! da_evol_file self = None →
  _DAMetaData copy_bytes blake2b json_encode json_decode posix_of
    fuel filename false w
  = _store copy_bytes blake2b json_encode fuel (self, w0).
Proof.
  intros self file w0 Hfile Hsurv Hda Hevol.
  unfold _DAMetaData. cbn iota. unfold init_files.
  unfold bind at 1. unfold the_self at 1, gets at 1.
  cbn beta iota zeta delta [fst snd]. fold self. fold file.
  unfold bind at 1. rewrite lifted_is_file. rewrite Hfile.
  rewrite bool_decide_eq_false_2 by (by intros [? ?]).
  unfold bind at 1. rewrite lifted_is_file. rewrite Hsurv.
  unfold bind at 1. rewrite lifted_is_file. rewrite Hda.
  unfold bind at 1. rewrite lifted_is_file. rewrite Hevol.
  rewrite !bool_decide_eq_false_2 by (by intros [? ?]). cbn [orb].
  unfold bind at 1. by rewrite lifted_print.
Qed.

(** X15: on a study that has no file yet, the constructor announces
    the creation and stores the defaults: the metadata file is created
    with the document of a new study (name, directory, the defaults of
    the class, the four file names, an empty submissions map; the
    optional columns left out).  The sentinel and the staging file are
    gone afterwards and no other file is touched.  The lock is taken
    at the first attempt: the sentinel is not there and the lock loop
    returns once the creation is announced (which, on a file system,
    also needs the directory of the study to be there; this
    development has no directories). *)
Theorem constructor_creates_fresh_study (fuel : nat) (filename : Path)
    (w : World) (fl : nat) (w1 : World) :
  let self := mkDAMeta (stem_of filename) default_attrs in
  let file := meta_file self in
  (∀ d, copy_bytes d = d) →
  parent file ≠ w_tempdir w →
  w_fs w !! file = None →
  w_fs w !! surv_file self = None →
  w_fs w !! da_file self = None →
  w_fs w !! da_evol_file self = None →
  w_fs w !! sibling file ".lock" = None →
  acquire (S fuel) (sibling file ".lock") 1000
    (with_stdout (w_stdout w ++ ["Creating new DA object."]) w)
    = (Val fl, w1) →
  w_fs w !! staging file w = None →
  let r := _DAMetaData copy_bytes blake2b json_encode json_decode posix_of
             (S fuel) filename false w in
  r.1 = Val tt
  ∧ r.2.1 = self
  ∧ w_fs r.2.2 !! file
    = Some (mkFile (json_encode (fresh_document (stem_of filename)))
              (w_now w))
  ∧ w_fs r.2.2 !! sibling file ".lock" = None
  ∧ w_fs r.2.2 !! staging file w = None
  ∧ (∀ p, p ≠ file → p ≠ sibling file ".backup" →
          p ≠ sibling file ".lock" → p ≠ staging file w →
          w_fs r.2.2 !! p = w_fs w !! p)
  ∧ w_stdout r.2.2 = (w_stdout w ++ ["Creating new DA object."])%list.
Proof.
  intros self file Hsound Htmp Hfile Hsurv Hda Hevol Hlock Hacq Hst r.
  subst r.
  rewrite (constructor_new_run (S fuel) filename w Hfile Hsurv Hda Hevol).
  fold self.
  set (w0 := with_stdout (w_stdout w ++ ["Creating new DA object."]) w).
  destruct (store_doc_typed self (default_typed _)) as (m0 & Hm0 & Hmeta).
  destruct (store_run copy_bytes blake2b json_encode Hsound fuel self w0
              m0 (doc_of self) (fresh_document (stem_of filename))
              Htmp Hlock (λ _, Hst) Hm0 Hmeta
              (fresh_document_dump (stem_of filename)))
    as (W & -> & ((G1 & _) & _ & Hl & Hs) & Hf & _ & Hoth).
  cbn [fst snd]. split; [reflexivity|]. split; [reflexivity|].
  split; [exact Hf|]. split; [exact Hl|]. split; [exact Hs|].
  split; [exact Hoth|exact G1].
Qed.

(** X16: result files without a metadata file are not adopted.  When
    the metadata file is missing and one of the three parquet files of
    the study is there, the constructor raises [ValueError] before it
    prints, locks or writes anything: the world is as it was. *)
Theorem constructor_refuses_orphan_results (fuel : nat) (filename : Path)
    (w : World) :
  let self := mkDAMeta (stem_of filename) default_attrs in
  w_fs w !! meta_file self = None →
  is_Some (w_fs w !! surv_file self) ∨ is_Some (w_fs w !! da_file self)
  ∨ is_Some (w_fs w !! da_evol_file self) →
  _DAMetaData copy_bytes blake2b json_encode json_decode posix_of
    fuel filename false w
  = (Exc ValueError, (self, w)).
Proof.
  intros self Hfile Hsome.
  unfold _DAMetaData. cbn iota. unfold init_files.
  unfold bind at 1. unfold the_self at 1, gets at 1.
  cbn beta iota zeta delta [fst snd]. fold self.
  unfold bind at 1. rewrite lifted_is_file. rewrite Hfile.
  rewrite bool_decide_eq_false_2 by (by intros [? ?]).
  unfold bind at 1. rewrite lifted_is_file.
  unfold bind at 1. rewrite lifted_is_file.
  unfold bind at 1. rewrite lifted_is_file.
  destruct Hsome as [H|[H|H]].
  - by rewrite (bool_decide_eq_true_2 _ H).
  - rewrite (bool_decide_eq_true_2 _ H). by rewrite orb_true_r.
  - rewrite (bool_decide_eq_true_2 _ H). by rewrite orb_true_r.
Qed.

End NewStudy.

Lemma constructor_creates_fresh_study_witness :
  let r := _DAMetaData Ex.sound Ex.digest JsonText.encode JsonText.decode
             ExStored.posix 1 Ex.F false Ex.nothing in
  r.1 = Val tt
  ∧ f_data <$> w_fs r.2.2 !! Ex.F
    = Some (JsonText.encode (fresh_document (mkPath "/data" "study")))
  ∧ w_stdout r.2.2 = ["Creating new DA object."].
Proof.
  intros r.
  destruct (constructor_creates_fresh_study Ex.sound Ex.digest JsonText.encode
              JsonText.decode ExStored.posix 0 Ex.F Ex.nothing 0
              (locked Ex.F
                 (with_stdout ["Creating new DA object."] Ex.nothing)))
    as (Hval & _ & Hfile & _ & _ & _ & Hout).
  - intros d. reflexivity.
  - vm_compute. discriminate.
  - vm_compute. reflexivity.
  - vm_compute. reflexivity.
  - vm_compute. reflexivity.
  - vm_compute. reflexivity.
  - vm_compute. reflexivity.
  - vm_compute. reflexivity.
  - vm_compute. reflexivity.
  - split; [exact Hval|]. split; [|exact Hout].
    change (meta_file (mkDAMeta (stem_of Ex.F) default_attrs)) with Ex.F
      in Hfile.
    unfold r. rewrite Hfile. reflexivity.
Defined.

Lemma constructor_refuses_orphan_results_witness :
  let w := with_fs {[ mkPath "/data" "study.da.parquet"
                      := mkFile [] "2022-04-17T09:00:00" ]} Ex.nothing in
  _DAMetaData Ex.sound Ex.digest JsonText.encode JsonText.decode
    ExStored.posix 1 Ex.F false w
  = (Exc ValueError, (mkDAMeta (mkPath "/data" "study") default_attrs, w)).
Proof.
  intros w.
  apply (constructor_refuses_orphan_results Ex.sound Ex.digest JsonText.encode
           JsonText.decode ExStored.posix 1 Ex.F w).
  - vm_compute. reflexivity.
  - right. left. vm_compute. eexists. reflexivity.
Defined.


Lemma read_assigns_columns_witness :
  let r := _read Ex.sound Ex.digest JsonText.decode ExStored.posix 1
             (mkDAMeta (mkPath "/data" "study") default_attrs,
              ExStored.on_disk) in
  r.1 = Val tt
  ∧ attrs r.2.1 !! "_turns" = Some (PInt 100).
Proof.
  intros r.
  destruct (read_assigns_columns Ex.sound Ex.digest JsonText.decode
              ExStored.posix 0
              (mkDAMeta (mkPath "/data" "study") default_attrs)
              ExStored.on_disk
              (mkFile (JsonText.encode ExStored.doc) "2022-04-17T09:00:00")
              ExStored.doc (doc_of ExMeta.study))
    as (Hval & _ & Hcols & _).
  - vm_compute. reflexivity.
  - vm_compute. reflexivity.
  - vm_compute. reflexivity.
  - vm_compute. reflexivity.
  - apply Forall_forall.
    apply (bool_decide_unpack
             (Forall (λ k, is_Some (read_val ExStored.posix
                                      (doc_of ExMeta.study) k))
                (filter (λ x, not_in x _auto_cols) _cols))).
    vm_compute. exact I.
  - split; [exact Hval|].
    assert (Hin : "turns" ∈ filter (λ x, not_in x _auto_cols) _cols).
    { apply (bool_decide_unpack _). vm_compute. exact I. }
    etrans; [exact (Hcols "turns" Hin)|]. vm_compute. reflexivity.
Defined.


(** ** [update_submissions] *)

Lemma dict_of_pairs_snoc {K V} `{EqDecision K} (ps : list (K * V)) (k : K)
    (v : V) :
  dict_of_pairs (ps ++ [(k, v)]) = dict_set k v (dict_of_pairs ps).
Proof. unfold dict_of_pairs. by rewrite fold_left_app. Qed.

(** what comes back of a dict with text keys after an entry is set under
    any key *)
Lemma reload_dict_set (d : list (PyKey * PyVal)) (k : PyKey) (v : PyVal) :
  loaded (PDict d) →
  reload (PDict (dict_set k v d))
  = PDict (dict_set (KStr (key_text k)) (reload v) d).
Proof.
  intros Hl. inversion Hl as [| | | | |d' Hd Hnd]; subst.
  rewrite reload_dict. f_equal.
  destruct k as [s|n].
  - rewrite coerce_dict_set_loaded by done.
    apply dict_of_pairs_NoDup. by apply dict_set_NoDup.
  - assert (Hint : dict_get (KInt n) d = None).
    { apply dict_get_None. intros Hin.
      apply list_elem_of_fmap in Hin as ([k x] & Hk & Hin). simpl in Hk.
      subst k. rewrite Forall_forall in Hd.
      destruct (Hd _ Hin) as [[s Hs] _]. done. }
    rewrite dict_set_fresh by done. rewrite map_app. simpl.
    unfold coerce at 2. simpl. rewrite loaded_entries_coerce by done.
    rewrite dict_of_pairs_snoc. by rewrite dict_of_pairs_NoDup.
Qed.

Lemma update_dump (top subs : list (PyKey * PyVal)) (id : PyKey)
    (val : PyVal) :
  loaded (PDict top) →
  dict_get (KStr "submissions") top = Some (PDict subs) →
  is_Some (to_json val) →
  ∃ doc2,
    to_json (PDict (dict_set (KStr "submissions")
                      (PDict (dict_set id val subs)) top)) = Some doc2
    ∧ of_json doc2
      = PDict (dict_set (KStr "submissions")
                 (PDict (dict_set (KStr (key_text id)) (reload val) subs))
                 top).
Proof.
  intros Hl Hsub Hval.
  inversion Hl as [| | | | |d' Htop Hnd]; subst.
  pose proof (dict_get_Forall _ _ _ _ Htop Hsub) as [_ Hlsubs]. simpl in Hlsubs.
  inversion Hlsubs as [| | | | |d' Hsubs Hnds]; subst.
  set (top2 := dict_set _ _ top).
  assert (Hsome : is_Some (to_json (PDict top2))).
  { apply to_json_dict_is_Some. subst top2.
    apply (dict_set_Forall (λ kv, is_Some (to_json kv.2))).
    - eapply Forall_impl; [exact Htop|]. intros [k x] [_ Hx].
      by apply loaded_to_json.
    - intros k' _. apply to_json_dict_is_Some.
      apply (dict_set_Forall (λ kv, is_Some (to_json kv.2))).
      + eapply Forall_impl; [exact Hsubs|]. intros [k x] [_ Hx].
        by apply loaded_to_json.
      + by intros k'' _. }
  destruct Hsome as [doc2 Hdoc2]. exists doc2. split; [done|].
  rewrite (to_json_reload _ _ Hdoc2). subst top2.
  rewrite reload_dict_set by done. cbn [key_text].
  by rewrite reload_dict_set.
Qed.

Lemma with_ProtectFile_ext {X A} (copy_bytes : Data → Data)
    (blake2b : Data → string) (fuel : nat) (arg : Args)
    (b1 b2 : nat → M (X * World) A) (xw : X * World) :
  (∀ pf x, b1 pf x = b2 pf x) →
  with_ProtectFile copy_bytes blake2b fuel arg b1 xw
  = with_ProtectFile copy_bytes blake2b fuel arg b2 xw.
Proof.
  intros H. unfold with_ProtectFile.
  destruct (__init__ copy_bytes fuel arg xw.2) as [[?|?|] [s w1]];
    try done.
  destruct (__enter__ s w1) as [[pf|?|] w2]; try done.
  by rewrite H.
Qed.

Section Update.

Variable copy_bytes : Data → Data.
Variable blake2b : Data → string.
Variable json_encode : Json → Data.
Variable json_decode : Data → option Json.

Hypothesis sound : ∀ d, copy_bytes d = d.

(** a session that loads the document and, when [edit] gives a new
    one and a result, rewrites the file with it and keeps it in
    [_submissions] *)
Lemma load_edit_dump_run {A} (fuel : nat) (self : DAMeta) (w : World)
    (ft : File) (doc doc' : Json) (new : PyVal) (a : A)
    (edit : PyVal → M (DAMeta * World) (PyVal * A)) :
  let file := meta_file self in
  parent file ≠ w_tempdir w →
  w_fs w !! sibling file ".lock" = None →
  w_fs w !! file = Some ft →
  json_decode (f_data ft) = Some doc →
  (∀ x, edit (of_json doc) x = (Val (new, a), x)) →
  to_json new = Some doc' →
  ∃ W,
    guarded copy_bytes blake2b (S fuel) file "r+" (Some 5) (λ pf,
      let* meta := lift (json_load json_decode pf) in
      let* ma := edit meta in
      lift (fd_truncate pf 0) ;;
      lift (fd_seek pf 0) ;;
      lift (json_dump json_encode ma.1 pf) ;;
      modify (λ mw, (set_attr "_submissions" ma.1 mw.1, mw.2)) ;;
      ret ma.2) (self, w)
    = (Val a, (set_attr "_submissions" new self, W))
    ∧ session_over file w W
    ∧ w_fs W !! file = Some (mkFile (json_encode doc') (w_now w))
    ∧ ∀ p, p ≠ file → p ≠ sibling file ".backup" →
           p ≠ sibling file ".lock" → p ≠ staging file w →
           w_fs W !! p = w_fs w !! p.
Proof.
  intros file Htmp Hlock Hft Hdec Hedit Hdoc.
  set (w1 := locked file w).
  set (W0 := (opened_rplus copy_bytes file (List.length (w_fds w)) w1 ft).2).
  set (pf := List.length (w_fds w1)).
  set (h0 := mkHandle (staging file w) true true false 0 false).
  set (h1 := set_pos (List.length (f_data (copy_of copy_bytes ft))) h0).
  set (W1 := with_fds (<[pf := h1]> (w_fds W0)) W0).
  set (wd := with_fds (<[pf := set_pos (List.length (json_encode doc')) h1]>
                         (w_fds W1))
               (with_fs (<[staging file w
                           := mkFile (json_encode doc') (w_now w)]>
                           (w_fs W1)) W1)).
  assert (Hpf : w_fds W0 !! pf = Some h0).
  { unfold W0, pf. simpl. rewrite lookup_app_r by done.
    by rewrite Nat.sub_diag. }
  assert (Hst : w_fs W0 !! staging file w = Some (copy_of copy_bytes ft)).
  { unfold W0. simpl. apply lookup_insert_eq. }
  destruct (rplus_session_over copy_bytes blake2b sound fuel file (Some 5)
              (λ pf,
                 let* meta := lift (json_load json_decode pf) in
                 let* ma := edit meta in
                 lift (fd_truncate pf 0) ;;
                 lift (fd_seek pf 0) ;;
                 lift (json_dump json_encode ma.1 pf) ;;
                 modify (λ mw, (set_attr "_submissions" ma.1 mw.1, mw.2)) ;;
                 ret ma.2)
              self (set_attr "_submissions" new self) (Val a) w wd ft
              (mkFile (json_encode doc') (w_now w)) Htmp Hlock Hft)
    as (W & Hrun & Hover & Hfile & Hbk & Hoth).
  - cbn beta. fold w1. fold pf. fold W0. unfold bind at 1.
    rewrite (lifted_load json_decode pf self W0 h0 (copy_of copy_bytes ft)
               doc); try done.
    2:{ by rewrite copy_of_sound. }
    fold h1. fold W1.
    unfold bind at 1. rewrite Hedit. cbn [fst snd].
    rewrite (lifted_rewrite json_encode pf new doc' _ self W1 h1
               (copy_of copy_bytes ft)); try done.
    + unfold W1. simpl.
      apply list_lookup_insert_eq. by apply lookup_lt_Some in Hpf.
  - done.
  - simpl. apply lookup_insert_eq.
  - intros p Hp. simpl. by rewrite lookup_insert_ne.
  - by unfold same_globals.
  - done.
  - exists W. split_and!; done.
Qed.

(** X17: [update_submissions(id, val)] rewrites the metadata file so
    that it reads back as the document it held with one change: in the
    submissions map the entry under the text of [id] is [val] (as it
    comes back from the file), set in place when the key was there and
    added at the end when not; an integer id and its decimal text
    address the same entry.  The sentinel is gone afterwards, no other
    file is touched (a backup left at the [.backup] path apart), and
    the object's [_submissions] attribute is left holding the whole
    dumped document, not the submissions map alone. *)
Theorem update_submissions_sets_entry (fuel : nat) (self : DAMeta)
    (w : World) (ft : File) (doc : Json) (top subs : list (PyKey * PyVal))
    (id : PyKey) (val : PyVal) :
  let file := meta_file self in
  parent file ≠ w_tempdir w →
  w_fs w !! sibling file ".lock" = None →
  w_fs w !! file = Some ft →
  json_decode (f_data ft) = Some doc →
  of_json doc = PDict top →
  dict_get (KStr "submissions") top = Some (PDict subs) →
  is_Some (to_json val) →
  let r := update_submissions copy_bytes blake2b json_encode json_decode
             (S fuel) id val (self, w) in
  r.1 = Val tt
  ∧ r.2.1 = set_attr "_submissions"
              (PDict (dict_set (KStr "submissions")
                        (PDict (dict_set id val subs)) top)) self
  ∧ (∃ doc',
       w_fs r.2.2 !! file = Some (mkFile (json_encode doc') (w_now w))
       ∧ of_json doc'
         = PDict (dict_set (KStr "submissions")
                    (PDict (dict_set (KStr (key_text id)) (reload val)
                              subs)) top))
  ∧ w_fs r.2.2 !! sibling file ".lock" = None
  ∧ (∀ p, p ≠ file → p ≠ sibling file ".backup" →
          p ≠ sibling file ".lock" → p ≠ staging file w →
          w_fs r.2.2 !! p = w_fs w !! p).
Proof.
  intros file Htmp Hlock Hft Hdec Htop Hsub Hval r. subst r.
  assert (Hl : loaded (PDict top)) by (rewrite <- Htop; apply of_json_loaded).
  destruct (update_dump top subs id val Hl Hsub Hval) as (doc' & Hdoc' & Hre).
  set (new := PDict (dict_set (KStr "submissions")
                       (PDict (dict_set id val subs)) top)).
  destruct (load_edit_dump_run fuel self w ft doc doc' new tt
              (λ meta,
                 let* subs := of_option KeyError
                                (getitem meta (KStr "submissions")) in
                 let* subs := of_option AttributeError
                                (setitem subs id val) in
                 let* meta := of_option ValueError
                                (setitem meta (KStr "submissions") subs) in
                 ret (meta, tt))
              Htmp Hlock Hft Hdec)
    as (W & Hrun & (_ & _ & Hlk & _) & Hfile & Hoth).
  { intros x. rewrite Htop. unfold bind. cbn [getitem]. rewrite Hsub.
    reflexivity. }
  { done. }
  assert (Hrun' : update_submissions copy_bytes blake2b json_encode
                    json_decode (S fuel) id val (self, w)
                  = (Val tt, (set_attr "_submissions" new self, W))).
  { rewrite <- Hrun. unfold update_submissions.
    unfold bind at 1. unfold the_self at 1, gets at 1.
    cbn beta iota zeta delta [fst snd]. fold file.
    apply with_ProtectFile_ext. intros pf x. unfold bind.
    destruct (lift (json_load json_decode pf) x) as [[meta| |] x1];
      [|done..].
    destruct (of_option KeyError (getitem meta (KStr "submissions")) x1)
      as [[s1| |] x2]; [|done..].
    destruct (of_option AttributeError (setitem s1 id val) x2)
      as [[s2| |] x3]; [|done..].
    destruct (of_option ValueError (setitem meta (KStr "submissions") s2) x3)
      as [[m2| |] x4]; [|done..].
    cbn [fst snd ret].
    destruct (lift (fd_truncate pf 0) x4) as [[[]| |] x5]; [|done..].
    destruct (lift (fd_seek pf 0) x5) as [[[]| |] x6]; [|done..].
    destruct (lift (json_dump json_encode m2 pf) x6) as [[[]| |] x7];
      done. }
  rewrite Hrun'. cbn [fst snd]. split_and!; try done.
  by exists doc'.
Qed.

End Update.


(** ** Setting a property *)

Lemma getattr_set_other (self : DAMeta) (prop k : string) (val : PyVal) :
  k ≠ prop → getattr (set_attr ("_" +:+ prop) val self) k = getattr self k.
Proof.
  intros Hne. unfold getattr, set_attr. cbn [_filename attrs].
  repeat case_decide; try done.
  rewrite lookup_insert_ne; [done|]. intros E%meta_attr_inj. done.
Qed.

Lemma getattr_set_same (self : DAMeta) (prop : string) (val : PyVal) :
  prop ∉ _auto_cols →
  getattr (set_attr ("_" +:+ prop) val self) prop = Some val.
Proof.
  intros Hna. unfold getattr, set_attr. cbn [_filename attrs].
  repeat case_decide; subst;
    try (exfalso; apply Hna; apply (bool_decide_unpack _); vm_compute;
         exact I).
  apply lookup_insert_eq.
Qed.

Lemma typed_set (self : DAMeta) (prop : string) (val : PyVal) :
  typed self → prop ∉ _optional_cols →
  typed (set_attr ("_" +:+ prop) val self).
Proof.
  intros [Hall Hopt] Hno. split.
  - intros k Hk. destruct (decide (k = prop)) as [->|Hne].
    + unfold getattr, set_attr. cbn [_filename attrs].
      repeat case_decide; try (by eexists).
      rewrite lookup_insert_eq. by eexists.
    + rewrite getattr_set_other by done. by apply Hall.
  - intros k Hk. rewrite getattr_set_other; [by apply Hopt|].
    by intros ->.
Qed.

Lemma unset_optional_set (self : DAMeta) (prop : string) (val : PyVal) :
  prop ∉ _optional_cols →
  unset_optional (set_attr ("_" +:+ prop) val self) = unset_optional self.
Proof.
  intros Hno. unfold unset_optional. apply filter_ext_in. intros k Hk.
  rewrite getattr_set_other; [done|]. by intros ->.
Qed.

(** the dict that [_check_not_changed] and [_store] build from the
    object, for a typed object and an ignore list that has the unset
    optional columns *)
Lemma fields_typed (self : DAMeta) (ign : list string) :
  typed self →
  (∀ k, k ∈ unset_optional self → k ∈ ign) →
  ∃ m0, fields_of self (filter (λ x, not_in x ign) _cols) = Some m0
        ∧ _paths_to_strings self m0 ign
          = Some ((λ k, (KStr k, json_val self k))
                    <$> filter (λ x, not_in x ign) _cols).
Proof.
  intros Ht Hign. pose proof Ht as [Hall Hopt].
  assert (Hin : ∀ k, k ∈ filter (λ x, not_in x ign) _cols
                     ↔ k ∈ _cols ∧ k ∉ ign).
  { intros k. rewrite list_elem_of_filter. unfold not_in.
    rewrite negb_True, bool_decide_spec. tauto. }
  assert (Hnd : NoDup (filter (λ x, not_in x ign) _cols))
    by apply NoDup_filter, cols_NoDup.
  eexists. split.
  { apply fields_of_run; [done|].
    intros k Hk. apply Hall. by apply Hin in Hk as [? _]. }
  unfold _paths_to_strings.
  rewrite paths_to_strings_acc.
  - f_equal. apply list_fmap_ext. intros i k Hk. f_equal.
    apply list_elem_of_lookup_2 in Hk.
    apply Hin in Hk as [Hc Hs].
    unfold json_val.
    destruct (bool_decide (k ∈ filter (λ key, not_in key ign) _path_cols))
      eqn:E.
    + apply bool_decide_eq_true in E.
      apply list_elem_of_filter in E as [_ Hp].
      destruct (typed_path_cols self k Ht Hp) as [p ->]; [by auto|].
      by rewrite bool_decide_eq_true_2.
    + apply bool_decide_eq_false in E.
      destruct (getattr self k) as [v|] eqn:Ev; [|done]. simpl.
      destruct v; try done.
      rewrite bool_decide_eq_false_2; [done|].
      intros Hp. apply E. apply list_elem_of_filter. split; [|done].
      unfold not_in. by rewrite negb_True, bool_decide_spec.
  - done.
  - intros k Hk. apply list_elem_of_filter in Hk as [Hn Hp].
    apply Hin. split; [by apply path_cols_in_cols|].
    unfold not_in in Hn. by rewrite negb_True, bool_decide_spec in Hn.
  - intros k Hk. apply list_elem_of_filter in Hk as [Hn Hp].
    apply (typed_path_cols self k Ht Hp).
    unfold not_in in Hn. rewrite negb_True, bool_decide_spec in Hn. auto.
Qed.

Lemma pick_acc (d : list (PyKey * PyVal)) (keys : list string)
    (acc : list (PyKey * PyVal)) :
  NoDup keys →
  (∀ k, k ∈ keys → is_Some (dict_get (KStr k) d)) →
  (∀ k, k ∈ keys → dict_get (KStr k) acc = None) →
  fold_left (λ acc key,
               match acc, getitem (PDict d) (KStr key) with
               | Some a, Some v => Some (dict_set (KStr key) v a)
               | _, _ => None
               end)
            keys (Some acc)
  = Some (acc ++ ((λ k, (KStr k, default PNone (dict_get (KStr k) d)))
                    <$> keys))%list.
Proof.
  revert acc. induction keys as [|k keys IH]; intros acc Hnd Hall Hfresh.
  - simpl. by rewrite app_nil_r.
  - apply NoDup_cons in Hnd as [Hk Hnd]. simpl.
    destruct (Hall k) as [v Hv]; [apply elem_of_cons; by left|].
    rewrite Hv. simpl.
    rewrite dict_set_fresh by (apply Hfresh, elem_of_cons; by left).
    rewrite IH; [by rewrite <- app_assoc|done| |].
    + intros k' Hk'. apply Hall, elem_of_cons. by right.
    + intros k' Hk'. apply dict_get_None.
      rewrite fmap_app. simpl. intros Hin.
      apply elem_of_app in Hin as [Hin|Hin].
      * apply dict_get_None in Hin; [done|].
        apply Hfresh, elem_of_cons. by right.
      * apply list_elem_of_singleton in Hin as [= ->]. done.
Qed.

Lemma pick_run (d : list (PyKey * PyVal)) (keys : list string) :
  NoDup keys →
  (∀ k, k ∈ keys → is_Some (dict_get (KStr k) d)) →
  pick (PDict d) keys
  = Some ((λ k, (KStr k, default PNone (dict_get (KStr k) d))) <$> keys).
Proof.
  intros Hnd Hall. unfold pick.
  rewrite (pick_acc d keys []); try done.
Qed.

(** a key of the tested dict that is missing from the other one makes
    [==] false *)
Lemma forallb_false_elem {A} (f : A → bool) (l : list A) (x : A) :
  x ∈ l → f x = false → forallb f l = false.
Proof.
  intros Hin Hx. induction l as [|y l IH]; [by apply elem_of_nil in Hin|].
  simpl. apply elem_of_cons in Hin as [<-|Hin].
  - by rewrite Hx.
  - by rewrite IH, andb_false_r.
Qed.

Lemma py_eq_dict_false (xs ys : list (PyKey * PyVal)) (k : PyKey) (x : PyVal) :
  (k, x) ∈ xs →
  match dict_get k ys with
  | Some y => py_eq x y = false
  | None => True
  end →
  py_eq (PDict xs) (PDict ys) = false.
Proof.
  intros Hin Hk. cbn [py_eq]. apply andb_false_iff. right.
  apply (forallb_false_elem _ _ (k, x)); [done|].
  destruct (dict_get k ys); done.
Qed.

Lemma dict_get_elem {K V} `{EqDecision K} (d : list (K * V)) (k : K) (v : V) :
  dict_get k d = Some v → (k, v) ∈ d.
Proof.
  induction d as [|[k' v'] d IH]; simpl; [done|].
  destruct (decide (k = k')) as [->|Hne].
  - intros [= ->]. by left.
  - intros H. right. by apply IH.
Qed.

Lemma dict_get_NoDup {K V} `{EqDecision K} (d : list (K * V)) (k : K) (v : V) :
  NoDup d.*1 → (k, v) ∈ d → dict_get k d = Some v.
Proof.
  induction d as [|[k' v'] d IH]; intros Hnd Hin.
  - by apply elem_of_nil in Hin.
  - simpl in Hnd. apply NoDup_cons in Hnd as [Hk Hnd]. simpl.
    apply elem_of_cons in Hin as [[= -> ->]|Hin].
    + by rewrite decide_True.
    + rewrite decide_False; [by apply IH|].
      intros ->. apply Hk. apply list_elem_of_fmap. by exists (k', v).
Qed.

Lemma dict_get_set {K V} `{EqDecision K} (d : list (K * V)) (k k' : K) (v : V) :
  dict_get k' (dict_set k v d)
  = if decide (k' = k) then Some v else dict_get k' d.
Proof.
  induction d as [|[k0 v0] d IH]; simpl.
  - by destruct (decide (k' = k)).
  - destruct (decide (k = k0)) as [->|Hne]; simpl.
    + by destruct (decide (k' = k0)).
    + destruct (decide (k' = k0)) as [->|Hne'].
      * by rewrite decide_False by done.
      * done.
Qed.


Section Check.

Variable copy_bytes : Data → Data.
Variable blake2b : Data → string.
Variable json_encode : Json → Data.
Variable json_decode : Data → option Json.

Hypothesis sound : ∀ d, copy_bytes d = d.

(** [_check_not_changed] in terms of what it compares and leaves *)
Lemma check_run (fuel : nat) (ign0 : list string) (self : DAMeta)
    (w : World) (ft : File) (doc : Json) (d : list (PyKey * PyVal)) :
  let file := meta_file self in
  let keys := filter (λ x, not_in x (ign0 ++ unset_optional self)) _cols in
  typed self →
  w_fs w !! sibling file ".lock" = None →
  w_fs w !! file = Some ft →
  json_decode (f_data ft) = Some doc →
  of_json doc = PDict d →
  (∀ k, k ∈ keys → is_Some (dict_get (KStr k) d)) →
  ∃ W,
    _check_not_changed copy_bytes blake2b json_decode (S fuel) ign0 (self, w)
    = ((if py_eq
             (PDict ((λ k, (KStr k, default PNone (dict_get (KStr k) d)))
                       <$> keys))
             (PDict ((λ k, (KStr k, json_val self k)) <$> keys))
        then Val tt else Exc MetadataChanged), (self, W))
    ∧ session_over file w W
    ∧ ∀ p, p ≠ sibling file ".lock" → p ≠ staging file w →
           w_fs W !! p = w_fs w !! p.
Proof.
  intros file keys Ht Hlock Hft Hdec Hdoc Hkeys.
  destruct (fields_typed self (ign0 ++ unset_optional self) Ht)
    as (m0 & Hm0 & Hp).
  { intros k Hk. apply elem_of_app. by right. }
  fold keys in Hm0, Hp.
  unfold _check_not_changed.
  unfold bind at 1. unfold the_self at 1, gets at 1.
  cbn beta iota zeta delta [fst snd]. fold keys.
  rewrite Hm0. cbn [of_option].
  unfold bind at 1. unfold ret at 1. rewrite Hp. cbn [of_option].
  unfold bind at 1. unfold ret at 1. fold file.
  set (w1 := locked file w).
  set (W0 := (opened_r file (List.length (w_fds w)) w1 ft).2).
  set (h0 := mkHandle file true false false 0 false).
  set (wd := with_fds (<[List.length (w_fds w1)
                         := set_pos (List.length (f_data ft)) h0]>
                         (w_fds W0)) W0).
  destruct (r_session_over copy_bytes blake2b fuel file None
              (λ pf, lift (json_load json_decode pf))
              self self (Val (of_json doc)) w wd ft Hlock Hft)
    as (W & Hrun & Hover & Hoth); try done.
  { cbn beta. fold w1. fold W0.
    rewrite (lifted_load json_decode _ self W0 h0 ft doc); try done.
    - unfold W0. simpl. rewrite lookup_app_r by done.
      by rewrite Nat.sub_diag.
    - unfold W0. simpl. unfold w1, locked. simpl.
      rewrite lookup_insert_ne; [done|]. by apply sibling_ne. }
  exists W. split; [|done].
  unfold bind at 1. rewrite Hrun. rewrite Hdoc.
  unfold bind at 1. rewrite (pick_run d keys); try done.
  - cbn [of_option]. unfold ret at 1.
    by destruct (py_eq _ _).
  - apply NoDup_filter, cols_NoDup.
Qed.

(** X18: a setter on an object that is in step with its file.  When
    the metadata file holds the document of the object, every stored
    value is equal to itself under [==] (no NaN among them) and the
    new value differs from the current one, [_set_property] assigns
    it, finds the file unchanged, and stores: the file then holds the
    document of the updated object and no other file changes (the
    sentinel and the staging file are gone, a backup left at the
    [.backup] path apart).  Nothing is said of what the call prints:
    the check reads the file in a read-only session, which moves its
    access time, and the close of that session then reports a change;
    the snapshot of this development holds size and modification
    time only. *)
Theorem set_property_stores_value (fuel : nat) (self : DAMeta) (w : World)
    (ft : File) (doc doc' : Json) (prop : string) (cur val : PyVal) :
  let file := meta_file self in
  let self' := set_attr ("_" +:+ prop) val self in
  typed self →
  prop ∉ _optional_cols →
  attrs self !! ("_" +:+ prop) = Some cur →
  py_eq cur val = false →
  (∀ k, k ∈ stored_keys self →
        py_eq (json_val self k) (json_val self k) = true) →
  parent file ≠ w_tempdir w →
  w_fs w !! sibling file ".lock" = None →
  w_fs w !! file = Some ft →
  json_decode (f_data ft) = Some doc →
  of_json doc = PDict (doc_of self) →
  to_json (PDict (doc_of self')) = Some doc' →
  let r := _set_property copy_bytes blake2b json_encode json_decode
             (S fuel) prop val (self, w) in
  r.1 = Val tt
  ∧ r.2.1 = self'
  ∧ w_fs r.2.2 !! file = Some (mkFile (json_encode doc') (w_now w))
  ∧ w_fs r.2.2 !! sibling file ".lock" = None
  ∧ w_fs r.2.2 !! staging file w = None
  ∧ (∀ p, p ≠ file → p ≠ sibling file ".backup" →
          p ≠ sibling file ".lock" → p ≠ staging file w →
          w_fs r.2.2 !! p = w_fs w !! p).
Proof.
  intros file self' Ht Hno Hcur Hne Hself Htmp Hlock Hft Hdec Hdoc Hdoc' r.
  assert (Ht' : typed self') by (by apply typed_set).
  assert (Hu : unset_optional self' = unset_optional self)
    by (by apply unset_optional_set).
  assert (Hfile' : meta_file self' = file) by done.
  set (keys := filter (λ x, not_in x ([prop] ++ unset_optional self')) _cols).
  assert (Hkeys : ∀ k, k ∈ keys → k ∈ stored_keys self ∧ k ≠ prop).
  { intros k Hk. apply list_elem_of_filter in Hk as [Hn Hc].
    unfold not_in in Hn. rewrite negb_True, bool_decide_spec in Hn.
    rewrite Hu in Hn. split.
    - apply stored_keys_elem. split; [done|].
      intros Hin. apply Hn, elem_of_app. by right.
    - intros ->. apply Hn, elem_of_app. left. by apply list_elem_of_singleton. }
  destruct (check_run fuel [prop] self' w ft doc (doc_of self) Ht')
    as (W1 & Hchk & (HG & _ & Hl1 & Hs1) & Hoth1); try done.
  { intros k Hk. fold keys in Hk. apply Hkeys in Hk as [Hk _].
    unfold doc_of. rewrite dict_get_map_keys.
    rewrite bool_decide_eq_true_2 by done. by eexists. }
  fold keys in Hchk. change (meta_file self') with file in Hl1, Hs1, Hoth1.
  assert (Hsame : (λ k, (KStr k,
                         default PNone (dict_get (KStr k) (doc_of self))))
                    <$> keys
                  = (λ k, (KStr k, json_val self' k)) <$> keys).
  { apply list_fmap_ext. intros i k Hk. f_equal.
    apply list_elem_of_lookup_2, Hkeys in Hk as [Hk Hp].
    unfold doc_of. rewrite dict_get_map_keys.
    rewrite bool_decide_eq_true_2 by done. simpl.
    unfold json_val, self'. by rewrite getattr_set_other. }
  assert (Heq : py_eq (PDict ((λ k, (KStr k, json_val self' k)) <$> keys))
                  (PDict ((λ k, (KStr k, json_val self' k)) <$> keys))
                = true).
  { cbn [py_eq]. rewrite Nat.eqb_refl. cbn [andb].
    apply forallb_forall. intros [k0 x] Hin%list_elem_of_In.
    apply list_elem_of_fmap in Hin as (k & [= -> ->] & Hk).
    rewrite dict_get_map_keys.
    rewrite bool_decide_eq_true_2 by done.
    apply Hkeys in Hk as [Hk Hp].
    assert (Ej : json_val self' k = json_val self k)
      by (unfold json_val, self'; by rewrite getattr_set_other).
    rewrite Ej. by apply Hself. }
  rewrite Hsame, Heq in Hchk.
  pose proof HG as (G1 & G2 & G3 & G4).
  destruct (store_doc_typed self' Ht') as (m0 & Hm0 & Hmeta).
  destruct (store_run copy_bytes blake2b json_encode sound fuel self' W1
              m0 (doc_of self') doc')
    as (W2 & Hst & ((H1 & _) & _ & Hl2 & Hs2) & Hf2 & _ & Hoth2);
    try done.
  { by rewrite Hfile', G3. }
  { rewrite Hfile'. intros Hn. rewrite Hoth1 in Hn.
    - by rewrite Hft in Hn.
    - apply not_eq_sym, sibling_ne. done.
    - apply not_eq_sym. by apply staging_ne_target. }
  change (meta_file self') with file in Hf2, Hl2, Hs2, Hoth2.
  assert (Hrun : _set_property copy_bytes blake2b json_encode json_decode
                   (S fuel) prop val (self, w)
                 = (Val tt, (self', W2))).
  { unfold _set_property.
    unfold bind at 1. unfold the_self at 1, gets at 1.
    cbn beta iota zeta delta [fst snd]. rewrite Hcur. cbn [of_option].
    unfold bind at 1. unfold ret at 1. rewrite Hne. cbn [negb].
    unfold bind at 1. unfold modify at 1. cbn [fst snd]. fold self'.
    unfold bind at 1. rewrite Hchk. exact Hst. }
  subst r. rewrite Hrun. cbn [fst snd].
  split; [done|]. split; [done|].
  split; [by rewrite Hf2, G2|]. split; [done|].
  split; [unfold staging in *; by rewrite <- G3|].
  intros p P1 P2 P3 P4. rewrite Hoth2; [by apply Hoth1|exact P1|exact P2|exact P3|].
  unfold staging. rewrite G3. exact P4.
Qed.

End Check.


Section AfterNewId.

Variable copy_bytes : Data → Data.
Variable blake2b : Data → string.
Variable json_encode : Json → Data.
Variable json_decode : Data → option Json.

Hypothesis sound : ∀ d, copy_bytes d = d.

(** [new_submission_id] in terms of what it leaves *)
Lemma new_id_run (fuel : nat) (self : DAMeta) (w : World) (ft : File)
    (doc : Json) (top subs : list (PyKey * PyVal)) :
  let file := meta_file self in
  let n := Z.of_nat (List.length subs) in
  let top' := dict_set (KStr "submissions")
                (PDict (dict_set (KInt n) PNone subs)) top in
  parent file ≠ w_tempdir w →
  w_fs w !! sibling file ".lock" = None →
  w_fs w !! file = Some ft →
  json_decode (f_data ft) = Some doc →
  of_json doc = PDict top →
  dict_get (KStr "submissions") top = Some (PDict subs) →
  ∃ W doc',
    new_submission_id copy_bytes blake2b json_encode json_decode (S fuel)
      (self, w)
    = (Val n, (set_attr "_submissions" (PDict top') self, W))
    ∧ session_over file w W
    ∧ to_json (PDict top') = Some doc'
    ∧ w_fs W !! file = Some (mkFile (json_encode doc') (w_now w))
    ∧ of_json doc'
      = PDict (dict_set (KStr "submissions")
                 (PDict (dict_set (KStr (pretty n)) PNone subs)) top)
    ∧ ∀ p, p ≠ file → p ≠ sibling file ".backup" →
           p ≠ sibling file ".lock" → p ≠ staging file w →
           w_fs W !! p = w_fs w !! p.
Proof.
  intros file n top' Htmp Hlock Hft Hdec Htop Hsub.
  assert (Hl : loaded (PDict top)) by (rewrite <- Htop; apply of_json_loaded).
  destruct (update_dump top subs (KInt n) PNone Hl Hsub)
    as (doc' & Hdoc' & Hre); [by eexists|].
  destruct (load_edit_dump_run copy_bytes blake2b json_encode json_decode
              sound fuel self w ft doc doc' (PDict top') n
              (λ meta,
                 let* subs := of_option KeyError
                                (getitem meta (KStr "submissions")) in
                 let* n := of_option AttributeError (len_keys subs) in
                 let* subs := of_option ValueError
                                (setitem subs (KInt (Z.of_nat n)) PNone) in
                 let* meta := of_option ValueError
                                (setitem meta (KStr "submissions") subs) in
                 ret (meta, Z.of_nat n))
              Htmp Hlock Hft Hdec)
    as (W & Hrun & Hover & Hfile & Hoth).
  { intros x. rewrite Htop. unfold bind. cbn [getitem]. rewrite Hsub.
    reflexivity. }
  { done. }
  exists W, doc'. split_and!; try done.
  rewrite <- Hrun. unfold new_submission_id.
  unfold bind at 1. unfold the_self at 1, gets at 1.
  cbn beta iota zeta delta [fst snd]. fold file.
  apply with_ProtectFile_ext. intros pf x. unfold bind.
  destruct (lift (json_load json_decode pf) x) as [[meta| |] x1];
    [|done..].
  destruct (of_option KeyError (getitem meta (KStr "submissions")) x1)
    as [[s1| |] x2]; [|done..].
  destruct (of_option AttributeError (len_keys s1) x2)
    as [[m| |] x3]; [|done..].
  destruct (of_option ValueError (setitem s1 (KInt (Z.of_nat m)) PNone) x3)
    as [[s2| |] x4]; [|done..].
  destruct (of_option ValueError (setitem meta (KStr "submissions") s2) x4)
    as [[m2| |] x5]; [|done..].
  cbn [fst snd ret].
  destruct (lift (fd_truncate pf 0) x5) as [[[]| |] x6]; [|done..].
  destruct (lift (fd_seek pf 0) x6) as [[[]| |] x7]; [|done..].
  destruct (lift (json_dump json_encode m2 pf) x7) as [[[]| |] x8];
    done.
Qed.

(** X19: after [new_submission_id], the setters of the same object
    fail.  The call leaves the whole dumped document in the object's
    [_submissions] attribute, while the file holds the submissions map
    under that key; so the next [_set_property] that changes a value
    finds the file changed and raises, for every property but
    [submissions] itself.  The object keeps the new value, the file
    stays as [new_submission_id] wrote it, the sentinel is released,
    and setting the same value again returns without touching the
    file. *)
Theorem set_property_after_new_id_raises (fuel fuel' : nat) (self : DAMeta)
    (w : World) (ft : File) (doc : Json) (top subs : list (PyKey * PyVal))
    (prop : string) (cur val : PyVal) :
  let file := meta_file self in
  let n := Z.of_nat (List.length subs) in
  let top' := dict_set (KStr "submissions")
                (PDict (dict_set (KInt n) PNone subs)) top in
  typed self →
  prop ∉ _optional_cols → prop ≠ "submissions" →
  attrs self !! ("_" +:+ prop) = Some cur →
  py_eq cur val = false →
  py_eq val val = true →
  parent file ≠ w_tempdir w →
  w_fs w !! sibling file ".lock" = None →
  w_fs w !! file = Some ft →
  json_decode (f_data ft) = Some doc →
  of_json doc = PDict top →
  dict_get (KStr "submissions") top = Some (PDict subs) →
  (∀ k, k ∈ stored_keys self → is_Some (dict_get (KStr k) top)) →
  dict_get (KStr (pretty n)) top = None →
  (∀ j, to_json (PDict top') = Some j → json_decode (json_encode j) = Some j) →
  let r1 := new_submission_id copy_bytes blake2b json_encode json_decode
              (S fuel) (self, w) in
  let r2 := _set_property copy_bytes blake2b json_encode json_decode
              (S fuel) prop val r1.2 in
  r1.1 = Val n
  ∧ r2.1 = Exc MetadataChanged
  ∧ r2.2.1 = set_attr ("_" +:+ prop) val
               (set_attr "_submissions" (PDict top') self)
  ∧ w_fs r2.2.2 !! file = w_fs r1.2.2 !! file
  ∧ w_fs r2.2.2 !! sibling file ".lock" = None
  ∧ _set_property copy_bytes blake2b json_encode json_decode
      fuel' prop val r2.2 = (Val tt, r2.2).
Proof.
  intros file n top' Ht Hno Hns Hcur Hne Hrefl Htmp Hlock Hft Hdec Htop Hsub
    Hcols Hfresh Hback r1 r2.
  destruct (new_id_run fuel self w ft doc top subs Htmp Hlock Hft Hdec Htop
              Hsub)
    as (W1 & doc' & Hr1 & (HG & _ & Hl1 & Hs1) & Hdoc' & Hf1 & Hre & Hoth1).
  fold file in Hl1, Hs1, Hf1, Hoth1. fold n in Hr1, Hdoc', Hre.
  fold top' in Hr1, Hdoc'.
  pose proof HG as (G1 & G2 & G3 & G4).
  set (self1 := set_attr "_submissions" (PDict top') self).
  set (self2 := set_attr ("_" +:+ prop) val self1).
  assert (Ht1 : typed self1).
  { apply (typed_set self "submissions" (PDict top') Ht).
    intros Hin. unfold _optional_cols in Hin.
    repeat (apply elem_of_cons in Hin as [Hin|Hin]; [done|]).
    by apply elem_of_nil in Hin. }
  assert (Ht2 : typed self2) by (by apply typed_set).
  assert (Hu : unset_optional self2 = unset_optional self).
  { unfold self2. rewrite unset_optional_set by done.
    apply (unset_optional_set self "submissions" (PDict top')).
    intros Hin. unfold _optional_cols in Hin.
    repeat (apply elem_of_cons in Hin as [Hin|Hin]; [done|]).
    by apply elem_of_nil in Hin. }
  assert (Hcur1 : attrs self1 !! ("_" +:+ prop) = Some cur).
  { unfold self1, set_attr. cbn [attrs].
    rewrite lookup_insert_ne; [done|].
    change "_submissions" with ("_" +:+ "submissions").
    intros E%meta_attr_inj. done. }
  assert (Hsubm : json_val self2 "submissions" = PDict top').
  { unfold json_val, self2. rewrite getattr_set_other by done.
    unfold self1.
    change "_submissions" with ("_" +:+ "submissions").
    rewrite getattr_set_same; [done|].
    intros Hin. unfold _auto_cols in Hin.
    repeat (apply elem_of_cons in Hin as [Hin|Hin]; [done|]).
    by apply elem_of_nil in Hin. }
  set (ftop := dict_set (KStr "submissions")
                 (PDict (dict_set (KStr (pretty n)) PNone subs)) top).
  set (keys := filter (λ x, not_in x ([prop] ++ unset_optional self2)) _cols).
  assert (Hkeys : ∀ k, k ∈ keys → k ∈ stored_keys self).
  { intros k Hk. apply list_elem_of_filter in Hk as [Hn Hc].
    unfold not_in in Hn. rewrite negb_True, bool_decide_spec in Hn.
    rewrite Hu in Hn. apply stored_keys_elem. split; [done|].
    intros Hin. apply Hn, elem_of_app. by right. }
  assert (Hsk : "submissions" ∈ keys).
  { apply list_elem_of_filter. split.
    - unfold not_in. rewrite negb_True, bool_decide_spec. rewrite Hu.
      intros [Hin|Hin]%elem_of_app.
      + by apply list_elem_of_singleton in Hin.
      + apply unset_optional_elem in Hin as [Hin _].
        unfold _optional_cols in Hin.
        repeat (apply elem_of_cons in Hin as [Hin|Hin]; [done|]).
        by apply elem_of_nil in Hin.
    - apply (bool_decide_unpack _). vm_compute. exact I. }
  destruct (check_run copy_bytes blake2b json_decode fuel [prop] self2 W1
              (mkFile (json_encode doc') (w_now w)) doc' ftop Ht2)
    as (W2 & Hchk & (HG2 & _ & Hl2 & Hs2) & Hoth2); try done.
  { by apply Hback. }
  { intros k Hk. fold keys in Hk. unfold ftop. rewrite dict_get_set.
    destruct (decide (KStr k = KStr "submissions")); [by eexists|].
    by apply Hcols, Hkeys. }
  fold keys in Hchk.
  change (meta_file self2) with file in Hl2, Hs2, Hoth2.
  assert (Hfalse :
    py_eq (PDict ((λ k, (KStr k, default PNone (dict_get (KStr k) ftop)))
                    <$> keys))
          (PDict ((λ k, (KStr k, json_val self2 k)) <$> keys)) = false).
  { apply (py_eq_dict_false _ _ (KStr "submissions")
             (PDict (dict_set (KStr (pretty n)) PNone subs))).
    - apply list_elem_of_fmap. exists "submissions". split; [|done].
      f_equal. unfold ftop. rewrite dict_get_set.
      by rewrite decide_True.
    - rewrite dict_get_map_keys, bool_decide_eq_true_2 by done.
      rewrite Hsubm.
      apply (py_eq_dict_false _ _ (KStr (pretty n)) PNone).
      + apply dict_get_elem. rewrite dict_get_set. by rewrite decide_True.
      + unfold top'. rewrite dict_get_set.
        destruct (decide (KStr (pretty n) = KStr "submissions")) as [E|E].
        * rewrite E in Hfresh. by rewrite Hsub in Hfresh.
        * by rewrite Hfresh. }
  rewrite Hfalse in Hchk.
  assert (Hr2 : _set_property copy_bytes blake2b json_encode json_decode
                  (S fuel) prop val (self1, W1)
                = (Exc MetadataChanged, (self2, W2))).
  { unfold _set_property.
    unfold bind at 1. unfold the_self at 1, gets at 1.
    cbn beta iota zeta delta [fst snd]. rewrite Hcur1. cbn [of_option].
    unfold bind at 1. unfold ret at 1. rewrite Hne. cbn [negb].
    unfold bind at 1. unfold modify at 1. cbn [fst snd]. fold self2.
    unfold bind at 1. by rewrite Hchk. }
  subst r2 r1. rewrite Hr1. cbn [fst snd]. fold self1. rewrite Hr2.
  cbn [fst snd].
  split; [done|]. split; [done|]. split; [done|].
  split.
  { apply Hoth2.
    - apply not_eq_sym, sibling_ne. done.
    - apply not_eq_sym. unfold staging. rewrite G3.
      by apply staging_ne_target. }
  split; [done|].
  unfold _set_property.
  unfold bind at 1. unfold the_self at 1, gets at 1.
  cbn beta iota zeta delta [fst snd].
  unfold self2 at 1. unfold set_attr at 1. cbn [attrs].
  rewrite lookup_insert_eq. cbn [of_option].
  unfold bind at 1. unfold ret at 1. by rewrite Hrefl.
Qed.

End AfterNewId.


Lemma update_submissions_sets_entry_witness :
  let r := update_submissions Ex.sound Ex.digest JsonText.encode
             JsonText.decode 1 (KInt 0) (PStr "done")
             (ExMeta.study, ExFile.on_disk [("0", JNull)]) in
  r.1 = Val tt
  ∧ ∃ doc',
      f_data <$> w_fs r.2.2 !! meta_file ExMeta.study
      = Some (JsonText.encode doc')
      ∧ of_json doc'
        = PDict [(KStr "name", PStr "study"); (KStr "turns", PInt 100);
                 (KStr "submissions", PDict [(KStr "0", PStr "done")])].
Proof.
  intros r.
  destruct (update_submissions_sets_entry Ex.sound Ex.digest JsonText.encode
              JsonText.decode (λ d, eq_refl) 0 ExMeta.study
              (ExFile.on_disk [("0", JNull)])
              (mkFile (JsonText.encode (ExFile.doc_with [("0", JNull)]))
                 "2022-04-17T09:00:00")
              (ExFile.doc_with [("0", JNull)])
              [(KStr "name", PStr "study"); (KStr "turns", PInt 100);
               (KStr "submissions", PDict [(KStr "0", PNone)])]
              [(KStr "0", PNone)] (KInt 0) (PStr "done"))
    as (H1 & _ & (doc' & Hf & Hre) & _).
  - vm_compute. discriminate.
  - vm_compute. reflexivity.
  - vm_compute. reflexivity.
  - vm_compute. reflexivity.
  - vm_compute. reflexivity.
  - vm_compute. reflexivity.
  - vm_compute. eexists. reflexivity.
  - split; [exact H1|]. exists doc'. split; [|exact Hre].
    unfold r. rewrite Hf. reflexivity.
Defined.

Lemma set_property_stores_value_witness :
  let r := _set_property Ex.sound Ex.digest JsonText.encode JsonText.decode
             1 "turns" (PInt 200) (ExMeta.study, ExStored.on_disk) in
  r.1 = Val tt
  ∧ getattr r.2.1 "turns" = Some (PInt 200)
  ∧ ∃ doc',
      to_json (PDict (doc_of (set_attr "_turns" (PInt 200) ExMeta.study)))
      = Some doc'
      ∧ f_data <$> w_fs r.2.2 !! meta_file ExMeta.study
        = Some (JsonText.encode doc').
Proof.
  intros r.
  destruct (to_json (PDict (doc_of (set_attr "_turns" (PInt 200)
                                      ExMeta.study))))
    as [doc'|] eqn:Hdoc'; [|vm_compute in Hdoc'; discriminate Hdoc'].
  destruct (set_property_stores_value Ex.sound Ex.digest JsonText.encode
              JsonText.decode (λ d, eq_refl) 0 ExMeta.study ExStored.on_disk
              (mkFile (JsonText.encode ExStored.doc) "2022-04-17T09:00:00")
              ExStored.doc doc' "turns" (PInt 100) (PInt 200))
    as (H1 & H2 & Hf & _).
  - exact study_typed.
  - apply (bool_decide_unpack _). vm_compute. exact I.
  - vm_compute. reflexivity.
  - vm_compute. reflexivity.
  - apply Forall_forall.
    apply (bool_decide_unpack
             (Forall (λ k, py_eq (json_val ExMeta.study k)
                             (json_val ExMeta.study k) = true)
                (stored_keys ExMeta.study))).
    vm_compute. exact I.
  - vm_compute. discriminate.
  - vm_compute. reflexivity.
  - vm_compute. reflexivity.
  - vm_compute. reflexivity.
  - vm_compute. reflexivity.
  - exact Hdoc'.
  - split; [exact H1|]. split.
    + unfold r. rewrite H2. vm_compute. reflexivity.
    + exists doc'. split; [reflexivity|].
      unfold r. rewrite Hf. reflexivity.
Defined.

Lemma set_property_after_new_id_raises_witness :
  let r1 := new_submission_id Ex.sound Ex.digest JsonText.encode
              JsonText.decode 1 (ExMeta.study, ExStored.on_disk) in
  let r2 := _set_property Ex.sound Ex.digest JsonText.encode JsonText.decode
              1 "turns" (PInt 200) r1.2 in
  r1.1 = Val 0%Z
  ∧ r2.1 = Exc MetadataChanged
  ∧ w_fs r2.2.2 !! meta_file ExMeta.study
    = w_fs r1.2.2 !! meta_file ExMeta.study.
Proof.
  intros r1 r2.
  destruct (set_property_after_new_id_raises Ex.sound Ex.digest
              JsonText.encode JsonText.decode (λ d, eq_refl) 0 1 ExMeta.study
              ExStored.on_disk
              (mkFile (JsonText.encode ExStored.doc) "2022-04-17T09:00:00")
              ExStored.doc (doc_of ExMeta.study) [] "turns" (PInt 100)
              (PInt 200))
    as (H1 & H2 & _ & Hf & _).
  - exact study_typed.
  - apply (bool_decide_unpack _). vm_compute. exact I.
  - discriminate.
  - vm_compute. reflexivity.
  - vm_compute. reflexivity.
  - vm_compute. reflexivity.
  - vm_compute. discriminate.
  - vm_compute. reflexivity.
  - vm_compute. reflexivity.
  - vm_compute. reflexivity.
  - vm_compute. reflexivity.
  - vm_compute. reflexivity.
  - apply Forall_forall.
    apply (bool_decide_unpack
             (Forall (λ k, is_Some (dict_get (KStr k) (doc_of ExMeta.study)))
                (stored_keys ExMeta.study))).
    vm_compute. exact I.
  - vm_compute. reflexivity.
  - intros j Hj. vm_compute in Hj. injection Hj as <-.
    vm_compute. reflexivity.
  - split; [exact H1|]. split; [exact H2|exact Hf].
Defined.


Section NoSubmissions.

Variable copy_bytes : Data → Data.
Variable blake2b : Data → string.
Variable json_encode : Json → Data.
Variable json_decode : Data → option Json.

Hypothesis sound : ∀ d, copy_bytes d = d.

(** a session whose body fails right after it has loaded the document *)
Lemma load_fails_run {A} (fuel : nat) (self : DAMeta) (w : World)
    (ft : File) (doc : Json) (e : Exn)
    (k : nat → PyVal → M (DAMeta * World) A) :
  let file := meta_file self in
  parent file ≠ w_tempdir w →
  w_fs w !! sibling file ".lock" = None →
  w_fs w !! file = Some ft →
  json_decode (f_data ft) = Some doc →
  (∀ pf x, k pf (of_json doc) x = (Exc e, x)) →
  ∃ W,
    guarded copy_bytes blake2b (S fuel) file "r+" (Some 5) (λ pf,
      let* meta := lift (json_load json_decode pf) in k pf meta) (self, w)
    = (Exc e, (self, W))
    ∧ session_over file w W
    ∧ w_fs W !! file = Some ft
    ∧ ∀ p, p ≠ file → p ≠ sibling file ".backup" →
           p ≠ sibling file ".lock" → p ≠ staging file w →
           w_fs W !! p = w_fs w !! p.
Proof.
  intros file Htmp Hlock Hft Hdec Hk.
  set (w1 := locked file w).
  set (W0 := (opened_rplus copy_bytes file (List.length (w_fds w)) w1 ft).2).
  set (pf := List.length (w_fds w1)).
  set (h0 := mkHandle (staging file w) true true false 0 false).
  set (h1 := set_pos (List.length (f_data (copy_of copy_bytes ft))) h0).
  set (W1 := with_fds (<[pf := h1]> (w_fds W0)) W0).
  assert (Hpf : w_fds W0 !! pf = Some h0).
  { unfold W0, pf. simpl. rewrite lookup_app_r by done.
    by rewrite Nat.sub_diag. }
  assert (Hst : w_fs W0 !! staging file w = Some (copy_of copy_bytes ft)).
  { unfold W0. simpl. apply lookup_insert_eq. }
  destruct (rplus_session_over copy_bytes blake2b sound fuel file (Some 5)
              (λ pf, let* meta := lift (json_load json_decode pf) in
                     k pf meta)
              self self (Exc e) w W1 ft (copy_of copy_bytes ft)
              Htmp Hlock Hft)
    as (W & Hrun & Hover & Hfile & Hbk & Hoth).
  - cbn beta. fold w1. fold pf. fold W0. unfold bind at 1.
    rewrite (lifted_load json_decode pf self W0 h0 (copy_of copy_bytes ft)
               doc); try done.
    by rewrite copy_of_sound.
  - done.
  - exact Hst.
  - intros p Hp. reflexivity.
  - by unfold same_globals.
  - done.
  - exists W. rewrite (copy_of_sound copy_bytes sound) in Hfile.
    split_and!; done.
Qed.

(** X20: a metadata file without a [submissions] entry.  Both
    [new_submission_id] and [update_submissions] raise [KeyError]
    after loading the document; the file keeps its content and its
    time stamp, the object is not changed, the sentinel and the
    staging file are gone, and no other file is touched (a backup left
    at the [.backup] path apart). *)
Theorem submissions_missing_keeps_file (fuel : nat) (self : DAMeta)
    (w : World) (ft : File) (doc : Json) (top : list (PyKey * PyVal))
    (id : PyKey) (val : PyVal) :
  let file := meta_file self in
  let kept (s : DAMeta * World) :=
    s.1 = self
    ∧ w_fs s.2 !! file = Some ft
    ∧ w_fs s.2 !! sibling file ".lock" = None
    ∧ w_fs s.2 !! staging file w = None
    ∧ ∀ p, p ≠ file → p ≠ sibling file ".backup" →
           p ≠ sibling file ".lock" → p ≠ staging file w →
           w_fs s.2 !! p = w_fs w !! p in
  parent file ≠ w_tempdir w →
  w_fs w !! sibling file ".lock" = None →
  w_fs w !! file = Some ft →
  json_decode (f_data ft) = Some doc →
  of_json doc = PDict top →
  dict_get (KStr "submissions") top = None →
  let r1 := new_submission_id copy_bytes blake2b json_encode json_decode
              (S fuel) (self, w) in
  let r2 := update_submissions copy_bytes blake2b json_encode json_decode
              (S fuel) id val (self, w) in
  r1.1 = Exc KeyError ∧ kept r1.2 ∧ r2.1 = Exc KeyError ∧ kept r2.2.
Proof.
  intros file kept Htmp Hlock Hft Hdec Htop Hsub r1 r2.
  destruct (load_fails_run fuel self w ft doc KeyError
              (λ pf meta,
                 let* subs := of_option KeyError
                                (getitem meta (KStr "submissions")) in
                 let* n := of_option AttributeError (len_keys subs) in
                 let new_id := Z.of_nat n in
                 let* subs := of_option ValueError
                                (setitem subs (KInt new_id) PNone) in
                 let* meta := of_option ValueError
                                (setitem meta (KStr "submissions") subs) in
                 lift (fd_truncate pf 0) ;;
                 lift (fd_seek pf 0) ;;
                 lift (json_dump json_encode meta pf) ;;
                 modify (λ mw, (set_attr "_submissions" meta mw.1, mw.2)) ;;
                 ret new_id)
              Htmp Hlock Hft Hdec)
    as (W1 & Hrun1 & (_ & _ & Hl1 & Hs1) & Hfile1 & Hoth1).
  { intros pf x. rewrite Htop. unfold bind at 1. cbn [getitem].
    by rewrite Hsub. }
  destruct (load_fails_run fuel self w ft doc KeyError
              (λ pf meta,
                 let* subs := of_option KeyError
                                (getitem meta (KStr "submissions")) in
                 let* subs := of_option AttributeError
                                (setitem subs id val) in
                 let* meta := of_option ValueError
                                (setitem meta (KStr "submissions") subs) in
                 lift (fd_truncate pf 0) ;;
                 lift (fd_seek pf 0) ;;
                 lift (json_dump json_encode meta pf) ;;
                 modify (λ mw, (set_attr "_submissions" meta mw.1, mw.2)))
              Htmp Hlock Hft Hdec)
    as (W2 & Hrun2 & (_ & _ & Hl2 & Hs2) & Hfile2 & Hoth2).
  { intros pf x. rewrite Htop. unfold bind at 1. cbn [getitem].
    by rewrite Hsub. }
  assert (H1 : r1 = (Exc KeyError, (self, W1))) by exact Hrun1.
  assert (H2 : r2 = (Exc KeyError, (self, W2))) by exact Hrun2.
  rewrite H1, H2. unfold kept. cbn [fst snd].
  split; [reflexivity|]. split; [by split_and!|].
  split; [reflexivity|]. by split_and!.
Qed.

End NoSubmissions.

Lemma submissions_missing_keeps_file_witness :
  let w := with_fs {[ meta_file ExMeta.study
                      := mkFile (JsonText.encode (JObj [("turns", JInt 100)]))
                           "2022-04-17T09:00:00" ]} Ex.nothing in
  let r := new_submission_id Ex.sound Ex.digest JsonText.encode
             JsonText.decode 1 (ExMeta.study, w) in
  r.1 = Exc KeyError
  ∧ w_fs r.2.2 !! meta_file ExMeta.study = w_fs w !! meta_file ExMeta.study.
Proof.
  intros w r.
  destruct (submissions_missing_keeps_file Ex.sound Ex.digest JsonText.encode
              JsonText.decode (λ d, eq_refl) 0 ExMeta.study w
              (mkFile (JsonText.encode (JObj [("turns", JInt 100)]))
                 "2022-04-17T09:00:00")
              (JObj [("turns", JInt 100)]) [(KStr "turns", PInt 100)]
              (KInt 0) PNone)
    as (H1 & (_ & Hf & _) & _).
  - vm_compute. discriminate.
  - vm_compute. reflexivity.
  - vm_compute. reflexivity.
  - vm_compute. reflexivity.
  - vm_compute. reflexivity.
  - vm_compute. reflexivity.
  - split; [exact H1|]. unfold r. rewrite Hf. vm_compute. reflexivity.
Defined.
